(** * Digital RF streaming writer (rf_write_hdf5.c): a shallow embedding

    The development follows the C source function by function.  Unsigned
    64-bit quantities are integers of [Z] with the wrap-around written out,
    doubles are the binary64 floats of the kernel, C arrays are lists, the
    file tree under the channel directory is a finite map from path names to
    HDF5 files, and the diagnostics printed on stderr are kept as a log. *)

From Stdlib Require Import ZArith List Bool String Ascii Lia.
From Stdlib Require Import PrimFloat FloatOps SpecFloat Uint63 DecimalString.
From stdpp Require Import gmap strings list sorting.

Open Scope Z_scope.

(** ** Machine arithmetic *)

Module C.

(** [uint64_t]: every operation is reduced modulo [2^64]. *)
Definition u64 (z : Z) : Z := z mod 2 ^ 64.

Definition in_u64 (z : Z) : Prop := 0 <= z < 2 ^ 64.

(** [int]: conversion of a value to a 32-bit signed integer. *)
Definition int32 (z : Z) : Z := (z + 2 ^ 31) mod 2 ^ 32 - 2 ^ 31.

(** The result of running a piece of C code: a value, or no defined
    behaviour (a failed [assert], a write outside an allocated block, a
    division by zero, a dereferenced null pointer). *)
Inductive outcome (A : Type) : Type :=
| Ret (a : A)
| Undef.
Arguments Ret {A} a.
Arguments Undef {A}.

Definition bind {A B : Type} (x : outcome A) (f : A -> outcome B) : outcome B :=
  match x with
  | Ret a => f a
  | Undef => Undef
  end.

(** *** Doubles *)

(** [(double) z] for an [uint64_t]: round to nearest, ties to even.  The
    primitive conversion covers 63 bits; the top half of the range goes
    through the halved value with its sticky bit. *)
Definition u64_to_double (z : Z) : float :=
  if z <? 2 ^ 63 then of_uint63 (Uint63.of_Z z)
  else (2 * of_uint63 (Uint63.of_Z (Z.lor (z / 2) (z mod 2))))%float.

(** The integer part of a double (truncation toward zero). *)
Definition double_trunc (f : float) : option Z :=
  match Prim2SF f with
  | S754_zero _ => Some 0
  | S754_finite s m e =>
      let a := if 0 <=? e then Z.shiftl (Zpos m) e else Z.shiftr (Zpos m) (- e) in
      Some (if s then - a else a)
  | _ => None
  end.

(** [(time_t) f] and [(uint64_t) f]: defined only when the integer part is
    representable. *)
Definition double_to_i64 (f : float) : option Z :=
  match double_trunc f with
  | Some z => if (- 2 ^ 63 <=? z) && (z <? 2 ^ 63) then Some z else None
  | None => None
  end.

Definition double_to_u64 (f : float) : option Z :=
  match double_trunc f with
  | Some z => if (0 <=? z) && (z <? 2 ^ 64) then Some z else None
  | None => None
  end.

(** Signed mantissa and exponent of a finite double. *)
Definition double_parts (f : float) : option (Z * Z) :=
  match Prim2SF f with
  | S754_zero _ => Some (0, 0)
  | S754_finite s m e => Some (if s then Zneg m else Zpos m, e)
  | _ => None
  end.

(** [m * 2^e] as a double, for [|m| < 2^53]. *)
Definition double_of_parts (m e : Z) : float :=
  Z.ldexp (if m <? 0 then PrimFloat.opp (of_uint63 (Uint63.of_Z (- m)))
           else of_uint63 (Uint63.of_Z m)) e.

(** [fmod]: the remainder of the truncated quotient, which is exact. *)
Definition fmod (x y : float) : float :=
  match double_parts x, double_parts y with
  | Some (mx, ex), Some (my, ey) =>
      if my =? 0 then nan
      else
        let e := Z.min ex ey in
        double_of_parts (Z.rem (mx * 2 ^ (ex - e)) (my * 2 ^ (ey - e))) e
  | Some _, None => if is_infinity y then x else nan
  | None, _ => nan
  end.

(** [round]: to the nearest integer, halves away from zero. *)
Definition round (f : float) : float :=
  match Prim2SF f with
  | S754_finite s m e =>
      if 0 <=? e then f
      else
        let q := Z.shiftr (Zpos m) (- e) in
        let r := Zpos m - Z.shiftl q (- e) in
        let n := if 2 ^ (- e) <=? 2 * r then q + 1 else q in
        let a := of_uint63 (Uint63.of_Z n) in
        if s then (- a)%float else a
  | _ => f
  end.

(** *** printf conversions *)

Definition decimal (z : Z) : string :=
  NilZero.string_of_uint (N.to_uint (Z.to_N z)).

Definition zeros (n : nat) : string :=
  String.concat "" (replicate n "0"%string).

(** [%0<width>i] *)
Definition printf_0i (width : nat) (z : Z) : string :=
  let sign := if z <? 0 then "-"%string else ""%string in
  let digits := decimal (Z.abs z) in
  sign +:+ zeros (width - String.length sign - String.length digits) +:+ digits.

(** The value times 1000 rounded to an integer, ties to even, as printf
    rounds the exact binary value. *)
Definition thousandths (m : positive) (e : Z) : Z :=
  let num := Zpos m * 1000 in
  if 0 <=? e then Z.shiftl num e
  else
    let q := Z.shiftr num (- e) in
    let r := num - Z.shiftl q (- e) in
    let half := 2 ^ (- e - 1) in
    if (half <? r) || ((r =? half) && Z.odd q) then q + 1 else q.

(** [%011.3f] *)
Definition printf_011_3f (f : float) : string :=
  let body (s : bool) (n : Z) : string :=
    let sign := if s then "-"%string else ""%string in
    let digits := decimal (n / 1000) +:+ "." +:+ printf_0i 3 (n mod 1000) in
    sign +:+ zeros (11 - String.length sign - String.length digits) +:+ digits in
  match Prim2SF f with
  | S754_zero s => body s 0
  | S754_finite s m e => body s (thousandths m e)
  | S754_infinity false => "        inf"%string
  | S754_infinity true => "       -inf"%string
  | S754_nan => "        nan"%string
  end.

(** *** Strings in arrays of [char] *)

(** [strcpy], [strcat] and [sprintf] write, without a check, into an array
    of [size] bytes: the text and its terminating null have to fit, and a
    write past the end of the array has no defined behaviour. *)
Definition strcpy (size : nat) (src : string) : outcome string :=
  if (String.length src <? size)%nat then Ret src else Undef.

Definition strcat (size : nat) (dest src : string) : outcome string :=
  if (String.length (dest +:+ src) <? size)%nat then Ret (dest +:+ src) else Undef.

Definition sprintf (size : nat) (text : string) : outcome string :=
  if (String.length text <? size)%nat then Ret text else Undef.

(** *** gmtime *)

Record tm : Type := mk_tm {
  tm_year : Z; tm_mon : Z; tm_mday : Z;
  tm_hour : Z; tm_min : Z; tm_sec : Z
}.

(** The UTC calendar of libc: days since 1970-01-01 to a civil date of the
    proleptic Gregorian calendar; a null pointer when the year does not fit
    an [int]. *)
Definition gmtime (unix_second : Z) : option tm :=
  let days := unix_second / 86400 in
  let secs := unix_second mod 86400 in
  let z := days + 719468 in
  let era := z / 146097 in
  let doe := z mod 146097 in
  let yoe := (doe - doe / 1460 + doe / 36524 - doe / 146096) / 365 in
  let doy := doe - (365 * yoe + yoe / 4 - yoe / 100) in
  let mp := (5 * doy + 2) / 153 in
  let d := doy - (153 * mp + 2) / 5 + 1 in
  let m := if mp <? 10 then mp + 3 else mp - 9 in
  let y := yoe + era * 400 + (if m <=? 2 then 1 else 0) in
  if (- 2 ^ 31 <=? y - 1900) && (y - 1900 <? 2 ^ 31)
  then Some (mk_tm (y - 1900) (m - 1) d (secs / 3600) (secs mod 3600 / 60) (secs mod 60))
  else None.

End C.

Import C.

(** ** Time utility *)

Record unix_time : Type := mk_unix_time {
  year : Z; month : Z; day : Z;
  hour : Z; minute : Z; second : Z;
  (** [None]: the conversion to [uint64_t] is out of range, so that C
      leaves the stored value unspecified. *)
  picosecond : option Z
}.

(** [digital_rf_get_unix_time]: [Ret None] is the return value -1 (no
    calendar for that second); the conversion to [time_t] of a quotient out
    of range has no defined behaviour. *)
Definition digital_rf_get_unix_time (global_sample : Z) (sample_rate : float)
  : outcome (option unix_time) :=
  match double_to_i64 (u64_to_double global_sample / sample_rate)%float with
  | None => Undef
  | Some unix_second =>
      match gmtime unix_second with
      | None => Ret None
      | Some gm =>
          let unix_remainder : option float :=
            if (fmod sample_rate 1 =? 0)%float
            then
              match double_to_u64 sample_rate with
              | Some rate => Some (u64_to_double (u64 (global_sample - u64 (unix_second * rate))))
              | None => None
              end
            else Some (fmod (u64_to_double global_sample) sample_rate) in
          let pico :=
            match unix_remainder with
            | Some r => double_to_u64 (round (r / sample_rate * 1.0e12)%float)
            | None => None
            end in
          Ret (Some (mk_unix_time (tm_year gm + 1900) (tm_mon gm + 1) (tm_mday gm)
                                  (tm_hour gm) (tm_min gm) (tm_sec gm) pico))
      end
  end.

(** ** HDF5 datatypes and the fill value *)

Inductive H5T_class_t : Type := H5T_INTEGER | H5T_FLOAT | H5T_OTHER.
Inductive H5T_sign_t : Type := H5T_SGN_NONE | H5T_SGN_2.
Inductive H5T_order_t : Type := H5T_ORDER_LE | H5T_ORDER_BE.

(** What the writer asks of a datatype id: [H5Tget_class], [H5Tget_sign],
    [H5Tget_size] and [H5Tget_order]. *)
Record hid_t : Type := mk_hid_t {
  H5Tget_class : H5T_class_t;
  H5Tget_sign : H5T_sign_t;
  H5Tget_size : Z;
  H5Tget_order : H5T_order_t
}.

(** Bytes are integers in [0, 256). *)
Fixpoint le_bytes (size : nat) (v : Z) : list Z :=
  match size with
  | O => []
  | S k => v mod 256 :: le_bytes k (v / 256)
  end.

(** The object representation of an integer of [size] bytes on the host. *)
Definition object_bytes (host_le : bool) (size : nat) (v : Z) : list Z :=
  if host_le then le_bytes size v else rev (le_bytes size v).

(** [digital_rf_is_little_endian]: the first byte of 0x01234567. *)
Definition digital_rf_is_little_endian (host_le : bool) : bool :=
  match object_bytes host_le 4 19088743 with
  | b :: _ => b =? 103
  | [] => false
  end.

(** Bit patterns of the [NAN] macro as a [float] and, converted, as a
    [double]. *)
Definition NAN_float_bits : Z := 2143289344.
Definition NAN_double_bits : Z := 9221120237041090560.

Definition INT16_MIN : Z := - 2 ^ 15.
Definition INT32_MIN : Z := - 2 ^ 31.
Definition INT64_MIN : Z := - 2 ^ 63.

(** [H5Pset_fill_value (prop, type, &obj)] copies as many bytes as the type
    has from the object pointed to; reading past the object is undefined. *)
Definition H5Pset_fill_value (size : Z) (obj : list Z) : outcome (option (list Z)) :=
  if (0 <=? size) && (size <=? Z.of_nat (length obj))
  then Ret (Some (take (Z.to_nat size) obj))
  else Undef.

(** [digital_rf_set_fill_value]: [Ret (Some bytes)] is the fill value
    installed in the dataset property list (return value 0), [Ret None] the
    return value -1. *)
Definition digital_rf_set_fill_value (host_le : bool) (dtype_id : hid_t) (is_complex : Z)
  : outcome (option (list Z)) :=
  let obj := object_bytes host_le in
  let pair (x : list Z) := x ++ x in
  let minUnsignedInt := obj 4%nat 0 in
  let minChar := obj 1%nat (-128) in
  let complex_char_fill := pair minChar in
  let complex_uchar_fill := pair (obj 1%nat 0) in
  let minShort (k : Z) := obj 2%nat (if k =? 0 then INT16_MIN else 128) in
  let complex_short_fill (k : Z) := pair (minShort k) in
  let complex_ushort_fill := pair (obj 2%nat 0) in
  let minInt (k : Z) := obj 4%nat (if k =? 0 then INT32_MIN else 128) in
  let complex_int_fill (k : Z) := pair (minInt k) in
  let complex_uint_fill := pair (obj 4%nat 0) in
  let minLLong (k : Z) := obj 8%nat (if k =? 0 then INT64_MIN else 128) in
  let complex_long_fill (k : Z) := pair (minLLong k) in
  let complex_ulong_fill := pair (obj 8%nat 0) in
  let float_fill := obj 4%nat NAN_float_bits in
  let complex_float_fill := pair float_fill in
  let double_fill := obj 8%nat NAN_double_bits in
  let complex_double_fill := pair double_fill in
  let write_endian := H5Tget_order dtype_id in
  let endian_flip : Z :=
    if digital_rf_is_little_endian host_le
    then match write_endian with H5T_ORDER_BE => 1 | H5T_ORDER_LE => 0 end
    else match write_endian with H5T_ORDER_LE => 1 | H5T_ORDER_BE => 0 end in
  let classType := H5Tget_class dtype_id in
  let signType := H5Tget_sign dtype_id in
  let numBytes := H5Tget_size dtype_id in
  let unsigned := match signType with H5T_SGN_NONE => true | H5T_SGN_2 => false end in
  match classType with
  | H5T_FLOAT =>
      if is_complex =? 0 then H5Pset_fill_value numBytes double_fill
      else if numBytes =? 4 then H5Pset_fill_value (2 * numBytes) complex_float_fill
      else if numBytes =? 8 then H5Pset_fill_value (2 * numBytes) complex_double_fill
      else Ret None
  | H5T_INTEGER =>
      if is_complex =? 0 then
        if unsigned then H5Pset_fill_value numBytes minUnsignedInt
        else if numBytes =? 1 then H5Pset_fill_value numBytes minChar
        else if numBytes =? 2 then H5Pset_fill_value numBytes (minShort endian_flip)
        else if numBytes =? 4 then H5Pset_fill_value numBytes (minInt endian_flip)
        else if numBytes =? 8 then H5Pset_fill_value numBytes (minLLong endian_flip)
        else Ret None
      else
        if numBytes =? 1 then
          H5Pset_fill_value (2 * numBytes) (if unsigned then complex_uchar_fill else complex_char_fill)
        else if numBytes =? 2 then
          H5Pset_fill_value (2 * numBytes)
            (if unsigned then complex_ushort_fill else complex_short_fill endian_flip)
        else if numBytes =? 4 then
          H5Pset_fill_value (2 * numBytes)
            (if unsigned then complex_uint_fill else complex_int_fill endian_flip)
        else if numBytes =? 8 then
          H5Pset_fill_value (2 * numBytes)
            (if unsigned then complex_ulong_fill else complex_long_fill endian_flip)
        else Ret None
  | H5T_OTHER => Ret None
  end.

(** How a reader of the file sees stored bytes of the given byte order. *)
Fixpoint le_value (bytes : list Z) : Z :=
  match bytes with
  | [] => 0
  | b :: rest => b + 256 * le_value rest
  end.

Definition stored_unsigned (order : H5T_order_t) (bytes : list Z) : Z :=
  match order with
  | H5T_ORDER_LE => le_value bytes
  | H5T_ORDER_BE => le_value (rev bytes)
  end.

Definition stored_signed (order : H5T_order_t) (bytes : list Z) : Z :=
  let v := stored_unsigned order bytes in
  let top := 2 ^ (8 * Z.of_nat (length bytes) - 1) in
  if v <? top then v else v - 2 * top.

(** A quiet NaN of [ebits] exponent bits and [mbits] mantissa bits: all
    exponent bits and the first mantissa bit set. *)
Definition quiet_nan_bits (ebits mbits : Z) (v : Z) : bool :=
  (Z.land (Z.shiftr v mbits) (2 ^ ebits - 1) =? 2 ^ ebits - 1)
  && Z.testbit v (mbits - 1).

Definition stored_quiet_nan (order : H5T_order_t) (bytes : list Z) : bool :=
  match length bytes with
  | 4%nat => quiet_nan_bits 8 23 (stored_unsigned order bytes)
  | 8%nat => quiet_nan_bits 11 52 (stored_unsigned order bytes)
  | _ => false
  end.

(** ** The writer object and its environment *)

(** One row of the caller's buffer: all subchannels of one sample, real and
    imaginary parts included.  The pointer arithmetic of the source steps
    through the buffer in these units. *)
Definition sample : Type := Z.

(** The fields of [Digital_rf_write_object] that are fixed when the channel
    is created. *)
Record channel_config : Type := mk_config {
  directory : string;
  is_complex : Z;
  num_subchannels : Z;
  rank : Z;
  uuid_str : string;
  samples_per_file : Z;
  files_per_directory : Z;
  global_start_sample : Z;
  sample_rate : float;
  needs_chunking : Z;
  dtype_id : hid_t;
  dataset_fill : list Z;
  marching_dots : Z;
  init_utc_timestamp : Z
}.

(** [Digital_rf_write_object].  [hdf5_file] holds the name of the open file
    ([None] is the handle 0); the dataset, dataspace, filespace and memspace
    handles are open exactly when the file is and are not kept apart;
    [index_dataset] tells whether /rf_data_index exists in the open file. *)
Record Digital_rf_write_object : Type := mk_obj {
  config :> channel_config;
  sub_directory : option string;
  chunk_size : Z;
  global_index : Z;
  present_seq : Z;
  dataset_index : Z;
  dataset_avail : Z;
  hdf5_file : option string;
  index_dataset : bool;
  next_index_avail : Z
}.

Definition set_sub_directory (v : option string) (o : Digital_rf_write_object) :=
  mk_obj o v (chunk_size o) (global_index o) (present_seq o) (dataset_index o)
         (dataset_avail o) (hdf5_file o) (index_dataset o) (next_index_avail o).
Definition set_chunk_size (v : Z) (o : Digital_rf_write_object) :=
  mk_obj o (sub_directory o) v (global_index o) (present_seq o) (dataset_index o)
         (dataset_avail o) (hdf5_file o) (index_dataset o) (next_index_avail o).
Definition set_global_index (v : Z) (o : Digital_rf_write_object) :=
  mk_obj o (sub_directory o) (chunk_size o) v (present_seq o) (dataset_index o)
         (dataset_avail o) (hdf5_file o) (index_dataset o) (next_index_avail o).
Definition set_present_seq (v : Z) (o : Digital_rf_write_object) :=
  mk_obj o (sub_directory o) (chunk_size o) (global_index o) v (dataset_index o)
         (dataset_avail o) (hdf5_file o) (index_dataset o) (next_index_avail o).
Definition set_dataset_index (v : Z) (o : Digital_rf_write_object) :=
  mk_obj o (sub_directory o) (chunk_size o) (global_index o) (present_seq o) v
         (dataset_avail o) (hdf5_file o) (index_dataset o) (next_index_avail o).
Definition set_dataset_avail (v : Z) (o : Digital_rf_write_object) :=
  mk_obj o (sub_directory o) (chunk_size o) (global_index o) (present_seq o) (dataset_index o)
         v (hdf5_file o) (index_dataset o) (next_index_avail o).
Definition set_hdf5_file (v : option string) (o : Digital_rf_write_object) :=
  mk_obj o (sub_directory o) (chunk_size o) (global_index o) (present_seq o) (dataset_index o)
         (dataset_avail o) v (index_dataset o) (next_index_avail o).
Definition set_index_dataset (v : bool) (o : Digital_rf_write_object) :=
  mk_obj o (sub_directory o) (chunk_size o) (global_index o) (present_seq o) (dataset_index o)
         (dataset_avail o) (hdf5_file o) v (next_index_avail o).
Definition set_next_index_avail (v : Z) (o : Digital_rf_write_object) :=
  mk_obj o (sub_directory o) (chunk_size o) (global_index o) (present_seq o) (dataset_index o)
         (dataset_avail o) (hdf5_file o) (index_dataset o) v.

(** An HDF5 file of the channel: /rf_data ([None] is a row that still holds
    the fill value), /rf_data_index as (global sample, in-file row) pairs,
    and the attributes that depend on the writer's state. *)
Record H5File : Type := mk_H5File {
  rf_data : list (option sample);
  rf_data_index : list (Z * Z);
  rf_data_fill : list Z;
  rf_data_chunk : Z;
  attr_sequence_num : Z;
  attr_samples_per_file : Z;
  attr_num_subchannels : Z;
  attr_is_complex : Z;
  attr_uuid_str : string
}.

Definition set_rf_data (v : list (option sample)) (f : H5File) : H5File :=
  mk_H5File v (rf_data_index f) (rf_data_fill f) (rf_data_chunk f) (attr_sequence_num f)
            (attr_samples_per_file f) (attr_num_subchannels f) (attr_is_complex f) (attr_uuid_str f).
Definition set_rf_data_index (v : list (Z * Z)) (f : H5File) : H5File :=
  mk_H5File (rf_data f) v (rf_data_fill f) (rf_data_chunk f) (attr_sequence_num f)
            (attr_samples_per_file f) (attr_num_subchannels f) (attr_is_complex f) (attr_uuid_str f).

(** The messages the library prints on stderr. *)
Inductive diag : Type :=
| NullData
| RequestBeforeExpected (requested expected : Z)
| IllegalIndexLen (index_len : Z)
| IllegalFirstValue (v : Z)
| GlobalBeforeMinimum (g minimum : Z)
| IndicesOutOfOrder (i : Z)
| IndicesTooFast (i : Z)
| FileNotCreated (fullname : string)
| DirectoryNotCreated (sub : string)
| H5DWriteFailure
| DirectoryMissing (dir : string)
| IllegalArgument (what : string).

(** The environment: the directories and files that exist, the answers of
    the operating system and of HDF5 to the calls that can fail for reasons
    outside the program ([true]: this call fails; an exhausted list: the
    call succeeds), stderr, and the marching dots on stdout. *)
Record World : Type := mk_World {
  w_dirs : gset string;
  w_files : gmap string H5File;
  w_faults : list bool;
  w_stderr : list diag;
  w_dots : nat
}.

Definition log (d : diag) (w : World) : World :=
  mk_World (w_dirs w) (w_files w) (w_faults w) (w_stderr w ++ [d]) (w_dots w).
Definition set_files (v : gmap string H5File) (w : World) : World :=
  mk_World (w_dirs w) v (w_faults w) (w_stderr w) (w_dots w).
Definition add_dir (d : string) (w : World) : World :=
  mk_World ({[ d ]} ∪ w_dirs w) (w_files w) (w_faults w) (w_stderr w) (w_dots w).
Definition print_dot (w : World) : World :=
  mk_World (w_dirs w) (w_files w) (w_faults w) (w_stderr w) (S (w_dots w)).
Definition next_fault (w : World) : bool * World :=
  match w_faults w with
  | [] => (false, w)
  | b :: rest => (b, mk_World (w_dirs w) (w_files w) rest (w_stderr w) (w_dots w))
  end.

(** The caller's index arrays [global_index_arr] and [data_index_arr] of
    common length [index_len], entry by entry. *)
Definition index_pairs : Type := list (Z * Z).

(** ** digital_rf_get_global_sample *)

Fixpoint get_global_sample_loop (samples_written : Z) (rest : index_pairs) (ret_value : Z) : Z :=
  match rest with
  | [] => ret_value
  | (g, d) :: rest' =>
      if samples_written <? d then ret_value
      else get_global_sample_loop samples_written rest' (u64 (g + u64 (samples_written - d)))
  end.

Definition digital_rf_get_global_sample (samples_written : Z) (idx : index_pairs) : outcome Z :=
  match idx with
  | [] => Undef
  | (g0, d0) :: rest =>
      Ret (get_global_sample_loop samples_written rest (u64 (g0 + u64 (samples_written - d0))))
  end.

(** ** digital_rf_create_rf_data_index *)

Section RfDataIndex.
Variable o : Digital_rf_write_object.
Variable samples_written : Z.

Definition first_index : Z := samples_written.
Definition end_index : Z := u64 (u64 (first_index + samples_per_file o) - dataset_index o).

(** [this_index >= first_index && this_index < end_index] *)
Definition in_file (p : Z * Z) : bool :=
  (first_index <=? snd p) && (snd p <? end_index).

(** The continuation that is not written: the pair at [first_index] in the
    middle of a file when the global index shows no gap. *)
Definition no_gap (p : Z * Z) : bool :=
  (snd p =? first_index) && (0 <? dataset_index o) && (global_index o =? fst p).

Definition index_row (p : Z * Z) : Z * Z :=
  (u64 (fst p + global_start_sample o), u64 (u64 (snd p + dataset_index o) - samples_written)).

Definition boundary_row : Z * Z :=
  (u64 (global_index o + global_start_sample o), 0).

(** The sanity checks on entry [i] against entry [i-1]. *)
Definition index_sanity (i : Z) (prev : option (Z * Z)) (p : Z * Z) : option diag :=
  match prev with
  | None => None
  | Some q =>
      if snd p <=? snd q then Some (IndicesOutOfOrder i)
      else if u64 (fst p - fst q) <? u64 (snd p - snd q) then Some (IndicesTooFast i)
      else None
  end.

(** First pass: validate and count the rows needed. *)
Fixpoint index_first_pass (i : Z) (prev : option (Z * Z)) (rest : index_pairs)
         (first_index_found : bool) (row_count : nat) : diag + bool * nat :=
  match rest with
  | [] => inr (first_index_found, row_count)
  | p :: rest' =>
      match index_sanity i prev p with
      | Some d => inl d
      | None =>
          index_first_pass (i + 1) (Some p) rest'
            (if snd p =? first_index then true else first_index_found)
            (if in_file p && negb (no_gap p) then S row_count else row_count)
      end
  end.

(** [ret_arr[k] = row] in a block of [length ret_arr] rows. *)
Definition store_row (k : nat) (row : Z * Z) (ret_arr : list (Z * Z)) : outcome (list (Z * Z)) :=
  if bool_decide (k < length ret_arr)%nat then Ret (<[k := row]> ret_arr) else Undef.

(** Second pass: fill out [ret_arr]. *)
Fixpoint index_second_pass (i : Z) (rest : index_pairs) (ret_arr : list (Z * Z))
         (rows_written : nat) : outcome (list (Z * Z) * nat) :=
  match rest with
  | [] => Ret (ret_arr, rows_written)
  | p :: rest' =>
      if no_gap p then index_second_pass (i + 1) rest' ret_arr rows_written
      else if in_file p then
        if snd p =? first_index then
          bind (store_row 0 (index_row p) ret_arr) (fun a =>
          index_second_pass (i + 1) rest' a (S rows_written))
        else
          bind (match rows_written with
                | O => if i =? 0 then Undef
                       else bind (store_row 0 boundary_row ret_arr) (fun a => Ret (a, 1%nat))
                | _ => Ret (ret_arr, rows_written)
                end) (fun '(a, n) =>
          bind (store_row n (index_row p) a) (fun a' =>
          index_second_pass (i + 1) rest' a' (S n)))
      else index_second_pass (i + 1) rest' ret_arr rows_written
  end.

(** [Ret (inl d)]: NULL with [rows_to_write = -1] after printing [d];
    [Ret (inr rows)]: the rows to append ([rows_to_write = length rows],
    NULL when there is none). *)
Definition digital_rf_create_rf_data_index (idx : index_pairs)
  : outcome (diag + list (Z * Z)) :=
  let build :=
    match index_first_pass 0 None idx false 0 with
    | inl d => Ret (inl d)
    | inr (first_index_found, n) =>
        let row_count := if first_index_found then n else S n in
        match row_count with
        | O => Ret (inr [])
        | _ =>
            bind (index_second_pass 0 idx (replicate row_count (0, 0)) 0) (fun '(a, rows_written) =>
            bind (match rows_written with
                  | O => bind (store_row 0 boundary_row a) (fun a' => Ret (a', 1%nat))
                  | _ => Ret (a, rows_written)
                  end) (fun '(a', rows_written') =>
            if bool_decide (rows_written' = row_count) then Ret (inr a') else Undef))
        end
    end in
  if samples_written =? 0 then
    match idx with
    | [] => Undef
    | p0 :: _ =>
        if fst p0 <? global_index o
        then Ret (inl (GlobalBeforeMinimum (fst p0) (global_index o)))
        else build
    end
  else build.
End RfDataIndex.

(** ** digital_rf_write_rf_data_index *)

(** The status returned: 0, or negative when the write fails.  A new
    dataset is created when the open file has none yet; an existing one is
    extended and the rows written at [next_index_avail]. *)
Definition digital_rf_write_rf_data_index (o : Digital_rf_write_object) (w : World)
           (rf_data_index_arr : list (Z * Z)) : Z * Digital_rf_write_object * World :=
  let block_index_len := Z.of_nat (length rf_data_index_arr) in
  let '(fault, w1) := next_fault w in
  match hdf5_file o with
  | None => (-1, o, w1)
  | Some name =>
      if index_dataset o then
        if fault then (-1, o, w1)
        else
          let extend (f : H5File) :=
            set_rf_data_index
              (resize (Z.to_nat (next_index_avail o)) (0, 0) (rf_data_index f) ++ rf_data_index_arr) f in
          (0, set_next_index_avail (next_index_avail o + block_index_len) o,
           set_files (alter extend name (w_files w1)) w1)
      else
        if fault then (-1, set_index_dataset true o, w1)
        else
          (0, set_next_index_avail block_index_len (set_index_dataset true o),
           set_files (alter (set_rf_data_index rf_data_index_arr) name (w_files w1)) w1)
  end.

(** ** digital_rf_create_new_directory *)

(** The sizes of the [char] arrays of digital_rf.h. *)
Definition SMALL_HDF5_STR : nat := 265.
Definition BIG_HDF5_STR : nat := 1024.

Definition sub_directory_name (t : unix_time) : string :=
  printf_0i 4 (year t) +:+ "-" +:+ printf_0i 2 (month t) +:+ "-" +:+ printf_0i 2 (day t)
  +:+ "T" +:+ printf_0i 2 (hour t) +:+ ":" +:+ printf_0i 2 (minute t) +:+ ":" +:+ printf_0i 2 (second t).

(** The names are built in [sub_directory[SMALL_HDF5_STR]] and
    [full_directory[BIG_HDF5_STR]].  [mkdir] fails when the name exists
    already, or for a reason of the environment. *)
Definition digital_rf_create_new_directory (o : Digital_rf_write_object) (w : World)
           (next_global_sample : Z) : outcome (Z * Digital_rf_write_object * World) :=
  match digital_rf_get_unix_time (u64 (next_global_sample + global_start_sample o)) (sample_rate o) with
  | Undef => Undef
  | Ret None => Ret (-1, o, w)
  | Ret (Some t) =>
      bind (sprintf SMALL_HDF5_STR (sub_directory_name t)) (fun sub =>
      bind (strcpy BIG_HDF5_STR (directory o)) (fun full_directory =>
      bind (strcat BIG_HDF5_STR full_directory sub) (fun full_directory =>
      let '(fault, w1) := next_fault w in
      if fault || bool_decide (full_directory ∈ w_dirs w1)
      then Ret (-1, o, log (DirectoryNotCreated sub) w1)
      else Ret (0, set_sub_directory (Some (sub +:+ "/")) o, add_dir full_directory w1))))
  end.

(** ** digital_rf_create_hdf5_file *)

Definition file_basename (unix_timestamp : float) : string :=
  "rf@" +:+ printf_011_3f unix_timestamp +:+ ".h5".

(** The text of the message about a file that is not created. *)
Definition file_not_created (fullname : string) : string :=
  "The following Hdf5 file could not be created, or already exists: " +:+ fullname
  +:+ String (ascii_of_nat 10) EmptyString.

Definition new_file (o : Digital_rf_write_object) : H5File :=
  mk_H5File (replicate (Z.to_nat (samples_per_file o)) None) [] (dataset_fill o) (chunk_size o)
            (present_seq o) (samples_per_file o) (num_subchannels o) (is_complex o) (uuid_str o).

(** The name of the file is built in [fullname[BIG_HDF5_STR]] from the
    directory, the subdirectory and [basename[SMALL_HDF5_STR]], and the
    message about a file that is not created in [error_str[BIG_HDF5_STR]].
    [H5Fcreate] with [H5F_ACC_EXCL] fails when the file exists.  The
    sequence number is an [int]: its increment past [INT_MAX], the remainder
    by a zero [files_per_directory] and the concatenation of a null
    [sub_directory] have no defined behaviour. *)
Definition digital_rf_create_hdf5_file (o : Digital_rf_write_object) (w : World)
           (next_global_sample : Z) : outcome (Z * Digital_rf_write_object * World) :=
  let w0 := if marching_dots o =? 0 then w else print_dot w in
  let unix_timestamp :=
    (u64_to_double (u64 (next_global_sample + global_start_sample o)) / sample_rate o)%float in
  if 2 ^ 31 - 1 <=? present_seq o then Undef
  else
    let o1 := set_present_seq (present_seq o + 1) o in
    if files_per_directory o =? 0 then Undef
    else
      bind (if u64 (present_seq o1) mod files_per_directory o =? 0
            then digital_rf_create_new_directory o1 w0 next_global_sample
            else Ret (0, o1, w0)) (fun '(result, o2, w2) =>
      if result =? 0 then
        match sub_directory o2 with
        | None => Undef
        | Some sub =>
            bind (strcpy BIG_HDF5_STR (directory o2)) (fun fullname =>
            bind (strcat BIG_HDF5_STR fullname sub) (fun fullname =>
            bind (sprintf SMALL_HDF5_STR (file_basename unix_timestamp)) (fun basename =>
            bind (strcat BIG_HDF5_STR fullname basename) (fun fullname =>
            let '(fault, w3) := next_fault w2 in
            if fault || bool_decide (fullname ∈ dom (w_files w3))
            then
              bind (sprintf BIG_HDF5_STR (file_not_created fullname)) (fun _ =>
              Ret (-1, set_hdf5_file None o2, log (FileNotCreated fullname) w3))
            else
              let o3 := set_dataset_avail (samples_per_file o2)
                          (set_dataset_index 0 (set_hdf5_file (Some fullname) o2)) in
              Ret (0, o3, set_files (<[fullname := new_file o3]> (w_files w3)) w3)))))
        end
      else Ret (-1, o2, w2)).

(** ** digital_rf_write_samples_to_file *)

(** [H5Dwrite] of [count] buffer rows at row [offset] of /rf_data: the
    dataset after the write, or [None] when the selection leaves it. *)
Definition write_hyperslab (offset : Z) (data : list sample) (rows : list (option sample))
  : option (list (option sample)) :=
  if (0 <=? offset) && (offset + Z.of_nat (length data) <=? Z.of_nat (length rows))
  then Some (take (Z.to_nat offset) rows ++ (Some <$> data)
             ++ drop (Z.to_nat offset + length data) rows)
  else None.

(** The file is closed when it is full. *)
Definition close_if_full (o : Digital_rf_write_object) : Digital_rf_write_object :=
  if dataset_index o =? samples_per_file o
  then set_dataset_index 0 (set_hdf5_file None (set_index_dataset false o))
  else o.

(** The update of [global_index] after a slice of [samples_to_write]
    samples whose index rows are [rf_data_index_arr]. *)
Definition advance_global_index (o : Digital_rf_write_object) (rf_data_index_arr : list (Z * Z))
           (samples_to_write : Z) : Z :=
  match rf_data_index_arr, last rf_data_index_arr with
  | first_row :: _, Some last_row =>
      let last_global_index := u64 (fst last_row - global_start_sample o) in
      let samples_after_last_global_index :=
        u64 (samples_to_write - u64 (snd last_row - snd first_row)) in
      u64 (last_global_index + samples_after_last_global_index)
  | _, _ => u64 (global_index o + samples_to_write)
  end.

(** A new file is opened when none is: its name comes from the global
    index of the first sample of the slice. *)
Definition open_file_if_needed (o : Digital_rf_write_object) (w : World)
           (samples_written : Z) (idx : index_pairs)
  : outcome (Z * Digital_rf_write_object * World) :=
  match hdf5_file o with
  | None =>
      bind (digital_rf_get_global_sample samples_written idx) (fun next_global_index =>
      digital_rf_create_hdf5_file o w next_global_index)
  | Some _ => Ret (0, o, w)
  end.

Definition samples_to_write (o : Digital_rf_write_object) (samples_written vector_length : Z) : Z :=
  let samples_left_to_write := u64 (vector_length - samples_written) in
  if dataset_avail o <? samples_left_to_write then dataset_avail o
  else samples_left_to_write.

(** [H5Dwrite] of the slice into /rf_data of the open file at
    [dataset_index]: whether it succeeded, and the environment after it. *)
Definition H5Dwrite_rf_data (o : Digital_rf_write_object) (w : World) (data : list sample)
  : bool * World :=
  let '(fault, w1) := next_fault w in
  match hdf5_file o with
  | None => (false, w1)
  | Some name =>
      match w_files w1 !! name with
      | None => (false, w1)
      | Some f =>
          match write_hyperslab (dataset_index o) data (rf_data f) with
          | None => (false, w1)
          | Some rows =>
              if fault then (false, w1)
              else (true, set_files (<[name := set_rf_data rows f]> (w_files w1)) w1)
          end
      end
  end.

(** "Advance state": the in-file cursor, the room left, and the next
    expected global index. *)
Definition advance_state (o : Digital_rf_write_object) (rf_data_index_arr : list (Z * Z))
           (samples_to_write : Z) : Digital_rf_write_object :=
  let o1 := set_dataset_avail (u64 (dataset_avail o - samples_to_write))
              (set_dataset_index (u64 (dataset_index o + samples_to_write)) o) in
  set_global_index (advance_global_index o1 rf_data_index_arr samples_to_write) o1.

(** Returns the number of samples written, 0 on error.  The buffer holds
    [length vector] rows; reading past it is undefined. *)
Definition digital_rf_write_samples_to_file (o : Digital_rf_write_object) (w : World)
           (samples_written : Z) (idx : index_pairs) (vector : list sample) (vector_length : Z)
  : outcome (Z * Digital_rf_write_object * World) :=
  match idx with
  | [] => Ret (0, o, log (IllegalIndexLen 0) w)
  | (_, d0) :: _ =>
      if negb (d0 =? 0) then Ret (0, o, log (IllegalFirstValue d0) w)
      else
        bind (digital_rf_create_rf_data_index o samples_written idx) (fun index =>
        match index with
        | inl d => Ret (0, o, log d w)
        | inr rf_data_index_arr =>
            bind (open_file_if_needed o w samples_written idx) (fun '(result, o1, w1) =>
            if negb (result =? 0) then Ret (0, o1, w1)
            else
              let n := samples_to_write o1 samples_written vector_length in
              if Z.of_nat (length vector) <? samples_written + n then Undef
              else
                let data := take (Z.to_nat n) (drop (Z.to_nat samples_written) vector) in
                let '(written, w2) := H5Dwrite_rf_data o1 w1 data in
                if negb written then Ret (0, o1, log H5DWriteFailure w2)
                else
                  let '(status, o2, w3) :=
                    match rf_data_index_arr with
                    | [] => (0, o1, w2)
                    | _ => digital_rf_write_rf_data_index o1 w2 rf_data_index_arr
                    end in
                  if negb (status =? 0) then Ret (0, o2, w3)
                  else
                    let o3 := advance_state o2 rf_data_index_arr n in
                    if samples_per_file o3 <? dataset_index o3 then Undef
                    else Ret (n, close_if_full o3, w3))
        end)
  end.

(** ** digital_rf_write_blocks_hdf5 and digital_rf_write_hdf5 *)

(** The loop [while (samples_written < vector_length)], run for at most
    [fuel] iterations; [None] when the fuel does not suffice. *)
Fixpoint write_loop (fuel : nat) (o : Digital_rf_write_object) (w : World) (samples_written : Z)
         (idx : index_pairs) (vector : list sample) (vector_length : Z)
  : option (outcome (Z * Digital_rf_write_object * World)) :=
  if samples_written <? vector_length then
    match fuel with
    | O => None
    | S fuel' =>
        match digital_rf_write_samples_to_file o w samples_written idx vector vector_length with
        | Undef => Some Undef
        | Ret (dataset_samples_written, o', w') =>
            if dataset_samples_written =? 0 then Some (Ret (-6, o', w'))
            else write_loop fuel' o' w' (u64 (samples_written + dataset_samples_written))
                            idx vector vector_length
        end
    end
  else Some (Ret (0, o, w)).

(** The chunk size is fixed by the first write when chunking is needed. *)
Definition set_chunking (o : Digital_rf_write_object) (vector_length : Z) : Digital_rf_write_object :=
  if negb (needs_chunking o =? 0) && (chunk_size o =? 0)
  then set_chunk_size (int32 (if vector_length <? samples_per_file o then vector_length
                              else samples_per_file o)) o
  else o.

(** [vector] is [None] for a null pointer.  The return value is 0 on
    success, -2 for null data, -3 for a write before the expected index, -6
    when a slice fails. *)
Definition digital_rf_write_blocks_hdf5 (o : Digital_rf_write_object) (w : World)
           (idx : index_pairs) (vector : option (list sample)) (vector_length : Z)
  : option (outcome (Z * Digital_rf_write_object * World)) :=
  match vector with
  | None => Some (Ret (-2, o, log NullData w))
  | Some v =>
      match idx with
      | [] => Some Undef
      | (g0, _) :: _ =>
          if g0 <? global_index o
          then Some (Ret (-3, o, log (RequestBeforeExpected g0 (global_index o)) w))
          else write_loop (Z.to_nat vector_length) (set_chunking o vector_length) w 0
                          idx v vector_length
      end
  end.

Definition digital_rf_write_hdf5 (o : Digital_rf_write_object) (w : World)
           (global_leading_edge_index : Z) (vector : option (list sample)) (vector_length : Z)
  : option (outcome (Z * Digital_rf_write_object * World)) :=
  let data_index_arr := [0] in
  digital_rf_write_blocks_hdf5 o w (zip [global_leading_edge_index] data_index_arr)
                               vector vector_length.

(** ** digital_rf_create_write_hdf5 *)

(** [Ret None] is the NULL returned after an error message.  The host byte
    order and the wall clock [computer_time] belong to the environment. *)
Definition digital_rf_create_write_hdf5 (host_le : bool) (computer_time : Z) (w : World)
           (directory : string) (dtype_id : hid_t) (samples_per_file files_per_directory : Z)
           (global_start_sample : Z) (sample_rate : float) (uuid_str : string)
           (compression_level checksum is_complex num_subchannels marching_dots : Z)
  : outcome (option Digital_rf_write_object * World) :=
  if negb (bool_decide (directory ∈ w_dirs w)) then Ret (None, log (DirectoryMissing directory) w)
  else if (compression_level <? 0) || (9 <? compression_level)
  then Ret (None, log (IllegalArgument "compression level") w)
  else if num_subchannels <? 1 then Ret (None, log (IllegalArgument "num_subchannels") w)
  else if (samples_per_file =? 0) || (files_per_directory =? 0)
  then Ret (None, log (IllegalArgument "samples_per_file or files_per_directory") w)
  else if global_start_sample =? 0 then Ret (None, log (IllegalArgument "global_start_sample") w)
  else if (sample_rate <=? 0)%float then Ret (None, log (IllegalArgument "sample_rate") w)
  else
    let complex := if is_complex =? 0 then 0 else 1 in
    let rank := if is_complex =? 0 then (if num_subchannels =? 1 then 1 else 2) else 2 in
    let needs_chunking := if negb (checksum =? 0) || negb (compression_level =? 0) then 1 else 0 in
    match digital_rf_set_fill_value host_le dtype_id complex with
    | Undef => Undef
    | Ret None => Ret (None, log (IllegalArgument "dtype_id") w)
    | Ret (Some fill) =>
        Ret (Some (mk_obj (mk_config (directory +:+ "/") complex num_subchannels rank uuid_str
                                     samples_per_file files_per_directory global_start_sample
                                     sample_rate needs_chunking dtype_id fill marching_dots
                                     computer_time)
                          None 0 0 (-1) 0 0 None false 0), w)
    end.

(** ** Vocabulary of the statements *)

(** A user pair gives a row in the slice that starts at buffer position
    [samples_written]: it lies in the file and is not the continuation
    without a gap. *)
Definition emit (o : Digital_rf_write_object) (samples_written : Z) (p : Z * Z) : bool :=
  in_file o samples_written p && negb (no_gap o samples_written p).

Definition emitted (o : Digital_rf_write_object) (samples_written : Z) (idx : index_pairs)
  : index_pairs :=
  List.filter (emit o samples_written) idx.

(** Some pair sits at the first buffer position of the slice. *)
Definition first_found (samples_written : Z) (idx : index_pairs) : bool :=
  existsb (fun p => snd p =? samples_written) idx.

(** Entry [p] passes the sanity checks against its predecessor. *)
Definition pair_ok (prev : option (Z * Z)) (p : Z * Z) : bool :=
  match prev with
  | None => true
  | Some q => (snd q <? snd p) && (u64 (snd p - snd q) <=? u64 (fst p - fst q))
  end.

Fixpoint index_ok (prev : option (Z * Z)) (rest : index_pairs) : bool :=
  match rest with
  | [] => true
  | p :: rest' => pair_ok prev p && index_ok (Some p) rest'
  end.

(** What the index builder returns on arrays that pass its checks. *)
Definition index_rows (o : Digital_rf_write_object) (samples_written : Z) (idx : index_pairs)
  : outcome (diag + list (Z * Z)) :=
  match emitted o samples_written idx with
  | [] => Ret (inr (if first_found samples_written idx then [] else [boundary_row o]))
  | p :: rest =>
      let rows := map (index_row o samples_written) (p :: rest) in
      if snd p =? samples_written then Ret (inr rows)
      else if first_found samples_written idx then Undef
      else Ret (inr (boundary_row o :: rows))
  end.

(** The contract of the index arrays: the first in-buffer index is 0, the
    in-buffer indices increase strictly, and never by more than the global
    indices do. *)
Fixpoint advancing_from (p : Z * Z) (rest : index_pairs) : Prop :=
  match rest with
  | [] => True
  | q :: rest' => snd p < snd q /\ snd q - snd p <= fst q - fst p /\ advancing_from q rest'
  end.

Definition index_contract (idx : index_pairs) : Prop :=
  match idx with
  | [] => False
  | p :: rest => snd p = 0 /\ advancing_from p rest
  end.

(** Two consecutive entries break the contract: the in-buffer index does
    not increase, or it advances by more than a non-decreasing global index
    does. *)
Definition breaks_contract (p q : Z * Z) : Prop :=
  snd q <= snd p \/ (fst p <= fst q /\ fst q - fst p < snd q - snd p).

Definition index_malformed (d : diag) : bool :=
  match d with
  | IllegalFirstValue _ | IndicesOutOfOrder _ | IndicesTooFast _ => true
  | _ => false
  end.

Definition pairs_u64 (idx : index_pairs) : Prop :=
  Forall (fun p => in_u64 (fst p) /\ in_u64 (snd p)) idx.

(** Every [uint64_t] field holds a value of its type. *)
Definition u64_fields (o : Digital_rf_write_object) : Prop :=
  in_u64 (samples_per_file o) /\ in_u64 (global_start_sample o) /\ in_u64 (global_index o)
  /\ in_u64 (dataset_index o) /\ in_u64 (dataset_avail o).

(** The state between two slices: with no file open the in-file cursor is
    0 and there is no index dataset; an open file exists, has room, and its
    cursor and room add up to the capacity. *)
Definition slice_ready (o : Digital_rf_write_object) (w : World) : Prop :=
  u64_fields o /\ 1 <= samples_per_file o /\
  match hdf5_file o with
  | None => dataset_index o = 0 /\ index_dataset o = false
  | Some name =>
      1 <= dataset_avail o /\ dataset_index o + dataset_avail o = samples_per_file o
      /\ is_Some (w_files w !! name)
  end.

(** The pairs lie in the buffer of [vector_length] samples, and no global
    index of the call overflows once the epoch offset is added. *)
Definition call_in_range (c : channel_config) (idx : index_pairs) (vector_length : Z) : Prop :=
  vector_length + samples_per_file c < 2 ^ 64
  /\ Forall (fun p => 0 <= fst p /\ fst p + vector_length + global_start_sample c < 2 ^ 64
                      /\ 0 <= snd p < vector_length) idx.

(** The first global index of the call. *)
Definition leading_global (idx : index_pairs) : Z :=
  match idx with
  | [] => 0
  | p :: _ => fst p
  end.

(** What holds of the writer at the head of every iteration of the loop of
    one call: [samples_written] samples of the [vector_length] are written. *)
Definition loop_invariant (idx : index_pairs) (vector_length : Z)
           (o : Digital_rf_write_object) (w : World) (samples_written : Z) : Prop :=
  slice_ready o w
  /\ 0 <= samples_written <= vector_length
  /\ global_index o + (vector_length - samples_written) + global_start_sample o < 2 ^ 64
  /\ (samples_written = 0 -> global_index o <= leading_global idx)
  /\ (0 < samples_written ->
      leading_global idx <= global_index o
      /\ (samples_written < vector_length -> hdf5_file o = None)).

(** The states at the head of the iterations of the loop that starts in a
    given state. *)
Inductive loop_reaches (idx : index_pairs) (vector : list sample) (vector_length : Z)
  : Digital_rf_write_object * World * Z -> Digital_rf_write_object * World * Z -> Prop :=
| reaches_here (s : Digital_rf_write_object * World * Z) :
    loop_reaches idx vector vector_length s s
| reaches_next (o o1 : Digital_rf_write_object) (w w1 : World) (samples_written r : Z)
               (s : Digital_rf_write_object * World * Z) :
    samples_written < vector_length ->
    digital_rf_write_samples_to_file o w samples_written idx vector vector_length
    = Ret (r, o1, w1) ->
    r <> 0 ->
    loop_reaches idx vector vector_length (o1, w1, u64 (samples_written + r)) s ->
    loop_reaches idx vector vector_length (o, w, samples_written) s.

(** [w'] extends the log of [w] by messages that are not about malformed
    index arrays. *)
Definition quiet (w w' : World) : Prop :=
  exists ds, w_stderr w' = w_stderr w ++ ds /\ Forall (fun d => index_malformed d = false) ds.

(** ** A channel for the examples *)

Definition int16_le : hid_t := mk_hid_t H5T_INTEGER H5T_SGN_2 2 H5T_ORDER_LE.

(** Sample rate 100 Hz, 40 samples per file, 10 files per directory, first
    sample one sample after 2014-03-09 12:30:30 UTC. *)
Definition example_channel : Digital_rf_write_object :=
  mk_obj (mk_config "/data/ch0/" 0 1 1 "uuid" 40 10 139436823001 100%float 0 int16_le
                    [0; 128] 0 1400000000)
         None 0 0 (-1) 0 0 None false 0.

Definition example_world : World := mk_World {[ "/data/ch0"%string ]} ∅ [] [] 0.

Definition example_buffer (n : nat) : list sample := map Z.of_nat (seq 0 n).

(** The writer and its environment after a slice. *)
Definition state_after (x : outcome (Z * Digital_rf_write_object * World))
  : Digital_rf_write_object * World :=
  match x with
  | Ret (_, o, w) => (o, w)
  | Undef => (example_channel, example_world)
  end.

(** An append of 60 samples with a gap of 10 after the first 10: the state
    after its first slice, which fills the first file. *)
Definition example_gap : index_pairs := [(0, 0); (20, 10)].

Definition example_second_slice : Digital_rf_write_object * World :=
  state_after (digital_rf_write_samples_to_file (set_chunking example_channel 60) example_world
                                                0 example_gap (example_buffer 60) 60).

(** The state in the middle of the first file, after an append of 20
    samples with a gap of 10 after the first 10: cursor 30, in-file cursor
    20. *)
Definition example_mid_file : Digital_rf_write_object * World :=
  state_after (digital_rf_write_samples_to_file (set_chunking example_channel 20) example_world
                                                0 example_gap (example_buffer 20) 20).

(** ** Vocabulary of the files and of the calls *)

(** What a run of the writer leaves alone: between [(o, w)] and
    [(o', w')] no directory and no file is removed, every file other than
    the one open in [o] is as it was, and the file open in [o'] is the one
    open in [o] or a file that did not exist. *)
Definition frame (o : Digital_rf_write_object) (w : World)
           (o' : Digital_rf_write_object) (w' : World) : Prop :=
  w_dirs w ⊆ w_dirs w'
  /\ (forall name, is_Some (w_files w !! name) -> is_Some (w_files w' !! name))
  /\ (forall name, hdf5_file o <> Some name -> is_Some (w_files w !! name) ->
                   w_files w' !! name = w_files w !! name)
  /\ (forall name, hdf5_file o' = Some name ->
                   hdf5_file o = Some name \/ w_files w !! name = None).

(** Two entries of index arrays that respect the contract, or two rows of
    /rf_data_index, the first one earlier: the position increases, and by
    no more than the global index does. *)
Definition steps (p q : Z * Z) : Prop :=
  snd p < snd q /\ snd q - snd p <= fst q - fst p.

(** The open file between two slices: /rf_data holds the samples written so
    far, [dataset_index] of them, and the fill value after them; the rows of
    /rf_data_index are those the writer counts, they increase, they point to
    samples that are written and to global samples before the cursor, the
    first of them is at row 0, and the cursor is the global index that
    follows the last sample of the file by the last of them. *)
Definition file_ready (o : Digital_rf_write_object) (w : World) : Prop :=
  match hdf5_file o with
  | None => True
  | Some name =>
      exists f written,
        w_files w !! name = Some f
        /\ Z.of_nat (length written) = dataset_index o
        /\ rf_data f = (Some <$> written)
                       ++ replicate (Z.to_nat (samples_per_file o - dataset_index o)) None
        /\ (if index_dataset o
            then next_index_avail o = Z.of_nat (length (rf_data_index f))
            else rf_data_index f = [])
        /\ StronglySorted steps (rf_data_index f)
        /\ Forall (fun row => 0 <= fst row /\ 0 <= snd row < dataset_index o
                              /\ fst row < global_index o + global_start_sample o)
                  (rf_data_index f)
        /\ (0 < dataset_index o -> exists row rest, rf_data_index f = row :: rest /\ snd row = 0)
        /\ match last (rf_data_index f) with
           | Some row =>
               global_index o
               = fst row - global_start_sample o + (dataset_index o - snd row)
           | None => True
           end
  end.

(** The cursor is not ahead of the samples of the call that are still to
    be written: the pair at or after buffer position [samples_written] is at
    least as far from the cursor as from that position. *)
Definition cursor_bound (idx : index_pairs) (o : Digital_rf_write_object)
           (samples_written : Z) : Prop :=
  Forall (fun q => samples_written <= snd q ->
                   global_index o + (snd q - samples_written) <= fst q) idx.

(** [cursor] is the global index that follows buffer position [pos - 1]:
    the global index of the last pair before [pos], plus the samples from
    that pair's buffer position up to [pos]. *)
Definition cursor_exact (idx : index_pairs) (cursor pos : Z) : Prop :=
  exists p, In p idx /\ snd p < pos
            /\ (forall q, In q idx -> snd q < pos -> snd q <= snd p)
            /\ cursor = fst p + (pos - snd p).

(** The predefined HDF5 datatypes the Python extension chooses from.  The
    native [char] types have the byte order of the host, and [char] is
    signed or not as the host has it. *)
Definition H5T_IEEE_F32LE : hid_t := mk_hid_t H5T_FLOAT H5T_SGN_2 4 H5T_ORDER_LE.
Definition H5T_IEEE_F64LE : hid_t := mk_hid_t H5T_FLOAT H5T_SGN_2 8 H5T_ORDER_LE.
Definition H5T_STD_I16LE : hid_t := mk_hid_t H5T_INTEGER H5T_SGN_2 2 H5T_ORDER_LE.
Definition H5T_STD_I32LE : hid_t := mk_hid_t H5T_INTEGER H5T_SGN_2 4 H5T_ORDER_LE.
Definition H5T_STD_I64LE : hid_t := mk_hid_t H5T_INTEGER H5T_SGN_2 8 H5T_ORDER_LE.
Definition H5T_STD_U16LE : hid_t := mk_hid_t H5T_INTEGER H5T_SGN_NONE 2 H5T_ORDER_LE.
Definition H5T_STD_U32LE : hid_t := mk_hid_t H5T_INTEGER H5T_SGN_NONE 4 H5T_ORDER_LE.
Definition H5T_STD_U64LE : hid_t := mk_hid_t H5T_INTEGER H5T_SGN_NONE 8 H5T_ORDER_LE.
Definition H5T_IEEE_F32BE : hid_t := mk_hid_t H5T_FLOAT H5T_SGN_2 4 H5T_ORDER_BE.
Definition H5T_IEEE_F64BE : hid_t := mk_hid_t H5T_FLOAT H5T_SGN_2 8 H5T_ORDER_BE.
Definition H5T_STD_I16BE : hid_t := mk_hid_t H5T_INTEGER H5T_SGN_2 2 H5T_ORDER_BE.
Definition H5T_STD_I32BE : hid_t := mk_hid_t H5T_INTEGER H5T_SGN_2 4 H5T_ORDER_BE.
Definition H5T_STD_I64BE : hid_t := mk_hid_t H5T_INTEGER H5T_SGN_2 8 H5T_ORDER_BE.
Definition H5T_STD_U16BE : hid_t := mk_hid_t H5T_INTEGER H5T_SGN_NONE 2 H5T_ORDER_BE.
Definition H5T_STD_U32BE : hid_t := mk_hid_t H5T_INTEGER H5T_SGN_NONE 4 H5T_ORDER_BE.
Definition H5T_STD_U64BE : hid_t := mk_hid_t H5T_INTEGER H5T_SGN_NONE 8 H5T_ORDER_BE.

Definition host_order (host_le : bool) : H5T_order_t :=
  if host_le then H5T_ORDER_LE else H5T_ORDER_BE.
Definition H5T_NATIVE_CHAR (host_le char_signed : bool) : hid_t :=
  mk_hid_t H5T_INTEGER (if char_signed then H5T_SGN_2 else H5T_SGN_NONE) 1 (host_order host_le).
Definition H5T_NATIVE_UCHAR (host_le : bool) : hid_t :=
  mk_hid_t H5T_INTEGER H5T_SGN_NONE 1 (host_order host_le).

(** [get_hdf5_data_type] of the Python extension; [None] is the -1 it
    returns for a type it does not know. *)
Definition get_hdf5_data_type (host_le char_signed : bool) (byteorder dtype_char : ascii)
           (bytecount : Z) : option hid_t :=
  if Ascii.eqb byteorder "<" then
    if Ascii.eqb dtype_char "f" then Some H5T_IEEE_F32LE
    else if Ascii.eqb dtype_char "d" then Some H5T_IEEE_F64LE
    else if Ascii.eqb dtype_char "i" && (bytecount =? 2) then Some H5T_STD_I16LE
    else if Ascii.eqb dtype_char "h" && (bytecount =? 2) then Some H5T_STD_I16LE
    else if Ascii.eqb dtype_char "i" && (bytecount =? 4) then Some H5T_STD_I32LE
    else if Ascii.eqb dtype_char "i" && (bytecount =? 8) then Some H5T_STD_I64LE
    else if Ascii.eqb dtype_char "l" && (bytecount =? 8) then Some H5T_STD_I64LE
    else if Ascii.eqb dtype_char "u" && (bytecount =? 2) then Some H5T_STD_U16LE
    else if Ascii.eqb dtype_char "u" && (bytecount =? 4) then Some H5T_STD_U32LE
    else if Ascii.eqb dtype_char "u" && (bytecount =? 8) then Some H5T_STD_U64LE
    else None
  else if Ascii.eqb byteorder ">" then
    if Ascii.eqb dtype_char "f" then Some H5T_IEEE_F32BE
    else if Ascii.eqb dtype_char "d" then Some H5T_IEEE_F64BE
    else if Ascii.eqb dtype_char "i" && (bytecount =? 2) then Some H5T_STD_I16BE
    else if Ascii.eqb dtype_char "h" && (bytecount =? 2) then Some H5T_STD_I16BE
    else if Ascii.eqb dtype_char "i" && (bytecount =? 4) then Some H5T_STD_I32BE
    else if Ascii.eqb dtype_char "i" && (bytecount =? 8) then Some H5T_STD_I64BE
    else if Ascii.eqb dtype_char "l" && (bytecount =? 8) then Some H5T_STD_I64BE
    else if Ascii.eqb dtype_char "u" && (bytecount =? 2) then Some H5T_STD_U16BE
    else if Ascii.eqb dtype_char "u" && (bytecount =? 4) then Some H5T_STD_U32BE
    else if Ascii.eqb dtype_char "u" && (bytecount =? 8) then Some H5T_STD_U64BE
    else None
  else if Ascii.eqb dtype_char "b" then Some (H5T_NATIVE_CHAR host_le char_signed)
  else if Ascii.eqb dtype_char "B" then Some (H5T_NATIVE_UCHAR host_le)
  else None.

(** The writer and its environment after a call. *)
Definition call_state_after (x : option (outcome (Z * Digital_rf_write_object * World)))
  : Digital_rf_write_object * World :=
  match x with
  | Some (Ret (_, o, w)) => (o, w)
  | _ => (example_channel, example_world)
  end.

(** The append of 60 samples with a gap: the first file is full and closed,
    the second one is open with 20 samples. *)
Definition example_appended : Digital_rf_write_object * World :=
  call_state_after (digital_rf_write_blocks_hdf5 example_channel example_world example_gap
                                                 (Some (example_buffer 60)) 60).

(** The same append when the second file cannot be created. *)
Definition example_faulty_world : World :=
  mk_World {[ "/data/ch0"%string ]} ∅ [false; false; false; false; true] [] 0.

Definition example_failed : Digital_rf_write_object * World :=
  call_state_after (digital_rf_write_blocks_hdf5 example_channel example_faulty_world example_gap
                                                 (Some (example_buffer 60)) 60).

(** The head of an iteration of the loop of a call that passes [n] samples
    without a gap from global index [g] on, with [sw] of them written:
    nothing overflows, the first iteration is not before the cursor, and a
    later one finds the cursor at [g + sw] and, when samples are left, no
    file open. *)
Definition continuous_loop (g n : Z) (o : Digital_rf_write_object) (w : World) (sw : Z) : Prop :=
  slice_ready o w /\ 0 <= sw <= n /\ 0 <= g
  /\ g + n + global_start_sample o < 2 ^ 64 /\ n + samples_per_file o < 2 ^ 64
  /\ (sw = 0 -> global_index o <= g)
  /\ (0 < sw -> global_index o = g + sw)
  /\ (0 < sw < n -> hdf5_file o = None).

(** The sample [x] is stored [d] samples after the in-file cursor of [o],
    the files counted as one sequence of rows: in the environment [w'] it
    is at row [(dataset_index + d) mod samples_per_file] of /rf_data of the
    file that comes [(dataset_index + d) / samples_per_file] files after the
    one [o] writes to.  That file is the file open in [o], or a file that
    does not exist in [w] and whose attribute sequence_num counts the files
    opened from [o] on. *)
Definition stored_after (o : Digital_rf_write_object) (w w' : World) (d : Z) (x : sample)
  : Prop :=
  let pos := dataset_index o + d in
  let file := pos / samples_per_file o in
  exists name f,
    w_files w' !! name = Some f
    /\ rf_data f !! Z.to_nat (pos mod samples_per_file o) = Some (Some x)
    /\ match hdf5_file o with
       | Some open =>
           if file =? 0 then name = open
           else w_files w !! name = None /\ attr_sequence_num f = present_seq o + file
       | None => w_files w !! name = None /\ attr_sequence_num f = present_seq o + file + 1
       end.

(** A buffer of 60 samples in two parts of 25 and 35, appended without a
    gap in one call. *)
Definition example_tail : list sample := map Z.of_nat (seq 25 35).

Definition example_joined : Digital_rf_write_object * World :=
  call_state_after (digital_rf_write_hdf5 example_channel example_world 0
                                          (Some (example_buffer 25 ++ example_tail)) 60).

(** A channel directory of 1005 characters, in five components of 200
    characters each, which a file system accepts: with the slash that
    [digital_rf_create_write_hdf5] appends and the 19 characters of the name
    of a subdirectory, the name of the subdirectory has 1025 characters. *)
Definition long_directory : string :=
  "/" +:+ String.concat "/" (replicate 5 (string_of_list_ascii (replicate 200 "d"%char))).

Definition long_channel : Digital_rf_write_object :=
  mk_obj (mk_config (long_directory +:+ "/") 0 1 1 "uuid" 40 10 139436823001 100%float 0
                    int16_le [0; 128] 0 1400000000)
         None 0 0 (-1) 0 0 None false 0.

Definition long_world : World :=
  mk_World {[ long_directory; long_directory +:+ "/2014-03-09T12:30:30" ]} ∅ [] [] 0.



(** The call continues the open file without a gap and a further pair of
    it lies in the rest of that file: the calls on which the index builder
    overruns its rows. *)
Definition overruns_index (o : Digital_rf_write_object) (idx : index_pairs) : Prop :=
  0 < dataset_index o /\ leading_global idx = global_index o
  /\ exists q, In q idx /\ 0 < snd q < samples_per_file o - dataset_index o.

(** ** Sanity checks of the C library model *)

Example gmtime_2014 :
  gmtime 1394368230 = Some (mk_tm 114 2 9 12 30 30).
Proof. reflexivity. Qed.

Example printf_timestamp :
  printf_011_3f (u64_to_double 139436823001 / 100)%float = "1394368230.010"%string
  /\ printf_011_3f 2.5%float = "0000002.500"%string
  /\ printf_0i 4 33 = "0033"%string.
Proof. vm_compute. repeat split. Qed.

Example get_unix_time_regression :
  digital_rf_get_unix_time 139436823001 100%float
  = Ret (Some (mk_unix_time 2014 3 9 12 30 30 (Some 10000000000))).
Proof. vm_compute. reflexivity. Qed.

(** ** Machine arithmetic *)

Lemma u64_small (z : Z) : 0 <= z < 2 ^ 64 -> u64 z = z.
Proof. intros H. unfold u64. now apply Z.mod_small. Qed.

Lemma u64_range (z : Z) : in_u64 (u64 z).
Proof. unfold in_u64, u64. apply Z.mod_pos_bound. lia. Qed.

Ltac u64_norm :=
  repeat match goal with
         | |- context [u64 ?z] => rewrite (u64_small z) by lia
         | H : context [u64 ?z] |- _ => rewrite (u64_small z) in H by lia
         end.

(** ** The index builder *)

Section IndexBuilder.
Variable o : Digital_rf_write_object.
Variable sw : Z.

Lemma index_sanity_pair_ok (i : Z) (prev : option (Z * Z)) (p : Z * Z) :
  index_sanity i prev p = None <-> pair_ok prev p = true.
Proof.
  unfold index_sanity, pair_ok. destruct prev as [q|]; [|tauto].
  destruct (Z.leb_spec (snd p) (snd q)), (Z.ltb_spec (snd q) (snd p));
    try lia; simpl; try (split; congruence).
  destruct (Z.ltb_spec (u64 (fst p - fst q)) (u64 (snd p - snd q))),
           (Z.leb_spec (u64 (snd p - snd q)) (u64 (fst p - fst q)));
    try lia; split; congruence.
Qed.

Lemma index_sanity_malformed (i : Z) (prev : option (Z * Z)) (p : Z * Z) (d : diag) :
  index_sanity i prev p = Some d -> index_malformed d = true.
Proof.
  unfold index_sanity. destruct prev as [q|]; [|discriminate].
  destruct (snd p <=? snd q); [intros [= <-]; reflexivity|].
  destruct (u64 (fst p - fst q) <? u64 (snd p - snd q)); [intros [= <-]; reflexivity|discriminate].
Qed.

Lemma first_pass_ok (l : index_pairs) :
  forall i prev found n,
    index_ok prev l = true ->
    index_first_pass o sw i prev l found n
    = inr (found || first_found sw l, (n + length (emitted o sw l))%nat).
Proof.
  induction l as [|p l IH]; intros i prev found n Hok; simpl.
  - now rewrite orb_false_r, Nat.add_0_r.
  - simpl in Hok. apply andb_true_iff in Hok as [Hp Hl].
    apply (index_sanity_pair_ok i) in Hp. rewrite Hp.
    rewrite IH by assumption. unfold emitted, emit. simpl.
    unfold first_index.
    destruct (snd p =? sw); destruct found; simpl;
      destruct (in_file o sw p && negb (no_gap o sw p)); simpl;
      f_equal; f_equal; lia.
Qed.

Lemma first_pass_error (l : index_pairs) :
  forall i prev found n,
    index_ok prev l = false ->
    exists d, index_first_pass o sw i prev l found n = inl d /\ index_malformed d = true.
Proof.
  induction l as [|p l IH]; intros i prev found n Hok; simpl in *; [discriminate|].
  destruct (index_sanity i prev p) as [d|] eqn:Hs.
  - exists d. split; [reflexivity|]. eapply index_sanity_malformed; eassumption.
  - apply index_sanity_pair_ok in Hs. rewrite Hs in Hok. simpl in Hok. now apply IH.
Qed.

Lemma store_row_app (pre junk : list (Z * Z)) (row : Z * Z) :
  store_row (length pre) row (pre ++ junk)
  = match junk with
    | [] => Undef
    | _ :: junk' => Ret (pre ++ row :: junk')
    end.
Proof.
  unfold store_row. rewrite length_app. destruct junk as [|j junk']; simpl.
  - rewrite bool_decide_eq_false_2 by lia. reflexivity.
  - rewrite bool_decide_eq_true_2 by lia.
    rewrite insert_app_r_alt by lia. now rewrite Nat.sub_diag.
Qed.

Lemma emitted_cons (p : Z * Z) (l : index_pairs) :
  emitted o sw (p :: l) = if emit o sw p then p :: emitted o sw l else emitted o sw l.
Proof. reflexivity. Qed.

Lemma emit_not_first (p : Z * Z) : snd p <> sw -> emit o sw p = in_file o sw p.
Proof.
  intros Hne. unfold emit, no_gap, first_index.
  destruct (Z.eqb_spec (snd p) sw); [contradiction|]. simpl. apply andb_true_r.
Qed.

(** Once a row is written, every later pair that is emitted is appended. *)
Lemma second_pass_append (l : index_pairs) :
  forall i pre junk,
    (0 < length pre)%nat ->
    Forall (fun p => snd p <> sw) l ->
    index_second_pass o sw i l (pre ++ junk) (length pre)
    = let rows := map (index_row o sw) (emitted o sw l) in
      if bool_decide (length rows <= length junk)%nat
      then Ret (pre ++ rows ++ drop (length rows) junk, (length pre + length rows)%nat)
      else Undef.
Proof.
  induction l as [|p l IH]; intros i pre junk Hpre Hne; cbn [index_second_pass].
  - cbn. rewrite bool_decide_eq_true_2 by lia. now rewrite drop_0, Nat.add_0_r.
  - apply Forall_cons in Hne as [Hp Hl].
    rewrite emitted_cons, (emit_not_first p Hp).
    assert (Hgap : no_gap o sw p = false).
    { unfold no_gap, first_index. destruct (Z.eqb_spec (snd p) sw); [contradiction|reflexivity]. }
    rewrite Hgap. destruct (in_file o sw p) eqn:Hin; [|now apply IH].
    unfold first_index. destruct (Z.eqb_spec (snd p) sw) as [|_]; [contradiction|].
    destruct (length pre) as [|k] eqn:Hlen; [lia|]. rewrite <- Hlen. cbn [bind].
    rewrite store_row_app. destruct junk as [|j junk']; cbn [bind].
    + cbn. reflexivity.
    + replace (pre ++ index_row o sw p :: junk') with ((pre ++ [index_row o sw p]) ++ junk')
        by now rewrite <- app_assoc.
      replace (S (length pre)) with (length (pre ++ [index_row o sw p]))
        by (rewrite length_app; simpl; lia).
      rewrite IH by (try rewrite length_app; simpl; try lia; assumption).
      cbv zeta. cbn [map length]. rewrite length_app. cbn [length drop].
      destruct (bool_decide (length (map (index_row o sw) (emitted o sw l)) <= length junk')%nat)
        eqn:Hfit.
      * apply bool_decide_eq_true in Hfit. rewrite bool_decide_eq_true_2 by lia.
        rewrite <- app_assoc. cbn [app]. do 2 f_equal. lia.
      * apply bool_decide_eq_false in Hfit. rewrite bool_decide_eq_false_2 by lia. reflexivity.
Qed.

Lemma index_ok_above (l : index_pairs) :
  forall p, index_ok (Some p) l = true -> Forall (fun q => snd p < snd q) l.
Proof.
  induction l as [|q l IH]; intros p Hok; [constructor|].
  cbn in Hok. apply andb_true_iff in Hok as [Hq Hl].
  apply andb_true_iff in Hq as [Hlt _]. apply Z.ltb_lt in Hlt.
  constructor; [assumption|].
  eapply Forall_impl; [apply IH, Hl|]. cbn. intros; lia.
Qed.

(** Before any row is written: the first emitted pair decides whether the
    boundary row goes in front. *)
Lemma second_pass_start (l : index_pairs) :
  forall i prev arr,
    0 <= i ->
    (i = 0 -> match l with
              | p :: _ => in_file o sw p = true -> snd p = sw
              | [] => True
              end) ->
    index_ok prev l = true ->
    index_second_pass o sw i l arr 0
    = match emitted o sw l with
      | [] => Ret (arr, 0%nat)
      | p :: rest =>
          let rows := (if snd p =? sw then [] else [boundary_row o])
                      ++ map (index_row o sw) (p :: rest) in
          if bool_decide (length rows <= length arr)%nat
          then Ret (rows ++ drop (length rows) arr, length rows)
          else Undef
      end.
Proof.
  induction l as [|p l IH]; intros i prev arr Hi Hi0 Hok; cbn [index_second_pass].
  - reflexivity.
  - cbn [index_ok] in Hok. apply andb_true_iff in Hok as [_ Hl].
    rewrite emitted_cons. unfold emit at 1.
    destruct (no_gap o sw p) eqn:Hgap.
    { rewrite andb_false_r. apply (IH (i + 1) (Some p)); [lia|lia|assumption]. }
    destruct (in_file o sw p) eqn:Hin; cbn [andb negb];
      [|apply (IH (i + 1) (Some p)); [lia|lia|assumption]].
    pose proof (index_ok_above l p Hl) as Habove.
    unfold first_index. destruct (Z.eqb_spec (snd p) sw) as [Heq|Hne].
    + change arr with ([] ++ arr) at 1. change 0%nat with (length (@nil (Z * Z))) at 1.
      rewrite store_row_app. destruct arr as [|a arr']; cbn [bind]; [reflexivity|].
      rewrite app_nil_l.
      change (index_row o sw p :: arr') with ([index_row o sw p] ++ arr').
      change 1%nat with (length [index_row o sw p]).
      rewrite second_pass_append;
        [|cbn; lia|eapply Forall_impl; [exact Habove|cbn; intros; lia]].
      cbv zeta. cbn [app map length drop].
      destruct (bool_decide (length (map (index_row o sw) (emitted o sw l)) <= length arr')%nat)
        eqn:Hfit.
      * apply bool_decide_eq_true in Hfit. rewrite bool_decide_eq_true_2 by lia. reflexivity.
      * apply bool_decide_eq_false in Hfit. rewrite bool_decide_eq_false_2 by lia. reflexivity.
    + destruct (Z.eqb_spec i 0) as [Hz|_]; [exfalso; apply Hne, Hi0; auto|].
      assert (Hfirst : sw <= snd p).
      { unfold in_file, first_index in Hin. apply andb_true_iff in Hin as [H1 _].
        now apply Z.leb_le in H1. }
      change arr with ([] ++ arr) at 1. change 0%nat with (length (@nil (Z * Z))) at 1.
      rewrite store_row_app. destruct arr as [|a arr']; cbn [bind]; [reflexivity|].
      rewrite app_nil_l.
      change (boundary_row o :: arr') with ([boundary_row o] ++ arr').
      change 1%nat with (length [boundary_row o]).
      rewrite store_row_app. destruct arr' as [|b arr'']; cbn [bind]; [reflexivity|].
      change ([boundary_row o] ++ index_row o sw p :: arr'')
        with ([boundary_row o; index_row o sw p] ++ arr'').
      change (S (length [boundary_row o])) with (length [boundary_row o; index_row o sw p]).
      rewrite second_pass_append;
        [|cbn; lia|eapply Forall_impl; [exact Habove|cbn; intros; lia]].
      cbv zeta. cbn [app map length drop].
      destruct (bool_decide (length (map (index_row o sw) (emitted o sw l)) <= length arr'')%nat)
        eqn:Hfit.
      * apply bool_decide_eq_true in Hfit. rewrite bool_decide_eq_true_2 by lia. reflexivity.
      * apply bool_decide_eq_false in Hfit. rewrite bool_decide_eq_false_2 by lia. reflexivity.
Qed.

Lemma first_found_emitted (l : index_pairs) (p : Z * Z) :
  In p (emitted o sw l) -> snd p = sw -> first_found sw l = true.
Proof.
  intros Hin Heq. apply filter_In in Hin as [Hin _].
  apply existsb_exists. exists p. split; [assumption|]. now apply Z.eqb_eq.
Qed.

(** The index builder on arrays that pass its checks. *)
Lemma create_rf_data_index_spec (idx : index_pairs) :
  0 <= sw ->
  match idx with
  | p0 :: _ => snd p0 = 0 /\ (sw = 0 -> global_index o <= fst p0)
  | [] => False
  end ->
  index_ok None idx = true ->
  digital_rf_create_rf_data_index o sw idx = index_rows o sw idx.
Proof.
  intros Hsw Hhead Hok. destruct idx as [|p0 rest]; [contradiction|].
  destruct Hhead as [Hd0 Hg0].
  unfold digital_rf_create_rf_data_index. cbv zeta.
  rewrite first_pass_ok by assumption. cbn [orb Nat.add].
  assert (Hbefore : forall X : outcome (diag + list (Z * Z)),
             (if sw =? 0 then
                if fst p0 <? global_index o
                then Ret (inl (GlobalBeforeMinimum (fst p0) (global_index o))) else X
              else X) = X).
  { intros X. destruct (Z.eqb_spec sw 0); [|reflexivity].
    destruct (Z.ltb_spec (fst p0) (global_index o)); [|reflexivity]. specialize (Hg0 e). lia. }
  rewrite Hbefore. clear Hbefore.
  unfold index_rows.
  set (E := emitted o sw (p0 :: rest)) in *.
  set (F := first_found sw (p0 :: rest)) in *.
  assert (Hstart := second_pass_start (p0 :: rest) 0 None).
  fold E in Hstart.
  assert (Hhd : 0 = 0 -> in_file o sw p0 = true -> snd p0 = sw).
  { intros _ Hin. unfold in_file, first_index in Hin.
    apply andb_true_iff in Hin as [H1 _]. apply Z.leb_le in H1. lia. }
  destruct E as [|p E'] eqn:HE.
  - destruct F; cbn [length]; [reflexivity|].
    rewrite Hstart by (assumption || lia). cbn. reflexivity.
  - assert (HF : snd p = sw -> F = true).
    { intros Heq. apply (first_found_emitted (p0 :: rest) p); [|assumption].
      fold E. rewrite HE. now left. }
    destruct (Z.eqb_spec (snd p) sw) as [Heq|Hne].
    + rewrite (HF Heq). cbn [length].
      rewrite Hstart by (assumption || lia).
      destruct (Z.eqb_spec (snd p) sw) as [_|]; [|contradiction].
      cbv zeta. rewrite app_nil_l, length_map, length_replicate. cbn [length].
      rewrite bool_decide_eq_true_2 by lia. cbn [bind].
      rewrite bool_decide_eq_true_2 by reflexivity.
      rewrite drop_ge by (rewrite length_replicate; lia). now rewrite app_nil_r.
    + destruct F; cbn [length]; rewrite Hstart by (assumption || lia);
        destruct (Z.eqb_spec (snd p) sw) as [|_]; try contradiction;
        cbv zeta; cbn [app length]; rewrite length_map, length_replicate; cbn [length].
      * rewrite bool_decide_eq_false_2 by lia. reflexivity.
      * rewrite bool_decide_eq_true_2 by lia. cbn [bind].
        rewrite bool_decide_eq_true_2 by reflexivity.
        rewrite drop_ge by (rewrite length_replicate; cbn; lia). now rewrite app_nil_r.
Qed.

End IndexBuilder.

(** ** Strings in arrays *)

Lemma strcpy_ret (size : nat) (src s : string) :
  strcpy size src = Ret s -> s = src /\ (String.length src < size)%nat.
Proof.
  unfold strcpy. destruct (Nat.ltb_spec (String.length src) size); [|discriminate].
  intros [= <-]. auto.
Qed.

Lemma strcat_ret (size : nat) (dest src s : string) :
  strcat size dest src = Ret s ->
  s = dest +:+ src /\ (String.length (dest +:+ src) < size)%nat.
Proof.
  unfold strcat. destruct (Nat.ltb_spec (String.length (dest +:+ src)) size); [|discriminate].
  intros [= <-]. auto.
Qed.

Lemma sprintf_ret (size : nat) (text s : string) :
  sprintf size text = Ret s -> s = text /\ (String.length text < size)%nat.
Proof.
  unfold sprintf. destruct (Nat.ltb_spec (String.length text) size); [|discriminate].
  intros [= <-]. auto.
Qed.

Lemma string_app_assoc (a b c : string) : (a +:+ b) +:+ c = a +:+ (b +:+ c).
Proof.
  induction a as [|x a IH]; [reflexivity|].
  change (String x ((a +:+ b) +:+ c) = String x (a +:+ (b +:+ c))). now rewrite IH.
Qed.

Lemma string_app_length (a b : string) :
  String.length (a +:+ b) = (String.length a + String.length b)%nat.
Proof.
  induction a as [|x a IH]; [reflexivity|].
  change (S (String.length (a +:+ b)) = S (String.length a + String.length b)).
  now rewrite IH.
Qed.

(** The writes into arrays at the head of a run that returns. *)
Ltac string_steps H :=
  repeat (cbn [bind] in H;
          lazymatch type of H with
          | bind (strcpy ?n ?s) _ = _ =>
              let E := fresh "Hfit" in
              let x := fresh "str" in
              destruct (strcpy n s) as [x|] eqn:E;
              [apply strcpy_ret in E as [-> E]|cbn [bind] in H; discriminate H]
          | bind (strcat ?n ?d ?s) _ = _ =>
              let E := fresh "Hfit" in
              let x := fresh "str" in
              destruct (strcat n d s) as [x|] eqn:E;
              [apply strcat_ret in E as [-> E]|cbn [bind] in H; discriminate H]
          | bind (sprintf ?n ?s) _ = _ =>
              let E := fresh "Hfit" in
              let x := fresh "str" in
              destruct (sprintf n s) as [x|] eqn:E;
              [apply sprintf_ret in E as [-> E]|cbn [bind] in H; discriminate H]
          end);
  cbn [bind] in H; rewrite ?string_app_assoc in H.

(** ** The environment *)

Lemma next_fault_frame (w w1 : World) (b : bool) :
  next_fault w = (b, w1) ->
  w_dirs w1 = w_dirs w /\ w_files w1 = w_files w /\ w_stderr w1 = w_stderr w.
Proof.
  unfold next_fault. destruct (w_faults w); intros [= <- <-]; cbn; auto.
Qed.

Lemma quiet_same (w w' : World) : w_stderr w' = w_stderr w -> quiet w w'.
Proof. intros H. exists []. rewrite H, app_nil_r. split; [reflexivity|constructor]. Qed.

Lemma quiet_trans (w1 w2 w3 : World) : quiet w1 w2 -> quiet w2 w3 -> quiet w1 w3.
Proof.
  intros (d1 & H1 & F1) (d2 & H2 & F2). exists (d1 ++ d2).
  rewrite H2, H1, app_assoc. split; [reflexivity|]. now apply Forall_app.
Qed.

Lemma quiet_log (w w' : World) (d : diag) :
  index_malformed d = false -> quiet w w' -> quiet w (log d w').
Proof.
  intros Hd (ds & H & F). exists (ds ++ [d]). cbn. rewrite H, app_assoc.
  split; [reflexivity|]. apply Forall_app. split; [assumption|]. now repeat constructor.
Qed.

Lemma quiet_next_fault (w w1 : World) (b : bool) : next_fault w = (b, w1) -> quiet w w1.
Proof. intros H. apply quiet_same. apply (next_fault_frame _ _ _ H). Qed.

Create HintDb digital_rf.
#[local] Hint Resolve quiet_same quiet_log quiet_next_fault : digital_rf.

(** ** Opening a file *)

Ltac break_run H :=
  repeat (cbn [bind] in H;
          match type of H with
          | context [match ?x with _ => _ end] =>
              lazymatch x with
              | next_fault _ => let b := fresh "fault" in let w := fresh "w" in
                                let E := fresh "Hfault" in destruct x as [b w] eqn:E
              | _ => let E := fresh "Hcase" in destruct x eqn:E
              end
          | Ret _ = Ret _ => injection H as H; subst
          | Undef = Ret _ => discriminate H
          | Ret _ = Undef => discriminate H
          | (_, _) = (_, _) => injection H; clear H; intros; subst
          end).

Lemma create_new_directory_inv (o o' : Digital_rf_write_object) (w w' : World) (g c : Z) :
  digital_rf_create_new_directory o w g = Ret (c, o', w') ->
  w_files w' = w_files w /\ quiet w w' /\
  ((c = -1 /\ o' = o /\ w_dirs w' = w_dirs w)
   \/ (exists t, c = 0
         /\ digital_rf_get_unix_time (u64 (g + global_start_sample o)) (sample_rate o) = Ret (Some t)
         /\ ((directory o +:+ sub_directory_name t) ∉ w_dirs w)
         /\ o' = set_sub_directory (Some (sub_directory_name t +:+ "/")) o
         /\ w_dirs w' = {[ directory o +:+ sub_directory_name t ]} ∪ w_dirs w
         /\ w_stderr w' = w_stderr w)).
Proof.
  unfold digital_rf_create_new_directory. intros H.
  destruct (digital_rf_get_unix_time _ _) as [[t|]|] eqn:Ht; try discriminate.
  - string_steps H.
    destruct (next_fault w) as [fault w1] eqn:Hf.
    destruct (next_fault_frame _ _ _ Hf) as (Hd & Hfi & He).
    destruct (fault || bool_decide ((directory o +:+ sub_directory_name t) ∈ w_dirs w1)) eqn:Hc;
      injection H as <- <- <-; cbn.
    + split; [assumption|]. split; [eauto with digital_rf|]. left. auto.
    + split; [assumption|]. split; [eauto with digital_rf|]. right. exists t.
      apply orb_false_iff in Hc as [_ Hc]. apply bool_decide_eq_false in Hc.
      rewrite Hd in *. auto 10.
  - injection H as <- <- <-. split; [reflexivity|]. split; [eauto with digital_rf|]. left. auto.
Qed.

(** The timestamp in the name of the file opened at [next_global_sample]. *)
Lemma create_hdf5_file_inv (o o' : Digital_rf_write_object) (w w' : World) (g c : Z) :
  digital_rf_create_hdf5_file o w g = Ret (c, o', w') ->
  let seq := present_seq o + 1 in
  let new_dir := u64 seq mod files_per_directory o =? 0 in
  present_seq o' = seq /\ config o' = config o /\ global_index o' = global_index o
  /\ index_dataset o' = index_dataset o /\ next_index_avail o' = next_index_avail o
  /\ chunk_size o' = chunk_size o /\ quiet w w'
  /\ ((c = -1 /\ dataset_index o' = dataset_index o /\ dataset_avail o' = dataset_avail o
       /\ w_files w' = w_files w /\ (hdf5_file o' = hdf5_file o \/ hdf5_file o' = None))
      \/ (c = 0 /\ w_stderr w' = w_stderr w /\ dataset_index o' = 0
          /\ dataset_avail o' = samples_per_file o
          /\ (if new_dir
              then exists t,
                  digital_rf_get_unix_time (u64 (g + global_start_sample o)) (sample_rate o)
                  = Ret (Some t)
                  /\ ((directory o +:+ sub_directory_name t) ∉ w_dirs w)
                  /\ w_dirs w' = {[ directory o +:+ sub_directory_name t ]} ∪ w_dirs w
                  /\ sub_directory o' = Some (sub_directory_name t +:+ "/")
              else w_dirs w' = w_dirs w /\ sub_directory o' = sub_directory o)
          /\ exists sub,
              sub_directory o' = Some sub
              /\ let name := directory o +:+ sub
                             +:+ file_basename (u64_to_double (u64 (g + global_start_sample o))
                                                / sample_rate o)%float in
                 hdf5_file o' = Some name /\ w_files w !! name = None
                 /\ w_files w' = <[name := new_file o']> (w_files w))).
Proof.
  unfold digital_rf_create_hdf5_file. intros H. cbv zeta.
  destruct (2 ^ 31 - 1 <=? present_seq o); [discriminate|].
  destruct (files_per_directory o =? 0); [discriminate|].
  set (o1 := set_present_seq (present_seq o + 1) o) in *.
  set (w0 := if marching_dots o =? 0 then w else print_dot w) in *.
  assert (Hw0 : w_dirs w0 = w_dirs w /\ w_files w0 = w_files w /\ w_stderr w0 = w_stderr w).
  { subst w0. destruct (marching_dots o =? 0); cbn; auto. }
  destruct Hw0 as (Hd0 & Hf0 & He0).
  change (present_seq o1) with (present_seq o + 1) in H.
  change (files_per_directory o1) with (files_per_directory o) in H.
  destruct (u64 (present_seq o + 1) mod files_per_directory o =? 0) eqn:Hmod.
  - destruct (digital_rf_create_new_directory o1 w0 g) as [[[c2 o2] w2]|] eqn:Hdir;
      [|discriminate].
    apply create_new_directory_inv in Hdir as (Hfiles & Hq & Hdir). cbn [bind] in H.
    assert (Hq0 : quiet w w2).
    { destruct Hq as (ds & Hs & Hds). exists ds. now rewrite Hs, He0. }
    destruct Hdir as [(-> & -> & Hdirs)|(t & -> & Ht & Hnew & -> & Hdirs & Herr)].
    + injection H as <- <- <-. cbn. repeat split; auto.
      left. repeat split; auto. congruence.
    + cbn [Z.eqb sub_directory set_sub_directory] in H. string_steps H.
      destruct (next_fault w2) as [fault w3] eqn:Hfault.
      destruct (next_fault_frame _ _ _ Hfault) as (Hd3 & Hf3 & He3).
      match type of H with (if ?b then _ else _) = _ => destruct b eqn:Hex end;
        string_steps H; injection H as <- <- <-; cbn;
        rewrite ?string_app_assoc in *.
      * repeat split; auto.
        { apply quiet_log; [reflexivity|]. eapply quiet_trans; eauto with digital_rf. }
        left. repeat split; auto. congruence.
      * apply orb_false_iff in Hex as [_ Hex]. apply bool_decide_eq_false in Hex.
        apply not_elem_of_dom in Hex. rewrite Hf3, Hfiles, Hf0 in *.
        repeat split; auto.
        { eapply quiet_trans; eauto with digital_rf. }
        right. repeat split; auto; try congruence.
        -- exists t. cbn in Ht, Hnew. rewrite Hd0 in *. rewrite Hd3. repeat split; auto.
        -- eexists. split; [reflexivity|]. cbn. rewrite ?string_app_assoc.
           cbn [directory config set_sub_directory] in Hex. repeat split; auto.
  - cbn [bind] in H. rewrite Z.eqb_refl in H. cbn [negb] in H.
    destruct (sub_directory o1) as [sub|] eqn:Hsub; [|discriminate].
    string_steps H.
    destruct (next_fault w0) as [fault w3] eqn:Hfault.
    destruct (next_fault_frame _ _ _ Hfault) as (Hd3 & Hf3 & He3).
    match type of H with (if ?b then _ else _) = _ => destruct b eqn:Hex end;
      string_steps H; injection H as <- <- <-; cbn;
      rewrite ?string_app_assoc in *.
    + repeat split; auto.
      { apply quiet_log; [reflexivity|]. apply quiet_same. congruence. }
      left. repeat split; auto. congruence.
    + apply orb_false_iff in Hex as [_ Hex]. apply bool_decide_eq_false in Hex.
      apply not_elem_of_dom in Hex. rewrite Hf3, Hf0 in *.
      repeat split; auto; try congruence.
      { apply quiet_same. cbn. congruence. }
      right. repeat split; auto; try congruence.
      exists sub. split; [assumption|]. cbn. repeat split; auto.
Qed.

(** ** Writing one slice *)

Lemma H5Dwrite_rf_data_stderr (o : Digital_rf_write_object) (w w2 : World)
      (data : list sample) (b : bool) :
  H5Dwrite_rf_data o w data = (b, w2) -> w_stderr w2 = w_stderr w /\ w_dirs w2 = w_dirs w.
Proof.
  unfold H5Dwrite_rf_data. destruct (next_fault w) as [fault w1] eqn:Hf.
  destruct (next_fault_frame _ _ _ Hf) as (Hd & _ & He).
  destruct (hdf5_file o); [|intros [= <- <-]; auto].
  destruct (w_files w1 !! s); [|intros [= <- <-]; auto].
  destruct (write_hyperslab _ _ _); [|intros [= <- <-]; auto].
  destruct fault; intros [= <- <-]; auto.
Qed.

Lemma H5Dwrite_rf_data_inv (o : Digital_rf_write_object) (w w2 : World) (data : list sample) :
  H5Dwrite_rf_data o w data = (true, w2) ->
  exists name f rows,
    hdf5_file o = Some name /\ w_files w !! name = Some f
    /\ write_hyperslab (dataset_index o) data (rf_data f) = Some rows
    /\ w_files w2 = <[name := set_rf_data rows f]> (w_files w).
Proof.
  unfold H5Dwrite_rf_data. destruct (next_fault w) as [fault w1] eqn:Hf.
  destruct (next_fault_frame _ _ _ Hf) as (_ & Hfi & _).
  destruct (hdf5_file o) as [name|]; [|discriminate].
  destruct (w_files w1 !! name) as [f|] eqn:Hl; [|discriminate].
  destruct (write_hyperslab _ _ _) as [rows|] eqn:Hh; [|discriminate].
  destruct fault; [discriminate|]. intros [= <-]. cbn.
  exists name, f, rows. rewrite <- Hfi. auto.
Qed.

Lemma write_rf_data_index_inv (o o2 : Digital_rf_write_object) (w w3 : World)
      (rows : list (Z * Z)) (status : Z) :
  digital_rf_write_rf_data_index o w rows = (status, o2, w3) ->
  w_stderr w3 = w_stderr w /\ w_dirs w3 = w_dirs w /\ config o2 = config o
  /\ global_index o2 = global_index o /\ dataset_index o2 = dataset_index o
  /\ dataset_avail o2 = dataset_avail o /\ hdf5_file o2 = hdf5_file o
  /\ present_seq o2 = present_seq o
  /\ (status = 0 ->
      exists name, hdf5_file o = Some name
        /\ w_files w3
           = alter (fun f =>
                      set_rf_data_index
                        (if index_dataset o
                         then resize (Z.to_nat (next_index_avail o)) (0, 0) (rf_data_index f) ++ rows
                         else rows) f) name (w_files w)).
Proof.
  unfold digital_rf_write_rf_data_index. destruct (next_fault w) as [fault w1] eqn:Hf.
  destruct (next_fault_frame _ _ _ Hf) as (Hd & Hfi & He).
  destruct (hdf5_file o) as [name|] eqn:Hname.
  - destruct (index_dataset o), fault; intros [= <- <- <-]; cbn;
      repeat split; auto; try discriminate; intros _; exists name; rewrite Hfi; auto.
  - intros [= <- <- <-]. repeat split; auto. discriminate.
Qed.

Lemma create_index_diag (o : Digital_rf_write_object) (sw : Z) (idx : index_pairs) (d : diag) :
  index_ok None idx = true ->
  digital_rf_create_rf_data_index o sw idx = Ret (inl d) -> index_malformed d = false.
Proof.
  intros Hok. unfold digital_rf_create_rf_data_index. cbv zeta.
  rewrite first_pass_ok by assumption.
  set (build := match (if (false || first_found sw idx)%bool then _ else _) with
                | O => _ | S _ => _ end).
  assert (Hbuild : build <> Ret (inl d)).
  { subst build. destruct (if (false || first_found sw idx)%bool then _ else _); [discriminate|].
    destruct (index_second_pass _ _ _ _ _ _) as [[a rw]|]; [|discriminate]. cbn [bind].
    destruct rw as [|rw].
    - destruct (store_row 0 (boundary_row o) a); [|discriminate]. cbn [bind].
      destruct (bool_decide _); discriminate.
    - cbn [bind]. destruct (bool_decide _); discriminate. }
  destruct (sw =? 0); [|intros H; contradiction].
  destruct idx as [|p0 rest]; [discriminate|].
  destruct (fst p0 <? global_index o); [intros [= <-]; reflexivity|intros H; contradiction].
Qed.

(** A slice that returns a non-zero count went through every step. *)
Lemma write_samples_to_file_inv (o o' : Digital_rf_write_object) (w w' : World)
      (sw : Z) (idx : index_pairs) (vec : list sample) (n r : Z) :
  digital_rf_write_samples_to_file o w sw idx vec n = Ret (r, o', w') ->
  r <> 0 ->
  exists rows o1 w1 w2 o2,
    match idx with
    | p0 :: _ => snd p0 = 0
    | [] => False
    end
    /\ digital_rf_create_rf_data_index o sw idx = Ret (inr rows)
    /\ open_file_if_needed o w sw idx = Ret (0, o1, w1)
    /\ r = samples_to_write o1 sw n
    /\ H5Dwrite_rf_data o1 w1 (take (Z.to_nat r) (drop (Z.to_nat sw) vec)) = (true, w2)
    /\ match rows with
       | [] => (0, o1, w2)
       | _ => digital_rf_write_rf_data_index o1 w2 rows
       end = (0, o2, w')
    /\ o' = close_if_full (advance_state o2 rows r)
    /\ dataset_index (advance_state o2 rows r) <= samples_per_file o2.
Proof.
  unfold digital_rf_write_samples_to_file. intros H Hr.
  destruct idx as [|[g0 d0] rest]; [injection H as <- _ _; contradiction|].
  destruct (Z.eqb_spec d0 0) as [->|]; cbn [negb] in H;
    [|injection H as <- _ _; contradiction].
  destruct (digital_rf_create_rf_data_index o sw ((g0, 0) :: rest)) as [[d|rows]|] eqn:Hidx;
    cbn [bind] in H; try discriminate; [injection H as <- _ _; contradiction|].
  destruct (open_file_if_needed o w sw ((g0, 0) :: rest)) as [[[result o1] w1]|] eqn:Hopen;
    cbn [bind] in H; [|discriminate].
  destruct (Z.eqb_spec result 0) as [->|]; cbn [negb] in H;
    [|injection H as <- _ _; contradiction].
  destruct (Z.of_nat (length vec) <? sw + samples_to_write o1 sw n); [discriminate|].
  destruct (H5Dwrite_rf_data o1 w1 _) as [written w2] eqn:Hwrite.
  destruct written; cbn [negb] in H; [|injection H as <- _ _; contradiction].
  destruct (match rows with [] => _ | _ :: _ => _ end) as [[status o2] w3] eqn:Hindex.
  destruct (Z.eqb_spec status 0) as [->|]; cbn [negb] in H;
    [|injection H as <- _ _; contradiction].
  destruct (samples_per_file _ <? dataset_index _) eqn:Hfull; [discriminate|].
  injection H as <- <- <-.
  exists rows, o1, w1, w2, o2. apply Z.ltb_ge in Hfull.
  repeat split; auto.
Qed.

(** ** The contract of the index arrays *)

Lemma advancing_index_ok (rest : index_pairs) :
  forall p,
    in_u64 (fst p) -> in_u64 (snd p) ->
    Forall (fun q => in_u64 (fst q) /\ in_u64 (snd q)) rest ->
    advancing_from p rest -> index_ok (Some p) rest = true.
Proof.
  unfold in_u64.
  induction rest as [|q rest IH]; intros p Hg Hb Hall Hadv; [reflexivity|].
  apply Forall_cons in Hall as [[Hgq Hbq] Hall]. destruct Hadv as (Hlt & Hle & Hadv).
  cbn [index_ok pair_ok]. rewrite IH by assumption. rewrite andb_true_r.
  rewrite !u64_small by lia.
  apply andb_true_iff. split; [apply Z.ltb_lt|apply Z.leb_le]; lia.
Qed.

Lemma contract_index_ok (idx : index_pairs) :
  index_contract idx -> pairs_u64 idx -> index_ok None idx = true.
Proof.
  destruct idx as [|p rest]; [contradiction|]. intros [_ Hadv] Hall.
  apply Forall_cons in Hall as [[Hg Hb] Hall]. cbn [index_ok pair_ok andb].
  now apply advancing_index_ok.
Qed.

Lemma advancing_monotone (rest : index_pairs) :
  forall p, advancing_from p rest -> Forall (fun q => fst p <= fst q /\ snd p < snd q) rest.
Proof.
  induction rest as [|q rest IH]; intros p Hadv; [constructor|].
  destruct Hadv as (Hlt & Hle & Hadv). constructor; [lia|].
  eapply Forall_impl; [apply IH, Hadv|]. cbn. intros; lia.
Qed.

Lemma call_in_range_u64 (c : channel_config) (idx : index_pairs) (n : Z) :
  0 <= global_start_sample c -> call_in_range c idx n -> pairs_u64 idx.
Proof.
  intros Hs [_ Hall]. eapply Forall_impl; [exact Hall|]. unfold in_u64. cbn. intros; lia.
Qed.

Lemma last_map_snoc {A B : Type} (f : A -> B) (l : list A) (x : A) :
  last (map f (l ++ [x])) = Some (f x).
Proof. rewrite map_app. cbn [map]. apply last_snoc. Qed.

Lemma contract_shape (idx : index_pairs) :
  index_contract idx ->
  exists p0 rest, idx = p0 :: rest /\ snd p0 = 0 /\ advancing_from p0 rest.
Proof.
  destruct idx as [|p0 rest]; [contradiction|]. intros [H0 Hadv]. exists p0, rest. auto.
Qed.

(** ** The rows of one slice and the cursor *)

Section SliceRows.
Variables (o : Digital_rf_write_object) (w : World).
Variables (idx : index_pairs) (n sw : Z).

Hypothesis Hready : slice_ready o w.
Hypothesis Hcontract : index_contract idx.
Hypothesis Hrange : call_in_range o idx n.
Hypothesis Hsw : 0 <= sw < n.
Hypothesis Hcursor : global_index o + (n - sw) + global_start_sample o < 2 ^ 64.
Hypothesis Hfirst : sw = 0 -> global_index o <= leading_global idx.
Hypothesis Hlater : 0 < sw -> leading_global idx <= global_index o /\ hdf5_file o = None.

Lemma cursor_room :
  0 <= dataset_index o /\ 1 <= samples_per_file o - dataset_index o
  /\ (hdf5_file o = None -> dataset_index o = 0)
  /\ (hdf5_file o <> None -> dataset_avail o = samples_per_file o - dataset_index o).
Proof using All.
  pose proof Hready as Hready'; destruct Hready' as ((_ & _ & _ & Hdi & Hav) & Hspf & Hfile). unfold in_u64 in *.
  destruct (hdf5_file o).
  - destruct Hfile as (H1 & H2 & _). repeat split; try lia; congruence.
  - destruct Hfile as (H1 & _). repeat split; try lia; congruence.
Qed.

Lemma end_index_room : end_index o sw = sw + (samples_per_file o - dataset_index o).
Proof using All.
  destruct cursor_room as (H0 & H1 & _). pose proof Hrange as Hrange'; destruct Hrange' as [Hn _].
  pose proof Hready as Hready'; destruct Hready' as ((Hspf & _) & _). unfold in_u64 in *.
  unfold end_index, first_index. u64_norm. lia.
Qed.

Lemma ready_index_ok : index_ok None idx = true.
Proof using All.
  apply contract_index_ok; [assumption|].
  pose proof Hready as Hready'; destruct Hready' as ((_ & Hs & _) & _). unfold in_u64 in Hs.
  eapply call_in_range_u64; [|exact Hrange]. lia.
Qed.

Lemma builder_is_index_rows :
  digital_rf_create_rf_data_index o sw idx = index_rows o sw idx.
Proof using All.
  apply create_rf_data_index_spec; [lia| |exact ready_index_ok].
  destruct (contract_shape idx Hcontract) as (p0 & rest & Hidx & H0 & _).
  pose proof Hfirst as Hf. rewrite Hidx in Hf |- *. split; [assumption|]. exact Hf.
Qed.

(** Every pair of the call, seen from the leading one. *)
Lemma pair_facts (q : Z * Z) :
  In q idx ->
  leading_global idx <= fst q /\ 0 <= fst q
  /\ fst q + n + global_start_sample o < 2 ^ 64 /\ 0 <= snd q < n.
Proof using All.
  intros Hin. pose proof Hrange as Hrange'; destruct Hrange' as [_ Hall].
  pose proof (proj1 (List.Forall_forall _ _) Hall q Hin) as (H1 & H2 & H3).
  repeat split; try lia.
  destruct (contract_shape idx Hcontract) as (p0 & rest & Hidx & _ & Hadv).
  rewrite Hidx in Hin |- *.
  cbn [leading_global]. destruct Hin as [<-|Hin]; [lia|].
  pose proof (proj1 (List.Forall_forall _ _) (advancing_monotone rest p0 Hadv) q Hin) as Hm.
  cbn in Hm. lia.
Qed.

Lemma first_found_at_start : sw = 0 -> first_found sw idx = true.
Proof using All.
  intros ->. destruct (contract_shape idx Hcontract) as (p0 & rest & Hidx & H0 & _).
  rewrite Hidx.
  cbn. rewrite H0. reflexivity.
Qed.

Lemma no_pair_cursor_zero : first_found sw idx = false -> dataset_index o = 0.
Proof using All.
  intros HF. destruct (Z.eq_dec sw 0) as [Hz|Hnz].
  - rewrite first_found_at_start in HF by assumption. discriminate.
  - destruct cursor_room as (_ & _ & Hnone & _). apply Hnone, Hlater. lia.
Qed.

(** With no row at all the call continues the previous one. *)
Lemma no_row_continues :
  emitted o sw idx = [] -> first_found sw idx = true -> leading_global idx <= global_index o.
Proof using All.
  intros HE HF. destruct (Z.eq_dec sw 0) as [Hz|Hnz]; [|apply Hlater; lia].
  pose proof Hfirst as Hf. pose proof end_index_room as Hend.
  destruct cursor_room as (Hdi & Hroom & _).
  destruct (contract_shape idx Hcontract) as (p0 & rest & Hidx & H0 & _).
  rewrite Hidx in Hf, HE |- *.
  cbn [leading_global] in *. unfold emitted in HE. cbn [List.filter] in HE.
  destruct (emit o sw p0) eqn:Hemit; [discriminate|].
  unfold emit, in_file, no_gap in Hemit. rewrite Hend in Hemit.
  unfold first_index in Hemit. rewrite H0, Hz in Hemit.
  destruct (Z.leb_spec 0 0); [|lia].
  destruct (Z.ltb_spec 0 (0 + (samples_per_file o - dataset_index o))); [|lia].
  cbn in Hemit. destruct (0 <? dataset_index o); cbn in Hemit; [|discriminate].
  destruct (Z.eqb_spec (global_index o) (fst p0)); [lia|discriminate].
Qed.

Lemma emitted_facts (q : Z * Z) :
  In q (emitted o sw idx) ->
  In q idx /\ sw <= snd q < sw + (samples_per_file o - dataset_index o)
  /\ index_row o sw q = (fst q + global_start_sample o, snd q + dataset_index o - sw).
Proof using All.
  intros Hin. apply filter_In in Hin as [Hin Hemit]. split; [assumption|].
  unfold emit, in_file in Hemit. apply andb_true_iff in Hemit as [Hfile _].
  rewrite end_index_room in Hfile. unfold first_index in Hfile.
  apply andb_true_iff in Hfile as [H1 H2]. apply Z.leb_le in H1. apply Z.ltb_lt in H2.
  split; [lia|]. destruct (pair_facts q Hin) as (_ & Hg & Hgn & Hb).
  destruct cursor_room as (Hdi & Hroom & _). pose proof Hrange as Hrange'; destruct Hrange' as [Hn _].
  pose proof Hready as Hready'; destruct Hready' as ((Hspf & Hs & _) & _). unfold in_u64 in *.
  unfold index_row. u64_norm. reflexivity.
Qed.

(** The shape of the rows of a slice: none, or a first row at the in-file
    cursor and a last row that stems from global index [g] at buffer
    position [b] of the slice. *)
Lemma rows_shape (rows : list (Z * Z)) :
  index_rows o sw idx = Ret (inr rows) ->
  (rows = [] /\ leading_global idx <= global_index o)
  \/ (exists first_row rest g b,
         rows = first_row :: rest /\ snd first_row = dataset_index o
         /\ last rows = Some (g + global_start_sample o, b + dataset_index o - sw)
         /\ sw <= b < sw + (samples_per_file o - dataset_index o) /\ b < n
         /\ leading_global idx <= g /\ 0 <= g
         /\ g + (n - b) + global_start_sample o < 2 ^ 64).
Proof using All.
  unfold index_rows. intros Hrows.
  destruct cursor_room as (Hdi & Hroom & _).
  pose proof Hready as Hready'; destruct Hready' as ((Hspf & Hs & Hgi & _) & _). unfold in_u64 in *.
  assert (Hboundary : first_found sw idx = false ->
            boundary_row o = (global_index o + global_start_sample o,
                              sw + dataset_index o - sw)
            /\ leading_global idx <= global_index o).
  { intros HF. pose proof (no_pair_cursor_zero HF) as Hz.
    unfold boundary_row. u64_norm. split; [f_equal; lia|].
    apply Hlater. destruct (Z.eq_dec sw 0) as [Hsw0|]; [|lia].
    rewrite first_found_at_start in HF by assumption. discriminate. }
  destruct (emitted o sw idx) as [|p E'] eqn:HE.
  - destruct (first_found sw idx) eqn:HF; injection Hrows as <-.
    + left. split; [reflexivity|]. now apply no_row_continues.
    + right. destruct (Hboundary eq_refl) as [Hb Hle].
      exists (boundary_row o), [], (global_index o), sw.
      split; [reflexivity|]. split; [rewrite Hb; cbn; lia|].
      split; [cbn [last]; rewrite Hb; reflexivity|]. repeat split; lia.
  - right. destruct (exists_last (l := p :: E')) as (L & q & HL); [discriminate|].
    assert (Hq : In q (emitted o sw idx)).
    { rewrite HE, HL. apply in_or_app. right. now left. }
    destruct (emitted_facts q Hq) as (Hqi & Hqb & Hqrow).
    destruct (pair_facts q Hqi) as (Hlead & Hg & Hgn & Hbn).
    rewrite HL in Hrows.
    destruct (Z.eqb_spec (snd p) sw) as [Hp|Hp].
    + injection Hrows as <-.
      assert (Hprow : In p (emitted o sw idx)) by (rewrite HE; now left).
      destruct (emitted_facts p Hprow) as (_ & _ & Hrowp).
      rewrite <- HL. cbn [map]. exists (index_row o sw p), (map (index_row o sw) E'), (fst q), (snd q).
      split; [reflexivity|]. split; [rewrite Hrowp; cbn; lia|].
      change (index_row o sw p :: map (index_row o sw) E') with (map (index_row o sw) (p :: E')).
      rewrite HL, last_map_snoc, Hqrow. repeat split; try reflexivity; lia.
    + destruct (first_found sw idx) eqn:HF; [discriminate|]. injection Hrows as <-.
      destruct (Hboundary eq_refl) as [Hb _].
      exists (boundary_row o), (map (index_row o sw) (L ++ [q])), (fst q), (snd q).
      split; [reflexivity|]. split; [rewrite Hb; cbn; lia|].
      split.
      { rewrite map_app. cbn [map]. rewrite app_comm_cons, last_snoc, Hqrow. reflexivity. }
      repeat split; try lia.
Qed.

Lemma first_pair_emitted :
  dataset_index o = 0 -> first_found sw idx = true -> emitted o sw idx <> [].
Proof using All.
  intros Hz HF. apply existsb_exists in HF as (p & Hin & Hp). apply Z.eqb_eq in Hp.
  assert (Hemit : emit o sw p = true).
  { unfold emit, in_file, no_gap. rewrite end_index_room. unfold first_index.
    rewrite Hz, Hp. destruct cursor_room as (_ & Hroom & _).
    apply andb_true_iff. split.
    - apply andb_true_iff. split; [apply Z.leb_le|apply Z.ltb_lt]; lia.
    - rewrite Z.eqb_refl. cbn. reflexivity. }
  intros HE. assert (Hin' : In p (emitted o sw idx)) by (apply filter_In; auto).
  rewrite HE in Hin'. contradiction.
Qed.

(** In a file that starts with this slice there is a first row, at
    in-file position 0, and it is the boundary row when no pair sits at
    the first buffer position or no pair gives a row. *)
Lemma fresh_file_rows (rows : list (Z * Z)) :
  dataset_index o = 0 ->
  index_rows o sw idx = Ret (inr rows) ->
  exists row rest,
    rows = row :: rest /\ snd row = 0
    /\ (first_found sw idx = false \/ emitted o sw idx = [] ->
        row = (global_index o + global_start_sample o, 0)).
Proof using All.
  intros Hz Hrows. unfold index_rows in Hrows.
  pose proof first_pair_emitted Hz as Hfirst_emitted.
  pose proof Hready as ((_ & Hs & Hgi & _) & _). unfold in_u64 in Hs, Hgi.
  assert (Hb : boundary_row o = (global_index o + global_start_sample o, 0)).
  { unfold boundary_row. u64_norm. reflexivity. }
  destruct (emitted o sw idx) as [|p E'] eqn:HE.
  - destruct (first_found sw idx) eqn:HF; [now destruct Hfirst_emitted|].
    injection Hrows as <-. exists (boundary_row o), []. rewrite Hb. auto.
  - assert (Hp : In p (emitted o sw idx)) by (rewrite HE; now left).
    destruct (emitted_facts p Hp) as (_ & Hpb & Hprow).
    destruct (Z.eqb_spec (snd p) sw) as [Heq|Hne].
    + injection Hrows as <-. cbn [map]. exists (index_row o sw p), (map (index_row o sw) E').
      split; [reflexivity|]. split; [rewrite Hprow; cbn; lia|].
      intros [HF|HE']; [|discriminate].
      rewrite (first_found_emitted o sw idx p Hp Heq) in HF. discriminate.
    + destruct (first_found sw idx); [discriminate|]. injection Hrows as <-.
      exists (boundary_row o), (map (index_row o sw) (p :: E')). rewrite Hb. auto.
Qed.

End SliceRows.

(** ** One iteration of the loop *)

Lemma open_file_ready (o o1 : Digital_rf_write_object) (w w1 : World) (sw : Z)
      (idx : index_pairs) :
  slice_ready o w -> idx <> [] ->
  open_file_if_needed o w sw idx = Ret (0, o1, w1) ->
  config o1 = config o /\ global_index o1 = global_index o
  /\ dataset_index o1 = dataset_index o
  /\ dataset_avail o1 = samples_per_file o - dataset_index o
  /\ dataset_avail o1 = match hdf5_file o with
                        | None => samples_per_file o
                        | Some _ => dataset_avail o
                        end
  /\ index_dataset o1 = index_dataset o
  /\ w_stderr w1 = w_stderr w
  /\ exists name,
      hdf5_file o1 = Some name /\ is_Some (w_files w1 !! name)
      /\ (hdf5_file o = None ->
          w_files w !! name = None /\ w_files w1 = <[name := new_file o1]> (w_files w)).
Proof.
  intros (Hu & Hspf & Hfile) Hidx. unfold open_file_if_needed.
  destruct (hdf5_file o) as [name|] eqn:Hname.
  - intros [= <- <-]. destruct Hfile as (Hav & Hsum & Hsome).
    repeat split; auto; try lia. exists name. repeat split; auto; discriminate.
  - destruct idx as [|[g0 d0] rest]; [contradiction|]. cbn [digital_rf_get_global_sample bind].
    intros Hcreate. apply create_hdf5_file_inv in Hcreate.
    destruct Hcreate as (_ & Hcfg & Hgi & Hid & _ & _ & _ & [(Hc & _)|Hok]); [discriminate|].
    destruct Hok as (_ & Herr & Hdi & Hav & _ & sub & _ & Hfile1 & Hfresh & Hfiles).
    destruct Hfile as (Hdi0 & _).
    repeat split; auto; try lia.
    eexists. split; [exact Hfile1|]. split.
    + rewrite Hfiles, lookup_insert_eq. eauto.
    + intros _. split; assumption.
Qed.

Lemma advance_global_index_none (o : Digital_rf_write_object) (r : Z) :
  0 <= global_index o + r < 2 ^ 64 ->
  advance_global_index o [] r = global_index o + r.
Proof. intros H. cbn. now apply u64_small. Qed.

Lemma advance_global_index_rows (o : Digital_rf_write_object) (rows rest : list (Z * Z))
      (first_row : Z * Z) (g b cursor sw r : Z) :
  rows = first_row :: rest -> snd first_row = cursor ->
  last rows = Some (g + global_start_sample o, b + cursor - sw) ->
  0 <= g -> 0 <= global_start_sample o -> g + global_start_sample o < 2 ^ 64 ->
  sw <= b < sw + r -> 0 <= sw -> g + (sw + r - b) < 2 ^ 64 -> b - sw < 2 ^ 64 ->
  advance_global_index o rows r = g + (sw + r - b).
Proof.
  intros -> Hfirst Hlast Hg Hs Hgs Hb Hsw Hsum Hbs.
  unfold advance_global_index. rewrite Hlast. cbn [fst snd]. rewrite Hfirst.
  replace (g + global_start_sample o - global_start_sample o) with g by lia.
  replace (b + cursor - sw - cursor) with (b - sw) by lia.
  u64_norm. lia.
Qed.

Lemma index_write_step (o1 o2 : Digital_rf_write_object) (w2 w' : World) (rows : list (Z * Z)) :
  match rows with
  | [] => (0, o1, w2)
  | _ :: _ => digital_rf_write_rf_data_index o1 w2 rows
  end = (0, o2, w') ->
  config o2 = config o1 /\ global_index o2 = global_index o1
  /\ dataset_index o2 = dataset_index o1 /\ dataset_avail o2 = dataset_avail o1
  /\ hdf5_file o2 = hdf5_file o1 /\ w_stderr w' = w_stderr w2
  /\ forall name f,
      hdf5_file o1 = Some name -> w_files w2 !! name = Some f ->
      is_Some (w_files w' !! name)
      /\ (index_dataset o1 = false -> rows <> [] ->
          w_files w' !! name = Some (set_rf_data_index rows f)).
Proof.
  destruct rows as [|row rows'].
  - intros [= <- <-]. repeat split; auto. contradiction.
  - intros H. apply write_rf_data_index_inv in H.
    destruct H as (He & _ & Hc & Hg & Hdi & Hav & Hf & _ & Hok).
    repeat split; auto; destruct (Hok eq_refl) as (name' & Hn & Hfiles);
      rewrite Hn in H; injection H as <-.
    + rewrite Hfiles, lookup_alter_eq, H0. cbn. eauto.
    + intros Hidx _. rewrite Hfiles, lookup_alter_eq, H0, Hidx. reflexivity.
Qed.

Lemma slice_step (o o' : Digital_rf_write_object) (w w' : World) (idx : index_pairs)
      (vec : list sample) (n sw r : Z) :
  loop_invariant idx n o w sw -> index_contract idx -> call_in_range o idx n -> sw < n ->
  digital_rf_write_samples_to_file o w sw idx vec n = Ret (r, o', w') -> r <> 0 ->
  config o' = config o
  /\ 1 <= r
  /\ r = Z.min (n - sw) (match hdf5_file o with
                         | None => samples_per_file o
                         | Some _ => dataset_avail o
                         end)
  /\ (exists rows,
         digital_rf_create_rf_data_index o sw idx = Ret (inr rows)
         /\ match last rows with
            | None => global_index o' = global_index o + r
            | Some (G, P) =>
                exists b, P = b + dataset_index o - sw /\ sw <= b < sw + r
                          /\ global_index o' = G - global_start_sample o + (sw + r - b)
            end)
  /\ loop_invariant idx n o' w' (sw + r).
Proof.
  intros (Hready & Hsw & Hcursor & Hfirst & Hlater) Hcontract Hrange Hlt Hrun Hr.
  assert (Hsw' : 0 <= sw < n) by lia.
  assert (Hlater' : 0 < sw -> leading_global idx <= global_index o /\ hdf5_file o = None).
  { intros H. destruct (Hlater H) as [H1 H2]. split; [assumption|]. apply H2. lia. }
  destruct Hrange as [Hnspf0 Hall0].
  apply write_samples_to_file_inv in Hrun; [|assumption].
  destruct Hrun as (rows & o1 & w1 & w2 & o2 & Hd0 & Hidx & Hopen & Hn & Hwrite & Hindex
                    & -> & Hfull).
  assert (Hne : idx <> []) by (destruct idx; [contradiction|discriminate]).
  destruct (open_file_ready _ _ _ _ _ _ Hready Hne Hopen)
    as (Hc1 & Hg1 & Hdi1 & Hav1 & Hav1' & _ & _ & name & Hname & Hsome & _).
  apply H5Dwrite_rf_data_inv in Hwrite.
  destruct Hwrite as (name' & f & data & Hname' & Hf & _ & Hfiles2).
  rewrite Hname in Hname'. injection Hname' as <-.
  destruct (index_write_step _ _ _ _ _ Hindex) as (Hc2 & Hg2 & Hdi2 & Hav2 & Hf2 & _ & Hkeep).
  assert (Hsome' : is_Some (w_files w' !! name)).
  { eapply Hkeep; [exact Hname|]. rewrite Hfiles2. apply lookup_insert_eq. }
  pose proof (conj Hnspf0 Hall0 : call_in_range o idx n) as Hrange'.
  pose proof (cursor_room o w idx n sw Hready Hcontract Hrange' Hsw' Hcursor Hfirst Hlater')
    as (Hdi & Hroom & Hnone & _).
  pose proof Hready as ((Hspf & Hs & Hgi & _ & _) & Hspf1 & _). unfold in_u64 in *.
  (* the length of the slice *)
  assert (Hrmin : r = Z.min (n - sw) (samples_per_file o - dataset_index o)).
  { rewrite Hn. unfold samples_to_write. rewrite Hav1. u64_norm.
    destruct (Z.ltb_spec (samples_per_file o - dataset_index o) (n - sw)); lia. }
  (* the rows *)
  pose proof (builder_is_index_rows o w idx n sw Hready Hcontract Hrange' Hsw' Hcursor Hfirst
                                     Hlater') as Hbuilder.
  rewrite Hbuilder in Hidx.
  pose proof (rows_shape o w idx n sw Hready Hcontract Hrange' Hsw' Hcursor Hfirst
                         Hlater' rows Hidx) as Hshape.
  (* the state after the slice *)
  set (o3 := advance_state o2 rows r) in *.
  assert (Hc3 : config o3 = config o) by (subst o3; cbn; congruence).
  assert (Hdi3 : dataset_index o3 = dataset_index o + r).
  { subst o3. cbn. rewrite Hdi2, Hdi1. apply u64_small. lia. }
  assert (Hav3 : dataset_avail o3 = samples_per_file o - dataset_index o - r).
  { subst o3. cbn. rewrite Hav2, Hav1. apply u64_small. lia. }
  assert (Hf3 : hdf5_file o3 = Some name) by (subst o3; cbn; congruence).
  assert (Hg3 : global_index o3 = advance_global_index o rows r).
  { subst o3. unfold advance_state. cbn [global_index set_global_index].
    unfold advance_global_index. cbn. rewrite Hg2, Hg1, Hc2, Hc1. reflexivity. }
  rewrite Hc2, Hc1 in Hfull. rewrite Hdi3 in Hfull. clearbody o3.
  assert (Hcursor' :
            match last rows with
            | None => global_index o3 = global_index o + r
            | Some (G, P) =>
                exists b, P = b + dataset_index o - sw /\ sw <= b < sw + r
                          /\ global_index o3 = G - global_start_sample o + (sw + r - b)
            end
            /\ leading_global idx <= global_index o3
            /\ 0 <= global_index o3
            /\ global_index o3 + (n - (sw + r)) + global_start_sample o < 2 ^ 64).
  { rewrite Hg3. destruct Hshape as [[-> Hle]|Hshape].
    - cbn [last]. rewrite advance_global_index_none by lia. repeat split; lia.
    - destruct Hshape as (first_row & rest & g & b & Hrows & Hfr & Hlast & Hb & Hbn & Hle
                          & Hg & Hgn).
      rewrite Hlast.
      rewrite (advance_global_index_rows o rows rest first_row g b (dataset_index o) sw r)
        by (assumption || lia).
      split; [|lia]. exists b. repeat split; lia. }
  destruct Hcursor' as (Hformula & Hlead & Hg0 & Hbound).
  assert (Hcg : forall x, global_index (close_if_full x) = global_index x
                          /\ config (close_if_full x) = config x).
  { intros x. unfold close_if_full. destruct (dataset_index x =? samples_per_file x); auto. }
  destruct (Hcg o3) as [Hcg1 Hcg2].
  split; [congruence|]. split; [lia|]. split.
  { rewrite Hrmin. destruct (hdf5_file o) eqn:Hof.
    - destruct Hready as (_ & _ & Hfile). rewrite Hof in Hfile. f_equal. lia.
    - rewrite Hnone by reflexivity. f_equal. lia. }
  split.
  { exists rows. rewrite Hbuilder. split; [assumption|]. rewrite Hcg1. exact Hformula. }
  (* the invariant *)
  unfold loop_invariant. rewrite Hcg1, Hcg2, Hc3.
  split; [|repeat split; try lia].
  - unfold slice_ready, u64_fields, in_u64. rewrite Hcg1, Hcg2, Hc3.
    unfold close_if_full. rewrite Hc3, Hdi3.
    destruct (Z.eqb_spec (dataset_index o + r) (samples_per_file o)) as [Heq|Hneq]; cbn.
    + rewrite Hav3. repeat split; try lia.
    + rewrite Hdi3, Hav3, Hf3. repeat split; try lia. assumption.
  - intros Hmore. unfold close_if_full. rewrite Hc3, Hdi3.
    destruct (Z.eqb_spec (dataset_index o + r) (samples_per_file o)) as [Heq|Hneq];
      [reflexivity|lia].
Qed.

(** ** The loop of one call *)

Lemma set_chunking_fields (o : Digital_rf_write_object) (n : Z) :
  config (set_chunking o n) = config o
  /\ global_index (set_chunking o n) = global_index o
  /\ dataset_index (set_chunking o n) = dataset_index o
  /\ dataset_avail (set_chunking o n) = dataset_avail o
  /\ hdf5_file (set_chunking o n) = hdf5_file o
  /\ index_dataset (set_chunking o n) = index_dataset o
  /\ present_seq (set_chunking o n) = present_seq o.
Proof. unfold set_chunking. destruct (_ && _); cbn; auto 10. Qed.

Lemma set_chunking_ready (o : Digital_rf_write_object) (w : World) (n : Z) :
  slice_ready o w -> slice_ready (set_chunking o n) w.
Proof.
  destruct (set_chunking_fields o n) as (Hc & Hg & Hdi & Hav & Hf & Hid & _).
  unfold slice_ready, u64_fields. now rewrite Hc, Hg, Hdi, Hav, Hf, Hid.
Qed.

Lemma call_start_invariant (o : Digital_rf_write_object) (w : World) (idx : index_pairs) (n : Z) :
  slice_ready o w -> index_contract idx -> call_in_range o idx n -> 0 <= n ->
  global_index o <= leading_global idx ->
  loop_invariant idx n (set_chunking o n) w 0.
Proof.
  intros Hready Hcontract [Hn Hall] H0 Hle.
  destruct (set_chunking_fields o n) as (Hc & Hg & _).
  unfold loop_invariant. rewrite Hc, Hg.
  split; [now apply set_chunking_ready|]. split; [lia|]. split; [|split; [auto|lia]].
  destruct (contract_shape idx Hcontract) as (p0 & rest & -> & _ & _).
  apply Forall_cons in Hall as [Hp0 _]. cbn [leading_global] in Hle. lia.
Qed.

Lemma reaches_invariant (idx : index_pairs) (vec : list sample) (n : Z)
      (s s' : Digital_rf_write_object * World * Z) :
  loop_reaches idx vec n s s' ->
  index_contract idx ->
  loop_invariant idx n (fst (fst s)) (snd (fst s)) (snd s) ->
  call_in_range (fst (fst s)) idx n ->
  loop_invariant idx n (fst (fst s')) (snd (fst s')) (snd s')
  /\ config (fst (fst s')) = config (fst (fst s)).
Proof.
  intros Hreach Hcontract. induction Hreach as [s|o o1 w w1 sw r s Hlt Hrun Hr Hreach IH];
    intros Hinv Hrange; [auto|]. cbn [fst snd] in *.
  destruct (slice_step _ _ _ _ _ _ _ _ _ Hinv Hcontract Hrange Hlt Hrun Hr)
    as (Hc & Hr1 & _ & _ & Hinv').
  assert (Hu : u64 (sw + r) = sw + r).
  { destruct Hinv' as (_ & Hb & _), Hrange as [Hn _], Hinv as ((Hf & _) & _).
    destruct Hf as (Hspf & _). unfold in_u64 in Hspf. apply u64_small. lia. }
  rewrite Hu in IH. rewrite Hc in IH.
  destruct IH as [H1 H2]; [assumption|assumption|split; congruence].
Qed.

Lemma loop_result_reaches (idx : index_pairs) (vec : list sample) (n : Z) (fuel : nat) :
  forall o w sw o' w',
    write_loop fuel o w sw idx vec n = Some (Ret (0, o', w')) ->
    exists sw', loop_reaches idx vec n (o, w, sw) (o', w', sw') /\ n <= sw'.
Proof.
  induction fuel as [|fuel IH]; intros o w sw o' w' Hrun; cbn [write_loop] in Hrun;
    destruct (Z.ltb_spec sw n) as [Hlt|Hge].
  - discriminate.
  - injection Hrun as <- <-. exists sw. split; [constructor|assumption].
  - destruct (digital_rf_write_samples_to_file o w sw idx vec n) as [[[r o1] w1]|] eqn:Hstep;
      [|discriminate].
    destruct (Z.eqb_spec r 0) as [|Hr]; [discriminate|].
    destruct (IH _ _ _ _ _ Hrun) as (sw' & Hreach & Hend).
    exists sw'. split; [|assumption]. econstructor; eassumption.
  - injection Hrun as <- <-. exists sw. split; [constructor|assumption].
Qed.

(** ** The cursor after an append *)

(** C1, as amended.  For a call of [digital_rf_write_blocks_hdf5] with at
    least one sample whose index arrays respect the contract and lie in the
    buffer: when the call succeeds, [global_index] is at least the leading
    global index of the call; and after every slice of the call that is
    written, [global_index] is the global index of the last row of the slice
    (the epoch offset taken off) plus the number of samples of the slice from
    that row's buffer position on, or the previous [global_index] plus the
    length of the slice when the slice has no row. *)
Theorem cursor_after_blocks (o : Digital_rf_write_object) (w : World) (idx : index_pairs)
        (vec : list sample) (n : Z) :
  slice_ready o w -> index_contract idx -> call_in_range o idx n -> 1 <= n ->
  global_index o <= leading_global idx ->
  (forall o' w',
      digital_rf_write_blocks_hdf5 o w idx (Some vec) n = Some (Ret (0, o', w')) ->
      leading_global idx <= global_index o')
  /\ (forall o1 w1 sw r o2 w2,
         loop_reaches idx vec n (set_chunking o n, w, 0) (o1, w1, sw) ->
         sw < n ->
         digital_rf_write_samples_to_file o1 w1 sw idx vec n = Ret (r, o2, w2) ->
         r <> 0 ->
         exists rows,
           digital_rf_create_rf_data_index o1 sw idx = Ret (inr rows)
           /\ match last rows with
              | None => global_index o2 = global_index o1 + r
              | Some (G, P) =>
                  exists b, P = b + dataset_index o1 - sw /\ sw <= b < sw + r
                            /\ global_index o2 = G - global_start_sample o1 + (sw + r - b)
              end).
Proof.
  intros Hready Hcontract Hrange Hn Hle.
  assert (Hstart : loop_invariant idx n (set_chunking o n) w 0)
    by (apply call_start_invariant; auto; lia).
  assert (Hrange' : call_in_range (set_chunking o n) idx n)
    by (now rewrite (proj1 (set_chunking_fields o n))).
  split.
  - intros o' w' Hrun. unfold digital_rf_write_blocks_hdf5 in Hrun.
    destruct (contract_shape idx Hcontract) as (p0 & rest & Hidx & _ & _).
    rewrite Hidx in Hrun. destruct p0 as [g0 d0]. rewrite <- Hidx in Hrun.
    destruct (g0 <? global_index o); [discriminate|].
    apply loop_result_reaches in Hrun as (sw' & Hreach & Hend).
    destruct (reaches_invariant _ _ _ _ _ Hreach Hcontract Hstart Hrange') as [Hinv _].
    cbn [fst snd] in Hinv. destruct Hinv as (_ & _ & _ & _ & Hlater). apply Hlater. lia.
  - intros o1 w1 sw r o2 w2 Hreach Hlt Hrun Hr.
    destruct (reaches_invariant _ _ _ _ _ Hreach Hcontract Hstart Hrange') as [Hinv Hc].
    cbn [fst snd] in Hinv, Hc.
    assert (Hrange1 : call_in_range o1 idx n) by (now rewrite Hc).
    destruct (slice_step _ _ _ _ _ _ _ _ _ Hinv Hcontract Hrange1 Hlt Hrun Hr)
      as (_ & _ & _ & Hrows & _).
    exact Hrows.
Qed.

(** C1 as stated fails on an append of no sample, which succeeds and leaves
    the cursor behind the leading global index of the call; and for an
    in-buffer index past the samples that are written, the cursor ends
    before the global index of the last row. *)
Lemma cursor_after_empty_append :
  digital_rf_write_blocks_hdf5 example_channel example_world [(100, 0)] (Some []) 0
  = Some (Ret (0, example_channel, example_world))
  /\ global_index example_channel < leading_global [(100, 0)]
  /\ match digital_rf_write_blocks_hdf5 example_channel example_world [(0, 0); (100, 20)]
                                        (Some (example_buffer 10)) 10 with
     | Some (Ret (0, o', w')) =>
         global_index o' = 90
         /\ rf_data_index <$> (w_files w' !! "/data/ch0/2014-03-09T12:30:30/rf@1394368230.010.h5"%string)
            = Some [(139436823001, 0); (139436823101, 20)]
     | _ => False
     end.
Proof. vm_compute. repeat split; intros; discriminate. Qed.

Lemma example_ready : slice_ready example_channel example_world.
Proof. unfold slice_ready, u64_fields, in_u64. cbn. repeat split; lia. Qed.

Lemma cursor_after_blocks_witness :
  slice_ready example_channel example_world
  /\ index_contract [(0, 0); (20, 10)]
  /\ call_in_range example_channel [(0, 0); (20, 10)] 20
  /\ 1 <= 20
  /\ global_index example_channel <= leading_global [(0, 0); (20, 10)]
  /\ (forall o' w',
         digital_rf_write_blocks_hdf5 example_channel example_world [(0, 0); (20, 10)]
                                      (Some (example_buffer 20)) 20
         = Some (Ret (0, o', w')) ->
         leading_global [(0, 0); (20, 10)] <= global_index o').
Proof.
  assert (H2 : index_contract [(0, 0); (20, 10)]) by (cbn; lia).
  assert (H3 : call_in_range example_channel [(0, 0); (20, 10)] 20)
    by (split; [cbn; lia|repeat constructor; cbn; lia]).
  assert (H4 : 1 <= 20) by lia.
  assert (H5 : global_index example_channel <= leading_global [(0, 0); (20, 10)])
    by (cbn; lia).
  repeat (split; [assumption || exact example_ready|]).
  exact (proj1 (cursor_after_blocks example_channel example_world [(0, 0); (20, 10)]
                                    (example_buffer 20) 20 example_ready H2 H3 H4 H5)).
Defined.

(** ** A slice that opens a file *)


Lemma example_gap_contract : index_contract example_gap.
Proof. cbn. lia. Qed.

Lemma example_gap_range : call_in_range example_channel example_gap 60.
Proof. split; [cbn; lia|repeat constructor; cbn; lia]. Qed.

Lemma example_gap_leading : global_index example_channel <= leading_global example_gap.
Proof. cbn. lia. Qed.

Lemma example_second_reached :
  loop_reaches example_gap (example_buffer 60) 60
               (set_chunking example_channel 60, example_world, 0)
               (fst example_second_slice, snd example_second_slice, 40).
Proof.
  replace 40 with (u64 (0 + 40)) by reflexivity.
  apply (reaches_next _ _ _ _ (fst example_second_slice) _ (snd example_second_slice) 0 40);
    [lia|vm_compute; reflexivity|lia|apply reaches_here].
Qed.

(** ** Progress of a slice *)

Lemma open_file_fields (o o1 : Digital_rf_write_object) (w w1 : World) (sw : Z)
      (idx : index_pairs) :
  u64_fields o ->
  open_file_if_needed o w sw idx = Ret (0, o1, w1) ->
  u64_fields o1 /\ config o1 = config o
  /\ dataset_avail o1 = match hdf5_file o with
                        | None => samples_per_file o
                        | Some _ => dataset_avail o
                        end.
Proof.
  intros Hu. unfold open_file_if_needed. destruct (hdf5_file o) as [name|].
  - intros [= <- <-]. auto.
  - destruct (digital_rf_get_global_sample sw idx) as [g|]; [|discriminate]. cbn [bind].
    intros Hcreate. apply create_hdf5_file_inv in Hcreate.
    destruct Hcreate as (_ & Hcfg & Hgi & _ & _ & _ & _ & [(Hc & _)|Hok]); [discriminate|].
    destruct Hok as (_ & _ & Hdi & Hav & _).
    destruct Hu as (Hspf & Hs & Hg & _ & _).
    unfold u64_fields, in_u64 in *. rewrite Hcfg, Hgi, Hdi, Hav. repeat split; lia.
Qed.

Lemma advance_global_index_range (o : Digital_rf_write_object) (rows : list (Z * Z)) (r : Z) :
  in_u64 (advance_global_index o rows r).
Proof.
  unfold advance_global_index. destruct rows; [apply u64_range|].
  destruct (last _); apply u64_range.
Qed.

(** A slice that is written makes progress and keeps the fields in range. *)
Lemma slice_progress (o o' : Digital_rf_write_object) (w w' : World) (idx : index_pairs)
      (vec : list sample) (n sw r : Z) :
  u64_fields o -> 0 <= sw < n -> n < 2 ^ 64 ->
  digital_rf_write_samples_to_file o w sw idx vec n = Ret (r, o', w') -> r <> 0 ->
  1 <= r
  /\ r = Z.min (n - sw) (match hdf5_file o with
                         | None => samples_per_file o
                         | Some _ => dataset_avail o
                         end)
  /\ sw < u64 (sw + r) <= n
  /\ u64_fields o'.
Proof.
  intros Hu Hsw Hn Hrun Hr.
  apply write_samples_to_file_inv in Hrun; [|assumption].
  destruct Hrun as (rows & o1 & w1 & w2 & o2 & _ & _ & Hopen & Hr1 & _ & Hindex & -> & _).
  destruct (open_file_fields _ _ _ _ _ _ Hu Hopen) as (Hu1 & Hc1 & Hav1).
  destruct (index_write_step _ _ _ _ _ Hindex) as (Hc2 & _ & _ & Hav2 & _).
  assert (Hmin : r = Z.min (n - sw) (dataset_avail o1)).
  { rewrite Hr1. unfold samples_to_write. rewrite u64_small by lia.
    destruct (Z.ltb_spec (dataset_avail o1) (n - sw)); lia. }
  assert (Hpos : 1 <= r).
  { destruct Hu1 as (_ & _ & _ & _ & Hav). unfold in_u64 in Hav. lia. }
  split; [assumption|]. split; [congruence|]. split; [rewrite u64_small; lia|].
  assert (Hfields : u64_fields (advance_state o2 rows r)).
  { unfold u64_fields. cbn. rewrite Hc2, Hc1. destruct Hu as (Hspf & Hs & _).
    repeat split; try apply Hspf; try apply Hs;
      try apply u64_range; apply advance_global_index_range. }
  revert Hfields. generalize (advance_state o2 rows r). intros o3 (H1 & H2 & H3 & H4 & H5).
  unfold close_if_full. destruct (_ =? _); [|unfold u64_fields; auto].
  unfold u64_fields, in_u64 in *. cbn. repeat split; try lia.
Qed.

Lemma loop_terminates (idx : index_pairs) (vec : list sample) (n : Z) (fuel : nat) :
  forall o w sw,
    u64_fields o -> 0 <= sw <= n -> n < 2 ^ 64 -> (Z.to_nat (n - sw) <= fuel)%nat ->
    exists result, write_loop fuel o w sw idx vec n = Some result.
Proof.
  induction fuel as [|fuel IH]; intros o w sw Hu Hsw Hn Hfuel; cbn [write_loop];
    destruct (Z.ltb_spec sw n) as [Hlt|Hge]; eauto; [lia|].
  destruct (digital_rf_write_samples_to_file o w sw idx vec n) as [[[r o'] w']|] eqn:Hrun;
    [|eauto].
  destruct (Z.eqb_spec r 0) as [|Hr]; [eauto|].
  destruct (slice_progress _ _ _ _ _ _ _ _ _ Hu (conj (proj1 Hsw) Hlt) Hn Hrun Hr)
    as (_ & _ & Hnext & Hu').
  apply IH; [assumption|lia|assumption|lia].
Qed.

(** ** The two entry points *)

(** C6.  [digital_rf_write_hdf5] is [digital_rf_write_blocks_hdf5] on the
    index arrays [[leading edge]] and [[0]]: same return value, same writer
    state, same files. *)
Theorem write_hdf5_is_write_blocks (o : Digital_rf_write_object) (w : World) (g : Z)
        (vector : option (list sample)) (n : Z) :
  digital_rf_write_hdf5 o w g vector n = digital_rf_write_blocks_hdf5 o w [(g, 0)] vector n.
Proof. reflexivity. Qed.

(** ** Writes before the cursor *)

(** C4, as amended.  A call of either entry point with a buffer that is not
    null and a first global index below [global_index] returns -3 after the
    message of the request before the expected index; the writer object, the
    files and the directories are as before. *)
Theorem write_before_cursor_rejected (o : Digital_rf_write_object) (w : World) (g : Z)
        (vec : list sample) (n : Z) :
  g < global_index o ->
  let w' := log (RequestBeforeExpected g (global_index o)) w in
  digital_rf_write_hdf5 o w g (Some vec) n = Some (Ret (-3, o, w'))
  /\ (forall d rest,
         digital_rf_write_blocks_hdf5 o w ((g, d) :: rest) (Some vec) n = Some (Ret (-3, o, w')))
  /\ w_files w' = w_files w /\ w_dirs w' = w_dirs w.
Proof.
  intros Hlt. apply Z.ltb_lt in Hlt. cbv zeta.
  unfold digital_rf_write_hdf5, digital_rf_write_blocks_hdf5. cbn [zip zip_with].
  rewrite Hlt. repeat split.
Qed.

(** C4 as stated fails for a null buffer: the call is rejected for the null
    data (-2) before the cursor is looked at. *)
Lemma null_buffer_before_cursor :
  500 < global_index (set_global_index 1000 example_channel)
  /\ digital_rf_write_hdf5 (set_global_index 1000 example_channel) example_world 500 None 10
     = Some (Ret (-2, set_global_index 1000 example_channel, log NullData example_world)).
Proof. split; [cbn; lia|reflexivity]. Qed.

Lemma write_before_cursor_rejected_witness :
  500 < global_index (set_global_index 1000 example_channel)
  /\ digital_rf_write_hdf5 (set_global_index 1000 example_channel) example_world 500
                           (Some (example_buffer 10)) 10
     = Some (Ret (-3, set_global_index 1000 example_channel,
                  log (RequestBeforeExpected 500 1000) example_world)).
Proof.
  assert (H : 500 < global_index (set_global_index 1000 example_channel)) by (cbn; lia).
  split; [assumption|].
  exact (proj1 (write_before_cursor_rejected (set_global_index 1000 example_channel)
                                             example_world 500 (example_buffer 10) 10 H)).
Defined.

(** ** Rotation of directories and file names *)

Lemma create_new_directory_exists (o : Digital_rf_write_object) (w : World) (g : Z)
      (t : unix_time) :
  digital_rf_get_unix_time (u64 (g + global_start_sample o)) (sample_rate o) = Ret (Some t) ->
  (directory o +:+ sub_directory_name t) ∈ w_dirs w ->
  (String.length (sub_directory_name t) < SMALL_HDF5_STR)%nat ->
  (String.length (directory o +:+ sub_directory_name t) < BIG_HDF5_STR)%nat ->
  digital_rf_create_new_directory o w g
  = Ret (-1, o, log (DirectoryNotCreated (sub_directory_name t)) (snd (next_fault w))).
Proof.
  intros Ht Hexists Hsub Hfull. unfold digital_rf_create_new_directory. rewrite Ht.
  assert (Hdir : (String.length (directory o) < BIG_HDF5_STR)%nat)
    by (rewrite string_app_length in Hfull; lia).
  unfold sprintf, strcpy, strcat.
  destruct (Nat.ltb_spec (String.length (sub_directory_name t)) SMALL_HDF5_STR); [|lia].
  cbn [bind].
  destruct (Nat.ltb_spec (String.length (directory o)) BIG_HDF5_STR); [|lia]. cbn [bind].
  destruct (Nat.ltb_spec (String.length (directory o +:+ sub_directory_name t)) BIG_HDF5_STR);
    [|lia].
  cbn [bind].
  destruct (next_fault w) as [fault w1] eqn:Hf.
  destruct (next_fault_frame _ _ _ Hf) as (Hd & _). cbn [snd].
  rewrite bool_decide_eq_true_2 by (now rewrite Hd). now rewrite orb_true_r.
Qed.

Lemma create_new_directory_overrun (o : Digital_rf_write_object) (w : World) (g : Z)
      (t : unix_time) :
  digital_rf_get_unix_time (u64 (g + global_start_sample o)) (sample_rate o) = Ret (Some t) ->
  (BIG_HDF5_STR <= String.length (directory o +:+ sub_directory_name t))%nat ->
  digital_rf_create_new_directory o w g = Undef.
Proof.
  intros Ht Hlong. unfold digital_rf_create_new_directory. rewrite Ht.
  unfold sprintf, strcpy, strcat.
  destruct (_ <? SMALL_HDF5_STR)%nat; [|reflexivity]. cbn [bind].
  destruct (_ <? BIG_HDF5_STR)%nat; [|reflexivity]. cbn [bind].
  destruct (Nat.ltb_spec (String.length (directory o +:+ sub_directory_name t)) BIG_HDF5_STR);
    [lia|reflexivity].
Qed.

(** Rotation of the files.  Every call of [digital_rf_create_hdf5_file]
    that returns has incremented the sequence number.  When it succeeds, a new
    subdirectory was created if and only if the new sequence number is a
    multiple of [files_per_directory], and the file is named, under the
    current subdirectory, "rf@" followed by the %011.3f conversion of
    (next_global_sample + global_start_sample) / sample_rate and ".h5".
    When the name of the subdirectory fits [sub_directory[265]] and, after
    the directory, [full_directory[1024]], creating the subdirectory fails
    when the directory exists already, and with it the opening of the file;
    when the name does not fit [full_directory], the unchecked copy writes
    past the array, whether the directory exists or not. *)
Theorem file_open_rotation (o : Digital_rf_write_object) (w : World) (g : Z) :
  -1 <= present_seq o < 2 ^ 31 - 1 -> files_per_directory o <> 0 ->
  let seq := present_seq o + 1 in
  let unix_timestamp :=
    (u64_to_double (u64 (g + global_start_sample o)) / sample_rate o)%float in
  (forall c o' w',
      digital_rf_create_hdf5_file o w g = Ret (c, o', w') ->
      present_seq o' = seq
      /\ (c = 0 ->
          ((exists d, (d ∉ w_dirs w) /\ w_dirs w' = {[ d ]} ∪ w_dirs w)
           <-> seq mod files_per_directory o = 0)
          /\ exists sub,
              sub_directory o' = Some sub
              /\ hdf5_file o'
                 = Some (directory o +:+ sub +:+ "rf@" +:+ printf_011_3f unix_timestamp +:+ ".h5")))
  /\ (forall t,
         digital_rf_get_unix_time (u64 (g + global_start_sample o)) (sample_rate o)
         = Ret (Some t) ->
         (directory o +:+ sub_directory_name t) ∈ w_dirs w ->
         (String.length (sub_directory_name t) < SMALL_HDF5_STR)%nat ->
         (String.length (directory o +:+ sub_directory_name t) < BIG_HDF5_STR)%nat ->
         digital_rf_create_new_directory o w g
         = Ret (-1, o, log (DirectoryNotCreated (sub_directory_name t)) (snd (next_fault w)))
         /\ (seq mod files_per_directory o = 0 ->
             exists o' w',
               digital_rf_create_hdf5_file o w g = Ret (-1, o', w')
               /\ w_dirs w' = w_dirs w /\ w_files w' = w_files w))
  /\ (forall t,
         digital_rf_get_unix_time (u64 (g + global_start_sample o)) (sample_rate o)
         = Ret (Some t) ->
         (BIG_HDF5_STR <= String.length (directory o +:+ sub_directory_name t))%nat ->
         digital_rf_create_new_directory o w g = Undef
         /\ (seq mod files_per_directory o = 0 -> digital_rf_create_hdf5_file o w g = Undef)).
Proof.
  intros Hseq Hfpd. cbv zeta.
  assert (Hu : u64 (present_seq o + 1) = present_seq o + 1) by (apply u64_small; lia).
  set (o1 := set_present_seq (present_seq o + 1) o).
  set (w0 := if marching_dots o =? 0 then w else print_dot w).
  assert (Hw0 : w_dirs w0 = w_dirs w /\ w_files w0 = w_files w).
  { subst w0. destruct (marching_dots o =? 0); cbn; auto. }
  assert (Hopen : (present_seq o + 1) mod files_per_directory o = 0 ->
                  forall x, digital_rf_create_new_directory o1 w0 g = x ->
                  digital_rf_create_hdf5_file o w g
                  = match x with
                    | Ret (-1, o2, w2) => Ret (-1, o2, w2)
                    | Undef => Undef
                    | _ => digital_rf_create_hdf5_file o w g
                    end).
  { intros Hm x Hx. destruct x as [[[result o2] w2]|]; [|].
    - destruct (Z.eq_dec result (-1)) as [->|Hne].
      + unfold digital_rf_create_hdf5_file.
        destruct (Z.leb_spec (2 ^ 31 - 1) (present_seq o)); [lia|].
        destruct (Z.eqb_spec (files_per_directory o) 0); [contradiction|].
        cbv zeta. fold o1 w0. change (present_seq o1) with (present_seq o + 1).
        rewrite Hu, Hm. cbn [Z.eqb]. rewrite Hx. reflexivity.
      + destruct result as [|r|r]; try reflexivity.
        destruct r as [r|r|]; try reflexivity. contradiction.
    - unfold digital_rf_create_hdf5_file.
      destruct (Z.leb_spec (2 ^ 31 - 1) (present_seq o)); [lia|].
      destruct (Z.eqb_spec (files_per_directory o) 0); [contradiction|].
      cbv zeta. fold o1 w0. change (present_seq o1) with (present_seq o + 1).
      rewrite Hu, Hm. cbn [Z.eqb]. rewrite Hx. reflexivity. }
  split; [|split].
  - intros c o' w' Hrun. apply create_hdf5_file_inv in Hrun. cbv zeta in Hrun.
    rewrite Hu in Hrun.
    destruct Hrun as (Hs & _ & _ & _ & _ & _ & _ & Hcases). split; [assumption|].
    intros ->. destruct Hcases as [(Hc & _)|(_ & _ & _ & _ & Hdir & sub & Hsub & Hname & _)];
      [discriminate|].
    split.
    + destruct (Z.eqb_spec ((present_seq o + 1) mod files_per_directory o) 0) as [Hm|Hm].
      * destruct Hdir as (t & _ & Hnew & Hdirs & _). split; [auto|]. intros _.
        eexists. split; eassumption.
      * destruct Hdir as [Hdirs _]. split; [|contradiction].
        intros (d & Hd & Hd'). rewrite Hdirs in Hd'. exfalso. apply Hd. rewrite Hd'.
        apply elem_of_union. left. now apply elem_of_singleton.
    + exists sub. split; [assumption|]. exact Hname.
  - intros t Ht Hexists Hsub Hfull.
    split; [apply create_new_directory_exists; assumption|]. intros Hm.
    assert (Hdir : digital_rf_create_new_directory o1 w0 g
                   = Ret (-1, o1, log (DirectoryNotCreated (sub_directory_name t))
                                      (snd (next_fault w0)))).
    { apply create_new_directory_exists; try assumption. rewrite (proj1 Hw0). assumption. }
    rewrite (Hopen Hm _ Hdir). eexists _, _. split; [reflexivity|].
    destruct (next_fault w0) as [fault w1] eqn:Hf.
    destruct (next_fault_frame _ _ _ Hf) as (Hd & Hfi & _). cbn.
    split; [now rewrite Hd, (proj1 Hw0)|now rewrite Hfi, (proj2 Hw0)].
  - intros t Ht Hlong.
    split; [eapply create_new_directory_overrun; eassumption|]. intros Hm.
    assert (Hdir : digital_rf_create_new_directory o1 w0 g = Undef)
      by (eapply create_new_directory_overrun; eassumption).
    rewrite (Hopen Hm _ Hdir). reflexivity.
Qed.

Lemma file_open_rotation_witness :
  -1 <= present_seq example_channel < 2 ^ 31 - 1
  /\ files_per_directory example_channel <> 0
  /\ match digital_rf_create_hdf5_file example_channel example_world 0 with
     | Ret (c, o', w') =>
         c = 0 /\ present_seq o' = 0
         /\ hdf5_file o' = Some "/data/ch0/2014-03-09T12:30:30/rf@1394368230.010.h5"%string
         /\ ((exists d, (d ∉ w_dirs example_world) /\ w_dirs w' = {[ d ]} ∪ w_dirs example_world)
             <-> (present_seq example_channel + 1) mod files_per_directory example_channel = 0)
     | Undef => False
     end.
Proof.
  assert (H1 : -1 <= present_seq example_channel < 2 ^ 31 - 1) by (cbn; lia).
  assert (H2 : files_per_directory example_channel <> 0) by (cbn; lia).
  split; [assumption|]. split; [assumption|].
  destruct (digital_rf_create_hdf5_file example_channel example_world 0)
    as [[[c o'] w']|] eqn:Hrun.
  - destruct (proj1 (file_open_rotation example_channel example_world 0 H1 H2) c o' w' Hrun)
      as [Hseq Hok].
    assert (Hc : c = 0 /\ hdf5_file o'
                          = Some "/data/ch0/2014-03-09T12:30:30/rf@1394368230.010.h5"%string).
    { pose proof Hrun as Hrun'. vm_compute in Hrun'. injection Hrun' as <- <- _.
      split; reflexivity. }
    destruct Hc as [Hc Hname]. destruct (Hok Hc) as [Hiff _].
    split; [assumption|]. split; [exact Hseq|]. split; [exact Hname|exact Hiff].
  - vm_compute in Hrun. discriminate.
Defined.

(** ** Evaluations of the code *)

(** C2 at its failing input.  The writer is in the middle of a file
    (cursor 30, in-file cursor 20) and the next call continues without a gap
    and has a second pair in the file.  The first pass counts one row; the
    second pass skips the continuation, then writes the boundary row and the
    row of the second pair, that is two rows into a block of one, and the
    assertion [rows_written == row_count] fails: the pair (50, 10), which
    lies in the slice and is not suppressed, gives no row. *)
Theorem index_builder_overrun :
  index_contract [(30, 0); (50, 10)]
  /\ global_index (fst example_mid_file) = 30
  /\ dataset_index (fst example_mid_file) = 20
  /\ emit (fst example_mid_file) 0 (50, 10) = true
  /\ index_first_pass (fst example_mid_file) 0 0 None [(30, 0); (50, 10)] false 0
     = inr (true, 1%nat)
  /\ index_second_pass (fst example_mid_file) 0 0 [(30, 0); (50, 10)] (replicate 1 (0, 0)) 0
     = Undef
  /\ index_second_pass (fst example_mid_file) 0 0 [(30, 0); (50, 10)] (replicate 2 (0, 0)) 0
     = Ret ([(139436823031, 0); (139436823051, 30)], 2%nat)
  /\ digital_rf_create_rf_data_index (fst example_mid_file) 0 [(30, 0); (50, 10)] = Undef
  /\ digital_rf_write_blocks_hdf5 (fst example_mid_file) (snd example_mid_file)
                                  [(30, 0); (50, 10)] (Some (example_buffer 20)) 20
     = Some Undef.
Proof. split; [cbn; lia|]. vm_compute. repeat split. Qed.

(** C7 at its failing input.  The channel directory has 1005 characters,
    [digital_rf_create_write_hdf5] accepts it and appends a slash, and the
    subdirectory of the first file exists already.  The copy of the
    directory name into [full_directory[1024]] fits; appending the 19
    characters of the name of the subdirectory writes 1026 bytes into the
    array.  Nothing checks the lengths: the creation of the subdirectory
    does not fail with an error, it has no defined behaviour, and with it
    the opening of the file and the append. *)
Theorem long_directory_overrun :
  long_directory ∈ w_dirs long_world
  /\ digital_rf_create_write_hdf5 true 1400000000 long_world long_directory int16_le 40 10
                                  139436823001 100%float "uuid" 0 0 0 1 0
     = Ret (Some long_channel, long_world)
  /\ String.length (directory long_channel) = 1006%nat
  /\ (directory long_channel +:+ "2014-03-09T12:30:30") ∈ w_dirs long_world
  /\ (present_seq long_channel + 1) mod files_per_directory long_channel = 0
  /\ strcpy BIG_HDF5_STR (directory long_channel) = Ret (directory long_channel)
  /\ strcat BIG_HDF5_STR (directory long_channel) "2014-03-09T12:30:30" = Undef
  /\ digital_rf_create_new_directory long_channel long_world 0 = Undef
  /\ digital_rf_create_hdf5_file long_channel long_world 0 = Undef
  /\ digital_rf_write_hdf5 long_channel long_world 0 (Some (example_buffer 20)) 20
     = Some Undef.
Proof.
  assert (Hdir : long_directory ∈ w_dirs long_world)
    by (apply elem_of_union_l, elem_of_singleton; reflexivity).
  split; [exact Hdir|]. split.
  { unfold digital_rf_create_write_hdf5. rewrite bool_decide_eq_true_2 by exact Hdir.
    reflexivity. }
  split; [vm_compute; reflexivity|].
  split; [apply elem_of_union_r, elem_of_singleton; vm_compute; reflexivity|].
  split; [reflexivity|].
  split; [vm_compute; reflexivity|]. split; [vm_compute; reflexivity|].
  split; [vm_compute; reflexivity|]. split; vm_compute; reflexivity.
Qed.

(** C8 at its failing input.  For a 32-bit float that is not complex the
    fill value is read from the [double] NaN: on a little-endian host its
    first four bytes are zero, so the fill value is 0.0, while the complex
    path, which reads the [float] NaN, stores a quiet NaN in both fields.
    For a 64-bit unsigned integer that is not complex eight bytes are read
    from the four of [minUnsignedInt]. *)
Theorem fill_value_float32_not_nan :
  digital_rf_set_fill_value true (mk_hid_t H5T_FLOAT H5T_SGN_2 4 H5T_ORDER_LE) 0
  = Ret (Some [0; 0; 0; 0])
  /\ stored_quiet_nan H5T_ORDER_LE [0; 0; 0; 0] = false
  /\ stored_unsigned H5T_ORDER_LE [0; 0; 0; 0] = 0
  /\ digital_rf_set_fill_value true (mk_hid_t H5T_FLOAT H5T_SGN_2 4 H5T_ORDER_LE) 1
     = Ret (Some [0; 0; 192; 127; 0; 0; 192; 127])
  /\ stored_quiet_nan H5T_ORDER_LE [0; 0; 192; 127] = true
  /\ digital_rf_set_fill_value true (mk_hid_t H5T_INTEGER H5T_SGN_NONE 8 H5T_ORDER_LE) 0
     = Undef.
Proof. vm_compute. repeat split. Qed.

(** C9 at its failing input.  At 100 MHz the sample before 2014-03-09
    12:30:30 is not a double: its conversion rounds to the next multiple of
    16 and the quotient by the sample rate is 1394368230, one second late;
    the integer remainder wraps around and the picoseconds leave the range
    of [uint64_t].  The second of the claim is 12:30:29 and its picoseconds
    are 999999990000. *)
Theorem get_unix_time_second_late :
  digital_rf_get_unix_time 139436822999999999 100000000
  = Ret (Some (mk_unix_time 2014 3 9 12 30 30 None))
  /\ 139436822999999999 / 100000000 = 1394368229
  /\ gmtime 1394368229 = Some (mk_tm 114 2 9 12 30 29)
  /\ u64 (139436822999999999 - u64 (1394368230 * 100000000)) = 2 ^ 64 - 1
  /\ ((139436822999999999 - 1394368229 * 100000000) * 10 ^ 12 + 100000000 / 2) / 100000000
     = 999999990000.
Proof. vm_compute. repeat split. Qed.

(** ** Malformed index arrays *)

Lemma open_file_quiet (o o1 : Digital_rf_write_object) (w w1 : World) (sw c : Z)
      (idx : index_pairs) :
  open_file_if_needed o w sw idx = Ret (c, o1, w1) -> quiet w w1.
Proof.
  unfold open_file_if_needed. destruct (hdf5_file o).
  - intros [= _ _ <-]. now apply quiet_same.
  - destruct (digital_rf_get_global_sample sw idx); [|discriminate]. cbn [bind].
    intros H. apply create_hdf5_file_inv in H. apply H.
Qed.

Lemma slice_quiet (o o' : Digital_rf_write_object) (w w' : World) (idx : index_pairs)
      (vec : list sample) (n sw r : Z) :
  index_ok None idx = true ->
  match idx with
  | p0 :: _ => snd p0 = 0
  | [] => False
  end ->
  digital_rf_write_samples_to_file o w sw idx vec n = Ret (r, o', w') -> quiet w w'.
Proof.
  intros Hok Hd0. unfold digital_rf_write_samples_to_file.
  destruct idx as [|[g0 d0] rest]; [contradiction|]. cbn [snd] in Hd0. subst d0.
  cbn [Z.eqb negb].
  destruct (digital_rf_create_rf_data_index o sw ((g0, 0) :: rest)) as [[d|rows]|] eqn:Hidx;
    cbn [bind]; try discriminate.
  { intros [= _ _ <-]. apply quiet_log; [|now apply quiet_same].
    eapply create_index_diag; eassumption. }
  destruct (open_file_if_needed o w sw ((g0, 0) :: rest)) as [[[result o1] w1]|] eqn:Hopen;
    cbn [bind]; [|discriminate].
  apply open_file_quiet in Hopen.
  destruct (negb (result =? 0)); [now intros [= _ _ <-]|].
  destruct (Z.of_nat (length vec) <? _); [discriminate|].
  destruct (H5Dwrite_rf_data o1 w1 _) as [written w2] eqn:Hwrite.
  apply H5Dwrite_rf_data_stderr in Hwrite as [Hw2 _].
  assert (Hq2 : quiet w w2).
  { eapply quiet_trans; [exact Hopen|now apply quiet_same]. }
  destruct written; cbn [negb]; [|intros [= _ _ <-]; now apply quiet_log].
  destruct (match rows with [] => _ | _ :: _ => _ end) as [[status o2] w3] eqn:Hindex.
  assert (Hq3 : quiet w w3).
  { eapply quiet_trans; [exact Hq2|apply quiet_same].
    destruct rows; [now injection Hindex as _ _ <-|].
    now apply write_rf_data_index_inv in Hindex. }
  destruct (negb (status =? 0)); [now intros [= _ _ <-]|].
  destruct (_ <? _); [discriminate|]. now intros [= _ _ <-].
Qed.

Lemma loop_quiet (idx : index_pairs) (vec : list sample) (n : Z) (fuel : nat) :
  index_ok None idx = true ->
  match idx with
  | p0 :: _ => snd p0 = 0
  | [] => False
  end ->
  forall o w sw c o' w',
    write_loop fuel o w sw idx vec n = Some (Ret (c, o', w')) -> quiet w w'.
Proof.
  intros Hok Hd0. induction fuel as [|fuel IH]; intros o w sw c o' w'; cbn [write_loop];
    destruct (sw <? n); try discriminate; try (intros [= _ _ <-]; now apply quiet_same).
  destruct (digital_rf_write_samples_to_file o w sw idx vec n) as [[[r o1] w1]|] eqn:Hrun;
    [|discriminate].
  apply (slice_quiet _ _ _ _ _ _ _ _ _ Hok Hd0) in Hrun.
  destruct (r =? 0); [now intros [= _ _ <-]|].
  intros H. eapply quiet_trans; [exact Hrun|]. eapply IH; eassumption.
Qed.

Lemma breaks_index_not_ok (l1 l2 : index_pairs) (p q : Z * Z) :
  pairs_u64 (l1 ++ p :: q :: l2) -> breaks_contract p q ->
  forall prev, index_ok prev (l1 ++ p :: q :: l2) = false.
Proof.
  intros Hall Hbreak. induction l1 as [|a l1 IH]; intros prev; cbn [app index_ok].
  - apply Forall_cons in Hall as [[Hgp Hbp] Hall].
    apply Forall_cons in Hall as [[Hgq Hbq] _]. unfold in_u64 in *.
    assert (Hpq : pair_ok (Some p) q = false).
    { unfold pair_ok. destruct (Z.ltb_spec (snd p) (snd q)) as [Hlt|]; [|reflexivity].
      destruct Hbreak as [?|[Hle Hfast]]; [lia|]. cbn [andb].
      rewrite !u64_small by lia. apply Z.leb_gt. lia. }
    rewrite Hpq. cbn [andb]. apply andb_false_r.
  - cbn [app] in Hall. apply Forall_cons in Hall as [_ Hall].
    rewrite IH by assumption. apply andb_false_r.
Qed.

(** C5, as amended.  For a call of [digital_rf_write_blocks_hdf5] with a
    buffer, at least one sample and a leading global index that is not
    before the cursor: when the first in-buffer index is not 0, or two
    consecutive entries do not increase the in-buffer index, or advance it by
    more than the (non-decreasing) global index advances, the call returns
    -6 after a message about the malformed index, with nothing written.
    And on index arrays that respect the contract no call prints such a
    message. *)
Theorem malformed_index_rejected (o : Digital_rf_write_object) (w : World) (g0 d0 : Z)
        (rest : index_pairs) (vec : list sample) (n : Z) :
  pairs_u64 ((g0, d0) :: rest) ->
  (1 <= n -> global_index o <= g0 ->
   (d0 <> 0 ->
    digital_rf_write_blocks_hdf5 o w ((g0, d0) :: rest) (Some vec) n
    = Some (Ret (-6, set_chunking o n, log (IllegalFirstValue d0) w)))
   /\ (d0 = 0 ->
       (exists l1 p q l2, (g0, d0) :: rest = l1 ++ p :: q :: l2 /\ breaks_contract p q) ->
       exists d,
         index_malformed d = true
         /\ digital_rf_write_blocks_hdf5 o w ((g0, d0) :: rest) (Some vec) n
            = Some (Ret (-6, set_chunking o n, log d w))))
  /\ (index_contract ((g0, d0) :: rest) ->
      forall c o' w',
        digital_rf_write_blocks_hdf5 o w ((g0, d0) :: rest) (Some vec) n
        = Some (Ret (c, o', w')) ->
        exists ds, w_stderr w' = w_stderr w ++ ds
                   /\ Forall (fun d => index_malformed d = false) ds).
Proof.
  intros Hall. split.
  - intros Hn Hle.
    assert (Hfuel : exists fuel, Z.to_nat n = S fuel).
    { exists (Nat.pred (Z.to_nat n)). lia. }
    destruct Hfuel as [fuel Hfuel].
    assert (Hstart : digital_rf_write_blocks_hdf5 o w ((g0, d0) :: rest) (Some vec) n
                     = match digital_rf_write_samples_to_file (set_chunking o n) w 0
                                                              ((g0, d0) :: rest) vec n with
                       | Undef => Some Undef
                       | Ret (r, o', w') =>
                           if r =? 0 then Some (Ret (-6, o', w'))
                           else write_loop fuel o' w' (u64 (0 + r)) ((g0, d0) :: rest) vec n
                       end).
    { unfold digital_rf_write_blocks_hdf5. destruct (Z.ltb_spec g0 (global_index o)); [lia|].
      rewrite Hfuel. cbn [write_loop]. destruct (Z.ltb_spec 0 n); [reflexivity|lia]. }
    rewrite Hstart. split.
    + intros Hd0. unfold digital_rf_write_samples_to_file.
      destruct (Z.eqb_spec d0 0); [contradiction|]. reflexivity.
    + intros -> (l1 & p & q & l2 & Hidx & Hbreak).
      rewrite Hidx in Hall.
      pose proof (breaks_index_not_ok l1 l2 p q Hall Hbreak None) as Hnot.
      rewrite <- Hidx in Hnot.
      destruct (first_pass_error (set_chunking o n) 0 ((g0, 0) :: rest) 0 None false 0%nat Hnot)
        as (d & Hpass & Hd).
      exists d. split; [assumption|].
      unfold digital_rf_write_samples_to_file. cbn [Z.eqb negb].
      unfold digital_rf_create_rf_data_index. cbv zeta. rewrite Hpass.
      cbn [Z.eqb fst]. rewrite (proj1 (proj2 (set_chunking_fields o n))).
      destruct (Z.ltb_spec g0 (global_index o)); [lia|]. reflexivity.
  - intros Hcontract c o' w' Hrun.
    pose proof (contract_index_ok _ Hcontract Hall) as Hok.
    destruct Hcontract as [Hd0 _]. cbn [snd] in Hd0.
    unfold digital_rf_write_blocks_hdf5 in Hrun.
    destruct (g0 <? global_index o).
    + injection Hrun as _ _ <-. exists [RequestBeforeExpected g0 (global_index o)].
      split; [reflexivity|]. repeat constructor.
    + eapply loop_quiet; eauto.
Qed.

(** C5 as stated fails on an append of no sample, where the index arrays are
    not looked at, and when the leading global index is before the cursor,
    which is the error reported.  A global index that decreases is not
    noticed either: the advance is computed modulo [2^64]. *)
Lemma malformed_index_unnoticed :
  digital_rf_write_blocks_hdf5 example_channel example_world [(10, 5)] (Some []) 0
  = Some (Ret (0, example_channel, example_world))
  /\ digital_rf_write_blocks_hdf5 (set_global_index 1000 example_channel) example_world
                                  [(500, 5)] (Some (example_buffer 10)) 10
     = Some (Ret (-3, set_global_index 1000 example_channel,
                  log (RequestBeforeExpected 500 1000) example_world))
  /\ match digital_rf_write_blocks_hdf5 example_channel example_world [(10, 0); (5, 1)]
                                        (Some (example_buffer 2)) 2 with
     | Some (Ret (c, o', w')) => c = 0 /\ w_stderr w' = [] /\ global_index o' = 6
     | _ => False
     end.
Proof. vm_compute. repeat split. Qed.

Lemma malformed_index_rejected_witness :
  pairs_u64 [(0, 0); (20, 10); (25, 20)]
  /\ 1 <= 30 /\ global_index example_channel <= 0
  /\ exists d,
      index_malformed d = true
      /\ digital_rf_write_blocks_hdf5 example_channel example_world [(0, 0); (20, 10); (25, 20)]
                                      (Some (example_buffer 30)) 30
         = Some (Ret (-6, set_chunking example_channel 30, log d example_world)).
Proof.
  assert (H1 : pairs_u64 [(0, 0); (20, 10); (25, 20)])
    by (repeat constructor; unfold in_u64; cbn; lia).
  assert (H2 : 1 <= 30) by lia.
  assert (H3 : global_index example_channel <= 0) by (cbn; lia).
  do 3 (split; [assumption|]).
  refine (proj2 (proj1 (malformed_index_rejected example_channel example_world 0 0
                                                 [(20, 10); (25, 20)] (example_buffer 30) 30 H1)
                       H2 H3) eq_refl _).
  exists [(0, 0)], (20, 10), (25, 20), []. split; [reflexivity|]. right. cbn. lia.
Defined.

(** ** The rows of a slice, and when the builder overruns *)

Lemma emitted_head_first (o : Digital_rf_write_object) (sw : Z) (rest : index_pairs) :
  forall p0 p E,
    advancing_from p0 rest ->
    emitted o sw (p0 :: rest) = p :: E ->
    forall q, In q (p0 :: rest) -> emit o sw q = true -> snd p <= snd q.
Proof.
  induction rest as [|p1 rest IH]; intros p0 p E Hadv HE q Hin Hq.
  - destruct Hin as [<-|[]]. unfold emitted in HE. cbn [List.filter] in HE.
    rewrite Hq in HE. injection HE as <- _. lia.
  - unfold emitted in HE. cbn [List.filter] in HE.
    destruct (emit o sw p0) eqn:H0.
    + injection HE as <- _. destruct Hin as [<-|Hin]; [lia|].
      pose proof (proj1 (List.Forall_forall _ _) (advancing_monotone _ _ Hadv) q Hin) as Hm.
      cbn in Hm. lia.
    + destruct Hin as [<-|Hin]; [congruence|].
      destruct Hadv as (_ & _ & Hadv). exact (IH p1 p E Hadv HE q Hin Hq).
Qed.

Lemma leading_pair_unique (p0 q : Z * Z) (rest : index_pairs) :
  advancing_from p0 rest -> In q (p0 :: rest) -> snd q = snd p0 -> q = p0.
Proof.
  intros Hadv [<-|Hin] Heq; [reflexivity|].
  pose proof (proj1 (List.Forall_forall _ _) (advancing_monotone _ _ Hadv) q Hin) as Hm.
  cbn in Hm. lia.
Qed.

(** The rows of one slice.  When the index builder returns rows for the
    slice that starts at buffer position [sw], they are the rows of the user
    pairs that lie in the slice and are not the suppressed continuation, in
    the order of the call, each at global sample [g + global_start_sample]
    and in-file position [b + dataset_index - sw]; a boundary row at the
    cursor precedes them exactly when no pair sits at the first buffer
    position of the slice. *)
Theorem slice_rows_of_pairs (o : Digital_rf_write_object) (w : World) (idx : index_pairs)
        (n sw : Z) (rows : list (Z * Z)) :
  slice_ready o w ->
  index_contract idx ->
  call_in_range o idx n ->
  0 <= sw < n ->
  global_index o + (n - sw) + global_start_sample o < 2 ^ 64 ->
  (sw = 0 -> global_index o <= leading_global idx) ->
  (0 < sw -> leading_global idx <= global_index o /\ hdf5_file o = None) ->
  digital_rf_create_rf_data_index o sw idx = Ret (inr rows) ->
  rows = (if first_found sw idx then []
          else [(global_index o + global_start_sample o, dataset_index o)])
         ++ map (fun p => (fst p + global_start_sample o, snd p + dataset_index o - sw))
                (emitted o sw idx).
Proof.
  intros Hready Hcontract Hrange Hsw Hcursor Hfirst Hlater Hrows.
  rewrite (builder_is_index_rows o w idx n sw Hready Hcontract Hrange Hsw Hcursor Hfirst Hlater)
    in Hrows.
  assert (Hmap : map (index_row o sw) (emitted o sw idx)
                 = map (fun p => (fst p + global_start_sample o, snd p + dataset_index o - sw))
                       (emitted o sw idx)).
  { apply map_ext_in. intros q Hq.
    apply (emitted_facts o w idx n sw Hready Hcontract Hrange Hsw Hcursor Hfirst Hlater q Hq). }
  assert (Hb : first_found sw idx = false ->
               boundary_row o = (global_index o + global_start_sample o, dataset_index o)).
  { intros HF.
    rewrite (no_pair_cursor_zero o w idx n sw Hready Hcontract Hrange Hsw Hcursor Hfirst Hlater HF).
    destruct Hready as ((_ & Hs & Hgi & _) & _). unfold in_u64 in Hs, Hgi.
    unfold boundary_row. u64_norm. reflexivity. }
  unfold index_rows in Hrows. rewrite <- Hmap.
  destruct (emitted o sw idx) as [|p E] eqn:HE.
  - destruct (first_found sw idx); injection Hrows as <-; [reflexivity|].
    rewrite Hb by reflexivity. reflexivity.
  - destruct (Z.eqb_spec (snd p) sw) as [Heq|Hne].
    + injection Hrows as <-.
      assert (Hp : In p (emitted o sw idx)) by (rewrite HE; now left).
      rewrite (first_found_emitted o sw idx p Hp Heq). reflexivity.
    + destruct (first_found sw idx); [discriminate|]. injection Hrows as <-.
      rewrite Hb by reflexivity. reflexivity.
Qed.

Lemma index_rows_overrun (o : Digital_rf_write_object) (w : World) (idx : index_pairs)
      (n sw : Z) :
  slice_ready o w ->
  index_contract idx ->
  call_in_range o idx n ->
  0 <= sw < n ->
  global_index o + (n - sw) + global_start_sample o < 2 ^ 64 ->
  (sw = 0 -> global_index o <= leading_global idx) ->
  (0 < sw -> leading_global idx <= global_index o /\ hdf5_file o = None) ->
  index_rows o sw idx = Undef ->
  sw = 0 /\ 0 < dataset_index o /\ leading_global idx = global_index o
  /\ exists q, In q idx /\ 0 < snd q < samples_per_file o - dataset_index o.
Proof.
  intros Hready Hcontract Hrange Hsw Hcursor Hfirst Hlater Hundef.
  pose proof (end_index_room o w idx n sw Hready Hcontract Hrange Hsw Hcursor Hfirst Hlater)
    as Hend.
  destruct (cursor_room o w idx n sw Hready Hcontract Hrange Hsw Hcursor Hfirst Hlater)
    as (Hdi & Hroom & Hnone & _).
  pose proof (emitted_facts o w idx n sw Hready Hcontract Hrange Hsw Hcursor Hfirst Hlater)
    as Hfacts.
  destruct (contract_shape idx Hcontract) as (p0 & rest & Hidx & H0 & Hadv).
  unfold index_rows in Hundef.
  destruct (emitted o sw idx) as [|p E] eqn:HE; [discriminate|].
  destruct (Z.eqb_spec (snd p) sw) as [|Hne]; [discriminate|].
  destruct (first_found sw idx) eqn:HF; [|discriminate].
  destruct (Hfacts p (or_introl eq_refl)) as (Hpin & Hpb & _).
  apply existsb_exists in HF as (s & Hsin & Hs). apply Z.eqb_eq in Hs.
  assert (Hsfile : in_file o sw s = true).
  { unfold in_file. rewrite Hend. unfold first_index.
    apply andb_true_iff. split; [apply Z.leb_le|apply Z.ltb_lt]; lia. }
  assert (Hsgap : no_gap o sw s = true).
  { destruct (no_gap o sw s) eqn:Hgap; [reflexivity|].
    assert (Hemit : emit o sw s = true) by (unfold emit; rewrite Hsfile, Hgap; reflexivity).
    rewrite Hidx in HE, Hsin.
    pose proof (emitted_head_first o sw rest p0 p E Hadv HE s Hsin Hemit). lia. }
  unfold no_gap in Hsgap. apply andb_true_iff in Hsgap as [Hsgap Hg].
  apply andb_true_iff in Hsgap as [_ Hpos].
  apply Z.ltb_lt in Hpos. apply Z.eqb_eq in Hg.
  assert (Hz : sw = 0).
  { destruct (Z.eq_dec sw 0) as [|Hnz]; [assumption|].
    assert (Hno : hdf5_file o = None) by (apply Hlater; lia).
    specialize (Hnone Hno). lia. }
  split; [assumption|]. split; [assumption|]. split.
  - rewrite Hidx in Hsin |- *. cbn [leading_global].
    assert (Hs0 : s = p0) by (apply (leading_pair_unique p0 s rest Hadv Hsin); lia).
    rewrite Hs0 in Hg. congruence.
  - exists p. split; [assumption|]. lia.
Qed.

(** On a call that meets the contract the index builder returns rows,
    unless it overruns them. *)
Lemma builder_rows_or_overrun (o : Digital_rf_write_object) (w : World) (idx : index_pairs)
      (n sw : Z) :
  loop_invariant idx n o w sw -> index_contract idx -> call_in_range o idx n -> sw < n ->
  (exists rows, digital_rf_create_rf_data_index o sw idx = Ret (inr rows))
  \/ (digital_rf_create_rf_data_index o sw idx = Undef
      /\ sw = 0 /\ 0 < dataset_index o /\ leading_global idx = global_index o
      /\ exists q, In q idx /\ 0 < snd q < samples_per_file o - dataset_index o).
Proof.
  intros (Hready & Hsw & Hcursor & Hfirst & Hlater) Hcontract Hrange Hlt.
  assert (Hsw' : 0 <= sw < n) by lia.
  assert (Hlater' : 0 < sw -> leading_global idx <= global_index o /\ hdf5_file o = None).
  { intros H. destruct (Hlater H) as [H1 H2]. split; [assumption|]. apply H2. lia. }
  rewrite (builder_is_index_rows o w idx n sw Hready Hcontract Hrange Hsw' Hcursor Hfirst
                                 Hlater').
  destruct (index_rows o sw idx) as [[d|rows]|] eqn:Hrows.
  - exfalso. unfold index_rows in Hrows. destruct (emitted o sw idx); [discriminate|].
    destruct (_ =? _); [discriminate|]. destruct (first_found sw idx); discriminate.
  - left. eauto.
  - right. split; [reflexivity|].
    exact (index_rows_overrun o w idx n sw Hready Hcontract Hrange Hsw' Hcursor Hfirst Hlater' Hrows).
Qed.

(** When the index builder overruns its rows.  On a call that meets the
    contract the builder fails its assertion exactly when the call continues
    an open file without a gap and a further pair lies in the rest of that
    file. *)
Theorem index_builder_overrun_iff (o : Digital_rf_write_object) (w : World) (idx : index_pairs)
        (n sw : Z) :
  slice_ready o w ->
  index_contract idx ->
  call_in_range o idx n ->
  0 <= sw < n ->
  global_index o + (n - sw) + global_start_sample o < 2 ^ 64 ->
  (sw = 0 -> global_index o <= leading_global idx) ->
  (0 < sw -> leading_global idx <= global_index o /\ hdf5_file o = None) ->
  digital_rf_create_rf_data_index o sw idx = Undef
  <-> (sw = 0 /\ 0 < dataset_index o /\ leading_global idx = global_index o
       /\ exists q, In q idx /\ 0 < snd q < samples_per_file o - dataset_index o).
Proof.
  intros Hready Hcontract Hrange Hsw Hcursor Hfirst Hlater.
  rewrite (builder_is_index_rows o w idx n sw Hready Hcontract Hrange Hsw Hcursor Hfirst Hlater).
  pose proof (end_index_room o w idx n sw Hready Hcontract Hrange Hsw Hcursor Hfirst Hlater)
    as Hend.
  destruct (cursor_room o w idx n sw Hready Hcontract Hrange Hsw Hcursor Hfirst Hlater)
    as (Hdi & Hroom & Hnone & _).
  pose proof (emitted_facts o w idx n sw Hready Hcontract Hrange Hsw Hcursor Hfirst Hlater)
    as Hfacts.
  destruct (contract_shape idx Hcontract) as (p0 & rest & Hidx & H0 & Hadv).
  split.
  - intros Hundef.
    exact (index_rows_overrun o w idx n sw Hready Hcontract Hrange Hsw Hcursor Hfirst Hlater
                              Hundef).
  - unfold index_rows. intros (Hz & Hpos & Hlead & q & Hq & Hqb).
    assert (Hemit0 : emit o sw p0 = false).
    { unfold emit, no_gap, first_index. rewrite Hidx in Hlead. cbn [leading_global] in Hlead.
      rewrite H0, Hz, Hlead, Z.eqb_refl.
      destruct (Z.ltb_spec 0 (dataset_index o)); [|lia].
      cbn. rewrite Z.eqb_refl. apply andb_false_r. }
    assert (Hemitq : emit o sw q = true).
    { unfold emit, in_file, no_gap. rewrite Hend. unfold first_index.
      destruct (Z.eqb_spec (snd q) sw); [lia|]. cbn [andb negb]. rewrite andb_true_r.
      apply andb_true_iff. split; [apply Z.leb_le|apply Z.ltb_lt]; lia. }
    assert (Hin : In q (emitted o sw idx)) by (apply filter_In; auto).
    clear Hfacts.
    destruct (emitted o sw idx) as [|p E] eqn:HE; [contradiction|].
    assert (Hp : In p (emitted o sw idx)) by (rewrite HE; now left).
    apply filter_In in Hp as [Hpin Hpemit].
    destruct (Z.eqb_spec (snd p) sw) as [Heq|Hne].
    + rewrite Hidx in Hpin.
      rewrite (leading_pair_unique p0 p rest Hadv Hpin) in Hpemit by lia. congruence.
    + rewrite (first_found_at_start o w idx n sw Hready Hcontract Hrange Hsw Hcursor Hfirst Hlater Hz).
      reflexivity.
Qed.

(** The fill value of the integer types.  On a host of either byte order
    and for either byte order of the file, the fill value of a signed
    integer type of 1, 2, 4 or 8 bytes reads back from the file as the
    minimum of the type, in each field when the type is complex, and that of
    an unsigned type of 1, 2 or 4 bytes as 0. *)
Theorem fill_value_integer (host_le : bool) (order : H5T_order_t) :
  Forall (fun size =>
            exists bytes,
              digital_rf_set_fill_value host_le (mk_hid_t H5T_INTEGER H5T_SGN_2 size order) 0
              = Ret (Some bytes)
              /\ stored_signed order bytes = - 2 ^ (8 * size - 1)
              /\ digital_rf_set_fill_value host_le (mk_hid_t H5T_INTEGER H5T_SGN_2 size order) 1
                 = Ret (Some (bytes ++ bytes)))
         [1; 2; 4; 8]
  /\ Forall (fun size =>
               exists bytes,
                 digital_rf_set_fill_value host_le (mk_hid_t H5T_INTEGER H5T_SGN_NONE size order) 0
                 = Ret (Some bytes)
                 /\ Z.of_nat (length bytes) = size
                 /\ stored_unsigned order bytes = 0)
            [1; 2; 4].
Proof.
  split; repeat constructor; destruct host_le, order; eexists;
    (split; [vm_compute; reflexivity|]); vm_compute; repeat split.
Qed.

Lemma example_mid_file_ready : slice_ready (fst example_mid_file) (snd example_mid_file).
Proof.
  vm_compute. repeat split; try discriminate. eexists. reflexivity.
Qed.

Lemma slice_rows_of_pairs_witness :
  [(139436823001, 0); (139436823021, 10)]
  = (if first_found 0 example_gap then []
     else [(global_index example_channel + global_start_sample example_channel,
            dataset_index example_channel)])
    ++ map (fun p => (fst p + global_start_sample example_channel,
                      snd p + dataset_index example_channel - 0))
           (emitted example_channel 0 example_gap).
Proof.
  apply (slice_rows_of_pairs example_channel example_world example_gap 60 0
                             [(139436823001, 0); (139436823021, 10)]
                             example_ready example_gap_contract example_gap_range).
  - lia.
  - cbn. lia.
  - intros _. exact example_gap_leading.
  - intros H. exfalso. lia.
  - vm_compute. reflexivity.
Defined.

Lemma example_mid_file_fields :
  samples_per_file (fst example_mid_file) = 40
  /\ global_start_sample (fst example_mid_file) = 139436823001
  /\ global_index (fst example_mid_file) = 30
  /\ dataset_index (fst example_mid_file) = 20.
Proof. vm_compute. repeat split. Qed.

Lemma index_builder_overrun_iff_witness :
  digital_rf_create_rf_data_index (fst example_mid_file) 0 [(30, 0); (50, 10)] = Undef
  <-> (0 = 0 /\ 0 < dataset_index (fst example_mid_file)
       /\ leading_global [(30, 0); (50, 10)] = global_index (fst example_mid_file)
       /\ exists q, In q [(30, 0); (50, 10)]
                    /\ 0 < snd q < samples_per_file (fst example_mid_file)
                                   - dataset_index (fst example_mid_file)).
Proof.
  destruct example_mid_file_fields as (Hspf & Hstart & Hgi & Hdi).
  apply (index_builder_overrun_iff (fst example_mid_file) (snd example_mid_file)
                                   [(30, 0); (50, 10)] 20 0 example_mid_file_ready).
  - cbn. lia.
  - unfold call_in_range. rewrite Hspf, Hstart. split; [lia|]. repeat constructor; cbn; lia.
  - lia.
  - rewrite Hgi, Hstart. lia.
  - intros _. rewrite Hgi. cbn. lia.
  - intros H. exfalso. lia.
Defined.

(** ** Creating a channel *)

(** A channel as [digital_rf_create_write_hdf5] returns it.  The call
    creates nothing and prints nothing; the object it returns has no file
    open, expects global index 0, holds the directory name with a slash
    appended and non-zero capacities, and is in the state between two
    slices, so that the first append finds the writer as every later one
    does. *)
Theorem create_write_hdf5_ready (host_le : bool) (computer_time : Z) (w w' : World)
        (dir : string) (dtype : hid_t) (spf fpd start : Z) (rate : float) (uuid : string)
        (compression_level checksum complex subchannels dots : Z)
        (o : Digital_rf_write_object) :
  in_u64 spf -> in_u64 start ->
  digital_rf_create_write_hdf5 host_le computer_time w dir dtype spf fpd start rate uuid
                               compression_level checksum complex subchannels dots
  = Ret (Some o, w') ->
  w' = w /\ slice_ready o w /\ file_ready o w
  /\ dir ∈ w_dirs w /\ directory o = (dir +:+ "/")%string
  /\ global_index o = 0 /\ present_seq o = -1 /\ hdf5_file o = None
  /\ samples_per_file o = spf /\ files_per_directory o = fpd /\ fpd <> 0
  /\ global_start_sample o = start /\ start <> 0
  /\ 1 <= num_subchannels o /\ 0 <= compression_level <= 9
  /\ (rate <=? 0)%float = false
  /\ digital_rf_set_fill_value host_le dtype (is_complex o) = Ret (Some (dataset_fill o)).
Proof.
  intros Hspf Hstart. unfold digital_rf_create_write_hdf5.
  destruct (bool_decide (dir ∈ w_dirs w)) eqn:Hdir; cbn [negb]; [|discriminate].
  apply bool_decide_eq_true in Hdir.
  destruct (Z.ltb_spec compression_level 0); cbn [orb]; [discriminate|].
  destruct (Z.ltb_spec 9 compression_level); [discriminate|].
  destruct (Z.ltb_spec subchannels 1); [discriminate|].
  destruct (Z.eqb_spec spf 0); cbn [orb]; [discriminate|].
  destruct (Z.eqb_spec fpd 0); [discriminate|].
  destruct (Z.eqb_spec start 0); [discriminate|].
  destruct (rate <=? 0)%float; [discriminate|]. cbv zeta.
  destruct (digital_rf_set_fill_value host_le dtype (if complex =? 0 then 0 else 1))
    as [[fill|]|] eqn:Hfill; [|discriminate|discriminate].
  intros [= <- <-]. cbn.
  unfold slice_ready, file_ready, u64_fields, in_u64 in *. cbn.
  repeat split; auto; try lia.
Qed.

Lemma create_write_hdf5_ready_witness :
  example_world = example_world /\ slice_ready example_channel example_world
  /\ file_ready example_channel example_world
  /\ "/data/ch0"%string ∈ w_dirs example_world
  /\ directory example_channel = ("/data/ch0" +:+ "/")%string
  /\ global_index example_channel = 0 /\ present_seq example_channel = -1
  /\ hdf5_file example_channel = None
  /\ samples_per_file example_channel = 40 /\ files_per_directory example_channel = 10
  /\ 10 <> 0
  /\ global_start_sample example_channel = 139436823001 /\ 139436823001 <> 0
  /\ 1 <= num_subchannels example_channel /\ 0 <= 0 <= 9
  /\ (100 <=? 0)%float = false
  /\ digital_rf_set_fill_value true int16_le (is_complex example_channel)
     = Ret (Some (dataset_fill example_channel)).
Proof.
  apply (create_write_hdf5_ready true 1400000000 example_world example_world "/data/ch0"
                                 int16_le 40 10 139436823001 100%float "uuid" 0 0 0 1 0
                                 example_channel).
  - unfold in_u64. lia.
  - unfold in_u64. lia.
  - vm_compute. reflexivity.
Defined.

(** ** What a call leaves alone *)

Lemma frame_refl (o : Digital_rf_write_object) (w : World) : frame o w o w.
Proof. unfold frame. repeat split; auto. Qed.

Lemma frame_same_files (o o' : Digital_rf_write_object) (w w' : World) :
  w_dirs w ⊆ w_dirs w' -> w_files w' = w_files w ->
  (hdf5_file o' = hdf5_file o \/ hdf5_file o' = None) -> frame o w o' w'.
Proof.
  intros Hd Hf Ho. unfold frame. rewrite Hf. repeat split; auto.
  intros name Hn. destruct Ho as [Ho|Ho]; rewrite Ho in Hn; [auto|discriminate].
Qed.

Lemma frame_trans (o o1 o2 : Digital_rf_write_object) (w w1 w2 : World) :
  frame o w o1 w1 -> frame o1 w1 o2 w2 -> frame o w o2 w2.
Proof.
  intros (D1 & B1 & A1 & C1) (D2 & B2 & A2 & C2). unfold frame. repeat split.
  - etransitivity; eassumption.
  - auto.
  - intros name Hne Hsome. rewrite <- (A1 name Hne Hsome). apply A2.
    + intros Ho1. destruct (C1 name Ho1) as [H|H]; [contradiction|].
      rewrite H in Hsome. destruct Hsome as [x Hx]. discriminate.
    + auto.
  - intros name Ho2. destruct (C2 name Ho2) as [H|H]; [auto|].
    right. destruct (w_files w !! name) eqn:Hl; [|reflexivity].
    destruct (B1 name (ltac:(eauto))) as [x Hx]. congruence.
Qed.

Lemma frame_update_open (o o' : Digital_rf_write_object) (w w' : World) (name : string)
      (f : H5File) :
  hdf5_file o = Some name -> hdf5_file o' = Some name \/ hdf5_file o' = None ->
  w_dirs w ⊆ w_dirs w' ->
  w_files w' = <[name := f]> (w_files w) -> frame o w o' w'.
Proof.
  intros Ho Ho' Hd Hf. unfold frame. rewrite Hf. repeat split; auto.
  - intros nm Hs. destruct (decide (name = nm)) as [->|Hne].
    + rewrite lookup_insert_eq. eauto.
    + rewrite lookup_insert_ne by assumption. assumption.
  - intros nm Hne _. rewrite lookup_insert_ne; [reflexivity|]. congruence.
  - intros nm Hn. destruct Ho' as [H|H]; rewrite H in Hn; [left; congruence|discriminate].
Qed.

Lemma create_hdf5_file_dirs (o o' : Digital_rf_write_object) (w w' : World) (g c : Z) :
  digital_rf_create_hdf5_file o w g = Ret (c, o', w') -> w_dirs w ⊆ w_dirs w'.
Proof.
  unfold digital_rf_create_hdf5_file. intros H.
  set (w0 := if marching_dots o =? 0 then w else print_dot w) in *.
  assert (Hd0 : w_dirs w0 = w_dirs w) by (subst w0; destruct (marching_dots o =? 0); reflexivity).
  clearbody w0. cbv zeta in H.
  destruct (2 ^ 31 - 1 <=? present_seq o); [discriminate|].
  destruct (files_per_directory o =? 0); [discriminate|].
  destruct (u64 _ mod _ =? 0).
  - destruct (digital_rf_create_new_directory _ w0 g) as [[[c2 o2] w2]|] eqn:Hdir;
      [|discriminate].
    apply create_new_directory_inv in Hdir as (_ & _ & Hdir). cbn [bind] in H.
    assert (Hsub : w_dirs w ⊆ w_dirs w2).
    { destruct Hdir as [(_ & _ & Hd)|(t & _ & _ & _ & _ & Hd & _)]; rewrite Hd, Hd0.
      - reflexivity.
      - apply union_subseteq_r. }
    clear Hdir. destruct (c2 =? 0); [|injection H as <- <- <-; assumption].
    destruct (sub_directory o2); [|discriminate]. string_steps H.
    destruct (next_fault w2) as [fault w3] eqn:Hfault.
    destruct (next_fault_frame _ _ _ Hfault) as (Hd3 & _ & _).
    destruct (fault || _); string_steps H; injection H as <- <- <-; cbn; rewrite Hd3;
      assumption.
  - cbn [bind] in H. rewrite Z.eqb_refl in H.
    destruct (sub_directory _); [|discriminate]. string_steps H.
    destruct (next_fault w0) as [fault w3] eqn:Hfault.
    destruct (next_fault_frame _ _ _ Hfault) as (Hd3 & _ & _).
    destruct (fault || _); string_steps H; injection H as <- <- <-; cbn; rewrite Hd3, Hd0;
      reflexivity.
Qed.

Lemma create_hdf5_file_frame (o o' : Digital_rf_write_object) (w w' : World) (g c : Z) :
  digital_rf_create_hdf5_file o w g = Ret (c, o', w') -> hdf5_file o = None ->
  frame o w o' w'.
Proof.
  intros H Hnone. pose proof (create_hdf5_file_dirs _ _ _ _ _ _ H) as Hd.
  apply create_hdf5_file_inv in H. cbv zeta in H.
  destruct H as (_ & _ & _ & _ & _ & _ & _ & [Hfail|Hok]).
  - destruct Hfail as (_ & _ & _ & Hf & Ho). apply frame_same_files; auto.
  - destruct Hok as (_ & _ & _ & _ & _ & sub & _ & Hname & Hfresh & Hfiles).
    unfold frame. rewrite Hfiles. repeat split; auto.
    + intros nm Hs. destruct (decide (directory o +:+ sub +:+ file_basename
                (u64_to_double (u64 (g + global_start_sample o)) / sample_rate o)%float = nm))
        as [->|Hne].
      * rewrite lookup_insert_eq. eauto.
      * rewrite lookup_insert_ne by assumption. assumption.
    + intros nm _ Hs. rewrite lookup_insert_ne; [reflexivity|].
      intros <-. rewrite Hfresh in Hs. destruct Hs as [x Hx]. discriminate.
    + intros nm Hn. right. rewrite Hname in Hn. injection Hn as <-. assumption.
Qed.

Lemma open_file_frame (o o1 : Digital_rf_write_object) (w w1 : World) (sw c : Z)
      (idx : index_pairs) :
  open_file_if_needed o w sw idx = Ret (c, o1, w1) -> frame o w o1 w1.
Proof.
  unfold open_file_if_needed. destruct (hdf5_file o) eqn:Hf.
  - intros [= <- <- <-]. apply frame_refl.
  - destruct (digital_rf_get_global_sample sw idx) as [g|]; [|discriminate]. cbn [bind].
    intros H. eapply create_hdf5_file_frame; eassumption.
Qed.

Lemma H5Dwrite_rf_data_frame (o : Digital_rf_write_object) (w w2 : World)
      (data : list sample) (b : bool) :
  H5Dwrite_rf_data o w data = (b, w2) -> frame o w o w2.
Proof.
  intros H. pose proof (H5Dwrite_rf_data_stderr _ _ _ _ _ H) as [_ Hd].
  destruct b.
  - apply H5Dwrite_rf_data_inv in H as (name & f & rows & Hn & _ & _ & Hfiles).
    eapply frame_update_open; eauto. rewrite Hd. reflexivity.
  - assert (Hfiles : w_files w2 = w_files w).
    { revert H. unfold H5Dwrite_rf_data. destruct (next_fault w) as [fault w1] eqn:Hf.
      destruct (next_fault_frame _ _ _ Hf) as (_ & Hfi & _).
      destruct (hdf5_file o); [|intros [= <-]; auto].
      destruct (w_files w1 !! s); [|intros [= <-]; auto].
      destruct (write_hyperslab _ _ _); [|intros [= <-]; auto].
      destruct fault; intros [= <-]; auto. }
    apply frame_same_files; auto. rewrite Hd. reflexivity.
Qed.

Lemma write_rf_data_index_frame (o o2 : Digital_rf_write_object) (w w3 : World)
      (rows : list (Z * Z)) (status : Z) :
  digital_rf_write_rf_data_index o w rows = (status, o2, w3) -> frame o w o2 w3.
Proof.
  unfold digital_rf_write_rf_data_index. destruct (next_fault w) as [fault w1] eqn:Hf.
  destruct (next_fault_frame _ _ _ Hf) as (Hd & Hfi & He).
  assert (Hsame : forall o', hdf5_file o' = hdf5_file o -> frame o w o' w1).
  { intros o' Ho. apply frame_same_files; auto. rewrite Hd. reflexivity. }
  assert (Halter : forall o' (g : H5File -> H5File) name,
             hdf5_file o = Some name -> hdf5_file o' = hdf5_file o ->
             frame o w o' (set_files (alter g name (w_files w1)) w1)).
  { intros o' g name Hn Ho. unfold frame. cbn. rewrite Hd, Hfi. repeat split; auto.
    - intros nm Hs. destruct (decide (name = nm)) as [->|Hne].
      + rewrite lookup_alter_eq. destruct Hs as [x ->]. cbn. eauto.
      + rewrite lookup_alter_ne by assumption. assumption.
    - intros nm Hne _. rewrite lookup_alter_ne; [reflexivity|]. congruence.
    - intros nm Hnm. left. congruence. }
  destruct (hdf5_file o) as [name|] eqn:Hname.
  - destruct (index_dataset o), fault; intros [= <- <- <-]; auto.
  - intros [= <- <- <-]. auto.
Qed.

Lemma frame_log (o o' : Digital_rf_write_object) (w w' : World) (d : diag) :
  frame o w o' w' -> frame o w o' (log d w').
Proof. unfold frame. cbn. auto. Qed.

Lemma frame_close_if_full (o o' : Digital_rf_write_object) (w w' : World) :
  frame o w o' w' -> frame o w (close_if_full o') w'.
Proof.
  unfold frame, close_if_full. intros (D & B & A & C).
  destruct (dataset_index o' =? samples_per_file o'); repeat split; auto.
  cbn. discriminate.
Qed.

Lemma frame_same_open (o o1 o2 : Digital_rf_write_object) (w w' : World) :
  hdf5_file o2 = hdf5_file o1 -> frame o w o1 w' -> frame o w o2 w'.
Proof. unfold frame. intros ->. auto. Qed.

(** One slice, whatever it returns. *)
Lemma write_samples_to_file_frame (o o' : Digital_rf_write_object) (w w' : World)
      (sw : Z) (idx : index_pairs) (vec : list sample) (n r : Z) :
  digital_rf_write_samples_to_file o w sw idx vec n = Ret (r, o', w') -> frame o w o' w'.
Proof.
  unfold digital_rf_write_samples_to_file. intros H.
  destruct idx as [|[g0 d0] rest];
    [injection H as <- <- <-; apply frame_log, frame_refl|].
  destruct (d0 =? 0); cbn [negb] in H;
    [|injection H as <- <- <-; apply frame_log, frame_refl].
  destruct (digital_rf_create_rf_data_index o sw ((g0, d0) :: rest)) as [[d|rows]|];
    cbn [bind] in H; [|
    |discriminate].
  { injection H as <- <- <-. apply frame_log, frame_refl. }
  destruct (open_file_if_needed o w sw ((g0, d0) :: rest)) as [[[result o1] w1]|] eqn:Hopen;
    cbn [bind] in H; [|discriminate].
  apply open_file_frame in Hopen.
  destruct (result =? 0); cbn [negb] in H; [|injection H as <- <- <-; assumption].
  destruct (Z.of_nat (length vec) <? sw + samples_to_write o1 sw n); [discriminate|].
  destruct (H5Dwrite_rf_data o1 w1 _) as [written w2] eqn:Hwrite.
  apply H5Dwrite_rf_data_frame in Hwrite.
  pose proof (frame_trans _ _ _ _ _ _ Hopen Hwrite) as H2.
  destruct written; cbn [negb] in H;
    [|injection H as <- <- <-; apply frame_log; assumption].
  destruct (match rows with [] => _ | _ :: _ => _ end) as [[status o2] w3] eqn:Hindex.
  assert (H3 : frame o w o2 w3).
  { destruct rows.
    - injection Hindex as <- <- <-. assumption.
    - apply write_rf_data_index_frame in Hindex. eapply frame_trans; eassumption. }
  destruct (status =? 0); cbn [negb] in H; [|injection H as <- <- <-; assumption].
  destruct (samples_per_file _ <? dataset_index _); [discriminate|].
  injection H as <- <- <-. apply frame_close_if_full.
  eapply frame_same_open; [|exact H3]. reflexivity.
Qed.

Lemma write_loop_frame (idx : index_pairs) (vec : list sample) (n : Z) (fuel : nat) :
  forall o w sw c o' w',
    write_loop fuel o w sw idx vec n = Some (Ret (c, o', w')) -> frame o w o' w'.
Proof.
  induction fuel as [|fuel IH]; intros o w sw c o' w' Hrun; cbn [write_loop] in Hrun;
    destruct (sw <? n).
  - discriminate.
  - injection Hrun as <- <- <-. apply frame_refl.
  - destruct (digital_rf_write_samples_to_file o w sw idx vec n) as [[[r o1] w1]|] eqn:Hstep;
      [|discriminate].
    apply write_samples_to_file_frame in Hstep.
    destruct (r =? 0).
    + injection Hrun as <- <- <-. assumption.
    + eapply frame_trans; [exact Hstep|]. eapply IH. exact Hrun.
  - injection Hrun as <- <- <-. apply frame_refl.
Qed.

(** What an append leaves alone.  Whatever the arguments and whatever it
    returns, a call of [digital_rf_write_blocks_hdf5] removes no directory
    and no file, changes no file other than the one that was open when it
    started, and leaves open that file, a file that did not exist before,
    or none. *)
Theorem append_frame (o o' : Digital_rf_write_object) (w w' : World) (idx : index_pairs)
        (vector : option (list sample)) (n c : Z) :
  digital_rf_write_blocks_hdf5 o w idx vector n = Some (Ret (c, o', w')) ->
  w_dirs w ⊆ w_dirs w'
  /\ (forall name, is_Some (w_files w !! name) -> is_Some (w_files w' !! name))
  /\ (forall name, hdf5_file o <> Some name -> is_Some (w_files w !! name) ->
                   w_files w' !! name = w_files w !! name)
  /\ (forall name, hdf5_file o' = Some name ->
                   hdf5_file o = Some name \/ w_files w !! name = None).
Proof.
  intros H. change (frame o w o' w'). unfold digital_rf_write_blocks_hdf5 in H.
  destruct vector as [v|]; [|injection H as <- <- <-; apply frame_log, frame_refl].
  destruct idx as [|[g0 d0] rest]; [discriminate|].
  destruct (g0 <? global_index o); [injection H as <- <- <-; apply frame_log, frame_refl|].
  apply write_loop_frame in H. unfold frame in *.
  rewrite (proj1 (proj2 (proj2 (proj2 (proj2 (set_chunking_fields o n)))))) in H.
  exact H.
Qed.

(** ** Index arrays that respect the contract are sorted *)

Lemma steps_trans (p q s : Z * Z) : steps p q -> steps q s -> steps p s.
Proof. unfold steps. lia. Qed.

Lemma advancing_steps (rest : index_pairs) :
  forall p, advancing_from p rest -> Forall (steps p) rest /\ StronglySorted steps rest.
Proof.
  induction rest as [|q rest IH]; intros p Hadv; [split; constructor|].
  destruct Hadv as (Hlt & Hle & Hadv). destruct (IH q Hadv) as [Hall Hsorted].
  split.
  - constructor; [split; assumption|].
    eapply Forall_impl; [exact Hall|]. intros s Hs. eapply steps_trans; [|exact Hs].
    split; assumption.
  - constructor; assumption.
Qed.

Lemma contract_sorted (idx : index_pairs) : index_contract idx -> StronglySorted steps idx.
Proof.
  intros H. destruct (contract_shape idx H) as (p0 & rest & -> & _ & Hadv).
  destruct (advancing_steps rest p0 Hadv). constructor; assumption.
Qed.

Lemma sorted_pairs (idx : index_pairs) (p q : Z * Z) :
  StronglySorted steps idx -> In p idx -> In q idx -> snd p < snd q -> steps p q.
Proof.
  induction 1 as [|a l Hs IH Hall]; intros Hp Hq Hlt; [contradiction|].
  rewrite List.Forall_forall in Hall.
  destruct Hp as [<-|Hp], Hq as [<-|Hq].
  - lia.
  - auto.
  - destruct (Hall p Hp) as [H1 _]. lia.
  - auto.
Qed.

Lemma sorted_filter (f : Z * Z -> bool) (idx : index_pairs) :
  StronglySorted steps idx -> StronglySorted steps (List.filter f idx).
Proof.
  induction 1 as [|a l Hs IH Hall]; [constructor|]. cbn [List.filter].
  destruct (f a); [|assumption]. constructor; [assumption|].
  rewrite List.Forall_forall in *. intros x Hx. apply filter_In in Hx as [Hx _]. auto.
Qed.

Lemma sorted_last (l : index_pairs) (x q : Z * Z) :
  StronglySorted steps (l ++ [x]) -> In q (l ++ [x]) -> snd q <= snd x.
Proof.
  intros Hs Hq. apply in_app_or in Hq as [Hq|[<-|[]]]; [|lia].
  assert (H : steps q x).
  { eapply StronglySorted_app_1_elem_of; [exact Hs| |].
    - apply list_elem_of_In. exact Hq.
    - apply list_elem_of_In. now left. }
  destruct H. lia.
Qed.

(** ** The rows of a slice and the cursor after it *)

Section SliceCursor.
Variables (o : Digital_rf_write_object) (w : World).
Variables (idx : index_pairs) (n sw : Z).

Hypothesis Hready : slice_ready o w.
Hypothesis Hcontract : index_contract idx.
Hypothesis Hrange : call_in_range o idx n.
Hypothesis Hsw : 0 <= sw < n.
Hypothesis Hcursor : global_index o + (n - sw) + global_start_sample o < 2 ^ 64.
Hypothesis Hfirst : sw = 0 -> global_index o <= leading_global idx.
Hypothesis Hlater : 0 < sw -> leading_global idx <= global_index o /\ hdf5_file o = None.

Lemma rows_of_pairs (rows : list (Z * Z)) :
  digital_rf_create_rf_data_index o sw idx = Ret (inr rows) ->
  rows = (if first_found sw idx then []
          else [(global_index o + global_start_sample o, dataset_index o)])
         ++ map (fun p => (fst p + global_start_sample o, snd p + dataset_index o - sw))
                (emitted o sw idx).
Proof using All.
  intros Hrows.
  rewrite (builder_is_index_rows o w idx n sw Hready Hcontract Hrange Hsw Hcursor Hfirst Hlater)
    in Hrows.
  assert (Hmap : map (index_row o sw) (emitted o sw idx)
                 = map (fun p => (fst p + global_start_sample o, snd p + dataset_index o - sw))
                       (emitted o sw idx)).
  { apply map_ext_in. intros q Hq.
    apply (emitted_facts o w idx n sw Hready Hcontract Hrange Hsw Hcursor Hfirst Hlater q Hq). }
  assert (Hb : first_found sw idx = false ->
               boundary_row o = (global_index o + global_start_sample o, dataset_index o)).
  { intros HF.
    rewrite (no_pair_cursor_zero o w idx n sw Hready Hcontract Hrange Hsw Hcursor Hfirst Hlater HF).
    pose proof Hready as ((_ & Hs & Hgi & _) & _). unfold in_u64 in Hs, Hgi.
    unfold boundary_row. u64_norm. reflexivity. }
  unfold index_rows in Hrows. rewrite <- Hmap.
  destruct (emitted o sw idx) as [|p E] eqn:HE.
  - destruct (first_found sw idx); injection Hrows as <-; [reflexivity|].
    rewrite Hb by reflexivity. reflexivity.
  - destruct (Z.eqb_spec (snd p) sw) as [Heq|Hne].
    + injection Hrows as <-.
      assert (Hp : In p (emitted o sw idx)) by (rewrite HE; now left).
      rewrite (first_found_emitted o sw idx p Hp Heq). reflexivity.
    + destruct (first_found sw idx); [discriminate|]. injection Hrows as <-.
      rewrite Hb by reflexivity. reflexivity.
Qed.

(** The rows of a slice of [r] samples increase, point into the slice, and
    lie between the cursor before the slice and the cursor after it, which
    has advanced by [r] at least and is not ahead of the pairs to come. *)
Lemma cursor_step (rows : list (Z * Z)) (r cursor' : Z) :
  cursor_bound idx o sw ->
  digital_rf_create_rf_data_index o sw idx = Ret (inr rows) ->
  r = Z.min (n - sw) (samples_per_file o - dataset_index o) ->
  match last rows with
  | None => cursor' = global_index o + r
  | Some (G, P) =>
      exists b, P = b + dataset_index o - sw /\ sw <= b < sw + r
                /\ cursor' = G - global_start_sample o + (sw + r - b)
  end ->
  global_index o + r <= cursor'
  /\ Forall (fun q => sw + r <= snd q -> cursor' + (snd q - (sw + r)) <= fst q) idx
  /\ StronglySorted steps rows
  /\ Forall (fun row => dataset_index o <= snd row < dataset_index o + r
                        /\ global_index o + global_start_sample o + (snd row - dataset_index o)
                           <= fst row
                        /\ fst row < cursor' + global_start_sample o) rows.
Proof using All.
  intros Hbound Hrows Hr Hlast.
  pose proof (rows_of_pairs rows Hrows) as Hshape.
  pose proof (cursor_room o w idx n sw Hready Hcontract Hrange Hsw Hcursor Hfirst Hlater)
    as (Hdi & Hroom & _).
  pose proof (contract_sorted idx Hcontract) as Hsorted.
  pose proof (sorted_filter (emit o sw) idx Hsorted) as HsortedE.
  fold (emitted o sw idx) in HsortedE.
  assert (HE : forall q, In q (emitted o sw idx) ->
                         In q idx /\ sw <= snd q < sw + r
                         /\ global_index o + (snd q - sw) <= fst q).
  { intros q Hq.
    destruct (emitted_facts o w idx n sw Hready Hcontract Hrange Hsw Hcursor Hfirst Hlater q Hq)
      as (Hin & Hb & _).
    destruct (pair_facts o w idx n sw Hready Hcontract Hrange Hsw Hcursor Hfirst Hlater q Hin)
      as (_ & _ & _ & Hbn).
    split; [assumption|]. split; [lia|].
    unfold cursor_bound in Hbound. rewrite List.Forall_forall in Hbound.
    apply Hbound; [assumption|lia]. }
  set (g := fun p : Z * Z => (fst p + global_start_sample o, snd p + dataset_index o - sw)) in *.
  set (B := if first_found sw idx then []
            else [(global_index o + global_start_sample o, dataset_index o)]) in *.
  assert (HB : forall x, In x B ->
                         x = (global_index o + global_start_sample o, dataset_index o)
                         /\ first_found sw idx = false).
  { subst B. intros x Hx. destruct (first_found sw idx); [contradiction|].
    destruct Hx as [<-|[]]. auto. }
  (* the cursor after the slice *)
  assert (Hcur : (emitted o sw idx = [] /\ cursor' = global_index o + r)
                 \/ (exists E' l, emitted o sw idx = E' ++ [l]
                                  /\ cursor' = fst l + (sw + r - snd l))).
  { destruct (emitted o sw idx) as [|p E] eqn:HEq.
    - left. split; [reflexivity|]. rewrite Hshape in Hlast. cbn [map] in Hlast.
      rewrite app_nil_r in Hlast. subst B. destruct (first_found sw idx); cbn [last] in Hlast.
      + assumption.
      + destruct Hlast as (b & Hb1 & _ & Hb2). lia.
    - right. destruct (exists_last (l := p :: E)) as (E' & l & HEl); [discriminate|].
      exists E', l. split; [assumption|]. rewrite HEl in Hshape.
      rewrite Hshape, map_app in Hlast. cbn [map] in Hlast.
      rewrite app_assoc, last_snoc in Hlast. subst g. cbn beta in Hlast.
      destruct Hlast as (b & Hb1 & _ & Hb2). lia. }
  assert (Hadv : global_index o + r <= cursor').
  { destruct Hcur as [[_ ->]|(E' & l & HEl & ->)]; [lia|].
    destruct (HE l) as (_ & Hb & Hg); [rewrite HEl; apply in_or_app; right; now left|]. lia. }
  split; [assumption|]. split; [|split].
  - apply List.Forall_forall. intros q Hq Hge.
    destruct Hcur as [[_ ->]|(E' & l & HEl & ->)].
    + unfold cursor_bound in Hbound. rewrite List.Forall_forall in Hbound.
      specialize (Hbound q Hq). lia.
    + destruct (HE l) as (Hl & Hb & _); [rewrite HEl; apply in_or_app; right; now left|].
      destruct (sorted_pairs idx l q Hsorted Hl Hq) as [_ H]; lia.
  - rewrite Hshape. apply StronglySorted_app_2.
    + intros x1 x2 H1 H2. apply list_elem_of_In in H1, H2.
      destruct (HB x1 H1) as [-> HF]. apply in_map_iff in H2 as (q & <- & Hq).
      destruct (HE q Hq) as (_ & Hb & Hg).
      assert (snd q <> sw).
      { intros Heq. rewrite (first_found_emitted o sw idx q Hq Heq) in HF. discriminate. }
      unfold steps. subst g. cbn. lia.
    + subst B. destruct (first_found sw idx); repeat constructor.
    + change (map g (emitted o sw idx)) with (g <$> emitted o sw idx).
      eapply StronglySorted_fmap; [|exact HsortedE].
      intros x y [H1 H2]. unfold steps. subst g. cbn. lia.
  - rewrite Hshape. apply Forall_app. split.
    + apply List.Forall_forall. intros x Hx. destruct (HB x Hx) as [-> _]. cbn. lia.
    + apply List.Forall_forall. intros x Hx. apply in_map_iff in Hx as (q & <- & Hq).
      destruct (HE q Hq) as (_ & Hb & Hg). subst g. cbn.
      split; [lia|]. split; [lia|].
      destruct Hcur as [[Hnil _]|(E' & l & HEl & ->)]; [rewrite Hnil in Hq; contradiction|].
      rewrite HEl in HsortedE, Hq.
      pose proof (sorted_last E' l q HsortedE Hq) as Hle.
      destruct (Z.eq_dec (snd q) (snd l)) as [Heq|Hne].
      * apply in_app_or in Hq as [Hq|[<-|[]]]; [|lia].
        assert (Hst : steps q l).
        { eapply StronglySorted_app_1_elem_of; [exact HsortedE| |];
            apply list_elem_of_In; [exact Hq|now left]. }
        destruct Hst. lia.
      * assert (Hst : steps q l).
        { apply (sorted_pairs idx q l Hsorted).
          - apply (HE q). rewrite HEl. assumption.
          - apply (HE l). rewrite HEl. apply in_or_app. right. now left.
          - lia. }
        destruct Hst.
        destruct (HE l) as (_ & Hbl & _); [rewrite HEl; apply in_or_app; right; now left|].
        lia.
Qed.

End SliceCursor.

(** ** The file of a slice *)

Lemma write_hyperslab_append (written data : list sample) (m : nat) (offset : Z)
      (rows : list (option sample)) :
  Z.of_nat (length written) = offset ->
  write_hyperslab offset data ((Some <$> written) ++ replicate m None) = Some rows ->
  (length data <= m)%nat
  /\ rows = (Some <$> written) ++ (Some <$> data) ++ replicate (m - length data) None.
Proof.
  intros Hlen. unfold write_hyperslab.
  destruct ((0 <=? offset) && _) eqn:Hc; [|discriminate].
  apply andb_true_iff in Hc as [_ Hc]. apply Z.leb_le in Hc.
  rewrite length_app, length_fmap, length_replicate in Hc.
  intros [= <-]. split; [lia|].
  assert (Hoff : Z.to_nat offset = length (Some <$> written)).
  { rewrite length_fmap. lia. }
  rewrite Hoff, take_app_length. f_equal. f_equal.
  rewrite drop_app_add', drop_replicate; [reflexivity|].
  reflexivity.
Qed.

Lemma slice_buffer (o o' : Digital_rf_write_object) (w w' : World)
      (sw : Z) (idx : index_pairs) (vec : list sample) (n r : Z) :
  digital_rf_write_samples_to_file o w sw idx vec n = Ret (r, o', w') ->
  r <> 0 ->
  sw + r <= Z.of_nat (length vec).
Proof.
  unfold digital_rf_write_samples_to_file. intros H Hr.
  destruct idx as [|[g0 d0] rest]; [injection H as <- _ _; contradiction|].
  destruct (Z.eqb_spec d0 0) as [->|]; cbn [negb] in H;
    [|injection H as <- _ _; contradiction].
  destruct (digital_rf_create_rf_data_index o sw ((g0, 0) :: rest)) as [[d|rows]|] eqn:Hidx;
    cbn [bind] in H; try discriminate; [injection H as <- _ _; contradiction|].
  destruct (open_file_if_needed o w sw ((g0, 0) :: rest)) as [[[result o1] w1]|] eqn:Hopen;
    cbn [bind] in H; [|discriminate].
  destruct (Z.eqb_spec result 0) as [->|]; cbn [negb] in H;
    [|injection H as <- _ _; contradiction].
  destruct (Z.ltb_spec (Z.of_nat (length vec)) (sw + samples_to_write o1 sw n));
    [discriminate|].
  destruct (H5Dwrite_rf_data o1 w1 _) as [written w2] eqn:Hwrite.
  destruct written; cbn [negb] in H; [|injection H as <- _ _; contradiction].
  destruct (match rows with [] => _ | _ :: _ => _ end) as [[status o2] w3] eqn:Hindex.
  destruct (Z.eqb_spec status 0) as [->|]; cbn [negb] in H;
    [|injection H as <- _ _; contradiction].
  destruct (samples_per_file _ <? dataset_index _) eqn:Hfull; [discriminate|].
  injection H as <- <- <-. assumption.
Qed.

Lemma open_file_cases (o o1 : Digital_rf_write_object) (w w1 : World) (sw : Z)
      (idx : index_pairs) :
  open_file_if_needed o w sw idx = Ret (0, o1, w1) ->
  (exists name, hdf5_file o = Some name /\ o1 = o /\ w1 = w)
  \/ (hdf5_file o = None
      /\ exists name,
          hdf5_file o1 = Some name /\ w_files w !! name = None
          /\ w_files w1 = <[name := new_file o1]> (w_files w)
          /\ config o1 = config o /\ global_index o1 = global_index o
          /\ dataset_index o1 = 0 /\ dataset_avail o1 = samples_per_file o
          /\ index_dataset o1 = index_dataset o
          /\ next_index_avail o1 = next_index_avail o
          /\ present_seq o1 = present_seq o + 1).
Proof.
  unfold open_file_if_needed. destruct (hdf5_file o) as [name|] eqn:Hname.
  - intros [= <- <-]. left. eauto.
  - destruct (digital_rf_get_global_sample sw idx) as [g|]; [|discriminate]. cbn [bind].
    intros Hcreate. apply create_hdf5_file_inv in Hcreate. cbv zeta in Hcreate.
    destruct Hcreate as (Hseq & Hcfg & Hgi & Hid & Hnia & _ & _ & [(Hc & _)|Hok]);
      [discriminate|].
    destruct Hok as (_ & _ & Hdi & Hav & _ & sub & _ & Hfile1 & Hfresh & Hfiles).
    right. split; [reflexivity|]. eexists. repeat split; eauto.
Qed.

Lemma write_rf_data_index_ok (o o2 : Digital_rf_write_object) (w w3 : World)
      (rows : list (Z * Z)) :
  digital_rf_write_rf_data_index o w rows = (0, o2, w3) ->
  index_dataset o2 = true
  /\ next_index_avail o2 = (if index_dataset o
                            then next_index_avail o + Z.of_nat (length rows)
                            else Z.of_nat (length rows)).
Proof.
  unfold digital_rf_write_rf_data_index. destruct (next_fault w) as [fault w1].
  destruct (hdf5_file o); [|discriminate].
  destruct (index_dataset o) eqn:Hi, fault; try discriminate; intros [= <- <-]; cbn; auto.
Qed.

Lemma file_step (o o' : Digital_rf_write_object) (w w' : World) (idx : index_pairs)
      (vec : list sample) (n sw r : Z) :
  loop_invariant idx n o w sw -> file_ready o w -> cursor_bound idx o sw ->
  index_contract idx -> call_in_range o idx n -> sw < n ->
  digital_rf_write_samples_to_file o w sw idx vec n = Ret (r, o', w') -> r <> 0 ->
  file_ready o' w' /\ cursor_bound idx o' (sw + r)
  /\ global_index o + r <= global_index o'
  /\ exists name f' written rows,
      (hdf5_file o = Some name \/ hdf5_file o = None /\ w_files w !! name = None)
      /\ (hdf5_file o' = Some name /\ dataset_index o' = dataset_index o + r
          \/ hdf5_file o' = None /\ dataset_index o + r = samples_per_file o)
      /\ w_files w' !! name = Some f'
      /\ digital_rf_create_rf_data_index o sw idx = Ret (inr rows)
      /\ Z.of_nat (length written) = dataset_index o
      /\ match w_files w !! name with
         | Some f =>
             rf_data f = (Some <$> written)
                         ++ replicate (Z.to_nat (samples_per_file o - dataset_index o)) None
             /\ rf_data_index f' = rf_data_index f ++ rows
             /\ attr_sequence_num f' = attr_sequence_num f
         | None =>
             written = [] /\ rf_data_index f' = rows
             /\ attr_sequence_num f' = present_seq o + 1
         end
      /\ rf_data f' = (Some <$> written)
                      ++ (Some <$> take (Z.to_nat r) (drop (Z.to_nat sw) vec))
                      ++ replicate (Z.to_nat (samples_per_file o - dataset_index o - r)) None
      /\ Z.of_nat (length (take (Z.to_nat r) (drop (Z.to_nat sw) vec))) = r
      /\ StronglySorted steps (rf_data_index f')
      /\ Forall (fun row => 0 <= fst row /\ 0 <= snd row < dataset_index o + r
                            /\ fst row < global_index o' + global_start_sample o)
                (rf_data_index f')
      /\ (exists row rest, rf_data_index f' = row :: rest /\ snd row = 0)
      /\ exists row, last (rf_data_index f') = Some row
                     /\ global_index o'
                        = fst row - global_start_sample o + (dataset_index o + r - snd row).
Proof.
  intros Hinv Hfile Hbound Hcontract Hrange Hlt Hrun Hr.
  destruct (slice_step _ _ _ _ _ _ _ _ _ Hinv Hcontract Hrange Hlt Hrun Hr)
    as (Hcfg & Hr1 & Hrmin & (rows0 & Hrows0 & Hformula) & Hinv').
  pose proof (slice_buffer _ _ _ _ _ _ _ _ _ Hrun Hr) as Hbuf.
  destruct Hinv as (Hready & Hsw & Hcursor & Hfirst & Hlater).
  assert (Hsw' : 0 <= sw < n) by lia.
  assert (Hlater' : 0 < sw -> leading_global idx <= global_index o /\ hdf5_file o = None).
  { intros H. destruct (Hlater H) as [H1 H2]. split; [assumption|]. apply H2. lia. }
  pose proof (cursor_room o w idx n sw Hready Hcontract Hrange Hsw' Hcursor Hfirst Hlater')
    as (Hdi & Hroom & Hnone & Havail).
  assert (Hrmin' : r = Z.min (n - sw) (samples_per_file o - dataset_index o)).
  { rewrite Hrmin. destruct (hdf5_file o) eqn:Hof.
    - rewrite Havail by discriminate. reflexivity.
    - rewrite Hnone by reflexivity. f_equal. lia. }
  apply write_samples_to_file_inv in Hrun; [|assumption].
  destruct Hrun as (rows & o1 & w1 & w2 & o2 & Hd0 & Hidx & Hopen & Hn & Hwrite & Hindex
                    & -> & Hfull).
  rewrite Hidx in Hrows0. injection Hrows0 as <-.
  destruct (cursor_step o w idx n sw Hready Hcontract Hrange Hsw' Hcursor Hfirst Hlater'
                        rows r (global_index (close_if_full (advance_state o2 rows r)))
                        Hbound Hidx Hrmin' Hformula)
    as (Hadv & Hbound' & Hsorted & Hrowsb).
  pose proof Hready as ((Hspf & Hs & Hgi & _ & _) & Hspf1 & Hstate). unfold in_u64 in *.
  pose proof Hrange as [Hnspf _].
  (* the file before the write *)
  assert (Hbefore : exists name f written,
             hdf5_file o1 = Some name /\ w_files w1 !! name = Some f
             /\ (hdf5_file o = Some name \/ hdf5_file o = None /\ w_files w !! name = None)
             /\ config o1 = config o /\ dataset_index o1 = dataset_index o
             /\ Z.of_nat (length written) = dataset_index o
             /\ rf_data f = (Some <$> written)
                            ++ replicate (Z.to_nat (samples_per_file o - dataset_index o)) None
             /\ (if index_dataset o1
                 then next_index_avail o1 = Z.of_nat (length (rf_data_index f))
                 else rf_data_index f = [])
             /\ StronglySorted steps (rf_data_index f)
             /\ Forall (fun row => 0 <= fst row /\ 0 <= snd row < dataset_index o
                                   /\ fst row < global_index o + global_start_sample o)
                       (rf_data_index f)
             /\ (0 < dataset_index o ->
                 exists row rest, rf_data_index f = row :: rest /\ snd row = 0)
             /\ match last (rf_data_index f) with
                | Some row =>
                    global_index o
                    = fst row - global_start_sample o + (dataset_index o - snd row)
                | None => True
                end
             /\ match w_files w !! name with
                | Some f0 => f0 = f
                | None => written = [] /\ rf_data_index f = []
                          /\ attr_sequence_num f = present_seq o + 1
                end).
  { destruct (open_file_cases _ _ _ _ _ _ Hopen) as [(name & Hname & -> & ->)|(Hno & name & Hnew)].
    - unfold file_ready in Hfile. rewrite Hname in Hfile.
      destruct Hfile as (f & written & Hf & Hlen & Hdata & Hix & Hso & Hbd & Hfr & Hla).
      exists name, f, written. rewrite Hf. repeat split; auto.
    - destruct Hnew as (Hname1 & Hfresh & Hfiles & Hc1 & _ & Hdi1 & _ & Hid1 & _ & Hseq).
      rewrite Hno in Hstate. destruct Hstate as [Hdi0 Hid0].
      exists name, (new_file o1), []. rewrite Hfresh, Hfiles, lookup_insert_eq, Hid1, Hid0.
      unfold new_file. cbn. rewrite Hc1, Hdi0, Z.sub_0_r.
      repeat split; auto; try lia; try constructor. }
  destruct Hbefore as (name & f & written & Hname1 & Hf1 & Hwas & Hc1 & Hdi1 & Hlen & Hdata
                       & Hix & Hso & Hbd & Hfr & Hla & Hold).
  (* the samples *)
  apply H5Dwrite_rf_data_inv in Hwrite.
  destruct Hwrite as (name' & f0 & data' & Hname' & Hf0 & Hslab & Hfiles2).
  rewrite Hname1 in Hname'. injection Hname' as <-.
  rewrite Hf1 in Hf0. injection Hf0 as <-.
  rewrite Hdi1, Hdata in Hslab.
  apply write_hyperslab_append in Hslab; [|assumption].
  destruct Hslab as [Hfit ->].
  set (data := take (Z.to_nat r) (drop (Z.to_nat sw) vec)) in *.
  assert (Hdlen : Z.of_nat (length data) = r).
  { subst data. rewrite length_take, length_drop. lia. }
  (* the rows *)
  assert (Hafter : exists f',
             w_files w' !! name = Some f'
             /\ rf_data f' = (Some <$> written) ++ (Some <$> data)
                             ++ replicate (Z.to_nat (samples_per_file o - dataset_index o)
                                           - length data) None
             /\ rf_data_index f' = rf_data_index f ++ rows
             /\ attr_sequence_num f' = attr_sequence_num f
             /\ config o2 = config o1 /\ dataset_index o2 = dataset_index o1
             /\ hdf5_file o2 = hdf5_file o1
             /\ (if index_dataset o2
                 then next_index_avail o2 = Z.of_nat (length (rf_data_index f ++ rows))
                 else rf_data_index f ++ rows = [])).
  { destruct rows as [|row rows'].
    - injection Hindex as <- <-. eexists. rewrite Hfiles2, lookup_insert_eq, app_nil_r.
      split; [reflexivity|]. cbn. repeat split; auto.
    - pose proof (write_rf_data_index_ok _ _ _ _ _ Hindex) as [Hid2 Hnia2].
      apply write_rf_data_index_inv in Hindex.
      destruct Hindex as (_ & _ & Hc2 & _ & Hdi2 & _ & Hf2 & _ & Hok).
      destruct (Hok eq_refl) as (nm & Hnm & Hfiles').
      rewrite Hname1 in Hnm. injection Hnm as <-.
      eexists. rewrite Hfiles', lookup_alter_eq, Hfiles2, lookup_insert_eq.
      split; [reflexivity|]. cbn. rewrite Hid2, Hnia2.
      destruct (index_dataset o1).
      + rewrite resize_all_alt by lia. rewrite Hix, length_app.
        repeat split; auto. cbn [length]. lia.
      + rewrite Hix. cbn [app]. repeat split; auto. }
  destruct Hafter as (f' & Hf' & Hdata' & Hidx' & Hseq' & Hc2 & Hdi2 & Hf2 & Hix').
  (* the state after the slice *)
  set (o3 := advance_state o2 rows r) in *.
  assert (Hc3 : config o3 = config o) by (subst o3; cbn; congruence).
  assert (Hdi3 : dataset_index o3 = dataset_index o + r).
  { subst o3. cbn. rewrite Hdi2, Hdi1. apply u64_small. lia. }
  assert (Hf3 : hdf5_file o3 = Some name) by (subst o3; cbn; congruence).
  assert (Hi3 : index_dataset o3 = index_dataset o2) by reflexivity.
  assert (Hn3 : next_index_avail o3 = next_index_avail o2) by reflexivity.
  assert (Hg3 : global_index (close_if_full o3) = global_index o3).
  { unfold close_if_full. destruct (dataset_index o3 =? samples_per_file o3); reflexivity. }
  rewrite Hg3 in *. clearbody o3.
  (* the rows of the file *)
  assert (Hsorted' : StronglySorted steps (rf_data_index f ++ rows)).
  { apply StronglySorted_app_2; [|assumption|assumption].
    intros a b Ha Hb. apply list_elem_of_In in Ha, Hb.
    destruct (exists_last (l := rf_data_index f)) as (l & x & Hl);
      [intros Hnil; rewrite Hnil in Ha; contradiction|].
    rewrite Hl, last_snoc in Hla. rewrite Hl in Hso, Ha.
    rewrite List.Forall_forall in Hbd, Hrowsb.
    assert (Hx : In x (rf_data_index f)) by (rewrite Hl; apply in_or_app; right; now left).
    specialize (Hbd x Hx). specialize (Hrowsb b Hb).
    assert (Hxb : steps x b) by (unfold steps; lia).
    apply in_app_or in Ha as [Ha|[<-|[]]]; [|assumption].
    eapply steps_trans; [|exact Hxb].
    eapply StronglySorted_app_1_elem_of; [exact Hso| |];
      apply list_elem_of_In; [exact Ha|now left]. }
  assert (Hbd' : Forall (fun row => 0 <= fst row /\ 0 <= snd row < dataset_index o + r
                                    /\ fst row < global_index o3 + global_start_sample o)
                        (rf_data_index f ++ rows)).
  { apply Forall_app. split.
    - eapply Forall_impl; [exact Hbd|]. cbn. intros; lia.
    - eapply Forall_impl; [exact Hrowsb|]. cbn. intros; lia. }
  assert (Hfr' : exists row rest, rf_data_index f ++ rows = row :: rest /\ snd row = 0).
  { destruct (Z.eq_dec (dataset_index o) 0) as [Hz|Hnz].
    - assert (Hnil : rf_data_index f = []).
      { destruct (rf_data_index f) as [|row rest]; [reflexivity|].
        apply Forall_cons in Hbd as [Hrow _]. lia. }
      rewrite Hnil. cbn [app].
      rewrite (builder_is_index_rows o w idx n sw Hready Hcontract Hrange Hsw' Hcursor Hfirst
                                     Hlater') in Hidx.
      destruct (fresh_file_rows o w idx n sw Hready Hcontract Hrange Hsw' Hcursor Hfirst
                                Hlater' rows Hz Hidx) as (row & rest & -> & H0 & _).
      eauto.
    - destruct Hfr as (row & rest & -> & H0); [lia|]. exists row, (rest ++ rows). auto. }
  assert (Hla' : exists row, last (rf_data_index f ++ rows) = Some row
                             /\ global_index o3
                                = fst row - global_start_sample o
                                  + (dataset_index o + r - snd row)).
  { rewrite last_app. destruct (last rows) as [[G P]|] eqn:Hlr.
    - exists (G, P). split; [reflexivity|]. destruct Hformula as (b & Hb1 & _ & Hb2).
      cbn [fst snd]. lia.
    - apply last_None in Hlr. subst rows. rewrite app_nil_r in Hfr'.
      destruct Hfr' as (row & rest & Hrr & _).
      destruct (last (rf_data_index f)) as [x|] eqn:Hlx;
        [|apply last_None in Hlx; rewrite Hlx in Hrr; discriminate].
      exists x. split; [reflexivity|]. lia. }
  assert (Hfill : (Z.to_nat (samples_per_file o - dataset_index o) - length data)%nat
                  = Z.to_nat (samples_per_file o - dataset_index o - r)) by lia.
  rewrite Hfill in Hdata'.
  split.
  { unfold file_ready, close_if_full. rewrite Hc3, Hdi3.
    destruct (Z.eqb_spec (dataset_index o + r) (samples_per_file o)) as [Heq|Hneq]; cbn;
      [exact I|].
    rewrite Hf3. exists f', (written ++ data).
    rewrite Hdi3, Hc3, Hi3, Hn3, Hidx', fmap_app, <- app_assoc.
    replace (samples_per_file o - (dataset_index o + r))
      with (samples_per_file o - dataset_index o - r) by lia.
    destruct Hla' as (row & -> & Hrow).
    repeat split; auto; rewrite length_app; lia. }
  split; [unfold cursor_bound; rewrite Hg3; exact Hbound'|]. split; [exact Hadv|].
  exists name, f', written, rows.
  split; [exact Hwas|]. split.
  { unfold close_if_full. rewrite Hc3, Hdi3.
    destruct (Z.eqb_spec (dataset_index o + r) (samples_per_file o)) as [Heq|Hneq]; cbn; auto. }
  split; [exact Hf'|]. split; [exact Hidx|]. split; [exact Hlen|]. split.
  { destruct (w_files w !! name) as [f0|].
    - subst f0. auto.
    - destruct Hold as (-> & Hnil & Hseq). rewrite Hidx', Hnil, Hseq'. auto. }
  rewrite Hidx'. auto 10.
Qed.

(** ** The files along the loop of one call *)

Lemma set_chunking_file_ready (o : Digital_rf_write_object) (w : World) (n : Z) :
  file_ready o w -> file_ready (set_chunking o n) w.
Proof.
  unfold file_ready, set_chunking. destruct (_ && _); auto.
Qed.

Lemma call_start_bound (o : Digital_rf_write_object) (idx : index_pairs) (n : Z) :
  index_contract idx -> global_index o <= leading_global idx ->
  cursor_bound idx (set_chunking o n) 0.
Proof.
  intros Hcontract Hle. unfold cursor_bound.
  rewrite (proj1 (proj2 (set_chunking_fields o n))).
  destruct (contract_shape idx Hcontract) as (p0 & rest & -> & H0 & Hadv).
  cbn [leading_global] in Hle.
  destruct (advancing_steps rest p0 Hadv) as [Hall _].
  constructor; [lia|]. eapply Forall_impl; [exact Hall|].
  intros q [H1 H2] _. lia.
Qed.

Lemma reaches_file (idx : index_pairs) (vec : list sample) (n : Z)
      (s s' : Digital_rf_write_object * World * Z) :
  loop_reaches idx vec n s s' ->
  index_contract idx ->
  loop_invariant idx n (fst (fst s)) (snd (fst s)) (snd s) ->
  file_ready (fst (fst s)) (snd (fst s)) ->
  cursor_bound idx (fst (fst s)) (snd s) ->
  call_in_range (fst (fst s)) idx n ->
  loop_invariant idx n (fst (fst s')) (snd (fst s')) (snd s')
  /\ file_ready (fst (fst s')) (snd (fst s'))
  /\ cursor_bound idx (fst (fst s')) (snd s')
  /\ config (fst (fst s')) = config (fst (fst s))
  /\ global_index (fst (fst s)) + (snd s' - snd s) <= global_index (fst (fst s')).
Proof.
  intros Hreach Hcontract. induction Hreach as [s|o o1 w w1 sw r s Hlt Hrun Hr Hreach IH];
    intros Hinv Hfile Hbound Hrange;
    [do 3 (split; [assumption|]); split; [reflexivity|lia]|]. cbn [fst snd] in *.
  destruct (slice_step _ _ _ _ _ _ _ _ _ Hinv Hcontract Hrange Hlt Hrun Hr)
    as (Hc & Hr1 & _ & _ & Hinv').
  destruct (file_step _ _ _ _ _ _ _ _ _ Hinv Hfile Hbound Hcontract Hrange Hlt Hrun Hr)
    as (Hfile' & Hbound' & Hadv & _).
  assert (Hu : u64 (sw + r) = sw + r).
  { destruct Hinv' as (_ & Hb & _), Hrange as [Hn _], Hinv as ((Hf & _) & _).
    destruct Hf as (Hspf & _). unfold in_u64 in Hspf. apply u64_small. lia. }
  rewrite Hu in IH. rewrite Hc in IH.
  destruct IH as (H1 & H2 & H3 & H4 & H5); try assumption.
  do 3 (split; [assumption|]). split; [congruence|lia].
Qed.

(** An append that succeeds leaves the writer as it found it: in the state
    between two slices, with the fields fixed at creation unchanged, and,
    when a file is open, with that file holding the samples written to it,
    the fill value after them, and index rows that increase and point to
    written samples.  The cursor has advanced by the length of the buffer at
    least. *)
Theorem append_keeps_ready (o o' : Digital_rf_write_object) (w w' : World) (idx : index_pairs)
        (vec : list sample) (n : Z) :
  slice_ready o w -> file_ready o w -> index_contract idx -> call_in_range o idx n ->
  digital_rf_write_blocks_hdf5 o w idx (Some vec) n = Some (Ret (0, o', w')) ->
  slice_ready o' w' /\ file_ready o' w' /\ config o' = config o
  /\ global_index o + n <= global_index o'.
Proof.
  intros Hready Hfile Hcontract Hrange Hrun. unfold digital_rf_write_blocks_hdf5 in Hrun.
  destruct (contract_shape idx Hcontract) as (p0 & rest & Hidx & H0 & _).
  assert (Hn : 1 <= n).
  { destruct Hrange as [_ Hall]. rewrite Hidx in Hall. apply Forall_cons in Hall as [Hp _]. lia. }
  rewrite Hidx in Hrun. destruct p0 as [g0 d0]. rewrite <- Hidx in Hrun.
  destruct (Z.ltb_spec g0 (global_index o)) as [|Hle]; [discriminate|].
  assert (Hle' : global_index o <= leading_global idx) by (rewrite Hidx; exact Hle).
  assert (Hstart : loop_invariant idx n (set_chunking o n) w 0)
    by (apply call_start_invariant; auto; lia).
  assert (Hrange' : call_in_range (set_chunking o n) idx n)
    by (now rewrite (proj1 (set_chunking_fields o n))).
  apply loop_result_reaches in Hrun as (sw' & Hreach & Hend).
  destruct (reaches_file _ _ _ _ _ Hreach Hcontract Hstart
                         (set_chunking_file_ready o w n Hfile)
                         (call_start_bound o idx n Hcontract Hle') Hrange')
    as (Hinv & Hfile' & _ & Hc & Hadv).
  cbn [fst snd] in *. destruct Hinv as (Hready' & Hb & _).
  destruct (set_chunking_fields o n) as (Hc0 & Hg0 & _).
  rewrite Hg0 in Hadv. rewrite Hc0 in Hc.
  repeat split; try assumption; try apply Hready'. lia.
Qed.

(** The samples of a slice.  A slice of [r] samples that is written stores
    them, in the order of the buffer, in the rows of /rf_data that follow
    the samples the file held; those samples are as they were, and the rows
    after the slice hold the fill value. *)
Theorem slice_stores_samples (o : Digital_rf_write_object) (w : World) (idx : index_pairs)
        (vec : list sample) (n : Z) :
  slice_ready o w -> file_ready o w -> index_contract idx -> call_in_range o idx n ->
  global_index o <= leading_global idx ->
  forall o1 w1 sw r o2 w2,
    loop_reaches idx vec n (set_chunking o n, w, 0) (o1, w1, sw) ->
    sw < n ->
    digital_rf_write_samples_to_file o1 w1 sw idx vec n = Ret (r, o2, w2) ->
    r <> 0 ->
    exists name f' written,
      (hdf5_file o1 = Some name \/ hdf5_file o1 = None /\ w_files w1 !! name = None)
      /\ w_files w2 !! name = Some f'
      /\ Z.of_nat (length written) = dataset_index o1
      /\ (forall f, w_files w1 !! name = Some f ->
                    rf_data f = (Some <$> written)
                                ++ replicate (Z.to_nat (samples_per_file o1 - dataset_index o1))
                                             None)
      /\ (w_files w1 !! name = None -> written = [])
      /\ Z.of_nat (length (take (Z.to_nat r) (drop (Z.to_nat sw) vec))) = r
      /\ rf_data f' = (Some <$> written)
                      ++ (Some <$> take (Z.to_nat r) (drop (Z.to_nat sw) vec))
                      ++ replicate (Z.to_nat (samples_per_file o1 - dataset_index o1 - r)) None.
Proof.
  intros Hready Hfile Hcontract Hrange Hle o1 w1 sw r o2 w2 Hreach Hlt Hrun Hr.
  assert (Hn : 0 <= n).
  { destruct (contract_shape idx Hcontract) as (p0 & rest & Hidx & _).
    destruct Hrange as [_ Hall]. rewrite Hidx in Hall. apply Forall_cons in Hall as [Hp _]. lia. }
  assert (Hstart : loop_invariant idx n (set_chunking o n) w 0)
    by (apply call_start_invariant; auto).
  assert (Hrange' : call_in_range (set_chunking o n) idx n)
    by (now rewrite (proj1 (set_chunking_fields o n))).
  destruct (reaches_file _ _ _ _ _ Hreach Hcontract Hstart
                         (set_chunking_file_ready o w n Hfile)
                         (call_start_bound o idx n Hcontract Hle) Hrange')
    as (Hinv & Hfile1 & Hbound1 & Hc & _).
  cbn [fst snd] in *.
  assert (Hrange1 : call_in_range o1 idx n) by (now rewrite Hc).
  destruct (file_step _ _ _ _ _ _ _ _ _ Hinv Hfile1 Hbound1 Hcontract Hrange1 Hlt Hrun Hr)
    as (_ & _ & _ & name & f' & written & rows & Hwas & _ & Hf' & _ & Hlen & Hold & Hdata
        & Hdlen & _).
  exists name, f', written. repeat split; auto.
  - intros f Hf. rewrite Hf in Hold. apply Hold.
  - intros Hnone. rewrite Hnone in Hold. apply Hold.
Qed.


(** ** The global index of a buffer position *)

Lemma sorted_same (idx : index_pairs) (p q : Z * Z) :
  StronglySorted steps idx -> In p idx -> In q idx -> snd p = snd q -> p = q.
Proof.
  induction 1 as [|a l Hs IH Hall]; intros Hp Hq Heq; [contradiction|].
  rewrite List.Forall_forall in Hall.
  destruct Hp as [<-|Hp], Hq as [<-|Hq].
  - reflexivity.
  - destruct (Hall q Hq). lia.
  - destruct (Hall p Hp). lia.
  - auto.
Qed.

Lemma get_global_sample_loop_spec (pos : Z) (rest : index_pairs) :
  forall p,
    advancing_from p rest ->
    Forall (fun q => 0 <= fst q /\ 0 <= snd q /\ fst q - snd q + pos < 2 ^ 64) (p :: rest) ->
    snd p <= pos ->
    exists p', In p' (p :: rest) /\ snd p' <= pos
               /\ (forall q, In q (p :: rest) -> snd q <= pos -> snd q <= snd p')
               /\ get_global_sample_loop pos rest (fst p + (pos - snd p))
                  = fst p' + (pos - snd p').
Proof.
  induction rest as [|[g d] rest IH]; intros p Hadv Hall Hpos.
  - exists p. split; [now left|]. split; [lia|]. split; [|reflexivity].
    intros q [<-|[]] _. lia.
  - destruct Hadv as (Hlt & Hle & Hadv). cbn [get_global_sample_loop].
    apply Forall_cons in Hall as [Hp Hall].
    destruct (Z.ltb_spec pos d) as [Hbefore|Hafter].
    + exists p. split; [now left|]. split; [lia|]. split; [|reflexivity].
      intros q [<-|[<-|Hq]] Hq'; [lia|cbn in *; lia|].
      pose proof (proj1 (List.Forall_forall _ _) (advancing_monotone _ _ Hadv) q Hq) as Hm.
      cbn in Hm, Hlt. lia.
    + pose proof Hall as Hall'. apply Forall_cons in Hall' as [Hq _]. cbn in Hq, Hlt, Hle.
      assert (Hu : u64 (g + u64 (pos - d)) = fst (g, d) + (pos - snd (g, d))).
      { cbn. u64_norm. reflexivity. }
      rewrite Hu.
      destruct (IH (g, d) Hadv Hall) as (p' & Hin & Hle' & Hmax & Heq); [cbn; lia|].
      exists p'. split; [now right|]. split; [assumption|]. split; [|assumption].
      intros q [<-|Hq'] Hqpos; [|auto].
      specialize (Hmax (g, d) (or_introl eq_refl)). cbn in Hmax. lia.
Qed.

Lemma get_global_sample_spec (idx : index_pairs) (pos : Z) :
  index_contract idx ->
  Forall (fun q => 0 <= fst q /\ 0 <= snd q /\ fst q - snd q + pos < 2 ^ 64) idx ->
  0 <= pos ->
  exists p, In p idx /\ snd p <= pos
            /\ (forall q, In q idx -> snd q <= pos -> snd q <= snd p)
            /\ digital_rf_get_global_sample pos idx = Ret (fst p + (pos - snd p)).
Proof.
  intros Hcontract Hall Hpos.
  destruct (contract_shape idx Hcontract) as ([g0 d0] & rest & -> & H0 & Hadv).
  cbn in H0. subst d0.
  destruct (get_global_sample_loop_spec pos rest (g0, 0) Hadv Hall)
    as (p & Hin & Hle & Hmax & Heq); [cbn; lia|].
  exists p. repeat split; auto.
  cbn [digital_rf_get_global_sample]. f_equal. rewrite <- Heq. f_equal.
  apply Forall_cons in Hall as [Hp _]. cbn in Hp |- *. u64_norm. reflexivity.
Qed.

Lemma pairs_bound (idx : index_pairs) (bound pos : Z) :
  Forall (fun q => 0 <= fst q /\ fst q + bound < 2 ^ 64 /\ 0 <= snd q) idx ->
  pos <= bound ->
  Forall (fun q => 0 <= fst q /\ 0 <= snd q /\ fst q - snd q + pos < 2 ^ 64) idx.
Proof.
  intros Hall Hpos. eapply Forall_impl; [exact Hall|]. cbn. intros; lia.
Qed.

(** The global index of a buffer position.  For index arrays that respect
    the contract, [digital_rf_get_global_sample] gives the global index of
    the last pair at or before the position, plus the distance from that
    pair's buffer position; this is the leading global index at position 0,
    and from one position to a later one it grows by the distance between
    them at least. *)
Theorem get_global_sample_of_pairs (idx : index_pairs) (bound : Z) :
  index_contract idx -> 0 <= bound ->
  Forall (fun q => 0 <= fst q /\ fst q + bound < 2 ^ 64 /\ 0 <= snd q) idx ->
  digital_rf_get_global_sample 0 idx = Ret (leading_global idx)
  /\ (forall pos, 0 <= pos <= bound ->
        exists p, In p idx /\ snd p <= pos
                  /\ (forall q, In q idx -> snd q <= pos -> snd q <= snd p)
                  /\ digital_rf_get_global_sample pos idx = Ret (fst p + (pos - snd p)))
  /\ (forall pos pos' g g',
        0 <= pos <= pos' -> pos' <= bound ->
        digital_rf_get_global_sample pos idx = Ret g ->
        digital_rf_get_global_sample pos' idx = Ret g' ->
        g + (pos' - pos) <= g').
Proof.
  intros Hcontract Hbound Hall. pose proof (contract_sorted idx Hcontract) as Hsorted.
  split; [|split].
  - destruct (contract_shape idx Hcontract) as ([g0 d0] & rest & -> & H0 & Hadv).
    cbn in H0. subst d0. apply Forall_cons in Hall as [Hp _]. cbn in Hp.
    cbn [digital_rf_get_global_sample leading_global fst]. f_equal.
    destruct rest as [|[g d] rest]; cbn [get_global_sample_loop].
    + u64_norm. lia.
    + destruct Hadv as (Hlt & _). cbn in Hlt.
      destruct (Z.ltb_spec 0 d); [|lia]. u64_norm. lia.
  - intros pos Hpos.
    apply (get_global_sample_spec idx pos Hcontract); [|lia].
    apply (pairs_bound idx bound); [assumption|lia].
  - intros pos pos' g g' Hpos Hpos' Hg Hg'.
    destruct (get_global_sample_spec idx pos Hcontract)
      as (p & Hp & Hple & Hpmax & Hpeq); [apply (pairs_bound idx bound); [assumption|lia]|lia|].
    destruct (get_global_sample_spec idx pos' Hcontract)
      as (p' & Hp' & Hple' & Hpmax' & Hpeq');
      [apply (pairs_bound idx bound); [assumption|lia]|lia|].
    rewrite Hpeq in Hg. rewrite Hpeq' in Hg'. injection Hg as <-. injection Hg' as <-.
    assert (Hle : snd p <= snd p') by (apply Hpmax'; [assumption|lia]).
    destruct (Z.eq_dec (snd p) (snd p')) as [Heq|Hne].
    + rewrite (sorted_same idx p p' Hsorted Hp Hp' Heq). lia.
    + destruct (sorted_pairs idx p p' Hsorted Hp Hp') as [_ H]; lia.
Qed.

Lemma get_global_sample_of_pairs_witness :
  digital_rf_get_global_sample 0 example_gap = Ret (leading_global example_gap)
  /\ (forall pos, 0 <= pos <= 60 ->
        exists p, In p example_gap /\ snd p <= pos
                  /\ (forall q, In q example_gap -> snd q <= pos -> snd q <= snd p)
                  /\ digital_rf_get_global_sample pos example_gap
                     = Ret (fst p + (pos - snd p)))
  /\ (forall pos pos' g g',
        0 <= pos <= pos' -> pos' <= 60 ->
        digital_rf_get_global_sample pos example_gap = Ret g ->
        digital_rf_get_global_sample pos' example_gap = Ret g' ->
        g + (pos' - pos) <= g').
Proof.
  apply (get_global_sample_of_pairs example_gap 60).
  - exact example_gap_contract.
  - lia.
  - repeat constructor; cbn; lia.
Defined.

(** ** The cursor follows the last sample written *)

Section SliceExact.
Variables (o : Digital_rf_write_object) (w : World).
Variables (idx : index_pairs) (n sw : Z).

Hypothesis Hready : slice_ready o w.
Hypothesis Hcontract : index_contract idx.
Hypothesis Hrange : call_in_range o idx n.
Hypothesis Hsw : 0 <= sw < n.
Hypothesis Hcursor : global_index o + (n - sw) + global_start_sample o < 2 ^ 64.
Hypothesis Hfirst : sw = 0 -> global_index o <= leading_global idx.
Hypothesis Hlater : 0 < sw -> leading_global idx <= global_index o /\ hdf5_file o = None.

Lemma cursor_cases (rows : list (Z * Z)) (r cursor' : Z) :
  digital_rf_create_rf_data_index o sw idx = Ret (inr rows) ->
  match last rows with
  | None => cursor' = global_index o + r
  | Some (G, P) =>
      exists b, P = b + dataset_index o - sw /\ sw <= b < sw + r
                /\ cursor' = G - global_start_sample o + (sw + r - b)
  end ->
  (emitted o sw idx = [] /\ cursor' = global_index o + r)
  \/ (exists E' l, emitted o sw idx = E' ++ [l] /\ cursor' = fst l + (sw + r - snd l)).
Proof using All.
  intros Hrows Hlast.
  pose proof (rows_of_pairs o w idx n sw Hready Hcontract Hrange Hsw Hcursor Hfirst Hlater
                            rows Hrows) as Hshape.
  destruct (emitted o sw idx) as [|p E] eqn:HEq.
  - left. split; [reflexivity|]. rewrite Hshape in Hlast. cbn [map] in Hlast.
    rewrite app_nil_r in Hlast. destruct (first_found sw idx); cbn [last] in Hlast.
    + assumption.
    + destruct Hlast as (b & Hb1 & _ & Hb2). lia.
  - right. destruct (exists_last (l := p :: E)) as (E' & l & HEl); [discriminate|].
    exists E', l. split; [assumption|]. rewrite HEl in Hshape.
    rewrite Hshape, map_app in Hlast. cbn [map] in Hlast.
    rewrite app_assoc, last_snoc in Hlast. cbn beta in Hlast.
    destruct Hlast as (b & Hb1 & _ & Hb2). cbn [fst snd] in *. lia.
Qed.

Lemma cursor_exact_step (rows : list (Z * Z)) (r cursor' : Z) :
  (0 < sw -> cursor_exact idx (global_index o) sw) ->
  digital_rf_create_rf_data_index o sw idx = Ret (inr rows) ->
  r = Z.min (n - sw) (samples_per_file o - dataset_index o) ->
  match last rows with
  | None => cursor' = global_index o + r
  | Some (G, P) =>
      exists b, P = b + dataset_index o - sw /\ sw <= b < sw + r
                /\ cursor' = G - global_start_sample o + (sw + r - b)
  end ->
  cursor_exact idx cursor' (sw + r).
Proof using All.
  intros Hexact Hrows Hr Hlast.
  pose proof (cursor_room o w idx n sw Hready Hcontract Hrange Hsw Hcursor Hfirst Hlater)
    as (Hdi & Hroom & Hnone & _).
  pose proof (end_index_room o w idx n sw Hready Hcontract Hrange Hsw Hcursor Hfirst Hlater)
    as Hend.
  pose proof (contract_sorted idx Hcontract) as Hsorted.
  pose proof (sorted_filter (emit o sw) idx Hsorted) as HsortedE.
  fold (emitted o sw idx) in HsortedE.
  (* a pair in the slice gives a row, or is the continuation at its start *)
  assert (Hin_slice : forall q, In q idx -> sw <= snd q < sw + r ->
                                In q (emitted o sw idx)
                                \/ (snd q = sw /\ 0 < dataset_index o
                                    /\ global_index o = fst q)).
  { intros q Hq Hb. destruct (emit o sw q) eqn:Hemit.
    - left. apply filter_In. auto.
    - right. unfold emit, in_file, no_gap in Hemit. rewrite Hend in Hemit.
      unfold first_index in Hemit.
      destruct (Z.leb_spec sw (snd q)); [|lia].
      destruct (Z.ltb_spec (snd q) (sw + (samples_per_file o - dataset_index o))); [|lia].
      cbn [andb] in Hemit. apply negb_false_iff in Hemit.
      apply andb_true_iff in Hemit as [Hemit Hg]. apply andb_true_iff in Hemit as [Hs Hp].
      apply Z.eqb_eq in Hs, Hg. apply Z.ltb_lt in Hp. auto. }
  destruct (cursor_cases rows r cursor' Hrows Hlast) as [[HE ->]|(E' & l & HEl & ->)].
  - rewrite HE in Hin_slice.
    destruct (Z.eq_dec sw 0) as [Hz|Hnz].
    + destruct (contract_shape idx Hcontract) as (p0 & rest & Hidx & H0 & Hadv).
      assert (Hp0 : In p0 idx) by (rewrite Hidx; now left).
      destruct (Hin_slice p0 Hp0) as [[]|(_ & _ & Hg)]; [lia|].
      exists p0. split; [assumption|]. split; [lia|]. split; [|lia].
      intros q Hq Hlt.
      destruct (pair_facts o w idx n sw Hready Hcontract Hrange Hsw Hcursor Hfirst Hlater q Hq)
        as (_ & _ & _ & Hb).
      destruct (Hin_slice q Hq) as [[]|(Hs & _)]; lia.
    + destruct Hexact as (p & Hp & Hlt & Hmax & Hg); [lia|].
      assert (Hd0 : dataset_index o = 0) by (apply Hnone, Hlater; lia).
      exists p. split; [assumption|]. split; [lia|]. split; [|lia].
      intros q Hq Hqlt. destruct (Z.lt_ge_cases (snd q) sw) as [|Hge]; [auto|].
      destruct (Hin_slice q Hq) as [[]|(_ & Hpos & _)]; lia.
  - assert (Hl : In l (emitted o sw idx)) by (rewrite HEl; apply in_or_app; right; now left).
    destruct (emitted_facts o w idx n sw Hready Hcontract Hrange Hsw Hcursor Hfirst Hlater l Hl)
      as (Hlin & Hlb & _).
    destruct (pair_facts o w idx n sw Hready Hcontract Hrange Hsw Hcursor Hfirst Hlater l Hlin)
      as (_ & _ & _ & Hln).
    exists l. split; [assumption|]. split; [lia|]. split; [|lia].
    intros q Hq Hqlt. destruct (Z.lt_ge_cases (snd q) sw) as [|Hge]; [lia|].
    destruct (Hin_slice q Hq) as [Hqe|(Hs & _)]; [lia| |lia].
    rewrite HEl in Hqe, HsortedE. exact (sorted_last E' l q HsortedE Hqe).
Qed.

End SliceExact.

Lemma reaches_exact (idx : index_pairs) (vec : list sample) (n : Z)
      (s s' : Digital_rf_write_object * World * Z) :
  loop_reaches idx vec n s s' ->
  index_contract idx ->
  loop_invariant idx n (fst (fst s)) (snd (fst s)) (snd s) ->
  (0 < snd s -> cursor_exact idx (global_index (fst (fst s))) (snd s)) ->
  call_in_range (fst (fst s)) idx n ->
  0 < snd s' -> cursor_exact idx (global_index (fst (fst s'))) (snd s').
Proof.
  intros Hreach Hcontract. induction Hreach as [s|o o1 w w1 sw r s Hlt Hrun Hr Hreach IH];
    intros Hinv Hexact Hrange; [auto|]. cbn [fst snd] in *.
  destruct (slice_step _ _ _ _ _ _ _ _ _ Hinv Hcontract Hrange Hlt Hrun Hr)
    as (Hc & Hr1 & Hrmin & (rows & Hrows & Hformula) & Hinv').
  assert (Hu : u64 (sw + r) = sw + r).
  { destruct Hinv' as (_ & Hb & _), Hrange as [Hn _], Hinv as ((Hf & _) & _).
    destruct Hf as (Hspf & _). unfold in_u64 in Hspf. apply u64_small. lia. }
  rewrite Hu in IH. apply IH; [assumption| |now rewrite Hc].
  intros _. destruct Hinv as (Hready & Hsw & Hcursor & Hfirst & Hlater).
  assert (Hsw' : 0 <= sw < n) by lia.
  assert (Hlater' : 0 < sw -> leading_global idx <= global_index o /\ hdf5_file o = None).
  { intros H. destruct (Hlater H) as [H1 H2]. split; [assumption|]. apply H2. lia. }
  pose proof (cursor_room o w idx n sw Hready Hcontract Hrange Hsw' Hcursor Hfirst Hlater')
    as (Hdi & Hroom & Hnone & Havail).
  apply (cursor_exact_step o w idx n sw Hready Hcontract Hrange Hsw' Hcursor Hfirst Hlater'
                           rows r (global_index o1) Hexact Hrows); [|exact Hformula].
  rewrite Hrmin. destruct (hdf5_file o) eqn:Hof.
  - rewrite Havail by discriminate. reflexivity.
  - rewrite Hnone by reflexivity. f_equal. lia.
Qed.


(** ** Files and sequence numbers of an append *)

Lemma slice_seq (o o' : Digital_rf_write_object) (w w' : World)
      (sw : Z) (idx : index_pairs) (vec : list sample) (n r : Z) :
  digital_rf_write_samples_to_file o w sw idx vec n = Ret (r, o', w') -> r <> 0 ->
  present_seq o' = present_seq o + match hdf5_file o with Some _ => 0 | None => 1 end.
Proof.
  intros Hrun Hr. apply write_samples_to_file_inv in Hrun; [|assumption].
  destruct Hrun as (rows & o1 & w1 & w2 & o2 & _ & _ & Hopen & _ & _ & Hindex & -> & _).
  assert (H2 : present_seq o2 = present_seq o1).
  { destruct rows.
    - injection Hindex as <- _. reflexivity.
    - apply write_rf_data_index_inv in Hindex. apply Hindex. }
  assert (H3 : present_seq (close_if_full (advance_state o2 rows r)) = present_seq o2).
  { unfold close_if_full. destruct (_ =? _); reflexivity. }
  rewrite H3, H2.
  destruct (open_file_cases _ _ _ _ _ _ Hopen) as [(name & -> & -> & _)|(-> & name & Hnew)].
  - lia.
  - apply Hnew.
Qed.

(** The number of files that hold the first [count] samples written from
    in-file position [start] on, with [capacity] samples in a file. *)
Lemma files_first (start count capacity : Z) :
  0 <= start -> 1 <= count -> start + count <= capacity ->
  (start + count + capacity - 1) / capacity = 1.
Proof.
  intros H0 H1 H2. symmetry. apply (Z.div_unique _ _ 1 (start + count - 1)); lia.
Qed.

Lemma files_next (filled count capacity : Z) :
  1 <= capacity -> 0 <= filled -> filled mod capacity = 0 -> 1 <= count <= capacity ->
  (filled + count + capacity - 1) / capacity = (filled + capacity - 1) / capacity + 1
  /\ (filled + capacity - 1) / capacity = filled / capacity.
Proof.
  intros Hc Hf Hmod Hcount.
  pose proof (Z.div_mod filled capacity ltac:(lia)) as Hdm. rewrite Hmod, Z.add_0_r in Hdm.
  set (m := filled / capacity) in *.
  assert (Hm : (filled + capacity - 1) / capacity = m).
  { symmetry. apply (Z.div_unique _ _ m (capacity - 1)); lia. }
  split; [|assumption]. rewrite Hm. symmetry.
  apply (Z.div_unique _ _ (m + 1) (count - 1)); lia.
Qed.

Lemma reaches_files (idx : index_pairs) (vec : list sample) (n : Z)
      (start seq0 opened : Z) (s s' : Digital_rf_write_object * World * Z) :
  loop_reaches idx vec n s s' ->
  index_contract idx ->
  loop_invariant idx n (fst (fst s)) (snd (fst s)) (snd s) ->
  file_ready (fst (fst s)) (snd (fst s)) ->
  cursor_bound idx (fst (fst s)) (snd s) ->
  call_in_range (fst (fst s)) idx n ->
  0 <= start < samples_per_file (fst (fst s)) ->
  (snd s = 0 ->
   dataset_index (fst (fst s)) = start /\ present_seq (fst (fst s)) = seq0
   /\ opened = match hdf5_file (fst (fst s)) with Some _ => 1 | None => 0 end) ->
  (0 < snd s ->
   dataset_index (fst (fst s)) = (start + snd s) mod samples_per_file (fst (fst s))
   /\ (hdf5_file (fst (fst s)) = None <-> (start + snd s) mod samples_per_file (fst (fst s)) = 0)
   /\ present_seq (fst (fst s))
      = seq0 + (start + snd s + samples_per_file (fst (fst s)) - 1)
               / samples_per_file (fst (fst s)) - opened) ->
  0 < snd s' ->
  dataset_index (fst (fst s')) = (start + snd s') mod samples_per_file (fst (fst s))
  /\ (hdf5_file (fst (fst s')) = None <-> (start + snd s') mod samples_per_file (fst (fst s)) = 0)
  /\ present_seq (fst (fst s'))
     = seq0 + (start + snd s' + samples_per_file (fst (fst s)) - 1)
              / samples_per_file (fst (fst s)) - opened.
Proof.
  intros Hreach Hcontract. induction Hreach as [s|o o1 w w1 sw r s Hlt Hrun Hr Hreach IH];
    intros Hinv Hfile Hbound Hrange Hstart Hzero Hpos; [auto|]. cbn [fst snd] in *.
  destruct (slice_step _ _ _ _ _ _ _ _ _ Hinv Hcontract Hrange Hlt Hrun Hr)
    as (Hc & Hr1 & Hrmin & _ & Hinv').
  destruct (file_step _ _ _ _ _ _ _ _ _ Hinv Hfile Hbound Hcontract Hrange Hlt Hrun Hr)
    as (Hfile' & Hbound' & _ & name & _ & _ & _ & _ & Hafter & _).
  pose proof (slice_seq _ _ _ _ _ _ _ _ _ Hrun Hr) as Hseq.
  assert (Hu : u64 (sw + r) = sw + r).
  { destruct Hinv' as (_ & Hb & _), Hrange as [Hn _], Hinv as ((Hf & _) & _).
    destruct Hf as (Hspf & _). unfold in_u64 in Hspf. apply u64_small. lia. }
  rewrite Hu in IH. rewrite Hc in IH.
  apply IH; try assumption; [intros; destruct Hinv as (_ & ? & _); lia|]. intros _.
  destruct Hinv as (Hready & Hsw & _ & _ & Hlater).
  destruct Hinv' as (Hready' & _).
  destruct Hready as (_ & Hspf1 & Hstate).
  destruct Hready' as (_ & _ & Hstate'). rewrite Hc in *.
  set (spf := samples_per_file o) in *.
  (* the in-file cursor before the slice, and the room *)
  assert (Hdi' : (hdf5_file o1 = Some name /\ dataset_index o1 = dataset_index o + r
                  /\ dataset_index o + r < spf)
                 \/ (hdf5_file o1 = None /\ dataset_index o1 = 0
                     /\ dataset_index o + r = spf)).
  { destruct Hafter as [[Ho1 Hd1]|[Ho1 Hd1]]; rewrite Ho1 in Hstate'.
    - left. repeat split; auto. lia.
    - right. repeat split; auto. apply Hstate'. }
  destruct (Z.eq_dec sw 0) as [Hz|Hnz].
  - destruct (Hzero Hz) as (Hd0 & Hs0 & Hop). subst sw. rewrite Z.add_0_l in *.
    assert (Hroom : dataset_index o + r <= spf).
    { destruct Hdi' as [(_ & _ & H)|(_ & _ & H)]; lia. }
    rewrite Hd0 in *.
    rewrite (files_first start r spf) by lia.
    split; [|split].
    + destruct Hdi' as [(_ & -> & H)|(_ & -> & H)].
      * symmetry. apply Z.mod_small. lia.
      * rewrite H. symmetry. apply Z_mod_same_full.
    + destruct Hdi' as [(Ho1 & _ & H)|(Ho1 & _ & H)]; rewrite Ho1.
      * rewrite Z.mod_small by lia. split; [discriminate|lia].
      * rewrite H, Z_mod_same_full. split; reflexivity.
    + rewrite Hseq, Hs0, Hop. destruct (hdf5_file o); lia.
  - destruct Hpos as (Hd & Hnone & Hs); [lia|].
    assert (Hclosed : hdf5_file o = None) by (apply Hlater; lia).
    rewrite Hclosed in *. destruct Hstate as [Hd0 _].
    assert (Hmod : (start + sw) mod spf = 0) by (apply Hnone; reflexivity).
    assert (Hrr : 1 <= r <= spf).
    { destruct Hdi' as [(_ & _ & H)|(_ & _ & H)]; lia. }
    destruct (files_next (start + sw) r spf) as [Hf1 Hf2]; try lia.
    replace (start + (sw + r)) with (start + sw + r) by lia.
    assert (Hmodr : (start + sw + r) mod spf = r mod spf).
    { rewrite Z.add_mod, Hmod, Z.add_0_l, Z.mod_mod by lia. reflexivity. }
    rewrite Hmodr, Hf1.
    split; [|split].
    + destruct Hdi' as [(_ & -> & H)|(_ & -> & H)].
      * rewrite Z.mod_small by lia. lia.
      * replace r with spf by lia. symmetry. apply Z_mod_same_full.
    + destruct Hdi' as [(Ho1 & _ & H)|(Ho1 & _ & H)]; rewrite Ho1.
      * rewrite Z.mod_small by lia. split; [discriminate|lia].
      * replace r with spf by lia. rewrite Z_mod_same_full. split; reflexivity.
    + rewrite Hseq, Hs. lia.
Qed.

(** The files of an append.  After an append of [n] samples that succeeds,
    the in-file cursor is the cursor before it plus [n], modulo the capacity
    of a file; a file is open exactly when that is not 0; and the sequence
    number has advanced by the number of files the samples reach, less the
    one that was open. *)
Theorem files_of_append (o o' : Digital_rf_write_object) (w w' : World) (idx : index_pairs)
        (vec : list sample) (n : Z) :
  slice_ready o w -> file_ready o w -> index_contract idx -> call_in_range o idx n ->
  digital_rf_write_blocks_hdf5 o w idx (Some vec) n = Some (Ret (0, o', w')) ->
  dataset_index o' = (dataset_index o + n) mod samples_per_file o
  /\ (hdf5_file o' = None <-> (dataset_index o + n) mod samples_per_file o = 0)
  /\ present_seq o'
     = present_seq o + (dataset_index o + n + samples_per_file o - 1) / samples_per_file o
       - match hdf5_file o with Some _ => 1 | None => 0 end.
Proof.
  intros Hready Hfile Hcontract Hrange Hrun. unfold digital_rf_write_blocks_hdf5 in Hrun.
  destruct (contract_shape idx Hcontract) as (p0 & rest & Hidx & H0 & _).
  assert (Hn : 1 <= n).
  { destruct Hrange as [_ Hall]. rewrite Hidx in Hall. apply Forall_cons in Hall as [Hp _]. lia. }
  rewrite Hidx in Hrun. destruct p0 as [g0 d0]. rewrite <- Hidx in Hrun.
  destruct (Z.ltb_spec g0 (global_index o)) as [|Hle]; [discriminate|].
  assert (Hle' : global_index o <= leading_global idx) by (rewrite Hidx; exact Hle).
  assert (Hstart : loop_invariant idx n (set_chunking o n) w 0)
    by (apply call_start_invariant; auto; lia).
  assert (Hrange' : call_in_range (set_chunking o n) idx n)
    by (now rewrite (proj1 (set_chunking_fields o n))).
  apply loop_result_reaches in Hrun as (sw' & Hreach & Hend).
  destruct (reaches_invariant _ _ _ _ _ Hreach Hcontract Hstart Hrange') as [Hinv _].
  destruct (set_chunking_fields o n) as (Hc0 & _ & Hd0 & _ & Hf0 & _ & Hs0).
  pose proof (reaches_files idx vec n (dataset_index o) (present_seq o)
                            (match hdf5_file o with Some _ => 1 | None => 0 end)
                            _ _ Hreach Hcontract Hstart
                            (set_chunking_file_ready o w n Hfile)
                            (call_start_bound o idx n Hcontract Hle') Hrange') as Hfiles.
  cbn [fst snd] in *. rewrite Hc0, Hd0, Hs0, Hf0 in Hfiles.
  destruct Hinv as (_ & Hb & _). assert (sw' = n) by lia. subst sw'.
  apply Hfiles; auto; [|intros; lia|lia].
  destruct Hready as ((_ & _ & _ & Hdi & _) & Hspf1 & Hstate). unfold in_u64 in Hdi.
  destruct (hdf5_file o).
  - destruct Hstate as (Hav & Hsum & _). lia.
  - destruct Hstate as [-> _]. lia.
Qed.

(** ** An append that fails *)

Lemma H5Dwrite_rf_data_fail (o : Digital_rf_write_object) (w w2 : World) (data : list sample) :
  H5Dwrite_rf_data o w data = (false, w2) -> w_files w2 = w_files w.
Proof.
  unfold H5Dwrite_rf_data. destruct (next_fault w) as [fault w1] eqn:Hf.
  destruct (next_fault_frame _ _ _ Hf) as (_ & Hfi & _).
  destruct (hdf5_file o); [|intros [= <-]; auto].
  destruct (w_files w1 !! s); [|intros [= <-]; auto].
  destruct (write_hyperslab _ _ _); [|intros [= <-]; auto].
  destruct fault; intros [= <-]; auto.
Qed.

Lemma write_rf_data_index_fail (o o2 : Digital_rf_write_object) (w w3 : World)
      (rows : list (Z * Z)) (status : Z) :
  digital_rf_write_rf_data_index o w rows = (status, o2, w3) -> status <> 0 ->
  w_files w3 = w_files w.
Proof.
  unfold digital_rf_write_rf_data_index. destruct (next_fault w) as [fault w1] eqn:Hf.
  destruct (next_fault_frame _ _ _ Hf) as (_ & Hfi & _).
  destruct (hdf5_file o); [|intros [= <- <- <-]; auto].
  destruct (index_dataset o), fault; intros [= <- <- <-] Hs; auto; contradiction.
Qed.

Lemma ready_same_files (o : Digital_rf_write_object) (w w' : World) :
  w_files w' = w_files w -> slice_ready o w -> slice_ready o w'.
Proof. unfold slice_ready. intros ->. auto. Qed.

(** A slice that fails leaves the cursors where they were. *)
Lemma slice_fail_ready (o o' : Digital_rf_write_object) (w w' : World)
      (sw : Z) (idx : index_pairs) (vec : list sample) (n : Z) :
  slice_ready o w -> 0 <= sw < n -> n < 2 ^ 64 ->
  digital_rf_write_samples_to_file o w sw idx vec n = Ret (0, o', w') ->
  slice_ready o' w' /\ config o' = config o /\ global_index o' = global_index o
  /\ dataset_index o' = dataset_index o.
Proof.
  intros Hready Hsw Hn. unfold digital_rf_write_samples_to_file. intros H.
  assert (Hsame : forall d, slice_ready o (log d w)).
  { intros d. apply (ready_same_files o w); [reflexivity|assumption]. }
  destruct idx as [|[g0 d0] rest]; [injection H as <- <-; auto|].
  destruct (d0 =? 0); cbn [negb] in H; [|injection H as <- <-; auto].
  destruct (digital_rf_create_rf_data_index o sw ((g0, d0) :: rest)) as [[d|rows]|];
    cbn [bind] in H; [injection H as <- <-; auto| |discriminate].
  destruct (open_file_if_needed o w sw ((g0, d0) :: rest)) as [[[result o1] w1]|] eqn:Hopen;
    cbn [bind] in H; [|discriminate].
  pose proof Hready as ((Hspf & Hs & Hgi & Hdi & Hav) & Hspf1 & Hstate). unfold in_u64 in *.
  destruct (Z.eqb_spec result 0) as [->|Hres]; cbn [negb] in H.
  - (* the file is open *)
    assert (Hne : (g0, d0) :: rest <> []) by discriminate.
    destruct (open_file_ready _ _ _ _ _ _ Hready Hne Hopen)
      as (Hc1 & Hg1 & Hdi1 & Hav1 & _ & _ & _ & name & Hname & Hsome & _).
    assert (Hroom : 1 <= samples_per_file o - dataset_index o).
    { destruct (hdf5_file o); [destruct Hstate as (? & ? & _)|destruct Hstate as [? _]]; lia. }
    assert (Hready1 : slice_ready o1 w1).
    { unfold slice_ready, u64_fields, in_u64. rewrite Hc1, Hg1, Hdi1, Hav1, Hname.
      repeat split; auto; lia. }
    destruct (Z.of_nat (length vec) <? sw + samples_to_write o1 sw n); [discriminate|].
    destruct (H5Dwrite_rf_data o1 w1 _) as [written w2] eqn:Hwrite.
    destruct written; cbn [negb] in H.
    + apply H5Dwrite_rf_data_inv in Hwrite.
      destruct Hwrite as (name' & f & data & Hname' & Hf & _ & Hfiles2).
      rewrite Hname in Hname'. injection Hname' as <-.
      destruct (match rows with [] => _ | _ :: _ => _ end) as [[status o2] w3] eqn:Hindex.
      destruct (Z.eqb_spec status 0) as [->|Hst]; cbn [negb] in H.
      * destruct (samples_per_file _ <? dataset_index _); [discriminate|].
        injection H as Hzero _ _. exfalso. revert Hzero.
        unfold samples_to_write. rewrite Hav1. u64_norm.
        destruct (_ <? _); lia.
      * injection H as <- <-. destruct rows as [|row rows']; [injection Hindex as <- _ _; lia|].
        pose proof (write_rf_data_index_fail _ _ _ _ _ _ Hindex Hst) as Hfiles3.
        apply write_rf_data_index_inv in Hindex.
        destruct Hindex as (_ & _ & Hc2 & Hg2 & Hdi2 & Hav2 & Hf2 & _).
        split; [|repeat split; congruence].
        unfold slice_ready, u64_fields, in_u64.
        rewrite Hc2, Hg2, Hdi2, Hav2, Hf2, Hc1, Hg1, Hdi1, Hav1, Hname, Hfiles3, Hfiles2,
          lookup_insert_eq.
        repeat split; auto; try lia; eauto.
    + injection H as <- <-. apply H5Dwrite_rf_data_fail in Hwrite.
      split; [|repeat split; congruence].
      apply (ready_same_files o1 w1); [exact Hwrite|assumption].
  - (* no file could be opened *)
    injection H as <- <-. unfold open_file_if_needed in Hopen.
    destruct (hdf5_file o) eqn:Hfile; [injection Hopen as <- _ _; contradiction|].
    destruct (digital_rf_get_global_sample sw _) as [g|]; [|discriminate]. cbn [bind] in Hopen.
    apply create_hdf5_file_inv in Hopen. cbv zeta in Hopen.
    destruct Hopen as (_ & Hc1 & Hg1 & Hid1 & _ & _ & _ & [Hfail|(Hc & _)]); [|contradiction].
    destruct Hfail as (_ & Hdi1 & Hav1 & Hfiles & Hfile1).
    split; [|repeat split; congruence].
    assert (Hnone : hdf5_file o1 = None) by (destruct Hfile1; congruence).
    unfold slice_ready, u64_fields, in_u64. rewrite Hc1, Hg1, Hdi1, Hav1, Hnone, Hid1.
    repeat split; auto; try lia; apply Hstate.
Qed.

Lemma slice_cursor_advance (o o' : Digital_rf_write_object) (w w' : World) (idx : index_pairs)
      (vec : list sample) (n sw r : Z) :
  loop_invariant idx n o w sw -> cursor_bound idx o sw ->
  index_contract idx -> call_in_range o idx n -> sw < n ->
  digital_rf_write_samples_to_file o w sw idx vec n = Ret (r, o', w') -> r <> 0 ->
  global_index o + r <= global_index o' /\ cursor_bound idx o' (sw + r).
Proof.
  intros Hinv Hbound Hcontract Hrange Hlt Hrun Hr.
  destruct (slice_step _ _ _ _ _ _ _ _ _ Hinv Hcontract Hrange Hlt Hrun Hr)
    as (Hcfg & Hr1 & Hrmin & (rows & Hrows & Hformula) & Hinv').
  destruct Hinv as (Hready & Hsw & Hcursor & Hfirst & Hlater).
  assert (Hsw' : 0 <= sw < n) by lia.
  assert (Hlater' : 0 < sw -> leading_global idx <= global_index o /\ hdf5_file o = None).
  { intros H. destruct (Hlater H) as [H1 H2]. split; [assumption|]. apply H2. lia. }
  pose proof (cursor_room o w idx n sw Hready Hcontract Hrange Hsw' Hcursor Hfirst Hlater')
    as (Hdi & Hroom & Hnone & Havail).
  assert (Hrmin' : r = Z.min (n - sw) (samples_per_file o - dataset_index o)).
  { rewrite Hrmin. destruct (hdf5_file o) eqn:Hof.
    - rewrite Havail by discriminate. reflexivity.
    - rewrite Hnone by reflexivity. f_equal. lia. }
  destruct (cursor_step o w idx n sw Hready Hcontract Hrange Hsw' Hcursor Hfirst Hlater'
                        rows r (global_index o') Hbound Hrows Hrmin' Hformula)
    as (Hadv & Hbound' & _).
  split; assumption.
Qed.

Lemma write_loop_ready (idx : index_pairs) (vec : list sample) (n : Z) (fuel : nat) :
  index_contract idx ->
  forall o w sw c o' w',
    loop_invariant idx n o w sw -> cursor_bound idx o sw -> call_in_range o idx n ->
    write_loop fuel o w sw idx vec n = Some (Ret (c, o', w')) ->
    (c = 0 \/ c = -6) /\ slice_ready o' w' /\ config o' = config o
    /\ global_index o <= global_index o'.
Proof.
  intros Hcontract. induction fuel as [|fuel IH]; intros o w sw c o' w' Hinv Hbound Hrange Hrun;
    cbn [write_loop] in Hrun; destruct (Z.ltb_spec sw n) as [Hlt|Hge].
  - discriminate.
  - injection Hrun as <- <- <-.
    split; [auto|]. split; [apply Hinv|]. split; [reflexivity|lia].
  - destruct (digital_rf_write_samples_to_file o w sw idx vec n) as [[[r o1] w1]|] eqn:Hstep;
      [|discriminate].
    destruct (Z.eqb_spec r 0) as [->|Hr].
    + injection Hrun as <- <- <-.
      destruct Hinv as (Hready & Hsw & _). pose proof Hrange as [Hn _].
      pose proof Hready as ((Hspf & _) & Hspf1 & _). unfold in_u64 in Hspf.
      assert (Hsw1 : 0 <= sw < n) by lia.
      assert (Hn1 : n < 2 ^ 64) by lia.
      destruct (slice_fail_ready _ _ _ _ _ _ _ _ Hready Hsw1 Hn1 Hstep)
        as (H1 & H2 & H3 & _).
      split; [auto|]. split; [assumption|]. split; [assumption|lia].
    + destruct (slice_step _ _ _ _ _ _ _ _ _ Hinv Hcontract Hrange Hlt Hstep Hr)
        as (Hc & Hr1 & _ & _ & Hinv').
      destruct (slice_cursor_advance _ _ _ _ _ _ _ _ _ Hinv Hbound Hcontract Hrange Hlt Hstep Hr)
        as (Hadv & Hbound').
      assert (Hu : u64 (sw + r) = sw + r).
      { destruct Hinv' as (_ & Hb & _), Hrange as [Hn _], Hinv as ((Hf & _) & _).
        destruct Hf as (Hspf & _). unfold in_u64 in Hspf. apply u64_small. lia. }
      rewrite Hu in Hrun.
      assert (Hrange1 : call_in_range o1 idx n) by (now rewrite Hc).
      destruct (IH _ _ _ _ _ _ Hinv' Hbound' Hrange1 Hrun) as (H1 & H2 & H3 & H4).
      split; [assumption|]. split; [assumption|]. split; [congruence|lia].
  - injection Hrun as <- <- <-.
    split; [auto|]. split; [apply Hinv|]. split; [reflexivity|lia].
Qed.

(** What an append returns.  On index arrays that respect the contract, a
    call with a buffer returns 0, -3 or -6; a call that returns -3 has
    changed neither the writer nor any file; and whatever the call returns,
    also after a failure of the file system or of HDF5, the writer is in the
    state between two slices, the fields fixed at creation are unchanged and
    the cursor has not moved back. *)
Theorem append_result (o o' : Digital_rf_write_object) (w w' : World) (idx : index_pairs)
        (vec : list sample) (n c : Z) :
  slice_ready o w -> index_contract idx -> call_in_range o idx n ->
  digital_rf_write_blocks_hdf5 o w idx (Some vec) n = Some (Ret (c, o', w')) ->
  (c = 0 \/ c = -3 \/ c = -6)
  /\ (c = -3 -> o' = o /\ w_files w' = w_files w /\ w_dirs w' = w_dirs w
                /\ global_index o > leading_global idx)
  /\ (c <> -3 -> global_index o <= leading_global idx)
  /\ slice_ready o' w' /\ config o' = config o /\ global_index o <= global_index o'.
Proof.
  intros Hready Hcontract Hrange Hrun. unfold digital_rf_write_blocks_hdf5 in Hrun.
  destruct (contract_shape idx Hcontract) as (p0 & rest & Hidx & H0 & _).
  assert (Hn : 1 <= n).
  { destruct Hrange as [_ Hall]. rewrite Hidx in Hall. apply Forall_cons in Hall as [Hp _]. lia. }
  rewrite Hidx in Hrun. destruct p0 as [g0 d0]. rewrite <- Hidx in Hrun.
  destruct (Z.ltb_spec g0 (global_index o)) as [Hlt|Hle].
  - injection Hrun as <- <- <-. rewrite Hidx. cbn [leading_global fst].
    split; [auto|]. split; [intros _; repeat split; auto; lia|]. split; [intros; contradiction|].
    split; [|split; [reflexivity|lia]].
    apply (ready_same_files o w); [reflexivity|assumption].
  - assert (Hle' : global_index o <= leading_global idx) by (rewrite Hidx; exact Hle).
    assert (Hstart : loop_invariant idx n (set_chunking o n) w 0)
      by (apply call_start_invariant; auto; lia).
    assert (Hrange' : call_in_range (set_chunking o n) idx n)
      by (now rewrite (proj1 (set_chunking_fields o n))).
    destruct (write_loop_ready idx vec n _ Hcontract _ _ _ _ _ _ Hstart
                               (call_start_bound o idx n Hcontract Hle') Hrange' Hrun)
      as (Hc & Hready' & Hcfg & Hadv).
    destruct (set_chunking_fields o n) as (Hc0 & Hg0 & _).
    rewrite Hc0 in Hcfg. rewrite Hg0 in Hadv.
    split; [destruct Hc; auto|]. split; [intros ->; destruct Hc; discriminate|].
    split; [auto|]. split; [assumption|]. split; assumption.
Qed.

(** ** A file as it is created *)

(** [digital_rf_create_hdf5_file] returns 0 or -1 and has taken the next
    sequence number either way.  When it returns -1 no file is added.  When
    it returns 0 the file it names did not exist; it is created with
    /rf_data of [samples_per_file] rows that all hold the fill value, no
    index row, and the attributes of the channel, the sequence number among
    them; the in-file cursor is 0 and the whole file is free. *)
Theorem created_file (o o' : Digital_rf_write_object) (w w' : World) (g c : Z) :
  digital_rf_create_hdf5_file o w g = Ret (c, o', w') ->
  present_seq o' = present_seq o + 1
  /\ (c = 0 \/ c = -1)
  /\ (c = -1 -> w_files w' = w_files w
                 /\ (hdf5_file o' = None \/ hdf5_file o' = hdf5_file o))
  /\ (c = 0 ->
      exists name f,
        hdf5_file o' = Some name /\ w_files w !! name = None
        /\ w_files w' = <[name := f]> (w_files w)
        /\ rf_data f = replicate (Z.to_nat (samples_per_file o)) None
        /\ rf_data_index f = []
        /\ rf_data_fill f = dataset_fill o /\ rf_data_chunk f = chunk_size o
        /\ attr_sequence_num f = present_seq o + 1
        /\ attr_samples_per_file f = samples_per_file o
        /\ attr_num_subchannels f = num_subchannels o
        /\ attr_is_complex f = is_complex o
        /\ attr_uuid_str f = uuid_str o
        /\ dataset_index o' = 0 /\ dataset_avail o' = samples_per_file o).
Proof.
  intros H. apply create_hdf5_file_inv in H. cbv zeta in H.
  destruct H as (Hseq & Hc & _ & _ & _ & Hchunk & _ & [Hfail|Hok]).
  - destruct Hfail as (-> & _ & _ & Hfiles & Hfile).
    split; [assumption|]. split; [auto|]. split; [|discriminate].
    intros _. split; [assumption|]. destruct Hfile; auto.
  - destruct Hok as (-> & _ & Hdi & Hav & _ & sub & _ & Hname & Hfresh & Hfiles).
    split; [assumption|]. split; [auto|]. split; [discriminate|].
    intros _. eexists _, (new_file o'). split; [exact Hname|]. split; [exact Hfresh|].
    split; [exact Hfiles|]. unfold new_file. cbn. rewrite Hc, Hseq, Hchunk. auto 15.
Qed.

(** ** The datatypes of the Python extension *)

(** The types [get_hdf5_data_type] knows.  With byte order '<' or '>' it
    knows the types f, d, i and u of 2, 4 and 8 bytes, h of 2 and l of 8,
    and gives them the byte order asked for; f and d are 4 and 8 bytes
    whatever the byte count says; the one-byte types b and B are known only
    when the byte order is neither '<' nor '>'.  For every type it knows
    [digital_rf_set_fill_value] finds a fill value of the size of a sample,
    except that for a 64-bit unsigned integer that is not complex it reads
    past the four bytes of [minUnsignedInt]. *)
Theorem get_hdf5_data_type_fill (host_le char_signed : bool) (byteorder dtype_char : ascii)
        (bytecount complex : Z) (t : hid_t) :
  get_hdf5_data_type host_le char_signed byteorder dtype_char bytecount = Some t ->
  (byteorder = "<"%char \/ byteorder = ">"%char ->
   dtype_char = "f"%char \/ dtype_char = "d"%char
   \/ (dtype_char = "i"%char /\ (bytecount = 2 \/ bytecount = 4 \/ bytecount = 8))
   \/ (dtype_char = "u"%char /\ (bytecount = 2 \/ bytecount = 4 \/ bytecount = 8))
   \/ (dtype_char = "h"%char /\ bytecount = 2)
   \/ (dtype_char = "l"%char /\ bytecount = 8))
  /\ (byteorder <> "<"%char -> byteorder <> ">"%char ->
      dtype_char = "b"%char \/ dtype_char = "B"%char)
  /\ (byteorder = "<"%char -> H5Tget_order t = H5T_ORDER_LE)
  /\ (byteorder = ">"%char -> H5Tget_order t = H5T_ORDER_BE)
  /\ (H5Tget_class t = H5T_INTEGER ->
      H5Tget_size t = 1 \/ H5Tget_size t = bytecount)
  /\ (H5Tget_class t = H5T_FLOAT ->
      H5Tget_size t = (if Ascii.eqb dtype_char "f" then 4 else 8))
  /\ (if (complex =? 0) && (H5Tget_size t =? 8)
         && match H5Tget_class t, H5Tget_sign t with
            | H5T_INTEGER, H5T_SGN_NONE => true
            | _, _ => false
            end
      then digital_rf_set_fill_value host_le t complex = Undef
      else exists fill,
          digital_rf_set_fill_value host_le t complex = Ret (Some fill)
          /\ Z.of_nat (length fill) = H5Tget_size t * (if complex =? 0 then 1 else 2)).
Proof.
  unfold get_hdf5_data_type. intros H.
  repeat match type of H with
         | (if ?b then _ else _) = _ => destruct b eqn:?
         | None = Some _ => discriminate H
         | Some _ = Some _ => injection H as <-
         end;
    repeat match goal with
           | E : (_ && _)%bool = true |- _ => apply andb_true_iff in E as [? ?]
           | E : Ascii.eqb _ _ = true |- _ => apply Ascii.eqb_eq in E; subst
           | E : (_ =? _) = true |- _ => apply Z.eqb_eq in E; subst
           end;
    (split; [intros [Hb|Hb]; subst; first [discriminate | auto 20]|]);
    (split; [intros Hb1 Hb2; first [contradiction | auto]|]);
    (split; [intros; subst; first [discriminate | reflexivity]|]);
    (split; [intros; subst; first [discriminate | reflexivity]|]);
    (split; [intros; cbn; auto; discriminate|]);
    (split; [intros Hcl; first [discriminate Hcl | reflexivity]|]);
    unfold digital_rf_set_fill_value;
    destruct host_le, char_signed, (complex =? 0); cbn; try reflexivity;
    eexists; split; reflexivity.
Qed.

(** ** The index rows of a continuous append *)

(** [digital_rf_write_hdf5] appends a buffer without gaps that starts at
    global index [g].  A slice of it that opens a file writes one index row:
    the global sample of the first sample of the slice, at row 0.  The slice
    that goes on in the open file writes no row when [g] is the index the
    writer expects, and the row of [g] at the in-file cursor when there is
    a gap before [g]. *)
Theorem continuous_rows (o : Digital_rf_write_object) (w : World) (g : Z)
        (vec : list sample) (n : Z) :
  slice_ready o w -> 0 <= g -> g + n + global_start_sample o < 2 ^ 64 ->
  1 <= n -> n + samples_per_file o < 2 ^ 64 ->
  global_index o <= g ->
  forall o1 w1 sw r o2 w2,
    loop_reaches (zip [g] [0]) vec n (set_chunking o n, w, 0) (o1, w1, sw) ->
    sw < n ->
    digital_rf_write_samples_to_file o1 w1 sw (zip [g] [0]) vec n = Ret (r, o2, w2) ->
    r <> 0 ->
    digital_rf_create_rf_data_index o1 sw (zip [g] [0])
    = Ret (inr match hdf5_file o1 with
               | None => [(g + sw + global_start_sample o1, 0)]
               | Some _ =>
                   if (0 <? dataset_index o1) && (global_index o1 =? g) then []
                   else [(g + global_start_sample o1, dataset_index o1)]
               end)
    /\ (0 < sw -> hdf5_file o1 = None).
Proof.
  intros Hready Hg Hgn Hn Hnspf Hle o1 w1 sw r o2 w2 Hreach Hlt Hrun Hr.
  cbn [zip zip_with] in *. set (idx := [(g, 0)]) in *.
  assert (Hcontract : index_contract idx) by (cbn; auto).
  assert (Hrange : call_in_range o idx n).
  { split; [assumption|]. repeat constructor; cbn; lia. }
  assert (Hstart : loop_invariant idx n (set_chunking o n) w 0)
    by (apply call_start_invariant; auto; lia).
  assert (Hrange' : call_in_range (set_chunking o n) idx n)
    by (now rewrite (proj1 (set_chunking_fields o n))).
  destruct (reaches_invariant _ _ _ _ _ Hreach Hcontract Hstart Hrange') as [Hinv Hc].
  pose proof (reaches_exact _ _ _ _ _ Hreach Hcontract Hstart) as Hexact.
  cbn [fst snd] in *. rewrite (proj1 (set_chunking_fields o n)) in Hc.
  assert (Hrange1 : call_in_range o1 idx n) by (now rewrite Hc).
  destruct (slice_step _ _ _ _ _ _ _ _ _ Hinv Hcontract Hrange1 Hlt Hrun Hr)
    as (_ & _ & _ & (rows & Hrows & _) & _).
  destruct Hinv as (Hready1 & Hsw & Hcursor & Hfirst & Hlater).
  assert (Hsw' : 0 <= sw < n) by lia.
  assert (Hlater' : 0 < sw -> leading_global idx <= global_index o1 /\ hdf5_file o1 = None).
  { intros H. destruct (Hlater H) as [H1 H2]. split; [assumption|]. apply H2. lia. }
  split; [|intros H; apply Hlater'; assumption].
  pose proof (rows_of_pairs o1 w1 idx n sw Hready1 Hcontract Hrange1 Hsw' Hcursor Hfirst
                            Hlater' rows Hrows) as Hshape.
  pose proof (cursor_room o1 w1 idx n sw Hready1 Hcontract Hrange1 Hsw' Hcursor Hfirst
                          Hlater') as (Hdi & Hroom & Hnone & _).
  pose proof (end_index_room o1 w1 idx n sw Hready1 Hcontract Hrange1 Hsw' Hcursor Hfirst
                             Hlater') as Hend.
  rewrite Hrows, Hshape. f_equal. f_equal.
  unfold emitted, emit, in_file, no_gap, first_found, idx. cbn [List.filter existsb fst snd].
  rewrite Hend. unfold first_index.
  destruct (Z.eq_dec sw 0) as [->|Hnz].
  - cbn [Z.eqb orb Z.leb Z.compare]. rewrite Z.add_0_l.
    destruct (Z.ltb_spec 0 (samples_per_file o1 - dataset_index o1)); [|lia].
    cbn [andb negb app].
    destruct (hdf5_file o1) eqn:Hfile.
    + destruct ((0 <? dataset_index o1) && (global_index o1 =? g)); cbn [negb map app];
        [reflexivity|]. cbn. repeat f_equal; lia.
    + rewrite Hnone by reflexivity. cbn. repeat f_equal; lia.
  - destruct (Hlater' ltac:(lia)) as [_ Hfile]. rewrite Hfile.
    destruct (Z.leb_spec sw 0); [lia|]. cbn [andb].
    destruct (Z.eqb_spec 0 sw); [lia|]. cbn [orb map app].
    destruct Hexact as (p & Hp & _ & _ & Hcur); [intros; lia|assumption|lia|].
    destruct Hp as [<-|[]]. cbn [fst snd] in Hcur.
    rewrite Hnone by assumption. repeat f_equal. lia.
Qed.

(** ** The statements on the example channel *)

Lemma example_appended_run :
  digital_rf_write_blocks_hdf5 example_channel example_world example_gap
                               (Some (example_buffer 60)) 60
  = Some (Ret (0, fst example_appended, snd example_appended)).
Proof. vm_compute. reflexivity. Qed.

Lemma example_failed_run :
  digital_rf_write_blocks_hdf5 example_channel example_faulty_world example_gap
                               (Some (example_buffer 60)) 60
  = Some (Ret (-6, fst example_failed, snd example_failed)).
Proof. vm_compute. reflexivity. Qed.

Lemma example_faulty_ready : slice_ready example_channel example_faulty_world.
Proof. unfold slice_ready, u64_fields, in_u64. cbn. repeat split; lia. Qed.

Lemma example_file_ready : file_ready example_channel example_world.
Proof. exact I. Qed.

Lemma append_frame_witness :
  w_dirs example_world ⊆ w_dirs (snd example_appended)
  /\ (forall name, is_Some (w_files example_world !! name) ->
                   is_Some (w_files (snd example_appended) !! name))
  /\ (forall name, hdf5_file example_channel <> Some name ->
                   is_Some (w_files example_world !! name) ->
                   w_files (snd example_appended) !! name = w_files example_world !! name)
  /\ (forall name, hdf5_file (fst example_appended) = Some name ->
                   hdf5_file example_channel = Some name
                   \/ w_files example_world !! name = None).
Proof.
  exact (append_frame example_channel (fst example_appended) example_world
                      (snd example_appended) example_gap (Some (example_buffer 60)) 60 0
                      example_appended_run).
Defined.

Lemma append_keeps_ready_witness :
  slice_ready (fst example_appended) (snd example_appended)
  /\ file_ready (fst example_appended) (snd example_appended)
  /\ config (fst example_appended) = config example_channel
  /\ global_index example_channel + 60 <= global_index (fst example_appended).
Proof.
  exact (append_keeps_ready example_channel (fst example_appended) example_world
                            (snd example_appended) example_gap (example_buffer 60) 60
                            example_ready example_file_ready example_gap_contract
                            example_gap_range example_appended_run).
Defined.

Lemma append_result_witness :
  (-6 = 0 \/ -6 = -3 \/ -6 = -6)
  /\ (-6 = -3 -> fst example_failed = example_channel
                 /\ w_files (snd example_failed) = w_files example_faulty_world
                 /\ w_dirs (snd example_failed) = w_dirs example_faulty_world
                 /\ global_index example_channel > leading_global example_gap)
  /\ (-6 <> -3 -> global_index example_channel <= leading_global example_gap)
  /\ slice_ready (fst example_failed) (snd example_failed)
  /\ config (fst example_failed) = config example_channel
  /\ global_index example_channel <= global_index (fst example_failed).
Proof.
  exact (append_result example_channel (fst example_failed) example_faulty_world
                       (snd example_failed) example_gap (example_buffer 60) 60 (-6)
                       example_faulty_ready example_gap_contract example_gap_range
                       example_failed_run).
Defined.


Lemma files_of_append_witness :
  dataset_index (fst example_appended)
  = (dataset_index example_channel + 60) mod samples_per_file example_channel
  /\ (hdf5_file (fst example_appended) = None
      <-> (dataset_index example_channel + 60) mod samples_per_file example_channel = 0)
  /\ present_seq (fst example_appended)
     = present_seq example_channel
       + (dataset_index example_channel + 60 + samples_per_file example_channel - 1)
         / samples_per_file example_channel
       - match hdf5_file example_channel with Some _ => 1 | None => 0 end.
Proof.
  exact (files_of_append example_channel (fst example_appended) example_world
                         (snd example_appended) example_gap (example_buffer 60) 60
                         example_ready example_file_ready example_gap_contract
                         example_gap_range example_appended_run).
Defined.

Lemma example_second_run :
  exists r o2 w2,
    digital_rf_write_samples_to_file (fst example_second_slice) (snd example_second_slice) 40
                                     example_gap (example_buffer 60) 60
    = Ret (r, o2, w2) /\ r <> 0.
Proof.
  destruct (digital_rf_write_samples_to_file (fst example_second_slice)
                                             (snd example_second_slice) 40 example_gap
                                             (example_buffer 60) 60)
    as [[[r o2] w2]|] eqn:Hrun.
  - exists r, o2, w2. split; [reflexivity|].
    vm_compute in Hrun. injection Hrun as <- _ _. discriminate.
  - vm_compute in Hrun. discriminate.
Qed.

Lemma slice_stores_samples_witness :
  exists r o2 w2,
    digital_rf_write_samples_to_file (fst example_second_slice) (snd example_second_slice) 40
                                     example_gap (example_buffer 60) 60
    = Ret (r, o2, w2)
    /\ r <> 0
    /\ exists name f' written,
        (hdf5_file (fst example_second_slice) = Some name
         \/ hdf5_file (fst example_second_slice) = None
            /\ w_files (snd example_second_slice) !! name = None)
        /\ w_files w2 !! name = Some f'
        /\ Z.of_nat (length written) = dataset_index (fst example_second_slice)
        /\ (forall f, w_files (snd example_second_slice) !! name = Some f ->
                      rf_data f
                      = (Some <$> written)
                        ++ replicate (Z.to_nat (samples_per_file (fst example_second_slice)
                                                - dataset_index (fst example_second_slice)))
                                     None)
        /\ (w_files (snd example_second_slice) !! name = None -> written = [])
        /\ Z.of_nat (length (take (Z.to_nat r) (drop (Z.to_nat 40) (example_buffer 60)))) = r
        /\ rf_data f'
           = (Some <$> written)
             ++ (Some <$> take (Z.to_nat r) (drop (Z.to_nat 40) (example_buffer 60)))
             ++ replicate (Z.to_nat (samples_per_file (fst example_second_slice)
                                     - dataset_index (fst example_second_slice) - r)) None.
Proof.
  destruct example_second_run as (r & o2 & w2 & Hrun & Hr).
  exists r, o2, w2. split; [exact Hrun|]. split; [exact Hr|].
  assert (H6 : 40 < 60) by lia.
  exact (slice_stores_samples example_channel example_world example_gap (example_buffer 60) 60
                              example_ready example_file_ready example_gap_contract
                              example_gap_range example_gap_leading _ _ 40 r o2 w2
                              example_second_reached H6 Hrun Hr).
Defined.


Lemma created_file_witness :
  match digital_rf_create_hdf5_file example_channel example_world 0 with
  | Ret (c, o', w') =>
      c = 0
      /\ present_seq o' = present_seq example_channel + 1
      /\ exists name f,
          hdf5_file o' = Some name /\ w_files example_world !! name = None
          /\ w_files w' = <[name := f]> (w_files example_world)
          /\ rf_data f = replicate (Z.to_nat (samples_per_file example_channel)) None
          /\ rf_data_index f = []
          /\ rf_data_fill f = dataset_fill example_channel
          /\ rf_data_chunk f = chunk_size example_channel
          /\ attr_sequence_num f = present_seq example_channel + 1
          /\ attr_samples_per_file f = samples_per_file example_channel
          /\ attr_num_subchannels f = num_subchannels example_channel
          /\ attr_is_complex f = is_complex example_channel
          /\ attr_uuid_str f = uuid_str example_channel
          /\ dataset_index o' = 0 /\ dataset_avail o' = samples_per_file example_channel
  | Undef => False
  end.
Proof.
  destruct (digital_rf_create_hdf5_file example_channel example_world 0)
    as [[[c o'] w']|] eqn:Hrun.
  - destruct (created_file example_channel o' example_world w' 0 c Hrun)
      as (Hseq & _ & _ & Hok).
    assert (Hc : c = 0).
    { pose proof Hrun as Hrun'. vm_compute in Hrun'. injection Hrun' as <- _ _. reflexivity. }
    split; [exact Hc|]. split; [exact Hseq|]. exact (Hok Hc).
  - vm_compute in Hrun. discriminate.
Defined.

Lemma get_hdf5_data_type_fill_witness :
  ("<"%char = "<"%char \/ "<"%char = ">"%char ->
   "u"%char = "f"%char \/ "u"%char = "d"%char
   \/ ("u"%char = "i"%char /\ (8 = 2 \/ 8 = 4 \/ 8 = 8))
   \/ ("u"%char = "u"%char /\ (8 = 2 \/ 8 = 4 \/ 8 = 8))
   \/ ("u"%char = "h"%char /\ 8 = 2)
   \/ ("u"%char = "l"%char /\ 8 = 8))
  /\ ("<"%char <> "<"%char -> "<"%char <> ">"%char ->
      "u"%char = "b"%char \/ "u"%char = "B"%char)
  /\ ("<"%char = "<"%char -> H5Tget_order H5T_STD_U64LE = H5T_ORDER_LE)
  /\ ("<"%char = ">"%char -> H5Tget_order H5T_STD_U64LE = H5T_ORDER_BE)
  /\ (H5Tget_class H5T_STD_U64LE = H5T_INTEGER ->
      H5Tget_size H5T_STD_U64LE = 1 \/ H5Tget_size H5T_STD_U64LE = 8)
  /\ (H5Tget_class H5T_STD_U64LE = H5T_FLOAT ->
      H5Tget_size H5T_STD_U64LE = (if Ascii.eqb "u" "f" then 4 else 8))
  /\ (if (0 =? 0) && (H5Tget_size H5T_STD_U64LE =? 8)
         && match H5Tget_class H5T_STD_U64LE, H5Tget_sign H5T_STD_U64LE with
            | H5T_INTEGER, H5T_SGN_NONE => true
            | _, _ => false
            end
      then digital_rf_set_fill_value true H5T_STD_U64LE 0 = Undef
      else exists fill,
          digital_rf_set_fill_value true H5T_STD_U64LE 0 = Ret (Some fill)
          /\ Z.of_nat (length fill) = H5Tget_size H5T_STD_U64LE * (if 0 =? 0 then 1 else 2)).
Proof.
  apply (get_hdf5_data_type_fill true true "<" "u" 8 0 H5T_STD_U64LE). reflexivity.
Defined.

Lemma continuous_rows_witness :
  exists r o2 w2,
    digital_rf_write_samples_to_file (set_chunking example_channel 60) example_world 0
                                     (zip [0] [0]) (example_buffer 60) 60
    = Ret (r, o2, w2)
    /\ r <> 0
    /\ digital_rf_create_rf_data_index (set_chunking example_channel 60) 0 (zip [0] [0])
       = Ret (inr match hdf5_file (set_chunking example_channel 60) with
                  | None => [(0 + 0 + global_start_sample (set_chunking example_channel 60), 0)]
                  | Some _ =>
                      if (0 <? dataset_index (set_chunking example_channel 60))
                         && (global_index (set_chunking example_channel 60) =? 0) then []
                      else [(0 + global_start_sample (set_chunking example_channel 60),
                             dataset_index (set_chunking example_channel 60))]
                  end)
    /\ (0 < 0 -> hdf5_file (set_chunking example_channel 60) = None).
Proof.
  destruct (digital_rf_write_samples_to_file (set_chunking example_channel 60) example_world 0
                                             (zip [0] [0]) (example_buffer 60) 60)
    as [[[r o2] w2]|] eqn:Hrun.
  - exists r, o2, w2. split; [reflexivity|].
    assert (Hr : r <> 0).
    { pose proof Hrun as Hrun'. vm_compute in Hrun'. injection Hrun' as <- _ _. discriminate. }
    split; [exact Hr|].
    assert (H1 : 0 <= 0) by lia.
    assert (H2 : 0 + 60 + global_start_sample example_channel < 2 ^ 64) by (cbn; lia).
    assert (H3 : 1 <= 60) by lia.
    assert (H4 : 60 + samples_per_file example_channel < 2 ^ 64) by (cbn; lia).
    assert (H5 : global_index example_channel <= 0) by (cbn; lia).
    assert (H6 : 0 < 60) by lia.
    exact (continuous_rows example_channel example_world 0 (example_buffer 60) 60
                           example_ready H1 H2 H3 H4 H5 _ _ 0 r o2 w2
                           (reaches_here _ _ _ _) H6 Hrun Hr).
  - exfalso. vm_compute in Hrun. discriminate.
Defined.

(** ** From the rows of a file back to the global index *)

Lemma sorted_advancing (rest : index_pairs) :
  forall p, StronglySorted steps (p :: rest) -> advancing_from p rest.
Proof.
  induction rest as [|q rest IH]; intros p Hs; [exact I|].
  apply StronglySorted_inv in Hs as [Hs Hall].
  apply Forall_cons in Hall as [[H1 H2] _]. cbn. auto.
Qed.

Lemma sorted_before_last (l : index_pairs) (x q : Z * Z) :
  StronglySorted steps l -> last l = Some x -> In q l ->
  snd q <= snd x /\ fst q - snd q <= fst x - snd x.
Proof.
  intros Hs Hl Hq. apply last_Some in Hl as [l' ->].
  apply in_app_or in Hq as [Hq|[<-|[]]]; [|lia].
  assert (H : steps q x).
  { eapply StronglySorted_app_1_elem_of; [exact Hs| |];
      apply list_elem_of_In; [exact Hq|now left]. }
  destruct H. lia.
Qed.

Lemma lookup_slice (vec : list sample) (sw r i : nat) :
  (i < r)%nat -> (sw + r <= length vec)%nat ->
  take r (drop sw vec) !! i = vec !! (sw + i)%nat.
Proof.
  intros Hi Hlen. rewrite lookup_take_lt by lia. apply lookup_drop.
Qed.

Lemma round_trip_step (o o' : Digital_rf_write_object) (w w' : World) (idx : index_pairs)
      (vec : list sample) (n sw r : Z) :
  loop_invariant idx n o w sw -> file_ready o w -> cursor_bound idx o sw ->
  (0 < sw -> cursor_exact idx (global_index o) sw) ->
  index_contract idx -> call_in_range o idx n -> sw < n ->
  digital_rf_write_samples_to_file o w sw idx vec n = Ret (r, o', w') -> r <> 0 ->
  exists name f',
    (hdf5_file o = Some name \/ hdf5_file o = None /\ w_files w !! name = None)
    /\ w_files w' !! name = Some f'
    /\ forall k, sw <= k < sw + r ->
         exists G s,
           digital_rf_get_global_sample k idx = Ret G
           /\ vec !! Z.to_nat k = Some s
           /\ rf_data f' !! Z.to_nat (k - sw + dataset_index o) = Some (Some s)
           /\ digital_rf_get_global_sample (k - sw + dataset_index o) (rf_data_index f')
              = Ret (G + global_start_sample o).
Proof.
  intros Hinv Hfile Hbound Hexact Hcontract Hrange Hlt Hrun Hr.
  destruct (slice_step _ _ _ _ _ _ _ _ _ Hinv Hcontract Hrange Hlt Hrun Hr)
    as (Hcfg & Hr1 & Hrmin & (rows0 & Hrows0 & _) & Hinv').
  pose proof (slice_buffer _ _ _ _ _ _ _ _ _ Hrun Hr) as Hbuf.
  destruct (file_step _ _ _ _ _ _ _ _ _ Hinv Hfile Hbound Hcontract Hrange Hlt Hrun Hr)
    as (_ & _ & Hadv & name & f' & written & rows & Hwas & _ & Hf' & Hrows & Hlen & Hold
        & Hdata & Hdlen & Hsorted & Hbd & Hfr & Hla).
  destruct Hinv as (Hready & Hsw & Hcursor & Hfirst & Hlater).
  assert (Hsw' : 0 <= sw < n) by lia.
  assert (Hlater' : 0 < sw -> leading_global idx <= global_index o /\ hdf5_file o = None).
  { intros H. destruct (Hlater H) as [H1 H2]. split; [assumption|]. apply H2. lia. }
  pose proof (cursor_room o w idx n sw Hready Hcontract Hrange Hsw' Hcursor Hfirst Hlater')
    as (Hdi & Hroom & Hnone & Havail).
  pose proof (end_index_room o w idx n sw Hready Hcontract Hrange Hsw' Hcursor Hfirst Hlater')
    as Hend.
  assert (Hrmin' : r = Z.min (n - sw) (samples_per_file o - dataset_index o)).
  { rewrite Hrmin. destruct (hdf5_file o) eqn:Hof.
    - rewrite Havail by discriminate. reflexivity.
    - rewrite Hnone by reflexivity. f_equal. lia. }
  pose proof (rows_of_pairs o w idx n sw Hready Hcontract Hrange Hsw' Hcursor Hfirst Hlater'
                            rows Hrows) as Hshape.
  pose proof (contract_sorted idx Hcontract) as Hsortedi.
  pose proof Hready as ((Hspf & Hs & Hgi & _ & _) & Hspf1 & Hstate). unfold in_u64 in *.
  destruct Hinv' as (_ & _ & Hcursor' & _). rewrite Hcfg in Hcursor'.
  exists name, f'. split; [exact Hwas|]. split; [exact Hf'|]. intros k Hk.
  set (j := k - sw + dataset_index o) in *.
  set (g := fun p : Z * Z => (fst p + global_start_sample o, snd p + dataset_index o - sw)) in *.
  (* the pairs that give a row *)
  assert (HE : forall q, In q (emitted o sw idx) ->
                         In q idx /\ sw <= snd q < sw + r /\ emit o sw q = true).
  { intros q Hq.
    destruct (emitted_facts o w idx n sw Hready Hcontract Hrange Hsw' Hcursor Hfirst Hlater' q Hq)
      as (Hin & Hb & _).
    destruct (pair_facts o w idx n sw Hready Hcontract Hrange Hsw' Hcursor Hfirst Hlater' q Hin)
      as (_ & _ & _ & Hbn).
    apply filter_In in Hq as [_ Hq]. repeat split; auto; lia. }
  (* the rows the file had *)
  assert (Hold' : exists old,
             rf_data_index f' = old ++ rows
             /\ Forall (fun row => snd row < dataset_index o) old
             /\ (hdf5_file o = None -> old = [])
             /\ (0 < dataset_index o ->
                 exists x, last old = Some x
                           /\ global_index o
                              = fst x - global_start_sample o + (dataset_index o - snd x))).
  { destruct Hwas as [Hopen|[Hclosed Hfresh]].
    - unfold file_ready in Hfile. rewrite Hopen in Hfile.
      destruct Hfile as (f0 & written0 & Hf0 & _ & _ & _ & _ & Hbd0 & Hfr0 & Hla0).
      rewrite Hf0 in Hold. destruct Hold as (_ & Hix & _).
      exists (rf_data_index f0). split; [exact Hix|]. split; [|split].
      + eapply Forall_impl; [exact Hbd0|]. cbn. intros; lia.
      + rewrite Hopen. discriminate.
      + intros Hpos. destruct (Hfr0 Hpos) as (row & rest & Hrr & _).
        destruct (last (rf_data_index f0)) as [x|] eqn:Hlx;
          [|apply last_None in Hlx; rewrite Hlx in Hrr; discriminate].
        exists x. auto.
    - rewrite Hfresh in Hold. destruct Hold as (_ & Hix & _).
      exists []. split; [exact Hix|]. split; [constructor|]. split; [reflexivity|].
      intros Hpos. specialize (Hnone Hclosed). lia. }
  destruct Hold' as (old & HR & Hold1 & Hold2 & Hold3).
  assert (Hrow_cases : forall row, In row (rf_data_index f') ->
             In row old
             \/ (row = (global_index o + global_start_sample o, dataset_index o)
                 /\ first_found sw idx = false)
             \/ (exists q, In q (emitted o sw idx) /\ row = g q)).
  { intros row Hrow. rewrite HR, Hshape in Hrow.
    apply in_app_or in Hrow as [Hrow|Hrow]; [auto|].
    apply in_app_or in Hrow as [Hrow|Hrow].
    - right. left. destruct (first_found sw idx); [contradiction|].
      destruct Hrow as [<-|[]]. auto.
    - right. right. apply in_map_iff in Hrow as (q & <- & Hq). eauto. }
  (* the rows respect the contract of index arrays *)
  destruct Hfr as (row0 & rest0 & HR0 & Hrow0).
  assert (HcR : index_contract (rf_data_index f')).
  { rewrite HR0. split; [exact Hrow0|]. apply sorted_advancing. rewrite <- HR0. exact Hsorted. }
  destruct Hla as (x & Hlx & Hgx).
  assert (HbR : Forall (fun q => 0 <= fst q /\ 0 <= snd q /\ fst q - snd q + j < 2 ^ 64)
                       (rf_data_index f')).
  { apply List.Forall_forall. intros q Hq.
    pose proof (proj1 (List.Forall_forall _ _) Hbd q Hq) as (H1 & H2 & _).
    destruct (sorted_before_last _ x q Hsorted Hlx Hq) as [_ H3].
    subst j. lia. }
  destruct (get_global_sample_spec (rf_data_index f') j HcR HbR) as (rho & Hrho & Hrhole & Hrhomax & Hrhoeq);
    [subst j; lia|].
  assert (Hbi : Forall (fun q => 0 <= fst q /\ 0 <= snd q /\ fst q - snd q + k < 2 ^ 64) idx).
  { destruct Hrange as [_ Hall]. eapply Forall_impl; [exact Hall|]. cbn. intros; lia. }
  destruct (get_global_sample_spec idx k Hcontract Hbi) as (p & Hp & Hple & Hpmax & Hpeq); [lia|].
  assert (Hkn : (Z.to_nat k < length vec)%nat) by lia.
  destruct (lookup_lt_is_Some_2 vec (Z.to_nat k) Hkn) as [s Hs'].
  exists (fst p + (k - snd p)), s. split; [exact Hpeq|]. split; [exact Hs'|]. split.
  - (* the sample *)
    rewrite Hdata.
    assert (Hj : Z.to_nat j = (length (Some <$> written) + Z.to_nat (k - sw))%nat).
    { rewrite length_fmap. subst j. lia. }
    rewrite Hj, lookup_app_r by lia.
    replace (length (Some <$> written) + Z.to_nat (k - sw) - length (Some <$> written))%nat
      with (Z.to_nat (k - sw)) by lia.
    rewrite lookup_app_l by (rewrite length_fmap; lia).
    rewrite list_lookup_fmap, lookup_slice by lia.
    replace (Z.to_nat sw + Z.to_nat (k - sw))%nat with (Z.to_nat k) by lia.
    rewrite Hs'. reflexivity.
  - (* the row that gives the global index *)
    rewrite Hrhoeq. f_equal.
    assert (Hcand : exists c,
               In c (rf_data_index f') /\ snd c <= j
               /\ (forall row, In row (rf_data_index f') -> snd row <= j -> snd row <= snd c)
               /\ fst c + (j - snd c) = fst p + (k - snd p) + global_start_sample o).
    { pose proof (proj1 (List.Forall_forall _ _) Hbi p Hp) as (Hp0 & Hp1 & _).
      destruct (Z.lt_ge_cases (snd p) sw) as [Hbefore|Hin].
      - (* the pair lies before the slice: the boundary row *)
        assert (Hswpos : 0 < sw) by lia.
        destruct (Hlater' Hswpos) as [_ Hclosed].
        specialize (Hnone Hclosed). specialize (Hold2 Hclosed). subst old.
        assert (HF : first_found sw idx = false).
        { destruct (first_found sw idx) eqn:HF; [|reflexivity].
          apply existsb_exists in HF as (q & Hq & Hqs). apply Z.eqb_eq in Hqs.
          specialize (Hpmax q Hq). lia. }
        exists (global_index o + global_start_sample o, dataset_index o).
        split; [|split; [cbn; subst j; lia|split]].
        + rewrite HR, Hshape, HF. cbn. now left.
        + intros row Hrow Hrj. cbn [snd].
          destruct (Hrow_cases row Hrow) as [[]|[[-> _]|(q & Hq & ->)]]; [cbn; lia|].
          destruct (HE q Hq) as (Hqi & Hqb & _). subst g j. cbn in Hrj |- *.
          specialize (Hpmax q Hqi). lia.
        + destruct Hexact as (p' & Hp' & Hlt' & Hmax' & Hg'); [lia|].
          assert (Hsame : p' = p).
          { apply (sorted_same idx p' p Hsortedi Hp' Hp).
            specialize (Hpmax p' Hp'). specialize (Hmax' p Hp). lia. }
          subst p'. cbn [fst snd]. subst j. lia.
      - destruct (emit o sw p) eqn:Hemit.
        + (* the row of the pair *)
          assert (HpE : In p (emitted o sw idx)) by (apply filter_In; auto).
          exists (g p). split; [|split; [subst g j; cbn; lia|split]].
          * rewrite HR, Hshape. apply in_or_app. right. apply in_or_app. right.
            now apply in_map.
          * intros row Hrow Hrj.
            destruct (Hrow_cases row Hrow) as [Ho|[[-> _]|(q & Hq & ->)]].
            -- pose proof (proj1 (List.Forall_forall _ _) Hold1 row Ho) as Hro.
               subst g. cbn in Hro |- *. lia.
            -- subst g. cbn. lia.
            -- destruct (HE q Hq) as (Hqi & Hqb & _). subst g j. cbn in Hrj |- *.
               specialize (Hpmax q Hqi). lia.
          * subst g j. cbn. lia.
        + (* the pair continues the open file: the last row the file had *)
          unfold emit, in_file, no_gap in Hemit. rewrite Hend in Hemit.
          unfold first_index in Hemit.
          destruct (Z.leb_spec sw (snd p)); [|lia].
          destruct (Z.ltb_spec (snd p) (sw + (samples_per_file o - dataset_index o))); [|lia].
          cbn [andb] in Hemit. apply negb_false_iff in Hemit.
          apply andb_true_iff in Hemit as [Hemit Hgp]. apply andb_true_iff in Hemit as [Hps Hpos].
          apply Z.eqb_eq in Hps, Hgp. apply Z.ltb_lt in Hpos.
          destruct (Hold3 Hpos) as (x0 & Hlx0 & Hgx0).
          assert (Hsortedo : StronglySorted steps old).
          { rewrite HR in Hsorted. now apply StronglySorted_app_1_l in Hsorted. }
          assert (Hx0 : In x0 old).
          { apply last_Some in Hlx0 as [l' ->]. apply in_or_app. right. now left. }
          pose proof (proj1 (List.Forall_forall _ _) Hold1 x0 Hx0) as Hx0b. cbn in Hx0b.
          exists x0. split; [|split; [subst j; lia|split]].
          * rewrite HR. apply in_or_app. now left.
          * intros row Hrow Hrj.
            destruct (Hrow_cases row Hrow) as [Ho|[[_ HF]|(q & Hq & ->)]].
            -- apply (sorted_before_last old x0 row Hsortedo Hlx0 Ho).
            -- assert (HF' : first_found sw idx = true).
               { apply existsb_exists. exists p. split; [assumption|]. now apply Z.eqb_eq. }
               congruence.
            -- destruct (HE q Hq) as (Hqi & Hqb & Hqe). subst g j. cbn in Hrj.
               specialize (Hpmax q Hqi).
               assert (Hqp : q = p) by (apply (sorted_same idx q p Hsortedi Hqi Hp); lia).
               subst q. unfold emit, in_file, no_gap in Hqe. rewrite Hend in Hqe.
               unfold first_index in Hqe. rewrite Hps, Hgp, !Z.eqb_refl in Hqe.
               destruct (0 <? dataset_index o) eqn:Hd0; [|apply Z.ltb_ge in Hd0; lia].
               cbn in Hqe. rewrite andb_false_r in Hqe. discriminate.
          * subst j. lia. }
    destruct Hcand as (c & Hc & Hcj & Hcmax & Hcval).
    assert (Hsame : rho = c).
    { apply (sorted_same _ rho c Hsorted Hrho Hc).
      specialize (Hrhomax c Hc Hcj). specialize (Hcmax rho Hrho Hrhole). lia. }
    rewrite Hsame. exact Hcval.
Qed.

(** The round trip of a slice.  Every sample of the buffer that a slice
    writes is stored in /rf_data, at the row that is as far from the in-file
    cursor as the sample is from the start of the slice; and the rows of
    /rf_data_index of the file, read as index arrays by
    [digital_rf_get_global_sample], give that row the global index that the
    index arrays of the call give the sample, [global_start_sample]
    added. *)
Theorem index_round_trip (o : Digital_rf_write_object) (w : World) (idx : index_pairs)
        (vec : list sample) (n : Z) :
  slice_ready o w -> file_ready o w -> index_contract idx -> call_in_range o idx n ->
  global_index o <= leading_global idx ->
  forall o1 w1 sw r o2 w2,
    loop_reaches idx vec n (set_chunking o n, w, 0) (o1, w1, sw) ->
    sw < n ->
    digital_rf_write_samples_to_file o1 w1 sw idx vec n = Ret (r, o2, w2) ->
    r <> 0 ->
    exists name f',
      (hdf5_file o1 = Some name \/ hdf5_file o1 = None /\ w_files w1 !! name = None)
      /\ w_files w2 !! name = Some f'
      /\ forall k, sw <= k < sw + r ->
           exists G s,
             digital_rf_get_global_sample k idx = Ret G
             /\ vec !! Z.to_nat k = Some s
             /\ rf_data f' !! Z.to_nat (k - sw + dataset_index o1) = Some (Some s)
             /\ digital_rf_get_global_sample (k - sw + dataset_index o1) (rf_data_index f')
                = Ret (G + global_start_sample o1).
Proof.
  intros Hready Hfile Hcontract Hrange Hle o1 w1 sw r o2 w2 Hreach Hlt Hrun Hr.
  assert (Hn : 0 <= n).
  { destruct (contract_shape idx Hcontract) as (p0 & rest & Hidx & _).
    destruct Hrange as [_ Hall]. rewrite Hidx in Hall. apply Forall_cons in Hall as [Hp _]. lia. }
  assert (Hstart : loop_invariant idx n (set_chunking o n) w 0)
    by (apply call_start_invariant; auto).
  assert (Hrange' : call_in_range (set_chunking o n) idx n)
    by (now rewrite (proj1 (set_chunking_fields o n))).
  destruct (reaches_file _ _ _ _ _ Hreach Hcontract Hstart
                         (set_chunking_file_ready o w n Hfile)
                         (call_start_bound o idx n Hcontract Hle) Hrange')
    as (Hinv & Hfile1 & Hbound1 & Hc & _).
  pose proof (reaches_exact _ _ _ _ _ Hreach Hcontract Hstart) as Hexact.
  cbn [fst snd] in *.
  assert (Hrange1 : call_in_range o1 idx n) by (now rewrite Hc).
  apply (round_trip_step o1 o2 w1 w2 idx vec n sw r Hinv Hfile1 Hbound1); auto.
  intros Hpos. apply Hexact; auto. intros; lia.
Qed.

Lemma index_round_trip_witness :
  exists r o2 w2,
    digital_rf_write_samples_to_file (fst example_second_slice) (snd example_second_slice) 40
                                     example_gap (example_buffer 60) 60
    = Ret (r, o2, w2)
    /\ r <> 0
    /\ exists name f',
        (hdf5_file (fst example_second_slice) = Some name
         \/ hdf5_file (fst example_second_slice) = None
            /\ w_files (snd example_second_slice) !! name = None)
        /\ w_files w2 !! name = Some f'
        /\ forall k, 40 <= k < 40 + r ->
             exists G s,
               digital_rf_get_global_sample k example_gap = Ret G
               /\ example_buffer 60 !! Z.to_nat k = Some s
               /\ rf_data f' !! Z.to_nat (k - 40 + dataset_index (fst example_second_slice))
                  = Some (Some s)
               /\ digital_rf_get_global_sample
                    (k - 40 + dataset_index (fst example_second_slice)) (rf_data_index f')
                  = Ret (G + global_start_sample (fst example_second_slice)).
Proof.
  destruct example_second_run as (r & o2 & w2 & Hrun & Hr).
  exists r, o2, w2. split; [exact Hrun|]. split; [exact Hr|].
  assert (H6 : 40 < 60) by lia.
  exact (index_round_trip example_channel example_world example_gap (example_buffer 60) 60
                          example_ready example_file_ready example_gap_contract
                          example_gap_range example_gap_leading _ _ 40 r o2 w2
                          example_second_reached H6 Hrun Hr).
Defined.

(** ** An append in two calls *)

Lemma next_fault_none (w : World) : w_faults w = [] -> next_fault w = (false, w).
Proof. unfold next_fault. intros H. rewrite H. reflexivity. Qed.

Lemma u64_add_idemp_l (a b : Z) : u64 (u64 a + b) = u64 (a + b).
Proof. unfold u64. apply Zplus_mod_idemp_l. Qed.

Lemma u64_add_idemp_r (a b : Z) : u64 (a + u64 b) = u64 (a + b).
Proof. unfold u64. apply Zplus_mod_idemp_r. Qed.

Lemma u64_sub_idemp_l (a b : Z) : u64 (u64 a - b) = u64 (a - b).
Proof. unfold u64. apply Zminus_mod_idemp_l. Qed.

Lemma u64_sub_idemp_r (a b : Z) : u64 (a - u64 b) = u64 (a - b).
Proof. unfold u64. apply Zminus_mod_idemp_r. Qed.

(** The rows the builder gives a call with the single pair [(g, 0)]. *)
Lemma builder_single (o : Digital_rf_write_object) (sw g : Z) :
  0 <= sw -> (sw = 0 -> global_index o <= g) ->
  0 <= dataset_index o < samples_per_file o -> sw + samples_per_file o < 2 ^ 64 ->
  digital_rf_create_rf_data_index o sw [(g, 0)]
  = Ret (inr (if sw =? 0
              then if (0 <? dataset_index o) && (global_index o =? g) then []
                   else [(u64 (g + global_start_sample o), dataset_index o)]
              else [(u64 (global_index o + global_start_sample o), 0)])).
Proof.
  intros Hsw Hfirst Hdi Hspf.
  unfold digital_rf_create_rf_data_index.
  cbn [index_first_pass index_sanity index_second_pass].
  unfold in_file, no_gap, first_index, end_index, index_row, boundary_row. cbn [fst snd].
  destruct (Z.eqb_spec sw 0) as [->|Hnz].
  - destruct (Z.ltb_spec g (global_index o)) as [?|_]; [specialize (Hfirst eq_refl); lia|].
    cbn [Z.eqb Z.leb Z.compare andb]. rewrite Z.add_0_l.
    rewrite (u64_small (samples_per_file o)) by lia.
    rewrite (u64_small (samples_per_file o - dataset_index o)) by lia.
    destruct (Z.ltb_spec 0 (samples_per_file o - dataset_index o)); [|lia].
    cbn [andb].
    destruct ((0 <? dataset_index o) && (global_index o =? g)); cbn; [reflexivity|].
    rewrite Z.add_0_l, Z.sub_0_r, !(u64_small (dataset_index o)) by lia. reflexivity.
  - destruct (Z.eqb_spec 0 sw) as [?|_]; [lia|].
    destruct (Z.leb_spec sw 0) as [?|_]; [lia|]. cbn. reflexivity.
Qed.

Lemma samples_to_write_min (o : Digital_rf_write_object) (sw n : Z) :
  0 <= n - sw < 2 ^ 64 ->
  samples_to_write o sw n = Z.min (dataset_avail o) (n - sw).
Proof.
  intros H. unfold samples_to_write. rewrite u64_small by lia.
  destruct (Z.ltb_spec (dataset_avail o) (n - sw)); lia.
Qed.

(** A slice that ends within the first part of a buffer does not depend on
    what follows that part. *)
Lemma slice_early (o : Digital_rf_write_object) (w : World) (idx : index_pairs) (sw : Z)
      (vec1 vec2 : list sample) (n2 : Z) :
  u64_fields o -> 0 <= sw -> 0 <= n2 -> Z.of_nat (length vec1) + n2 < 2 ^ 64 ->
  sw + match hdf5_file o with
       | None => samples_per_file o
       | Some _ => dataset_avail o
       end <= Z.of_nat (length vec1) ->
  digital_rf_write_samples_to_file o w sw idx (vec1 ++ vec2) (Z.of_nat (length vec1) + n2)
  = digital_rf_write_samples_to_file o w sw idx vec1 (Z.of_nat (length vec1)).
Proof.
  intros Hu Hsw Hn2 Hn Hroom. unfold digital_rf_write_samples_to_file.
  destruct idx as [|[g0 d0] rest]; [reflexivity|].
  destruct (negb (d0 =? 0)); [reflexivity|].
  destruct (digital_rf_create_rf_data_index o sw ((g0, d0) :: rest)) as [[d|rows]|];
    cbn [bind]; try reflexivity.
  destruct (open_file_if_needed o w sw ((g0, d0) :: rest)) as [[[result oA] wA]|] eqn:Hopen;
    cbn [bind]; [|reflexivity].
  destruct (Z.eqb_spec result 0) as [->|]; cbn [negb]; [|reflexivity].
  destruct (open_file_fields _ _ _ _ _ _ Hu Hopen) as (HuA & _ & Hav).
  assert (Hav0 : 0 <= dataset_avail oA).
  { destruct HuA as (_ & _ & _ & _ & H). unfold in_u64 in H. lia. }
  rewrite !samples_to_write_min by lia. rewrite !Z.min_l by lia.
  rewrite length_app, Nat2Z.inj_add.
  destruct (Z.ltb_spec (Z.of_nat (length vec1) + Z.of_nat (length vec2))
                       (sw + dataset_avail oA)); [lia|].
  destruct (Z.ltb_spec (Z.of_nat (length vec1)) (sw + dataset_avail oA)); [lia|].
  cbv zeta.
  rewrite drop_app_le by lia. rewrite take_app_le by (rewrite length_drop; lia).
  reflexivity.
Qed.

(** A slice that starts in the second part of a buffer, with no file open,
    is the slice of a call that passes the second part alone. *)
Lemma slice_late (o : Digital_rf_write_object) (w : World) (g sw : Z)
      (vec1 vec2 : list sample) (n2 : Z) :
  slice_ready o w -> hdf5_file o = None ->
  0 < Z.of_nat (length vec1) <= sw -> sw < Z.of_nat (length vec1) + n2 ->
  global_index o = g + sw -> 0 <= g ->
  g + (Z.of_nat (length vec1) + n2) + global_start_sample o < 2 ^ 64 ->
  Z.of_nat (length vec1) + n2 + samples_per_file o < 2 ^ 64 ->
  digital_rf_write_samples_to_file o w sw [(g, 0)] (vec1 ++ vec2) (Z.of_nat (length vec1) + n2)
  = digital_rf_write_samples_to_file o w (sw - Z.of_nat (length vec1))
                                     [(g + Z.of_nat (length vec1), 0)] vec2 n2.
Proof.
  intros (Hu & Hspf & Hfile) Hnone Hsw Hlt Hgi Hg Hbound Hroom.
  rewrite Hnone in Hfile. destruct Hfile as [Hdi _].
  destruct Hu as (Hspf' & Hs & _). unfold in_u64 in *.
  set (n1 := Z.of_nat (length vec1)) in *.
  unfold digital_rf_write_samples_to_file. cbn [Z.eqb negb].
  rewrite !builder_single by (rewrite ?Hdi; lia).
  rewrite Hdi. cbn [Z.ltb Z.compare andb].
  destruct (Z.eqb_spec sw 0) as [?|_]; [lia|].
  assert (Hrows : (if sw - n1 =? 0 then [(u64 (g + n1 + global_start_sample o), 0)]
                   else [(u64 (global_index o + global_start_sample o), 0)])
                  = [(u64 (global_index o + global_start_sample o), 0)]).
  { destruct (Z.eqb_spec (sw - n1) 0); [|reflexivity]. repeat f_equal. lia. }
  rewrite Hrows. cbn [bind].
  unfold open_file_if_needed. rewrite Hnone. cbn [digital_rf_get_global_sample
    get_global_sample_loop bind].
  replace (u64 (g + n1 + u64 (sw - n1 - 0))) with (u64 (g + u64 (sw - 0)))
    by (rewrite !u64_add_idemp_r; f_equal; lia).
  destruct (digital_rf_create_hdf5_file o w (u64 (g + u64 (sw - 0)))) as [[[result oA] wA]|];
    cbn [bind]; [|reflexivity].
  destruct (negb (result =? 0)); [reflexivity|].
  unfold samples_to_write.
  replace (n2 - (sw - n1)) with (n1 + n2 - sw) by lia.
  set (n := if dataset_avail oA <? u64 (n1 + n2 - sw) then _ else _).
  rewrite length_app, Nat2Z.inj_add. fold n1.
  replace (drop (Z.to_nat sw) (vec1 ++ vec2)) with (drop (Z.to_nat (sw - n1)) vec2).
  2:{ rewrite drop_app_ge by lia. f_equal. lia. }
  destruct (Z.ltb_spec (n1 + Z.of_nat (length vec2)) (sw + n)),
           (Z.ltb_spec (Z.of_nat (length vec2)) (sw - n1 + n)); try lia; reflexivity.
Qed.

(** No call fails for a reason of the environment when the script of the
    faults is empty, and it stays empty. *)
Lemma create_new_directory_faults (o o' : Digital_rf_write_object) (w w' : World) (g c : Z) :
  w_faults w = [] -> digital_rf_create_new_directory o w g = Ret (c, o', w') -> w_faults w' = [].
Proof.
  unfold digital_rf_create_new_directory. intros Hf H.
  destruct (digital_rf_get_unix_time _ _) as [[t|]|]; try discriminate.
  - string_steps H. rewrite (next_fault_none _ Hf) in H.
    destruct (false || _); injection H as <- <- <-; exact Hf.
  - injection H as <- <- <-. exact Hf.
Qed.

Lemma create_hdf5_file_faults (o o' : Digital_rf_write_object) (w w' : World) (g c : Z) :
  w_faults w = [] -> digital_rf_create_hdf5_file o w g = Ret (c, o', w') -> w_faults w' = [].
Proof.
  unfold digital_rf_create_hdf5_file. intros Hf H. cbv zeta in H.
  destruct (2 ^ 31 - 1 <=? present_seq o); [discriminate|].
  destruct (files_per_directory o =? 0); [discriminate|].
  assert (Hf0 : w_faults (if marching_dots o =? 0 then w else print_dot w) = [])
    by (destruct (marching_dots o =? 0); exact Hf).
  revert H Hf0. generalize (if marching_dots o =? 0 then w else print_dot w). intros w0 H Hf0.
  destruct (u64 (present_seq (set_present_seq (present_seq o + 1) o)) mod files_per_directory o =? 0).
  - destruct (digital_rf_create_new_directory _ w0 g) as [[[result o2] w2]|] eqn:Hdir;
      [|discriminate].
    pose proof (create_new_directory_faults _ _ _ _ _ _ Hf0 Hdir) as Hf2.
    cbn [bind] in H. destruct (result =? 0); [|injection H as _ _ <-; assumption].
    destruct (sub_directory o2); [|discriminate]. string_steps H.
    rewrite (next_fault_none _ Hf2) in H.
    destruct (false || _); string_steps H; injection H as _ _ <-; exact Hf2.
  - cbn [bind] in H. cbn [Z.eqb] in H.
    destruct (sub_directory _); [|discriminate]. string_steps H.
    rewrite (next_fault_none _ Hf0) in H.
    destruct (false || _); string_steps H; injection H as _ _ <-; exact Hf0.
Qed.

Lemma open_file_faults (o o' : Digital_rf_write_object) (w w' : World) (sw c : Z)
      (idx : index_pairs) :
  w_faults w = [] -> open_file_if_needed o w sw idx = Ret (c, o', w') -> w_faults w' = [].
Proof.
  unfold open_file_if_needed. intros Hf H. destruct (hdf5_file o).
  - injection H as _ _ <-. assumption.
  - destruct (digital_rf_get_global_sample sw idx); [|discriminate]. cbn [bind] in H.
    eapply create_hdf5_file_faults; eassumption.
Qed.

Lemma H5Dwrite_no_fault (o : Digital_rf_write_object) (w : World) (data : list sample)
      (name : string) (f : H5File) (rows : list (option sample)) :
  w_faults w = [] -> hdf5_file o = Some name -> w_files w !! name = Some f ->
  write_hyperslab (dataset_index o) data (rf_data f) = Some rows ->
  H5Dwrite_rf_data o w data
  = (true, set_files (<[name := set_rf_data rows f]> (w_files w)) w).
Proof.
  intros Hf Hname Hfile Hrows. unfold H5Dwrite_rf_data.
  rewrite (next_fault_none _ Hf), Hname, Hfile, Hrows. reflexivity.
Qed.

(** The rows of /rf_data_index after the writer [o] has added [rows]. *)
Lemma write_index_no_fault (o : Digital_rf_write_object) (w : World) (rows : list (Z * Z))
      (name : string) :
  w_faults w = [] -> hdf5_file o = Some name ->
  digital_rf_write_rf_data_index o w rows
  = (0,
     set_next_index_avail
       (if index_dataset o then next_index_avail o + Z.of_nat (length rows)
        else Z.of_nat (length rows)) (set_index_dataset true o),
     set_files
       (alter (fun f =>
                 set_rf_data_index
                   (if index_dataset o
                    then resize (Z.to_nat (next_index_avail o)) (0, 0) (rf_data_index f) ++ rows
                    else rows) f) name (w_files w)) w).
Proof.
  intros Hf Hname. unfold digital_rf_write_rf_data_index.
  rewrite (next_fault_none _ Hf), Hname.
  destruct (index_dataset o) eqn:Hi; [|reflexivity].
  f_equal. f_equal. destruct o. cbn in *. subst. reflexivity.
Qed.

Lemma write_index_chunk (o o2 : Digital_rf_write_object) (w w3 : World)
      (rows : list (Z * Z)) (status : Z) :
  digital_rf_write_rf_data_index o w rows = (status, o2, w3) -> chunk_size o2 = chunk_size o.
Proof.
  unfold digital_rf_write_rf_data_index. destruct (next_fault w) as [fault w1].
  destruct (hdf5_file o); [|intros [= _ <- _]; reflexivity].
  destruct (index_dataset o), fault; intros [= _ <- _]; reflexivity.
Qed.

Lemma write_index_faults (o o2 : Digital_rf_write_object) (w w3 : World)
      (rows : list (Z * Z)) (status : Z) :
  w_faults w = [] -> digital_rf_write_rf_data_index o w rows = (status, o2, w3) ->
  w_faults w3 = [].
Proof.
  intros Hf. unfold digital_rf_write_rf_data_index. rewrite (next_fault_none _ Hf).
  destruct (hdf5_file o); [|intros [= _ _ <-]; assumption].
  destruct (index_dataset o); intros [= _ _ <-]; assumption.
Qed.

Lemma H5Dwrite_faults (o : Digital_rf_write_object) (w w2 : World) (data : list sample)
      (b : bool) :
  w_faults w = [] -> H5Dwrite_rf_data o w data = (b, w2) -> w_faults w2 = [].
Proof.
  intros Hf. unfold H5Dwrite_rf_data. rewrite (next_fault_none _ Hf).
  destruct (hdf5_file o); [|intros [= _ <-]; assumption].
  destruct (w_files w !! _); [|intros [= _ <-]; assumption].
  destruct (write_hyperslab _ _ _); intros [= _ <-]; assumption.
Qed.

(** A slice that is written keeps the chunk size, the fields fixed at
    creation and the empty script. *)
Lemma slice_chunk_faults (o o' : Digital_rf_write_object) (w w' : World) (sw : Z)
      (idx : index_pairs) (vec : list sample) (n r : Z) :
  digital_rf_write_samples_to_file o w sw idx vec n = Ret (r, o', w') -> r <> 0 ->
  chunk_size o' = chunk_size o /\ config o' = config o
  /\ (w_faults w = [] -> w_faults w' = []).
Proof.
  intros Hrun Hr. apply write_samples_to_file_inv in Hrun; [|assumption].
  destruct Hrun as (rows & o1 & w1 & w2 & o2 & _ & _ & Hopen & _ & Hwrite & Hindex & -> & _).
  assert (Hc1 : chunk_size o1 = chunk_size o /\ config o1 = config o).
  { revert Hopen. unfold open_file_if_needed. destruct (hdf5_file o).
    - intros [= <- _]. auto.
    - destruct (digital_rf_get_global_sample sw idx); [|discriminate]. cbn [bind].
      intros H. apply create_hdf5_file_inv in H. cbv zeta in H. tauto. }
  assert (Hc2 : chunk_size o2 = chunk_size o1 /\ config o2 = config o1).
  { destruct rows; [injection Hindex as <- _; auto|].
    split; [eapply write_index_chunk; eassumption|].
    apply write_rf_data_index_inv in Hindex. tauto. }
  destruct Hc1 as [Hc1 Hg1], Hc2 as [Hc2 Hg2].
  split; [|split].
  - unfold close_if_full. destruct (_ =? _); cbn; congruence.
  - unfold close_if_full. destruct (_ =? _); cbn; congruence.
  - intros Hf. pose proof (open_file_faults _ _ _ _ _ _ _ Hf Hopen) as Hf1.
    pose proof (H5Dwrite_faults _ _ _ _ _ Hf1 Hwrite) as Hf2.
    destruct rows; [injection Hindex as _ <-; assumption|].
    eapply write_index_faults; eassumption.
Qed.

(** Two writes one after the other store what one write of both does. *)
Lemma write_hyperslab_app (offset : Z) (A B : list sample) (F rows : list (option sample)) :
  write_hyperslab offset (A ++ B) F = Some rows ->
  exists rows1,
    write_hyperslab offset A F = Some rows1
    /\ length rows1 = length F
    /\ write_hyperslab (offset + Z.of_nat (length A)) B rows1 = Some rows.
Proof.
  unfold write_hyperslab. rewrite length_app, Nat2Z.inj_add.
  destruct (Z.leb_spec 0 offset) as [H0|]; [|discriminate]. cbn [andb].
  destruct (Z.leb_spec (offset + (Z.of_nat (length A) + Z.of_nat (length B)))
                       (Z.of_nat (length F))) as [Hle|]; [|discriminate].
  intros [= <-].
  destruct (Z.leb_spec (offset + Z.of_nat (length A)) (Z.of_nat (length F))); [|lia].
  eexists. split; [reflexivity|].
  assert (Hlen : length (take (Z.to_nat offset) F ++ (Some <$> A)
                         ++ drop (Z.to_nat offset + length A) F) = length F).
  { rewrite !length_app, length_take, length_fmap, length_drop. lia. }
  split; [exact Hlen|].
  destruct (Z.leb_spec 0 (offset + Z.of_nat (length A))); [|lia]. cbn [andb].
  rewrite Hlen.
  destruct (Z.leb_spec (offset + Z.of_nat (length A) + Z.of_nat (length B))
                       (Z.of_nat (length F))); [|lia].
  f_equal.
  replace (Z.to_nat (offset + Z.of_nat (length A))) with (Z.to_nat offset + length A)%nat by lia.
  rewrite (app_assoc (take _ F)).
  assert (HP : length (take (Z.to_nat offset) F ++ (Some <$> A))
               = (Z.to_nat offset + length A)%nat).
  { rewrite length_app, length_take, length_fmap. lia. }
  rewrite (take_app_length' _ _ _ (eq_sym HP)), (drop_app_add' _ _ _ _ (eq_sym HP)), drop_drop.
  rewrite fmap_app, <- !app_assoc. do 3 f_equal. f_equal. lia.
Qed.

Lemma continuous_loop_invariant (g n : Z) (o : Digital_rf_write_object) (w : World) (sw : Z) :
  continuous_loop g n o w sw -> 0 < n ->
  loop_invariant [(g, 0)] n o w sw /\ call_in_range o [(g, 0)] n /\ index_contract [(g, 0)].
Proof.
  intros (Hready & Hsw & Hg & Hbound & Hroom & Hfirst & Hlater & Hnone) Hn.
  split; [|split].
  - split; [assumption|]. split; [assumption|]. cbn [leading_global fst].
    split; [|split].
    + destruct (Z.eq_dec sw 0) as [->|]; [specialize (Hfirst eq_refl); lia|].
      rewrite Hlater by lia. lia.
    + assumption.
    + intros H. split; [rewrite Hlater by lia; lia|]. intros H'. apply Hnone. lia.
  - split; [assumption|]. repeat constructor; cbn; lia.
  - cbn. auto.
Qed.

Lemma continuous_step (g n : Z) (o o' : Digital_rf_write_object) (w w' : World)
      (vec : list sample) (sw r : Z) :
  continuous_loop g n o w sw -> sw < n ->
  digital_rf_write_samples_to_file o w sw [(g, 0)] vec n = Ret (r, o', w') -> r <> 0 ->
  continuous_loop g n o' w' (sw + r)
  /\ config o' = config o /\ 1 <= r
  /\ r = Z.min (n - sw) (match hdf5_file o with
                         | None => samples_per_file o
                         | Some _ => dataset_avail o
                         end)
  /\ u64 (sw + r) = sw + r.
Proof.
  intros Hloop Hlt Hrun Hr.
  destruct (continuous_loop_invariant _ _ _ _ _ Hloop ltac:(destruct Hloop as (_ & ? & _); lia))
    as (Hinv & Hrange & Hcontract).
  destruct (slice_step _ _ _ _ _ _ _ _ _ Hinv Hcontract Hrange Hlt Hrun Hr)
    as (Hc & Hr1 & Hrmin & (rows & Hrows & Hformula) & Hinv').
  destruct Hloop as (Hready & Hsw & Hg & Hbound & Hroom & Hfirst & Hlater & Hnone).
  assert (Hdi : 0 <= dataset_index o < samples_per_file o
                /\ (hdf5_file o = None -> dataset_index o = 0)).
  { destruct Hready as ((_ & _ & _ & Hd & Ha) & Hspf & Hfile). unfold in_u64 in *.
    destruct (hdf5_file o); [split; [lia|discriminate]|].
    destruct Hfile as [-> _]. split; [lia|reflexivity]. }
  destruct Hdi as [Hdi Hdi0].
  assert (Hs : 0 <= global_start_sample o < 2 ^ 64) by apply Hready.
  rewrite builder_single in Hrows by lia. injection Hrows as <-.
  assert (Hgi : global_index o' = g + (sw + r)).
  { destruct (Z.eqb_spec sw 0) as [->|Hnz].
    - destruct ((0 <? dataset_index o) && (global_index o =? g)) eqn:Hcont.
      + apply andb_true_iff in Hcont as [_ Hcont]. apply Z.eqb_eq in Hcont.
        cbn [last] in Hformula. lia.
      + cbn [last] in Hformula. destruct Hformula as (b & Hb & _ & Hcur).
        rewrite u64_small in Hcur by lia. lia.
    - cbn [last] in Hformula. destruct Hformula as (b & Hb & _ & Hcur).
      rewrite Hlater in Hcur by lia. rewrite u64_small in Hcur by lia.
      rewrite Hdi0 in Hb by (apply Hnone; lia). lia. }
  assert (Hle : sw + r <= n) by lia.
  split; [|split; [assumption|split; [assumption|split; [assumption|apply u64_small; lia]]]].
  destruct Hinv' as (Hready' & Hsw' & _ & _ & Hlater').
  unfold continuous_loop. rewrite Hc.
  split; [assumption|]. split; [lia|]. split; [assumption|]. split; [assumption|].
  split; [assumption|]. split; [lia|]. split; [intros _; assumption|].
  intros H. apply Hlater'; lia.
Qed.

(** A slice from its steps. *)
Lemma slice_intro (o oA oC : Digital_rf_write_object) (w wA wB wC : World) (sw g0 : Z)
      (rest : index_pairs) (vec : list sample) (n r : Z) (rows : list (Z * Z)) :
  digital_rf_create_rf_data_index o sw ((g0, 0) :: rest) = Ret (inr rows) ->
  open_file_if_needed o w sw ((g0, 0) :: rest) = Ret (0, oA, wA) ->
  r = samples_to_write oA sw n ->
  sw + r <= Z.of_nat (length vec) ->
  H5Dwrite_rf_data oA wA (take (Z.to_nat r) (drop (Z.to_nat sw) vec)) = (true, wB) ->
  match rows with
  | [] => (0, oA, wB)
  | _ => digital_rf_write_rf_data_index oA wB rows
  end = (0, oC, wC) ->
  dataset_index (advance_state oC rows r) <= samples_per_file oC ->
  digital_rf_write_samples_to_file o w sw ((g0, 0) :: rest) vec n
  = Ret (r, close_if_full (advance_state oC rows r), wC).
Proof.
  intros Hrows Hopen -> Hlen Hwrite Hindex Hfull.
  unfold digital_rf_write_samples_to_file. cbn [Z.eqb negb].
  rewrite Hrows. cbn [bind]. rewrite Hopen. cbn [bind Z.eqb negb].
  destruct (Z.ltb_spec (Z.of_nat (length vec)) (sw + samples_to_write oA sw n)); [lia|].
  cbv zeta. rewrite Hwrite. cbn [negb]. rewrite Hindex. cbn [Z.eqb negb].
  destruct (Z.ltb_spec (samples_per_file (advance_state oC rows (samples_to_write oA sw n)))
                       (dataset_index (advance_state oC rows (samples_to_write oA sw n))));
    [cbn in *; lia|reflexivity].
Qed.

(** The index write of a slice without a fault of the environment: the
    writer after it, and what it does to the open file. *)
Lemma index_write_explicit (oA : Digital_rf_write_object) (rows : list (Z * Z))
      (name : string) :
  hdf5_file oA = Some name ->
  exists (oC : Digital_rf_write_object) (h : H5File -> H5File),
    (forall wX, w_faults wX = [] ->
                match rows with
                | [] => (0, oA, wX)
                | _ => digital_rf_write_rf_data_index oA wX rows
                end = (0, oC, set_files (alter h name (w_files wX)) wX))
    /\ (forall v f, h (set_rf_data v f) = set_rf_data v (h f))
    /\ config oC = config oA /\ global_index oC = global_index oA
    /\ dataset_index oC = dataset_index oA /\ dataset_avail oC = dataset_avail oA
    /\ hdf5_file oC = hdf5_file oA.
Proof.
  intros Hname. destruct rows as [|row rows].
  - exists oA, (fun f => f). split; [|auto 10].
    intros wX _. rewrite alter_id by reflexivity. destruct wX. reflexivity.
  - eexists _, _. split; [|split].
    + intros wX Hf. apply (write_index_no_fault _ _ _ _ Hf Hname).
    + intros v f. reflexivity.
    + cbn. auto.
Qed.

Lemma advance_state_twice (o : Digital_rf_write_object) (rows : list (Z * Z)) (r1 r2 : Z) :
  advance_state (advance_state o rows r1) [] r2 = advance_state o rows (r1 + r2).
Proof.
  unfold advance_state, advance_global_index, set_global_index, set_dataset_avail,
    set_dataset_index. cbn.
  f_equal.
  - destruct rows as [|first_row rows']; cbn [last].
    + rewrite u64_add_idemp_l. f_equal. lia.
    + destruct (last (first_row :: rows')) as [last_row|].
      * rewrite u64_add_idemp_l, Z.add_shuffle0, !u64_add_idemp_r. f_equal. lia.
      * rewrite u64_add_idemp_l. f_equal. lia.
  - rewrite u64_add_idemp_l. f_equal. lia.
  - rewrite u64_sub_idemp_l. f_equal. lia.
Qed.

(** The slice of the whole buffer that goes past the first part is the
    last slice of the first part followed by the first slice of the second
    one, in the same file. *)
Lemma slice_straddle (g : Z) (o o' : Digital_rf_write_object) (w w' : World)
      (vec1 vec2 : list sample) (sw r : Z) :
  continuous_loop g (Z.of_nat (length vec1) + Z.of_nat (length vec2)) o w sw ->
  w_faults w = [] -> sw < Z.of_nat (length vec1) ->
  digital_rf_write_samples_to_file o w sw [(g, 0)] (vec1 ++ vec2)
    (Z.of_nat (length vec1) + Z.of_nat (length vec2)) = Ret (r, o', w') ->
  Z.of_nat (length vec1) - sw < r ->
  exists o1 w1,
    digital_rf_write_samples_to_file o w sw [(g, 0)] vec1 (Z.of_nat (length vec1))
    = Ret (Z.of_nat (length vec1) - sw, o1, w1)
    /\ digital_rf_write_samples_to_file o1 w1 0 [(g + Z.of_nat (length vec1), 0)] vec2
         (Z.of_nat (length vec2))
       = Ret (r - (Z.of_nat (length vec1) - sw), o', w').
Proof.
  set (n1 := Z.of_nat (length vec1)). set (n2 := Z.of_nat (length vec2)).
  intros Hloop Hf Hlt Hrun Hover.
  assert (Hr : r <> 0) by lia.
  pose proof Hrun as Hrun0.
  apply write_samples_to_file_inv in Hrun; [|assumption].
  destruct Hrun as (rows & oA & wA & wB & oC & _ & Hrows & Hopen & Hrn & Hwrite & Hindex
                    & Ho' & Hfull).
  assert (Hn2 : 0 <= n2) by (subst n2; lia).
  destruct (continuous_step _ _ _ _ _ _ _ _ _ Hloop ltac:(lia) Hrun0 Hr)
    as (_ & _ & _ & Hrmin & _).
  assert (Hloop1 : continuous_loop g n1 o w sw).
  { destruct Hloop as (H1 & H2 & H3 & H4 & H5 & H6 & H7 & H8).
    unfold continuous_loop. repeat (split; [first [assumption | lia]|]).
    intros H. apply H8. lia. }
  destruct Hloop as (Hready & Hsw & Hg & Hbound & Hroom & Hfirst & Hlater & Hnone).
  assert (Hne : [(g, 0)] <> []) by discriminate.
  destruct (open_file_ready _ _ _ _ _ _ Hready Hne Hopen)
    as (HcA & HgiA & HdiA & HavA & HavA' & _ & _ & name & HnameA & _ & _).
  pose proof (open_file_faults _ _ _ _ _ _ _ Hf Hopen) as HfA.
  destruct (H5Dwrite_rf_data_inv _ _ _ _ Hwrite)
    as (name' & f & rowsC & Hname' & Hfile & Hhyp & _).
  rewrite HnameA in Hname'. injection Hname' as <-.
  assert (Hdata : take (Z.to_nat r) (drop (Z.to_nat sw) (vec1 ++ vec2))
                  = drop (Z.to_nat sw) vec1 ++ take (Z.to_nat (r - (n1 - sw))) vec2).
  { rewrite drop_app_le by lia.
    replace (Z.to_nat r)
      with (length (drop (Z.to_nat sw) vec1) + Z.to_nat (r - (n1 - sw)))%nat
      by (rewrite length_drop; lia).
    apply take_app_add'. reflexivity. }
  rewrite Hdata in Hhyp, Hwrite.
  destruct (write_hyperslab_app _ _ _ _ _ Hhyp) as (rows1 & Hh1 & Hlen1 & Hh2).
  rewrite (H5Dwrite_no_fault _ _ _ _ _ _ HfA HnameA Hfile Hhyp) in Hwrite.
  injection Hwrite as <-.
  destruct (index_write_explicit oA rows name HnameA)
    as (oC' & h & Hix & Hcomm & HcC & HgiC & HdiC & HavC & HnameC).
  rewrite (Hix (set_files (<[name := set_rf_data rowsC f]> (w_files wA)) wA) HfA) in Hindex.
  injection Hindex as <- <-.
  (* sizes *)
  assert (Hfields : 0 <= dataset_index o /\ 0 <= dataset_avail oA
                    /\ dataset_index o + dataset_avail oA = samples_per_file o
                    /\ samples_per_file o < 2 ^ 64).
  { destruct Hready as ((Hspf & _ & _ & Hd & Ha) & _). unfold in_u64 in *. lia. }
  destruct Hfields as (Hdi0 & Hav0 & Hsum & Hspf).
  rewrite samples_to_write_min in Hrn by lia.
  assert (Hfull' : dataset_index oA + r <= samples_per_file o) by lia.
  (* the slice of the first call *)
  assert (Hrun1 : digital_rf_write_samples_to_file o w sw [(g, 0)] vec1 n1
                  = Ret (n1 - sw, advance_state oC' rows (n1 - sw),
                         set_files (alter h name
                                      (<[name := set_rf_data rows1 f]> (w_files wA)))
                                   wA)).
  { replace (advance_state oC' rows (n1 - sw))
      with (close_if_full (advance_state oC' rows (n1 - sw))).
    2:{ unfold close_if_full. cbn. rewrite HdiC, HcC, HcA.
        rewrite u64_small by lia.
        destruct (Z.eqb_spec (dataset_index oA + (n1 - sw)) (samples_per_file o));
          [lia|reflexivity]. }
    eapply slice_intro.
    - exact Hrows.
    - exact Hopen.
    - rewrite samples_to_write_min by lia. lia.
    - lia.
    - replace (take (Z.to_nat (n1 - sw)) (drop (Z.to_nat sw) vec1))
        with (drop (Z.to_nat sw) vec1) by (rewrite take_ge; [reflexivity|rewrite length_drop; lia]).
      apply (H5Dwrite_no_fault _ _ _ _ _ _ HfA HnameA Hfile Hh1).
    - exact (Hix (set_files (<[name := set_rf_data rows1 f]> (w_files wA)) wA) HfA).
    - cbn. rewrite HdiC, HcC, HcA. rewrite u64_small by lia. lia. }
  eexists _, _. split; [exact Hrun1|].
  destruct (continuous_step _ _ _ _ _ _ _ _ _ Hloop1 Hlt Hrun1 ltac:(lia))
    as (Hloop1' & _).
  destruct Hloop1' as (Hready1 & _ & _ & _ & _ & _ & Hgi1 & _).
  specialize (Hgi1 ltac:(lia)).
  set (o1 := advance_state oC' rows (n1 - sw)) in *.
  set (w1 := set_files (alter h name (<[name := set_rf_data rows1 f]> (w_files wA))) wA) in *.
  assert (Hdi1 : dataset_index o1 = dataset_index oA + (n1 - sw)).
  { subst o1. cbn. rewrite HdiC. apply u64_small. lia. }
  assert (Hav1 : dataset_avail o1 = dataset_avail oA - (n1 - sw)).
  { subst o1. cbn. rewrite HavC. apply u64_small. lia. }
  assert (Hname1 : hdf5_file o1 = Some name) by (subst o1; cbn; congruence).
  assert (Hc1 : config o1 = config o) by (subst o1; cbn; congruence).
  assert (Hfile1 : w_files w1 !! name = Some (h (set_rf_data rows1 f))).
  { subst w1. cbn. rewrite alter_insert_eq. apply lookup_insert_eq. }
  rewrite Ho'.
  replace (advance_state oC' rows r) with (advance_state o1 [] (r - (n1 - sw))).
  2:{ subst o1. rewrite advance_state_twice. f_equal. lia. }
  assert (Hh2' : write_hyperslab (dataset_index o1) (take (Z.to_nat (r - (n1 - sw))) vec2)
                                 (rf_data (h (set_rf_data rows1 f))) = Some rowsC).
  { rewrite Hcomm. cbn [rf_data set_rf_data]. rewrite Hdi1.
    rewrite length_drop in Hh2.
    replace (dataset_index oA + (n1 - sw))
      with (dataset_index oA + Z.of_nat (length vec1 - Z.to_nat sw)) by lia.
    exact Hh2. }
  assert (Hf1 : w_faults w1 = []) by exact HfA.
  pose proof (H5Dwrite_no_fault _ _ _ _ _ _ Hf1 Hname1 Hfile1 Hh2') as Hw2.
  eapply slice_intro.
  - rewrite builder_single; [| lia | intros _; lia | rewrite Hdi1, Hc1; lia | rewrite Hc1; lia].
    cbn [Z.eqb]. rewrite Hgi1, Hdi1.
    replace (g + (sw + (n1 - sw))) with (g + n1) by lia. rewrite Z.eqb_refl.
    destruct (Z.ltb_spec 0 (dataset_index oA + (n1 - sw))); [reflexivity|lia].
  - unfold open_file_if_needed. rewrite Hname1. reflexivity.
  - rewrite samples_to_write_min by lia. rewrite Hav1. lia.
  - lia.
  - change (drop (Z.to_nat 0) vec2) with vec2. exact Hw2.
  - f_equal. subst w1. unfold set_files. cbn. f_equal.
    rewrite !alter_insert_eq, insert_insert_eq, !Hcomm. reflexivity.
  - change (dataset_index (advance_state o1 [] (r - (n1 - sw))))
      with (u64 (dataset_index o1 + (r - (n1 - sw)))).
    rewrite Hc1, Hdi1. rewrite u64_small by lia. lia.
Qed.

(** The result of the loop does not depend on the fuel that suffices. *)
Lemma write_loop_fuel (idx : index_pairs) (vec : list sample) (n : Z) :
  forall f1 f2 o w sw x y,
    write_loop f1 o w sw idx vec n = Some x -> write_loop f2 o w sw idx vec n = Some y ->
    x = y.
Proof.
  induction f1 as [|f1 IH]; intros f2 o w sw x y H1 H2; destruct f2;
    cbn [write_loop] in H1, H2; destruct (sw <? n); try congruence.
  destruct (digital_rf_write_samples_to_file o w sw idx vec n) as [[[r o1] w1]|];
    [|congruence].
  destruct (r =? 0); [congruence|]. eapply IH; eassumption.
Qed.

Lemma set_chunking_fixed (o : Digital_rf_write_object) (n : Z) :
  needs_chunking o = 0 \/ chunk_size o <> 0 -> set_chunking o n = o.
Proof.
  intros H. unfold set_chunking.
  destruct (Z.eqb_spec (needs_chunking o) 0), (Z.eqb_spec (chunk_size o) 0);
    cbn [negb andb]; try reflexivity. destruct H; contradiction.
Qed.

(** The slices of the whole buffer from the second part on are those of
    the call that passes the second part. *)
Lemma late_loop (g : Z) (vec1 vec2 : list sample) :
  forall fuel o w sw res,
    continuous_loop g (Z.of_nat (length vec1) + Z.of_nat (length vec2)) o w sw ->
    0 < Z.of_nat (length vec1) <= sw ->
    write_loop fuel o w sw [(g, 0)] (vec1 ++ vec2)
               (Z.of_nat (length vec1) + Z.of_nat (length vec2)) = Some res ->
    write_loop fuel o w (sw - Z.of_nat (length vec1)) [(g + Z.of_nat (length vec1), 0)] vec2
               (Z.of_nat (length vec2)) = Some res.
Proof.
  set (n1 := Z.of_nat (length vec1)). set (n2 := Z.of_nat (length vec2)).
  induction fuel as [|fuel IH]; intros o w sw res Hloop Hsw Hrun; cbn [write_loop] in *.
  - destruct (Z.ltb_spec sw (n1 + n2)); [discriminate|].
    destruct (Z.ltb_spec (sw - n1) n2); [lia|assumption].
  - destruct (Z.ltb_spec sw (n1 + n2)) as [Hlt|Hge];
      destruct (Z.ltb_spec (sw - n1) n2); try lia; [|assumption].
    pose proof Hloop as (Hready & _ & Hg & Hbound & Hroom & _ & Hlater & Hnone).
    pose proof (slice_late o w g sw vec1 vec2 n2 Hready (Hnone ltac:(lia)) Hsw Hlt
                           (Hlater ltac:(lia)) Hg Hbound Hroom) as Hsame.
    fold n1 in Hsame. rewrite <- Hsame.
    destruct (digital_rf_write_samples_to_file o w sw [(g, 0)] (vec1 ++ vec2) (n1 + n2))
      as [[[r o1] w1]|] eqn:Hstep; [|assumption].
    destruct (Z.eqb_spec r 0) as [|Hr]; [assumption|].
    destruct (continuous_step _ _ _ _ _ _ _ _ _ Hloop Hlt Hstep Hr)
      as (Hloop' & _ & Hr1 & _ & Hu).
    pose proof Hloop' as (_ & Hsw' & _).
    assert (Hspf0 : 0 <= samples_per_file o) by (destruct Hready as (_ & ? & _); lia).
    rewrite Hu in Hrun. rewrite (u64_small (sw - n1 + r)) by lia.
    replace (sw - n1 + r) with (sw + r - n1) by lia.
    apply IH; [assumption|lia|assumption].
Qed.

(** The slices of the whole buffer up to the second part are those of the
    call that passes the first part, and the second call goes on where the
    first one ends. *)
Lemma early_loop (g : Z) (vec1 vec2 : list sample) :
  forall fuel o w sw o' w',
    continuous_loop g (Z.of_nat (length vec1) + Z.of_nat (length vec2)) o w sw ->
    w_faults w = [] -> sw <= Z.of_nat (length vec1) ->
    0 < Z.of_nat (length vec1) -> 0 < Z.of_nat (length vec2) ->
    write_loop fuel o w sw [(g, 0)] (vec1 ++ vec2)
               (Z.of_nat (length vec1) + Z.of_nat (length vec2)) = Some (Ret (0, o', w')) ->
    exists o1 w1 f1 f2,
      write_loop f1 o w sw [(g, 0)] vec1 (Z.of_nat (length vec1)) = Some (Ret (0, o1, w1))
      /\ slice_ready o1 w1
      /\ global_index o1 = g + Z.of_nat (length vec1)
      /\ chunk_size o1 = chunk_size o /\ config o1 = config o
      /\ write_loop f2 o1 w1 0 [(g + Z.of_nat (length vec1), 0)] vec2
                    (Z.of_nat (length vec2)) = Some (Ret (0, o', w')).
Proof.
  set (n1 := Z.of_nat (length vec1)). set (n2 := Z.of_nat (length vec2)).
  induction fuel as [|fuel IH]; intros o w sw o' w' Hloop Hf Hsw Hn1 Hn2 Hrun.
  - cbn [write_loop] in Hrun. destruct (Z.ltb_spec sw (n1 + n2)); [discriminate|lia].
  - assert (HN : n1 + n2 < 2 ^ 64).
    { destruct Hloop as ((_ & ? & _) & _ & _ & _ & ? & _). lia. }
    destruct (Z.eq_dec sw n1) as [->|Hne].
    + exists o, w, 0%nat, (S fuel).
      split; [cbn [write_loop]; rewrite Z.ltb_irrefl; reflexivity|].
      pose proof Hloop as (Hready & _ & _ & _ & _ & _ & Hlater & _).
      split; [assumption|]. split; [apply Hlater; lia|]. split; [reflexivity|].
      split; [reflexivity|].
      assert (Hsw1 : 0 < n1 <= n1) by lia.
      pose proof (late_loop g vec1 vec2 (S fuel) o w n1 _ Hloop Hsw1 Hrun) as Hlate.
      fold n1 n2 in Hlate. rewrite Z.sub_diag in Hlate. exact Hlate.
    + cbn [write_loop] in Hrun.
      destruct (Z.ltb_spec sw (n1 + n2)) as [Hlt|]; [|lia].
      destruct (digital_rf_write_samples_to_file o w sw [(g, 0)] (vec1 ++ vec2) (n1 + n2))
        as [[[r oB] wB]|] eqn:Hstep; [|discriminate].
      destruct (Z.eqb_spec r 0) as [|Hr]; [discriminate|].
      destruct (continuous_step _ _ _ _ _ _ _ _ _ Hloop Hlt Hstep Hr)
        as (Hloop' & Hc & Hr1 & Hrmin & Hu).
      rewrite Hu in Hrun.
      assert (Hloop1 : continuous_loop g n1 o w sw).
      { destruct Hloop as (H1 & H2 & H3 & H4 & H5 & H6 & H7 & H8).
        unfold continuous_loop. repeat (split; [first [assumption | lia]|]).
        intros H. apply H8. lia. }
      destruct (Z.le_gt_cases (sw + r) n1) as [Hin|Hout].
      * assert (Hsame : digital_rf_write_samples_to_file o w sw [(g, 0)] vec1 n1
                        = Ret (r, oB, wB)).
        { rewrite <- Hstep. symmetry.
          destruct Hloop as (((Hspf & Hu1) & _) & Hsw0 & _ & _ & Hroom & _).
          unfold in_u64 in Hspf.
          apply slice_early; fold n1; [split; assumption|lia|lia|lia|lia]. }
        destruct (slice_chunk_faults _ _ _ _ _ _ _ _ _ Hstep Hr) as (Hchunk & _ & Hfaults).
        destruct (IH oB wB (sw + r) o' w' Hloop' (Hfaults Hf) Hin Hn1 Hn2 Hrun)
          as (o1 & w1 & f1 & f2 & Hrun1 & Hready1 & Hgi1 & Hch1 & Hc1 & Hrun2).
        exists o1, w1, (S f1), f2.
        split.
        { cbn [write_loop]. destruct (Z.ltb_spec sw n1); [|lia]. rewrite Hsame.
          destruct (Z.eqb_spec r 0); [contradiction|]. rewrite Hu. assumption. }
        split; [assumption|]. split; [assumption|]. split; [congruence|].
        split; [congruence|assumption].
      * destruct (slice_straddle g o oB w wB vec1 vec2 sw r Hloop Hf ltac:(lia) Hstep
                                 ltac:(fold n1; lia))
          as (o1 & w1 & Hrun1 & Hrun2).
        fold n1 n2 in Hrun1, Hrun2.
        assert (Hr1' : n1 - sw <> 0) by lia.
        destruct (continuous_step _ _ _ _ _ _ _ _ _ Hloop1 ltac:(lia) Hrun1 Hr1')
          as (Hloop1' & Hc1 & _).
        destruct (slice_chunk_faults _ _ _ _ _ _ _ _ _ Hrun1 Hr1') as (Hchunk1 & _).
        destruct Hloop1' as (Hready1 & _ & _ & _ & _ & _ & Hgi1 & _).
        exists o1, w1, 1%nat, (S fuel).
        split.
        { cbn [write_loop]. destruct (Z.ltb_spec sw n1); [|lia]. rewrite Hrun1.
          destruct (Z.eqb_spec (n1 - sw) 0); [contradiction|].
          replace (sw + (n1 - sw)) with n1 by lia.
          rewrite u64_small by lia.
          rewrite Z.ltb_irrefl. reflexivity. }
        split; [assumption|]. split; [rewrite Hgi1 by lia; lia|].
        split; [assumption|]. split; [assumption|].
        cbn [write_loop]. destruct (Z.ltb_spec 0 n2); [|lia]. rewrite Hrun2.
        destruct (Z.eqb_spec (r - (n1 - sw)) 0); [lia|].
        rewrite Z.add_0_l.
        pose proof Hloop' as (_ & Hsw' & _).
        rewrite u64_small by lia.
        replace (r - (n1 - sw)) with (sw + r - n1) by lia.
        assert (Hsw1 : 0 < n1 <= sw + r) by lia.
        exact (late_loop g vec1 vec2 fuel oB wB (sw + r) _ Hloop' Hsw1 Hrun).
Qed.

Lemma write_hyperslab_join (offset : Z) (A B : list sample) (F rows1 rows : list (option sample)) :
  write_hyperslab offset A F = Some rows1 ->
  write_hyperslab (offset + Z.of_nat (length A)) B rows1 = Some rows ->
  write_hyperslab offset (A ++ B) F = Some rows.
Proof.
  intros H1 H2.
  assert (Hsome : exists X, write_hyperslab offset (A ++ B) F = Some X).
  { revert H1 H2. unfold write_hyperslab. rewrite length_app, Nat2Z.inj_add.
    destruct (Z.leb_spec 0 offset); [|discriminate]. cbn [andb].
    destruct (Z.leb_spec (offset + Z.of_nat (length A)) (Z.of_nat (length F)));
      [|discriminate].
    intros [= <-].
    destruct (Z.leb_spec 0 (offset + Z.of_nat (length A))); [|lia]. cbn [andb].
    rewrite !length_app, length_take, length_fmap, length_drop.
    destruct (_ <=? _) eqn:Hle2; [|discriminate]. apply Z.leb_le in Hle2.
    intros _.
    destruct (Z.leb_spec (offset + (Z.of_nat (length A) + Z.of_nat (length B)))
                         (Z.of_nat (length F))); [eauto|lia]. }
  destruct Hsome as [X HX].
  destruct (write_hyperslab_app _ _ _ _ _ HX) as (rows1' & H1' & _ & H2').
  congruence.
Qed.

(** The last slice of a first call that ends within a file and the first
    slice of the call that goes on without a gap are one slice of the call
    that passes both buffers. *)
Lemma slice_join (g : Z) (o o1 o' : Digital_rf_write_object) (w w1 w' : World)
      (vec1 vec2 : list sample) (sw r2 : Z) :
  continuous_loop g (Z.of_nat (length vec1) + Z.of_nat (length vec2)) o w sw ->
  w_faults w = [] -> sw < Z.of_nat (length vec1) ->
  Z.of_nat (length vec1) - sw < match hdf5_file o with
                                | None => samples_per_file o
                                | Some _ => dataset_avail o
                                end ->
  digital_rf_write_samples_to_file o w sw [(g, 0)] vec1 (Z.of_nat (length vec1))
  = Ret (Z.of_nat (length vec1) - sw, o1, w1) ->
  digital_rf_write_samples_to_file o1 w1 0 [(g + Z.of_nat (length vec1), 0)] vec2
    (Z.of_nat (length vec2)) = Ret (r2, o', w') ->
  r2 <> 0 ->
  digital_rf_write_samples_to_file o w sw [(g, 0)] (vec1 ++ vec2)
    (Z.of_nat (length vec1) + Z.of_nat (length vec2))
  = Ret (Z.of_nat (length vec1) - sw + r2, o', w').
Proof.
  set (n1 := Z.of_nat (length vec1)). set (n2 := Z.of_nat (length vec2)).
  intros Hloop Hf Hlt Hroom1 Hrun1 Hrun2 Hr2.
  assert (Hr1 : n1 - sw <> 0) by lia.
  assert (Hn2 : 0 <= n2) by (subst n2; lia).
  assert (Hloop1 : continuous_loop g n1 o w sw).
  { destruct Hloop as (H1 & H2 & H3 & H4 & H5 & H6 & H7 & H8).
    unfold continuous_loop. repeat (split; [first [assumption | lia]|]).
    intros H. apply H8. lia. }
  destruct Hloop as (Hready & Hsw & Hg & Hbound & Hroom & Hfirst & Hlater & Hnone).
  destruct (continuous_step _ _ _ _ _ _ _ _ _ Hloop1 Hlt Hrun1 Hr1)
    as (Hloop1' & Hc1 & _).
  destruct Hloop1' as (Hready1 & _ & _ & _ & _ & _ & Hgi1 & _).
  specialize (Hgi1 ltac:(lia)).
  apply write_samples_to_file_inv in Hrun1; [|assumption].
  destruct Hrun1 as (rows & oA & wA & wB1 & oC & _ & Hrows & Hopen & Hrn1 & Hwrite1 & Hindex1
                     & Ho1 & Hfull1).
  assert (Hne : [(g, 0)] <> []) by discriminate.
  destruct (open_file_ready _ _ _ _ _ _ Hready Hne Hopen)
    as (HcA & HgiA & HdiA & HavA & HavA' & _ & _ & name & HnameA & _ & _).
  pose proof (open_file_faults _ _ _ _ _ _ _ Hf Hopen) as HfA.
  destruct (H5Dwrite_rf_data_inv _ _ _ _ Hwrite1)
    as (name' & f & rows1 & Hname' & Hfile & Hh1 & _).
  rewrite HnameA in Hname'. injection Hname' as <-.
  rewrite (H5Dwrite_no_fault _ _ _ _ _ _ HfA HnameA Hfile Hh1) in Hwrite1.
  injection Hwrite1 as <-.
  destruct (index_write_explicit oA rows name HnameA)
    as (oC' & h & Hix & Hcomm & HcC & HgiC & HdiC & HavC & HnameC).
  rewrite (Hix (set_files (<[name := set_rf_data rows1 f]> (w_files wA)) wA) HfA) in Hindex1.
  injection Hindex1 as <- <-.
  assert (Hfields : 0 <= dataset_index o /\ 0 <= dataset_avail oA
                    /\ dataset_index o + dataset_avail oA = samples_per_file o
                    /\ samples_per_file o < 2 ^ 64).
  { destruct Hready as ((Hspf & _ & _ & Hd & Ha) & _). unfold in_u64 in *. lia. }
  destruct Hfields as (Hdi0 & Hav0 & Hsum & Hspf).
  rewrite <- HavA' in Hroom1.
  assert (Hclose : close_if_full (advance_state oC' rows (n1 - sw))
                   = advance_state oC' rows (n1 - sw)).
  { unfold close_if_full. cbn. rewrite HdiC, HcC, HcA.
    rewrite u64_small by lia.
    destruct (Z.eqb_spec (dataset_index oA + (n1 - sw)) (samples_per_file o));
      [lia|reflexivity]. }
  rewrite Hclose in Ho1.
  set (wX := set_files (alter h name (w_files (set_files (<[name := set_rf_data rows1 f]>
                                                            (w_files wA)) wA)))
                       (set_files (<[name := set_rf_data rows1 f]> (w_files wA)) wA)) in *.
  assert (Hdi1 : dataset_index o1 = dataset_index oA + (n1 - sw)).
  { rewrite Ho1. cbn. rewrite HdiC. apply u64_small. lia. }
  assert (Hav1 : dataset_avail o1 = dataset_avail oA - (n1 - sw)).
  { rewrite Ho1. cbn. rewrite HavC. apply u64_small. lia. }
  assert (Hname1 : hdf5_file o1 = Some name) by (rewrite Ho1; cbn; congruence).
  assert (Hfile1 : w_files wX !! name = Some (h (set_rf_data rows1 f))).
  { subst wX. cbn. rewrite alter_insert_eq. apply lookup_insert_eq. }
  assert (Hf1 : w_faults wX = []) by exact HfA.
  (* the slice of the second call *)
  apply write_samples_to_file_inv in Hrun2; [|assumption].
  destruct Hrun2 as (rows2 & oA2 & wA2 & wB2 & oC2 & _ & Hrows2 & Hopen2 & Hrn2 & Hwrite2
                     & Hindex2 & Ho' & Hfull2).
  rewrite builder_single in Hrows2;
    [| lia | intros _; lia | rewrite Hdi1, Hc1; lia | rewrite Hc1; lia].
  cbn [Z.eqb] in Hrows2. rewrite Hgi1, Hdi1 in Hrows2.
  replace (g + (sw + (n1 - sw))) with (g + n1) in Hrows2 by lia.
  rewrite Z.eqb_refl in Hrows2.
  destruct (Z.ltb_spec 0 (dataset_index oA + (n1 - sw))); [|lia].
  cbn [andb] in Hrows2. injection Hrows2 as <-.
  unfold open_file_if_needed in Hopen2. rewrite Hname1 in Hopen2.
  injection Hopen2 as <- <-.
  injection Hindex2 as <- <-.
  rewrite samples_to_write_min in Hrn1, Hrn2 by lia. rewrite Hav1 in Hrn2.
  destruct (H5Dwrite_rf_data_inv _ _ _ _ Hwrite2)
    as (name' & f' & rowsC & Hname' & Hfile' & Hh2 & _).
  rewrite Hname1 in Hname'. injection Hname' as <-.
  change (w_files wX !! name = Some f') in Hfile'.
  rewrite Hfile1 in Hfile'. injection Hfile' as <-.
  change (H5Dwrite_rf_data o1 wX (take (Z.to_nat r2) (drop (Z.to_nat 0) vec2)) = (true, wB2))
    in Hwrite2.
  rewrite (H5Dwrite_no_fault _ _ _ _ _ _ Hf1 Hname1 Hfile1 Hh2) in Hwrite2.
  injection Hwrite2 as <-.
  rewrite Hcomm in Hh2. cbn [rf_data set_rf_data] in Hh2. rewrite Hdi1 in Hh2.
  change (drop (Z.to_nat 0) vec2) with vec2 in Hh2.
  replace (take (Z.to_nat (n1 - sw)) (drop (Z.to_nat sw) vec1))
    with (drop (Z.to_nat sw) vec1) in Hh1
    by (rewrite take_ge; [reflexivity|rewrite length_drop; lia]).
  assert (Hdata : take (Z.to_nat (n1 - sw + r2)) (drop (Z.to_nat sw) (vec1 ++ vec2))
                  = drop (Z.to_nat sw) vec1 ++ take (Z.to_nat r2) vec2).
  { rewrite drop_app_le by lia.
    replace (Z.to_nat (n1 - sw + r2))
      with (length (drop (Z.to_nat sw) vec1) + Z.to_nat r2)%nat
      by (rewrite length_drop; lia).
    apply take_app_add'. reflexivity. }
  assert (Hh : write_hyperslab (dataset_index oA)
                               (drop (Z.to_nat sw) vec1 ++ take (Z.to_nat r2) vec2)
                               (rf_data f) = Some rowsC).
  { eapply write_hyperslab_join; [exact Hh1|].
    rewrite length_drop.
    replace (dataset_index oA + Z.of_nat (length vec1 - Z.to_nat sw))
      with (dataset_index oA + (n1 - sw)) by lia.
    exact Hh2. }
  rewrite Ho'.
  replace (advance_state o1 [] r2) with (advance_state oC' rows (n1 - sw + r2))
    by (rewrite Ho1, advance_state_twice; reflexivity).
  eapply slice_intro.
  - exact Hrows.
  - exact Hopen.
  - rewrite samples_to_write_min by lia. lia.
  - rewrite length_app, Nat2Z.inj_add. fold n1 n2. lia.
  - rewrite Hdata. apply (H5Dwrite_no_fault _ _ _ _ _ _ HfA HnameA Hfile Hh).
  - rewrite (Hix (set_files (<[name := set_rf_data rowsC f]> (w_files wA)) wA) HfA).
    f_equal. subst wX. unfold set_files. cbn. f_equal.
    rewrite !alter_insert_eq, insert_insert_eq, !Hcomm. reflexivity.
  - cbn. rewrite HdiC, HcC, HcA. rewrite u64_small by lia.
    assert (Hfull2' : dataset_index o1 + r2 <= samples_per_file o).
    { cbn in Hfull2. rewrite u64_small in Hfull2 by lia. rewrite Hc1 in Hfull2. lia. }
    lia.
Qed.

Lemma write_loop_done (idx : index_pairs) (vec : list sample) (n : Z) (fuel : nat)
      (o : Digital_rf_write_object) (w : World) (sw : Z) :
  n <= sw -> write_loop fuel o w sw idx vec n = Some (Ret (0, o, w)).
Proof.
  intros H. destruct fuel; cbn [write_loop]; destruct (Z.ltb_spec sw n); try lia; reflexivity.
Qed.

Lemma write_loop_chunk (idx : index_pairs) (vec : list sample) (n : Z) :
  forall fuel o w sw o1 w1,
    write_loop fuel o w sw idx vec n = Some (Ret (0, o1, w1)) ->
    chunk_size o1 = chunk_size o /\ config o1 = config o.
Proof.
  induction fuel as [|fuel IH]; intros o w sw o1 w1 Hrun; cbn [write_loop] in Hrun;
    destruct (sw <? n); try discriminate; try (injection Hrun as <- <-; auto; fail).
  destruct (digital_rf_write_samples_to_file o w sw idx vec n) as [[[r oX] wX]|] eqn:Hstep;
    [|discriminate].
  destruct (Z.eqb_spec r 0) as [|Hr]; [discriminate|].
  destruct (slice_chunk_faults _ _ _ _ _ _ _ _ _ Hstep Hr) as (H1 & H2 & _).
  destruct (IH _ _ _ _ _ Hrun) as [H3 H4]. split; congruence.
Qed.

Lemma late_loop_back (g : Z) (vec1 vec2 : list sample) (fuel : nat)
      (o : Digital_rf_write_object) (w : World) (sw : Z)
      (res : outcome (Z * Digital_rf_write_object * World)) :
  continuous_loop g (Z.of_nat (length vec1) + Z.of_nat (length vec2)) o w sw ->
  0 < Z.of_nat (length vec1) <= sw ->
  write_loop fuel o w (sw - Z.of_nat (length vec1)) [(g + Z.of_nat (length vec1), 0)] vec2
             (Z.of_nat (length vec2)) = Some res ->
  exists fuel',
    write_loop fuel' o w sw [(g, 0)] (vec1 ++ vec2)
               (Z.of_nat (length vec1) + Z.of_nat (length vec2)) = Some res.
Proof.
  set (n1 := Z.of_nat (length vec1)). set (n2 := Z.of_nat (length vec2)).
  intros Hloop Hsw Hrun.
  pose proof Hloop as ((Hu & Hspf & _) & Hsw0 & _ & _ & Hroom & _).
  destruct (loop_terminates [(g, 0)] (vec1 ++ vec2) (n1 + n2) (Z.to_nat (n1 + n2 - sw)) o w sw)
    as [res' Hres']; [assumption|lia|lia|lia|].
  exists (Z.to_nat (n1 + n2 - sw)). rewrite Hres'. f_equal.
  pose proof (late_loop g vec1 vec2 _ o w sw res' Hloop Hsw Hres') as Hlate.
  eapply write_loop_fuel; eassumption.
Qed.

Lemma early_loop_back (g : Z) (vec1 vec2 : list sample) :
  forall f1 o w sw o1 w1 f2 o' w',
    continuous_loop g (Z.of_nat (length vec1) + Z.of_nat (length vec2)) o w sw ->
    w_faults w = [] -> sw <= Z.of_nat (length vec1) ->
    0 < Z.of_nat (length vec1) -> 0 < Z.of_nat (length vec2) ->
    write_loop f1 o w sw [(g, 0)] vec1 (Z.of_nat (length vec1)) = Some (Ret (0, o1, w1)) ->
    write_loop f2 o1 w1 0 [(g + Z.of_nat (length vec1), 0)] vec2 (Z.of_nat (length vec2))
    = Some (Ret (0, o', w')) ->
    exists fuel,
      write_loop fuel o w sw [(g, 0)] (vec1 ++ vec2)
                 (Z.of_nat (length vec1) + Z.of_nat (length vec2)) = Some (Ret (0, o', w')).
Proof.
  set (n1 := Z.of_nat (length vec1)). set (n2 := Z.of_nat (length vec2)).
  induction f1 as [|f1 IH]; intros o w sw o1 w1 f2 o' w' Hloop Hf Hsw Hn1 Hn2 Hrun1 Hrun2;
    (destruct (Z.eq_dec sw n1) as [->|Hne];
     [rewrite write_loop_done in Hrun1 by lia; injection Hrun1 as <- <-;
      assert (Hsw1 : 0 < n1 <= n1) by lia;
      apply (late_loop_back g vec1 vec2 f2 o w n1 _ Hloop Hsw1);
      fold n1 n2; rewrite Z.sub_diag; exact Hrun2|]).
  - cbn [write_loop] in Hrun1. destruct (Z.ltb_spec sw n1); [discriminate|lia].
  - assert (HN : n1 + n2 < 2 ^ 64).
    { destruct Hloop as ((_ & ? & _) & _ & _ & _ & ? & _). lia. }
    cbn [write_loop] in Hrun1. destruct (Z.ltb_spec sw n1) as [Hlt|]; [|lia].
    destruct (digital_rf_write_samples_to_file o w sw [(g, 0)] vec1 n1)
      as [[[r1 oX] wX]|] eqn:Hstep1; [|discriminate].
    destruct (Z.eqb_spec r1 0) as [|Hr1]; [discriminate|].
    assert (Hloop1 : continuous_loop g n1 o w sw).
    { destruct Hloop as (H1 & H2 & H3 & H4 & H5 & H6 & H7 & H8).
      unfold continuous_loop. repeat (split; [first [assumption | lia]|]).
      intros H. apply H8. lia. }
    destruct (continuous_step _ _ _ _ _ _ _ _ _ Hloop1 Hlt Hstep1 Hr1)
      as (Hloop1' & _ & Hr1pos & Hrmin & Hu1).
    rewrite Hu1 in Hrun1.
    pose proof Hloop as (((Hspf & Hurest) & _) & Hsw0 & _ & _ & Hroom & _).
    unfold in_u64 in Hspf.
    destruct (Z.le_gt_cases (sw + match hdf5_file o with
                                  | None => samples_per_file o
                                  | Some _ => dataset_avail o
                                  end) n1) as [Hin|Hout].
    + assert (Hsame : digital_rf_write_samples_to_file o w sw [(g, 0)] (vec1 ++ vec2) (n1 + n2)
                      = Ret (r1, oX, wX)).
      { rewrite <- Hstep1. apply slice_early; fold n1; [split; assumption|lia|lia|lia|lia]. }
      destruct (continuous_step _ _ _ _ _ _ _ _ _ Hloop ltac:(lia) Hsame Hr1)
        as (Hloop' & _ & _ & _ & Hu).
      destruct (slice_chunk_faults _ _ _ _ _ _ _ _ _ Hsame Hr1) as (_ & _ & Hfaults).
      destruct (IH oX wX (sw + r1) o1 w1 f2 o' w' Hloop' (Hfaults Hf) ltac:(lia) Hn1 Hn2
                   Hrun1 Hrun2) as [fuel Hfuel].
      exists (S fuel). cbn [write_loop]. destruct (Z.ltb_spec sw (n1 + n2)); [|lia].
      rewrite Hsame. destruct (Z.eqb_spec r1 0); [contradiction|]. rewrite Hu. assumption.
    + assert (Hr1eq : r1 = n1 - sw) by lia. clear Hrmin. subst r1.
      replace (sw + (n1 - sw)) with n1 in Hrun1 by lia.
      rewrite write_loop_done in Hrun1 by lia. injection Hrun1 as <- <-.
      destruct f2 as [|f2]; cbn [write_loop] in Hrun2;
        (destruct (Z.ltb_spec 0 n2); [|lia]); [discriminate|].
      destruct (digital_rf_write_samples_to_file oX wX 0 [(g + n1, 0)] vec2 n2)
        as [[[r2 oB] wB]|] eqn:Hstep2; [|discriminate].
      destruct (Z.eqb_spec r2 0) as [|Hr2]; [discriminate|].
      pose proof (slice_join g o oX oB w wX wB vec1 vec2 sw r2 Hloop Hf Hlt
                             ltac:(fold n1; lia) Hstep1 Hstep2 Hr2) as Hjoin.
      fold n1 n2 in Hjoin.
      assert (Hr2pos : 1 <= r2).
      { destruct Hloop1' as ((HuX & _) & _).
        apply (slice_progress _ _ _ _ _ _ _ _ _ HuX (conj (Z.le_refl 0) H) ltac:(lia) Hstep2 Hr2). }
      assert (Hr : n1 - sw + r2 <> 0) by lia.
      destruct (continuous_step _ _ _ _ _ _ _ _ _ Hloop ltac:(lia) Hjoin Hr)
        as (Hloop' & _ & _ & _ & Hu).
      pose proof Hloop' as (_ & Hsw' & _).
      rewrite Z.add_0_l in Hrun2. rewrite u64_small in Hrun2 by lia.
      assert (Hsw1 : 0 < n1 <= sw + (n1 - sw + r2)) by lia.
      replace r2 with (sw + (n1 - sw + r2) - n1) in Hrun2 at 1 by lia.
      destruct (late_loop_back g vec1 vec2 f2 oB wB _ _ Hloop' Hsw1 Hrun2) as [fuel Hfuel].
      fold n1 n2 in Hfuel.
      exists (S fuel). cbn [write_loop]. destruct (Z.ltb_spec sw (n1 + n2)); [|lia].
      rewrite Hjoin. destruct (Z.eqb_spec (n1 - sw + r2) 0); [contradiction|].
      rewrite Hu. assumption.
Qed.

(** An append in two calls.  On a channel whose chunk size is fixed (no
    compression and no checksum, or a write has been made), when no call of
    the environment fails: [digital_rf_write_hdf5] succeeds on a buffer that
    starts at global index [g] exactly when it succeeds on the first part of
    the buffer at [g] and then on the rest at the global index that follows
    the first part, and the two calls leave the writer, the files and the
    directories exactly as the one call does. *)
Theorem append_in_two_calls (o o' : Digital_rf_write_object) (w w' : World) (g : Z)
        (vec1 vec2 : list sample) :
  slice_ready o w -> w_faults w = [] ->
  needs_chunking o = 0 \/ chunk_size o <> 0 ->
  vec1 <> [] -> vec2 <> [] -> 0 <= g -> global_index o <= g ->
  g + Z.of_nat (length (vec1 ++ vec2)) + global_start_sample o < 2 ^ 64 ->
  Z.of_nat (length (vec1 ++ vec2)) + samples_per_file o < 2 ^ 64 ->
  digital_rf_write_hdf5 o w g (Some (vec1 ++ vec2)) (Z.of_nat (length (vec1 ++ vec2)))
  = Some (Ret (0, o', w'))
  <-> exists o1 w1,
      digital_rf_write_hdf5 o w g (Some vec1) (Z.of_nat (length vec1)) = Some (Ret (0, o1, w1))
      /\ digital_rf_write_hdf5 o1 w1 (g + Z.of_nat (length vec1)) (Some vec2)
                               (Z.of_nat (length vec2))
         = Some (Ret (0, o', w')).
Proof.
  intros Hready Hf Hchunk Hv1 Hv2 Hg Hgi Hbound Hroom.
  rewrite length_app, Nat2Z.inj_add in *.
  assert (Hn1 : 0 < Z.of_nat (length vec1)) by (destruct vec1; [contradiction|cbn; lia]).
  assert (Hn2 : 0 < Z.of_nat (length vec2)) by (destruct vec2; [contradiction|cbn; lia]).
  set (n1 := Z.of_nat (length vec1)) in *. set (n2 := Z.of_nat (length vec2)) in *.
  unfold digital_rf_write_hdf5, digital_rf_write_blocks_hdf5. cbn [zip zip_with].
  destruct (Z.ltb_spec g (global_index o)); [lia|].
  rewrite !set_chunking_fixed by assumption.
  assert (Hspf : 1 <= samples_per_file o) by apply Hready.
  assert (Hloop : continuous_loop g (n1 + n2) o w 0).
  { unfold continuous_loop. repeat (split; [first [assumption | lia]|]). lia. }
  assert (Hsw0 : 0 <= n1) by lia.
  split.
  - intros Hrun.
    destruct (early_loop g vec1 vec2 _ o w 0 o' w' Hloop Hf Hsw0 Hn1 Hn2 Hrun)
      as (o1 & w1 & f1 & f2 & Hrun1 & Hready1 & Hgi1 & Hch1 & Hc1 & Hrun2).
    fold n1 n2 in Hrun1, Hrun2, Hgi1.
    exists o1, w1. split.
    + destruct (loop_terminates [(g, 0)] vec1 n1 (Z.to_nat n1) o w 0) as [res Hres];
        [apply Hready|lia|lia|lia|].
      rewrite Hres. f_equal. eapply write_loop_fuel; eassumption.
    + destruct (Z.ltb_spec (g + n1) (global_index o1)); [lia|].
      rewrite set_chunking_fixed by (rewrite Hch1, Hc1; assumption).
      destruct (loop_terminates [(g + n1, 0)] vec2 n2 (Z.to_nat n2) o1 w1 0) as [res Hres];
        [apply Hready1|lia|lia|lia|].
      rewrite Hres. f_equal. eapply write_loop_fuel; eassumption.
  - intros (o1 & w1 & Hrun1 & Hrun2).
    destruct (write_loop_chunk _ _ _ _ _ _ _ _ _ Hrun1) as [Hch1 Hc1].
    destruct (g + n1 <? global_index o1); [discriminate|].
    rewrite set_chunking_fixed in Hrun2 by (rewrite Hch1, Hc1; assumption).
    destruct (early_loop_back g vec1 vec2 _ o w 0 o1 w1 _ o' w' Hloop Hf Hsw0 Hn1 Hn2
                              Hrun1 Hrun2) as [fuel Hfuel].
    fold n1 n2 in Hfuel.
    destruct (loop_terminates [(g, 0)] (vec1 ++ vec2) (n1 + n2) (Z.to_nat (n1 + n2)) o w 0)
      as [res Hres]; [apply Hready|lia|lia|lia|].
    rewrite Hres. f_equal. eapply write_loop_fuel; eassumption.
Qed.

Lemma example_joined_run :
  digital_rf_write_hdf5 example_channel example_world 0
                        (Some (example_buffer 25 ++ example_tail))
                        (Z.of_nat (length (example_buffer 25 ++ example_tail)))
  = Some (Ret (0, fst example_joined, snd example_joined)).
Proof. vm_compute. reflexivity. Qed.

Lemma append_in_two_calls_witness :
  exists o1 w1,
    digital_rf_write_hdf5 example_channel example_world 0 (Some (example_buffer 25))
                          (Z.of_nat (length (example_buffer 25)))
    = Some (Ret (0, o1, w1))
    /\ digital_rf_write_hdf5 o1 w1 (0 + Z.of_nat (length (example_buffer 25)))
                             (Some example_tail) (Z.of_nat (length example_tail))
       = Some (Ret (0, fst example_joined, snd example_joined)).
Proof.
  apply (append_in_two_calls example_channel (fst example_joined) example_world
                             (snd example_joined) 0 (example_buffer 25) example_tail).
  - exact example_ready.
  - reflexivity.
  - left. reflexivity.
  - discriminate.
  - discriminate.
  - lia.
  - cbn. lia.
  - vm_compute. reflexivity.
  - vm_compute. reflexivity.
  - exact example_joined_run.
Defined.

(** ** Where the samples of a buffer are *)

Lemma reaches_frame (idx : index_pairs) (vec : list sample) (n : Z)
      (s s' : Digital_rf_write_object * World * Z) :
  loop_reaches idx vec n s s' ->
  frame (fst (fst s)) (snd (fst s)) (fst (fst s')) (snd (fst s')).
Proof.
  induction 1 as [s|o o1 w w1 sw r s Hlt Hrun Hr Hreach IH]; [apply frame_refl|].
  cbn [fst snd] in *.
  eapply frame_trans; [eapply write_samples_to_file_frame; exact Hrun|exact IH].
Qed.

Lemma reaches_done (idx : index_pairs) (vec : list sample) (n : Z)
      (s s' : Digital_rf_write_object * World * Z) :
  loop_reaches idx vec n s s' -> n <= snd s -> s' = s.
Proof. induction 1; [reflexivity|]. cbn [snd]. intros. lia. Qed.

Lemma reaches_stored (idx : index_pairs) (vec : list sample) (n : Z)
      (s s' : Digital_rf_write_object * World * Z) :
  loop_reaches idx vec n s s' ->
  index_contract idx ->
  loop_invariant idx n (fst (fst s)) (snd (fst s)) (snd s) ->
  file_ready (fst (fst s)) (snd (fst s)) ->
  cursor_bound idx (fst (fst s)) (snd s) ->
  call_in_range (fst (fst s)) idx n ->
  n <= snd s' ->
  forall k, snd s <= k < n ->
    exists x, vec !! Z.to_nat k = Some x
              /\ stored_after (fst (fst s)) (snd (fst s)) (snd (fst s')) (k - snd s) x.
Proof.
  intros Hreach Hcontract.
  induction Hreach as [s|o o1 w w1 sw r s Hlt Hrun Hr Hreach IH];
    intros Hinv Hfile Hbound Hrange Hend k Hk; [lia|].
  cbn [fst snd] in *.
  destruct (slice_step _ _ _ _ _ _ _ _ _ Hinv Hcontract Hrange Hlt Hrun Hr)
    as (Hc & Hr1 & Hrmin & _ & Hinv').
  destruct (file_step _ _ _ _ _ _ _ _ _ Hinv Hfile Hbound Hcontract Hrange Hlt Hrun Hr)
    as (Hfile' & Hbound' & _ & name & f' & written & rows & Hwas & Hnow & Hf' & _ & Hlen
        & Hold & Hdata & Hdlen & _).
  pose proof (slice_seq _ _ _ _ _ _ _ _ _ Hrun Hr) as Hseq.
  pose proof (slice_buffer _ _ _ _ _ _ _ _ _ Hrun Hr) as Hbuf.
  pose proof (write_samples_to_file_frame _ _ _ _ _ _ _ _ _ Hrun) as Hframe1.
  pose proof (reaches_frame _ _ _ _ _ Hreach) as Hframe2. cbn [fst snd] in Hframe2.
  assert (Hu : u64 (sw + r) = sw + r).
  { destruct Hinv' as (_ & Hb & _), Hrange as [Hn _], Hinv as ((Hf & _) & _).
    destruct Hf as (Hspf & _). unfold in_u64 in Hspf. apply u64_small. lia. }
  rewrite Hu in *.
  assert (Hrange' : call_in_range o1 idx n) by (now rewrite Hc).
  destruct Hinv as (Hready & Hsw & _).
  pose proof Hinv' as (Hready' & Hsw' & Hrest').
  assert (Hroom : 0 <= dataset_index o /\ dataset_index o + r <= samples_per_file o
                  /\ 1 <= samples_per_file o).
  { destruct Hready as ((_ & _ & _ & Hd & Ha) & Hspf & Hf). unfold in_u64 in *.
    destruct (hdf5_file o); [|destruct Hf as [-> _]]; lia. }
  destruct Hroom as (Hdi0 & Hdir & Hspf).
  assert (Hopen1 : forall nm, hdf5_file o1 = Some nm -> sw + r = n).
  { intros nm Ho1. destruct Hready' as ((_ & _ & _ & Hd1 & Ha1) & _ & Hf1).
    rewrite Ho1 in Hf1. destruct Hnow as [(_ & Hdi1)|(Hnone & _)]; [|congruence].
    rewrite Hc in Hf1. destruct (hdf5_file o) eqn:Ho.
    - destruct Hready as (_ & _ & Hf). rewrite Ho in Hf. lia.
    - destruct Hready as (_ & _ & Hf). rewrite Ho in Hf. lia. }
  destruct (Z.lt_ge_cases k (sw + r)) as [Hin|Hout].
  - assert (Hx : is_Some (vec !! Z.to_nat k)) by (apply lookup_lt_is_Some; lia).
    destruct Hx as [x Hx]. exists x. split; [assumption|].
    assert (Hrow : rf_data f' !! Z.to_nat (dataset_index o + (k - sw)) = Some (Some x)).
    { rewrite Hdata. rewrite lookup_app_r by (rewrite length_fmap; lia).
      rewrite length_fmap. rewrite lookup_app_l by (rewrite length_fmap; lia).
      rewrite list_lookup_fmap, lookup_take_lt by lia. rewrite lookup_drop.
      replace (Z.to_nat sw + (Z.to_nat (dataset_index o + (k - sw)) - length written))%nat
        with (Z.to_nat k) by lia.
      rewrite Hx. reflexivity. }
    assert (Hfinal : w_files (snd (fst s)) !! name = Some f').
    { destruct Hnow as [(Ho1 & Hdi1)|(Ho1 & Hfull)].
      - pose proof (reaches_done _ _ _ _ _ Hreach) as Hdone. cbn [snd] in Hdone.
        rewrite Hdone by (rewrite (Hopen1 _ Ho1); lia). assumption.
      - destruct Hframe2 as (_ & _ & Hsame & _).
        rewrite (Hsame name); [assumption|rewrite Ho1; discriminate|rewrite Hf'; eauto]. }
    unfold stored_after. cbv zeta.
    rewrite Z.mod_small by lia. rewrite Z.div_small by lia.
    exists name, f'. split; [assumption|]. split; [assumption|].
    destruct Hwas as [Ho|[Ho Hnone]]; rewrite Ho.
    + reflexivity.
    + split; [assumption|]. rewrite Hnone in Hold. destruct Hold as (_ & _ & Hattr). lia.
  - destruct (IH Hinv' Hfile' Hbound' Hrange' Hend k) as (x & Hx & Hstored); [lia|].
    exists x. split; [assumption|].
    destruct (hdf5_file o1) as [nm|] eqn:Ho1; [specialize (Hopen1 nm eq_refl); lia|].
    destruct Hnow as [(Ho1' & _)|(_ & Hfull)]; [congruence|].
    assert (Hdi1 : dataset_index o1 = 0).
    { destruct Hready' as (_ & _ & Hf1). rewrite Ho1 in Hf1. apply Hf1. }
    unfold stored_after in *. cbv zeta in *.
    rewrite Ho1, Hdi1, Hc in Hstored.
    destruct Hstored as (name2 & f2 & Hf2 & Hrow2 & Hnone2 & Hattr2).
    exists name2, f2. split; [assumption|].
    replace (dataset_index o + (k - sw)) with (0 + (k - (sw + r)) + 1 * samples_per_file o)
      by lia.
    rewrite Z.mod_add, Z.div_add by lia.
    split; [assumption|].
    assert (Hnone : w_files w !! name2 = None).
    { destruct (w_files w !! name2) eqn:Hl; [|reflexivity].
      destruct Hframe1 as (_ & Hkeep & _).
      destruct (Hkeep name2 ltac:(eauto)) as [y Hy]. congruence. }
    assert (Hfile0 : 0 <= (0 + (k - (sw + r))) / samples_per_file o)
      by (apply Z.div_pos; lia).
    destruct (hdf5_file o).
    + destruct (Z.eqb_spec ((0 + (k - (sw + r))) / samples_per_file o + 1) 0); [lia|].
      split; [assumption|]. lia.
    + split; [assumption|]. lia.
Qed.

(** Where the samples of a buffer are.  After an append that succeeds,
    sample [k] of the buffer is stored as if the files were one sequence of
    rows that goes on from the in-file cursor: at row
    [(dataset_index + k) mod samples_per_file] of /rf_data of the file that
    is [(dataset_index + k) / samples_per_file] files after the one the
    append starts in.  That file is the one that was open, or it is a file
    created by the call, whose attribute sequence_num is the sequence number
    of the writer plus the number of files opened up to it. *)
Theorem append_stores_buffer (o o' : Digital_rf_write_object) (w w' : World)
        (idx : index_pairs) (vec : list sample) (n k : Z) :
  slice_ready o w -> file_ready o w -> index_contract idx -> call_in_range o idx n ->
  digital_rf_write_blocks_hdf5 o w idx (Some vec) n = Some (Ret (0, o', w')) ->
  0 <= k < n ->
  exists x, vec !! Z.to_nat k = Some x /\ stored_after o w w' k x.
Proof.
  intros Hready Hfile Hcontract Hrange Hrun Hk. unfold digital_rf_write_blocks_hdf5 in Hrun.
  destruct (contract_shape idx Hcontract) as (p0 & rest & Hidx & H0 & _).
  assert (Hn : 1 <= n) by lia.
  rewrite Hidx in Hrun. destruct p0 as [g0 d0]. rewrite <- Hidx in Hrun.
  destruct (Z.ltb_spec g0 (global_index o)) as [|Hle]; [discriminate|].
  assert (Hle' : global_index o <= leading_global idx) by (rewrite Hidx; exact Hle).
  assert (Hstart : loop_invariant idx n (set_chunking o n) w 0)
    by (apply call_start_invariant; auto; lia).
  assert (Hrange' : call_in_range (set_chunking o n) idx n)
    by (now rewrite (proj1 (set_chunking_fields o n))).
  apply loop_result_reaches in Hrun as (sw' & Hreach & Hend).
  destruct (reaches_stored _ _ _ _ _ Hreach Hcontract Hstart
                           (set_chunking_file_ready o w n Hfile)
                           (call_start_bound o idx n Hcontract Hle') Hrange' Hend k)
    as (x & Hx & Hstored); [cbn [snd]; lia|].
  exists x. split; [assumption|]. cbn [fst snd] in Hstored. rewrite Z.sub_0_r in Hstored.
  destruct (set_chunking_fields o n) as (Hc & _ & Hdi & _ & Hf & _ & Hseq).
  unfold stored_after in *. rewrite Hc, Hdi, Hf, Hseq in Hstored. exact Hstored.
Qed.

Lemma append_stores_buffer_witness :
  exists x, example_buffer 60 !! Z.to_nat 45 = Some x
            /\ stored_after example_channel example_world (snd example_appended) 45 x.
Proof.
  refine (append_stores_buffer example_channel (fst example_appended) example_world
                               (snd example_appended) example_gap (example_buffer 60) 60 45
                               example_ready example_file_ready example_gap_contract
                               example_gap_range example_appended_run _).
  lia.
Defined.

(** ** An iteration returns *)

(** An iteration of the loop that has its rows and an open file returns: 0
    after a write that failed, which leaves the rows of /rf_data_index of
    the open file as they were, and the number of samples it has written
    otherwise.  It does not return 0 when the environment has no failure
    left. *)
Lemma slice_returns (o oA : Digital_rf_write_object) (w wA : World) (idx : index_pairs)
      (vec : list sample) (n sw : Z) (rows : list (Z * Z)) :
  slice_ready o w -> file_ready o w -> index_contract idx ->
  0 <= sw < n -> n < 2 ^ 64 -> n <= Z.of_nat (length vec) ->
  digital_rf_create_rf_data_index o sw idx = Ret (inr rows) ->
  open_file_if_needed o w sw idx = Ret (0, oA, wA) ->
  exists r o2 w2,
    digital_rf_write_samples_to_file o w sw idx vec n = Ret (r, o2, w2)
    /\ (w_faults wA = [] -> r <> 0)
    /\ (r = 0 ->
        forall name f,
          hdf5_file oA = Some name -> w_files wA !! name = Some f ->
          exists f', w_files w2 !! name = Some f' /\ rf_data_index f' = rf_data_index f).
Proof.
  intros Hready Hfile Hcontract Hsw Hn Hlen Hrows Hopen.
  destruct (contract_shape idx Hcontract) as ([g0 d0] & rest & Hidx & H0 & _).
  cbn [snd] in H0. subst d0.
  assert (Hne : idx <> []) by (rewrite Hidx; discriminate).
  destruct (open_file_ready _ _ _ _ _ _ Hready Hne Hopen)
    as (Hc1 & Hg1 & Hdi1 & Hav1 & _ & _ & _ & name & Hname & _ & Hnew).
  pose proof Hready as ((Hspf & _ & _ & Hdi & Hav) & Hspf1 & Hf).
  assert (Hroom : 0 <= dataset_index o /\ 1 <= samples_per_file o - dataset_index o).
  { unfold in_u64 in *. destruct (hdf5_file o); [destruct Hf as (? & ? & _)|destruct Hf as (? & _)];
      lia. }
  assert (Hr : samples_to_write oA sw n = Z.min (dataset_avail oA) (n - sw))
    by (apply samples_to_write_min; lia).
  set (r := samples_to_write oA sw n) in *.
  assert (Hr1 : 1 <= r <= n - sw) by lia.
  set (data := take (Z.to_nat r) (drop (Z.to_nat sw) vec)).
  assert (Hdata : Z.of_nat (length data) = r).
  { subst data. rewrite length_take, length_drop. lia. }
  assert (Hfile' : exists f, w_files wA !! name = Some f
                             /\ Z.of_nat (length (rf_data f)) = samples_per_file o).
  { destruct (hdf5_file o) as [name0|] eqn:Hopen0.
    - unfold open_file_if_needed in Hopen. rewrite Hopen0 in Hopen. injection Hopen as <- <-.
      unfold file_ready in Hfile. rewrite Hopen0 in Hfile.
      destruct Hfile as (f & written & Hf0 & Hlw & Hrf & _).
      rewrite Hopen0 in Hname. injection Hname as <-. exists f. split; [assumption|].
      rewrite Hrf, length_app, length_fmap, length_replicate. lia.
    - destruct (Hnew eq_refl) as [_ Hfiles]. exists (new_file oA).
      split; [rewrite Hfiles; apply lookup_insert_eq|].
      cbn. rewrite length_replicate, Hc1. unfold in_u64 in Hspf. lia. }
  destruct Hfile' as (f & Hf0 & Hflen).
  assert (Hslab : exists stored, write_hyperslab (dataset_index oA) data (rf_data f)
                                 = Some stored).
  { unfold write_hyperslab. rewrite Hdi1.
    destruct (Z.leb_spec 0 (dataset_index o)); [|lia].
    destruct (Z.leb_spec (dataset_index o + Z.of_nat (length data))
                         (Z.of_nat (length (rf_data f)))); [|lia].
    cbn [andb]. eauto. }
  destruct Hslab as (stored & Hslab).
  unfold digital_rf_write_samples_to_file. rewrite Hidx. cbn [Z.eqb negb]. rewrite <- Hidx.
  rewrite Hrows. cbn [bind]. rewrite Hopen. cbn [bind Z.eqb negb]. fold r.
  destruct (Z.ltb_spec (Z.of_nat (length vec)) (sw + r)); [lia|]. cbv zeta. fold data.
  destruct (H5Dwrite_rf_data oA wA data) as [written wB] eqn:Hwrite.
  destruct written; cbn [negb].
  - pose proof Hwrite as Hwrite'. apply H5Dwrite_rf_data_inv in Hwrite'.
    destruct Hwrite' as (name' & f' & stored' & Hname' & Hf' & _ & HfilesB).
    rewrite Hname in Hname'. injection Hname' as <-.
    rewrite Hf0 in Hf'. injection Hf' as <-.
    destruct (match rows with [] => _ | _ :: _ => _ end) as [[status oC] wC] eqn:Hindex.
    destruct (Z.eqb_spec status 0) as [->|Hst]; cbn [negb].
    + destruct (index_write_step _ _ _ _ _ Hindex) as (Hc2 & _ & Hdi2 & _).
      destruct (Z.ltb_spec (samples_per_file (advance_state oC rows r))
                           (dataset_index (advance_state oC rows r))) as [Hover|_].
      { exfalso. cbn in Hover. rewrite Hdi2, Hdi1, Hc2, Hc1 in Hover.
        unfold in_u64 in *. rewrite u64_small in Hover by lia. lia. }
      eexists _, _, _. split; [reflexivity|]. split; [intros _; lia|]. intros Hz. lia.
    + eexists _, _, _. split; [reflexivity|]. split.
      * intros Hfaults. exfalso. pose proof (H5Dwrite_faults _ _ _ _ _ Hfaults Hwrite) as HfB.
        destruct rows as [|row rows']; [injection Hindex as <- _ _; contradiction|].
        rewrite (write_index_no_fault _ _ _ _ HfB Hname) in Hindex.
        injection Hindex as <- _ _. contradiction.
      * intros _ name1 f1 Hname1 Hf1. rewrite Hname in Hname1. injection Hname1 as <-.
        rewrite Hf0 in Hf1. injection Hf1 as <-.
        assert (HfilesC : w_files wC = w_files wB).
        { destruct rows as [|row rows']; [injection Hindex as _ _ <-; reflexivity|].
          eapply write_rf_data_index_fail; eassumption. }
        rewrite HfilesC, HfilesB, lookup_insert_eq. eexists. split; reflexivity.
  - eexists _, _, _. split; [reflexivity|]. split.
    + intros Hfaults. exfalso.
      rewrite (H5Dwrite_no_fault _ _ _ _ _ _ Hfaults Hname Hf0 Hslab) in Hwrite. discriminate.
    + intros _ name1 f1 Hname1 Hf1. cbn. rewrite (H5Dwrite_rf_data_fail _ _ _ _ Hwrite).
      eauto.
Qed.

(** An iteration of the loop, by what opening the file does. *)
Lemma iteration_classified (o : Digital_rf_write_object) (w : World) (idx : index_pairs)
      (vec : list sample) (n sw : Z) :
  loop_invariant idx n o w sw -> file_ready o w -> index_contract idx ->
  call_in_range o idx n -> sw < n -> n <= Z.of_nat (length vec) ->
  (sw = 0 -> ~ overruns_index o idx) ->
  match open_file_if_needed o w sw idx with
  | Undef => digital_rf_write_samples_to_file o w sw idx vec n = Undef
  | Ret (c, oA, wA) =>
      exists r o2 w2,
        digital_rf_write_samples_to_file o w sw idx vec n = Ret (r, o2, w2)
        /\ (r = 0
            \/ 1 <= r
               /\ r = Z.min (n - sw) (match hdf5_file o with
                                      | None => samples_per_file o
                                      | Some _ => dataset_avail o
                                      end)
               /\ sw < u64 (sw + r) <= n)
        /\ (c <> 0 -> r = 0)
        /\ (c = 0 -> w_faults wA = [] -> r <> 0)
  end.
Proof.
  intros Hinv Hfile Hcontract Hrange Hlt Hlen Hsafe.
  destruct (builder_rows_or_overrun o w idx n sw Hinv Hcontract Hrange Hlt)
    as [[rows Hrows]|(_ & Hz & Hover)]; [|exfalso; exact (Hsafe Hz Hover)].
  pose proof Hinv as (Hready & Hsw & _).
  assert (Hn : n < 2 ^ 64).
  { destruct Hrange as [Hn _]. destruct Hready as ((Hspf & _) & _). unfold in_u64 in Hspf. lia. }
  destruct (contract_shape idx Hcontract) as ([g0 d0] & rest & Hidx & H0 & _).
  cbn [snd] in H0. subst d0.
  destruct (open_file_if_needed o w sw idx) as [[[c oA] wA]|] eqn:Hopen.
  - destruct (Z.eqb_spec c 0) as [->|Hc].
    + assert (Hsw' : 0 <= sw < n) by lia.
      destruct (slice_returns o oA w wA idx vec n sw rows Hready Hfile Hcontract Hsw' Hn Hlen
                              Hrows Hopen) as (r & o2 & w2 & Hrun & Hfaults & _).
      exists r, o2, w2. split; [assumption|]. split; [|split; [intros Hc0; contradiction|auto]].
      destruct (Z.eq_dec r 0) as [Hr|Hr]; [left; assumption|right].
      destruct Hready as (Hu & _).
      destruct (slice_progress _ _ _ _ _ _ _ _ _ Hu Hsw' Hn Hrun Hr) as (H1 & H2 & H3 & _).
      auto.
    + exists 0, oA, wA. split; [|split; [left; reflexivity|split; [reflexivity|contradiction]]].
      unfold digital_rf_write_samples_to_file. rewrite Hidx. cbn [Z.eqb negb]. rewrite <- Hidx.
      rewrite Hrows. cbn [bind]. rewrite Hopen. cbn [bind].
      destruct (Z.eqb_spec c 0); [contradiction|reflexivity].
  - unfold digital_rf_write_samples_to_file. rewrite Hidx. cbn [Z.eqb negb]. rewrite <- Hidx.
    rewrite Hrows. cbn [bind]. rewrite Hopen. reflexivity.
Qed.

Lemma loop_classified (idx : index_pairs) (vec : list sample) (n : Z) (fuel : nat) :
  index_contract idx -> n <= Z.of_nat (length vec) ->
  forall o w sw,
    loop_invariant idx n o w sw -> (sw < n -> file_ready o w) -> call_in_range o idx n ->
    (sw = 0 -> ~ overruns_index o idx) ->
    (Z.to_nat (n - sw) <= fuel)%nat ->
    (exists o' w',
        write_loop fuel o w sw idx vec n = Some (Ret (0, o', w'))
        /\ loop_reaches idx vec n (o, w, sw) (o', w', n))
    \/ (exists o1 w1 sw1 o' w',
           loop_reaches idx vec n (o, w, sw) (o1, w1, sw1) /\ sw1 < n
           /\ digital_rf_write_samples_to_file o1 w1 sw1 idx vec n = Ret (0, o', w')
           /\ write_loop fuel o w sw idx vec n = Some (Ret (-6, o', w')))
    \/ (exists o1 w1 sw1,
           loop_reaches idx vec n (o, w, sw) (o1, w1, sw1) /\ sw1 < n
           /\ open_file_if_needed o1 w1 sw1 idx = Undef
           /\ write_loop fuel o w sw idx vec n = Some Undef).
Proof.
  intros Hcontract Hlen.
  assert (Hdone : forall fuel' o w sw,
             loop_invariant idx n o w sw -> n <= sw ->
             write_loop fuel' o w sw idx vec n = Some (Ret (0, o, w)) /\ sw = n).
  { intros fuel' o w sw (_ & Hsw & _) Hge.
    split; [|lia]. destruct fuel'; cbn [write_loop]; destruct (Z.ltb_spec sw n); (lia || reflexivity). }
  induction fuel as [|fuel IH]; intros o w sw Hinv Hfile Hrange Hsafe Hfuel.
  - pose proof Hinv as (_ & Hsw & _).
    destruct (Hdone 0%nat o w sw Hinv ltac:(lia)) as [Hrun ->].
    left. exists o, w. split; [assumption|constructor].
  - pose proof Hinv as (_ & Hsw0 & _). destruct (Z.lt_ge_cases sw n) as [Hlt|Hge].
    + pose proof (iteration_classified o w idx vec n sw Hinv (Hfile Hlt) Hcontract Hrange Hlt
                                       Hlen Hsafe) as Hstep.
      cbn [write_loop]. destruct (Z.ltb_spec sw n); [|lia].
      destruct (open_file_if_needed o w sw idx) as [[[c oA] wA]|] eqn:Hopen.
      * destruct Hstep as (r & o2 & w2 & Hrun & Hr & _). rewrite Hrun.
        destruct (Z.eqb_spec r 0) as [->|Hr0].
        { right. left. exists o, w, sw, o2, w2. split; [constructor|auto]. }
        destruct Hr as [?|(Hr1 & _ & Hnext)]; [contradiction|].
        destruct (slice_step _ _ _ _ _ _ _ _ _ Hinv Hcontract Hrange Hlt Hrun Hr0)
          as (Hc & _ & _ & _ & Hinv').
        assert (Hu : u64 (sw + r) = sw + r).
        { apply u64_small. destruct Hinv as ((Hf & _) & Hsw & _), Hrange as [Hn _].
          destruct Hf as (Hspf & _). unfold in_u64 in Hspf.
          destruct Hinv' as (_ & Hb & _). lia. }
        rewrite Hu in *.
        assert (Hfile' : sw + r < n -> file_ready o2 w2).
        { intros Hmore. destruct Hinv' as (_ & _ & _ & _ & Hlater).
          destruct Hlater as [_ Hnone]; [lia|]. unfold file_ready. rewrite Hnone by assumption.
          exact I. }
        assert (Hrange' : call_in_range o2 idx n) by (now rewrite Hc).
        destruct (IH o2 w2 (sw + r) Hinv' Hfile' Hrange' ltac:(lia) ltac:(lia))
          as [(o' & w' & Hres & Hreach)
             |[(o1 & w1 & sw1 & o' & w' & Hreach & Hlt1 & Hzero & Hres)
              |(o1 & w1 & sw1 & Hreach & Hlt1 & Hundef & Hres)]].
        -- left. exists o', w'. split; [assumption|].
           eapply reaches_next; [exact Hlt|exact Hrun|exact Hr0|]. rewrite Hu. exact Hreach.
        -- right. left. exists o1, w1, sw1, o', w'. split; [|auto].
           eapply reaches_next; [exact Hlt|exact Hrun|exact Hr0|]. rewrite Hu. exact Hreach.
        -- right. right. exists o1, w1, sw1. split; [|auto].
           eapply reaches_next; [exact Hlt|exact Hrun|exact Hr0|]. rewrite Hu. exact Hreach.
      * rewrite Hstep. right. right. exists o, w, sw. split; [constructor|auto].
    + destruct (Hdone (S fuel) o w sw Hinv Hge) as [Hrun ->].
      left. exists o, w. split; [assumption|constructor].
Qed.

(** ** The first row of a file *)




(** ** Termination of the loop *)

Lemma reaches_start (idx : index_pairs) (vec : list sample) (n : Z)
      (s s' : Digital_rf_write_object * World * Z) :
  loop_reaches idx vec n s s' ->
  index_contract idx ->
  loop_invariant idx n (fst (fst s)) (snd (fst s)) (snd s) ->
  call_in_range (fst (fst s)) idx n ->
  s' = s \/ snd s < snd s'.
Proof.
  intros Hreach Hcontract. induction Hreach as [s|o o1 w w1 sw r s Hlt Hrun Hr Hreach IH];
    intros Hinv Hrange; [auto|]. cbn [fst snd] in *. right.
  destruct (slice_step _ _ _ _ _ _ _ _ _ Hinv Hcontract Hrange Hlt Hrun Hr)
    as (Hc & Hr1 & _ & _ & Hinv').
  assert (Hu : u64 (sw + r) = sw + r).
  { destruct Hinv' as (_ & Hb & _), Hrange as [Hn _], Hinv as ((Hf & _) & _).
    destruct Hf as (Hspf & _). unfold in_u64 in Hspf. apply u64_small. lia. }
  rewrite Hu in IH. rewrite Hc in IH.
  destruct IH as [->|Hnext]; [assumption|assumption|cbn; lia|lia].
Qed.

(** The loop of an append.  A call of [digital_rf_write_blocks_hdf5] that
    meets the contract, with a buffer of [vector_length] samples at least
    and index arrays on which the builder does not overrun its rows, ends
    within [vector_length] iterations in one of three ways: it returns 0
    with all samples written; or an iteration returns 0 and the call -6; or
    the opening of a file has no defined behaviour.  Every iteration whose
    file is open or opened returns: 0 after an error, and otherwise the
    number of samples it has written, which is
    [min (vector_length - samples_written) dataset_avail] and at least 1,
    where [dataset_avail] is [samples_per_file] when the iteration opens the
    file; it does not return 0 when the file was opened and the environment
    has no failure left. *)
Theorem append_loop_terminates (o : Digital_rf_write_object) (w : World) (idx : index_pairs)
        (vec : list sample) (n : Z) :
  slice_ready o w -> file_ready o w -> index_contract idx -> call_in_range o idx n ->
  global_index o <= leading_global idx -> n <= Z.of_nat (length vec) ->
  ~ overruns_index o idx ->
  ((exists o' w',
       digital_rf_write_blocks_hdf5 o w idx (Some vec) n = Some (Ret (0, o', w'))
       /\ loop_reaches idx vec n (set_chunking o n, w, 0) (o', w', n))
   \/ (exists o1 w1 sw o' w',
          loop_reaches idx vec n (set_chunking o n, w, 0) (o1, w1, sw) /\ sw < n
          /\ digital_rf_write_samples_to_file o1 w1 sw idx vec n = Ret (0, o', w')
          /\ digital_rf_write_blocks_hdf5 o w idx (Some vec) n = Some (Ret (-6, o', w')))
   \/ (exists o1 w1 sw,
          loop_reaches idx vec n (set_chunking o n, w, 0) (o1, w1, sw) /\ sw < n
          /\ open_file_if_needed o1 w1 sw idx = Undef
          /\ digital_rf_write_blocks_hdf5 o w idx (Some vec) n = Some Undef))
  /\ (forall o1 w1 sw,
         loop_reaches idx vec n (set_chunking o n, w, 0) (o1, w1, sw) -> sw < n ->
         match open_file_if_needed o1 w1 sw idx with
         | Undef => digital_rf_write_samples_to_file o1 w1 sw idx vec n = Undef
         | Ret (c, oA, wA) =>
             exists r o2 w2,
               digital_rf_write_samples_to_file o1 w1 sw idx vec n = Ret (r, o2, w2)
               /\ (r = 0
                   \/ 1 <= r
                      /\ r = Z.min (n - sw) (match hdf5_file o1 with
                                             | None => samples_per_file o1
                                             | Some _ => dataset_avail o1
                                             end)
                      /\ sw < u64 (sw + r) <= n)
               /\ (c <> 0 -> r = 0)
               /\ (c = 0 -> w_faults wA = [] -> r <> 0)
         end).
Proof.
  intros Hready Hfile Hcontract Hrange Hle Hlen Hsafe.
  destruct (contract_shape idx Hcontract) as (p0 & rest & Hidx & H0 & _).
  assert (Hn : 1 <= n).
  { destruct Hrange as [_ Hall]. rewrite Hidx in Hall. apply Forall_cons in Hall as [Hp _]. lia. }
  assert (Hstart : loop_invariant idx n (set_chunking o n) w 0)
    by (apply call_start_invariant; auto; lia).
  destruct (set_chunking_fields o n) as (Hc0 & Hg0 & Hdi0 & _).
  assert (Hrange' : call_in_range (set_chunking o n) idx n) by (now rewrite Hc0).
  assert (Hsafe' : ~ overruns_index (set_chunking o n) idx).
  { unfold overruns_index. rewrite Hc0, Hg0, Hdi0. exact Hsafe. }
  pose proof (set_chunking_file_ready o w n Hfile) as Hfile'.
  split.
  - assert (Hcall : digital_rf_write_blocks_hdf5 o w idx (Some vec) n
                    = write_loop (Z.to_nat n) (set_chunking o n) w 0 idx vec n).
    { unfold digital_rf_write_blocks_hdf5. rewrite Hidx. destruct p0 as [g0 d0].
      rewrite Hidx in Hle. cbn [leading_global fst] in Hle.
      destruct (Z.ltb_spec g0 (global_index o)); [lia|reflexivity]. }
    rewrite Hcall.
    apply (loop_classified idx vec n (Z.to_nat n) Hcontract Hlen); auto. lia.
  - intros o1 w1 sw Hreach Hlt.
    destruct (reaches_file _ _ _ _ _ Hreach Hcontract Hstart Hfile'
                           (call_start_bound o idx n Hcontract Hle) Hrange')
      as (Hinv & Hfile1 & _ & Hc & Hadv).
    cbn [fst snd] in *.
    assert (Hrange1 : call_in_range o1 idx n) by (now rewrite Hc).
    apply iteration_classified; auto.
    intros -> Hover.
    destruct (reaches_start _ _ _ _ _ Hreach Hcontract Hstart Hrange') as [Hs|Hs];
      [|cbn [fst snd] in Hs; lia].
    injection Hs as -> _. exact (Hsafe' Hover).
Qed.


Lemma append_loop_terminates_witness :
  slice_ready example_channel example_world /\ file_ready example_channel example_world
  /\ index_contract example_gap /\ call_in_range example_channel example_gap 60
  /\ global_index example_channel <= leading_global example_gap
  /\ 60 <= Z.of_nat (length (example_buffer 60))
  /\ ~ overruns_index example_channel example_gap
  /\ ((exists o' w',
          digital_rf_write_blocks_hdf5 example_channel example_world example_gap
                                       (Some (example_buffer 60)) 60 = Some (Ret (0, o', w'))
          /\ loop_reaches example_gap (example_buffer 60) 60
                          (set_chunking example_channel 60, example_world, 0) (o', w', 60))
      \/ (exists o1 w1 sw o' w',
             loop_reaches example_gap (example_buffer 60) 60
                          (set_chunking example_channel 60, example_world, 0) (o1, w1, sw)
             /\ sw < 60
             /\ digital_rf_write_samples_to_file o1 w1 sw example_gap (example_buffer 60) 60
                = Ret (0, o', w')
             /\ digital_rf_write_blocks_hdf5 example_channel example_world example_gap
                                             (Some (example_buffer 60)) 60
                = Some (Ret (-6, o', w')))
      \/ (exists o1 w1 sw,
             loop_reaches example_gap (example_buffer 60) 60
                          (set_chunking example_channel 60, example_world, 0) (o1, w1, sw)
             /\ sw < 60
             /\ open_file_if_needed o1 w1 sw example_gap = Undef
             /\ digital_rf_write_blocks_hdf5 example_channel example_world example_gap
                                             (Some (example_buffer 60)) 60 = Some Undef)).
Proof.
  assert (H6 : 60 <= Z.of_nat (length (example_buffer 60))) by (vm_compute; discriminate).
  assert (H7 : ~ overruns_index example_channel example_gap).
  { intros (H & _). cbn in H. lia. }
  do 7 (split; [first [assumption | exact example_ready | exact example_file_ready
                       | exact example_gap_contract | exact example_gap_range
                       | exact example_gap_leading]|]).
  exact (proj1 (append_loop_terminates example_channel example_world example_gap
                                       (example_buffer 60) 60 example_ready example_file_ready
                                       example_gap_contract example_gap_range
                                       example_gap_leading H6 H7)).
Defined.

Lemma example_mid_file_run :
  digital_rf_write_samples_to_file (set_chunking example_channel 20) example_world 0
                                   example_gap (example_buffer 20) 20
  = Ret (20, fst example_mid_file, snd example_mid_file).
Proof.
  unfold example_mid_file.
  destruct (digital_rf_write_samples_to_file (set_chunking example_channel 20) example_world 0
                                             example_gap (example_buffer 20) 20)
    as [[[r o'] w']|] eqn:Hrun.
  - cbn [state_after fst snd]. pose proof Hrun as Hrun'. vm_compute in Hrun'.
    injection Hrun' as <- _ _. reflexivity.
  - vm_compute in Hrun. discriminate.
Qed.

Lemma example_mid_file_contents : file_ready (fst example_mid_file) (snd example_mid_file).
Proof.
  assert (Hrange : call_in_range example_channel example_gap 20)
    by (split; [cbn; lia|repeat constructor; cbn; lia]).
  assert (Hrange' : call_in_range (set_chunking example_channel 20) example_gap 20)
    by (now rewrite (proj1 (set_chunking_fields example_channel 20))).
  assert (Hinv : loop_invariant example_gap 20 (set_chunking example_channel 20) example_world 0).
  { apply call_start_invariant; [exact example_ready|exact example_gap_contract|exact Hrange
                                 |lia|exact example_gap_leading]. }
  assert (Hlt : 0 < 20) by lia.
  assert (Hr : 20 <> 0) by lia.
  exact (proj1 (file_step _ _ _ _ _ _ _ _ _ Hinv
                          (set_chunking_file_ready _ _ 20 example_file_ready)
                          (call_start_bound _ _ 20 example_gap_contract example_gap_leading)
                          example_gap_contract Hrange' Hlt example_mid_file_run Hr)).
Qed.

(** C10 at its failing input.  The writer is in the middle of a file and
    the call continues it without a gap, with a second pair in the rest of
    the file: the arguments meet the contract, the buffer holds the 20
    samples, a file is open.  The first iteration of the loop neither
    returns an error nor writes a sample: the index builder fails its
    assertion (see C2), and the call ends there. *)
Theorem loop_iteration_aborts :
  slice_ready (fst example_mid_file) (snd example_mid_file)
  /\ file_ready (fst example_mid_file) (snd example_mid_file)
  /\ index_contract [(30, 0); (50, 10)]
  /\ call_in_range (fst example_mid_file) [(30, 0); (50, 10)] 20
  /\ global_index (fst example_mid_file) <= leading_global [(30, 0); (50, 10)]
  /\ 20 <= Z.of_nat (length (example_buffer 20))
  /\ 1 <= samples_per_file (fst example_mid_file)
  /\ overruns_index (fst example_mid_file) [(30, 0); (50, 10)]
  /\ (exists name, hdf5_file (fst example_mid_file) = Some name)
  /\ digital_rf_write_samples_to_file (set_chunking (fst example_mid_file) 20)
                                      (snd example_mid_file) 0 [(30, 0); (50, 10)]
                                      (example_buffer 20) 20
     = Undef
  /\ digital_rf_write_blocks_hdf5 (fst example_mid_file) (snd example_mid_file)
                                  [(30, 0); (50, 10)] (Some (example_buffer 20)) 20
     = Some Undef.
Proof.
  destruct example_mid_file_fields as (Hspf & Hstart & Hgi & Hdi).
  split; [exact example_mid_file_ready|]. split; [exact example_mid_file_contents|].
  split; [cbn; lia|]. split.
  { unfold call_in_range. rewrite Hspf, Hstart. split; [lia|]. repeat constructor; cbn; lia. }
  split; [rewrite Hgi; cbn; lia|]. split; [vm_compute; discriminate|]. split; [lia|]. split.
  { unfold overruns_index. rewrite Hspf, Hgi, Hdi. split; [lia|]. split; [reflexivity|].
    exists (50, 10). split; [right; left; reflexivity|cbn; lia]. }
  split; [eexists; vm_compute; reflexivity|]. split; vm_compute; reflexivity.
Qed.
